(** * OPC package analysis: a shallow embedding of [tools/pptx_deep_compare.py]

    The Python tool builds a model of a presentation package (parts,
    content types, relationships), validates it, compares a corrupt package
    with its repaired version and derives root-cause hypotheses.  This file
    embeds the analyzer, the comparator and the hypothesis generator as Rocq
    functions and proves the properties of the specification about them.

    Conventions.
    - Python [str] and [bytes] values are [string]s, sequences of
      characters below U+0100.  Among these the decimal digits, which
      [int] and the digit class of [re.match] accept, are 0 to 9;
      [str.upper] is modelled on ASCII letters.
    - A Python [dict] is an association list in insertion order (module
      [PyDict]); a key occurs once.
    - A Python [set] is a duplicate-free list (module [PySet]).  The
      iteration order of a real [set] is unspecified; the statements below
      speak about membership and counts, never about the position of an
      element that comes out of a [set].
    - An exception that escapes a method is the [Raise] case of [result].
    - [ET.fromstring] and the SHA-256 digest are parameters of the
      analyzer and of the comparator: the theorems hold for every parser
      and every digest.  The parser returns a tree or raises
      [ET.ParseError]; a run in which it raises another exception, or in
      which an entry of the archive cannot be read, ends with that
      exception and is not a completed analysis or comparison.
    - The [msg] entry of issue and diff records and the [evidence] text of
      a hypothesis are display text rendered from the other entries; the
      structured entries are kept, the rendering is left out.  Report
      rendering ([generate_report]) and [main] are not embedded. *)

From Stdlib Require Import String Ascii List ZArith Bool Arith Lia.
Import ListNotations.
Open Scope string_scope.
Open Scope list_scope.

(** ** Python string primitives *)

Module Py.

(** [s.split(sep)] for a one-character separator: never the empty list. *)
Fixpoint split (sep : ascii) (s : string) : list string :=
  match s with
  | EmptyString => [EmptyString]
  | String c s' =>
      if Ascii.eqb c sep then EmptyString :: split sep s'
      else match split sep s' with
           | [] => [String c EmptyString]
           | seg :: segs => String c seg :: segs
           end
  end.

(** [sep.join(l)] *)
Fixpoint join (sep : string) (l : list string) : string :=
  match l with
  | [] => EmptyString
  | x :: xs =>
      match xs with
      | [] => x
      | _ :: _ => x ++ sep ++ join sep xs
      end
  end.

(** [s.lstrip(c)] for a one-character set. *)
Fixpoint lstrip (c : ascii) (s : string) : string :=
  match s with
  | EmptyString => EmptyString
  | String a s' => if Ascii.eqb a c then lstrip c s' else s
  end.

(** [s.startswith(p)] *)
Definition startswith (p s : string) : bool := String.prefix p s.

(** [s.endswith(suf)] *)
Fixpoint endswith (suf s : string) : bool :=
  (s =? suf) ||
  match s with
  | EmptyString => false
  | String _ s' => endswith suf s'
  end.

(** [sub in s] *)
Fixpoint contains (sub s : string) : bool :=
  String.prefix sub s ||
  match s with
  | EmptyString => false
  | String _ s' => contains sub s'
  end.

(** [s.replace(old, new)] for a non-empty [old]: leftmost, non-overlapping
    occurrences.  [skip] counts the characters of a match still to drop. *)
Fixpoint replace_from (old new : string) (skip : nat) (s : string) : string :=
  match s with
  | EmptyString => EmptyString
  | String c s' =>
      match skip with
      | S k => replace_from old new k s'
      | O =>
          if String.prefix old s
          then new ++ replace_from old new (String.length old - 1) s'
          else String c (replace_from old new 0 s')
      end
  end.

Definition replace (old new s : string) : string := replace_from old new 0 s.

(** [s.upper()] on ASCII letters. *)
Definition upper_ascii (c : ascii) : ascii :=
  let n := nat_of_ascii c in
  if Nat.leb 97 n && Nat.leb n 122 then ascii_of_nat (n - 32) else c.

Fixpoint upper (s : string) : string :=
  match s with
  | EmptyString => EmptyString
  | String c s' => String (upper_ascii c) (upper s')
  end.

(** [l[-1]] of a list known to be non-empty ([split] results). *)
Definition last_seg (l : list string) : string := last l EmptyString.

(** [l.index(x)]: [None] stands for the [ValueError] of a missing element. *)
Fixpoint index (x : string) (l : list string) : option nat :=
  match l with
  | [] => None
  | y :: ys => if y =? x then Some 0 else option_map S (index x ys)
  end.

(** [x in l] for a list of strings. *)
Definition mem (x : string) (l : list string) : bool :=
  existsb (String.eqb x) l.

End Py.

(** ** Reference resolver: [PPTXAnalyzer._resolve_target] *)

(** The loop over [parts]: [resolved] is a Python list, [append] adds at the
    end, [pop] removes the last element. *)
Definition resolve_step (resolved : list string) (p : string) : list string :=
  if p =? ".." then
    match resolved with
    | [] => resolved
    | _ :: _ => removelast resolved
    end
  else if negb (p =? "") && negb (p =? ".") then resolved ++ [p]
  else resolved.

Definition resolve_loop (parts : list string) : list string :=
  fold_left resolve_step parts [].

(** [base = '/'.join(source.split('/')[:-1])] *)
Definition source_base (source : string) : string :=
  Py.join "/" (removelast (Py.split "/" source)).

Definition _resolve_target (source target : string) : string :=
  if Py.startswith "/" target then Py.lstrip "/" target
  else if source =? "" then target
  else
    let base := source_base source in
    if base =? "" then target
    else Py.join "/" (resolve_loop (Py.split "/" (base ++ "/" ++ target))).

(** The resolver as section 4.4 of the specification words it, for a
    target without a leading slash: the containing directory of the source
    is the text before its last slash; normalisation keeps a stack of
    accumulated segments. *)
Module ResolverSpec.

Fixpoint has_slash (s : string) : bool :=
  match s with
  | EmptyString => false
  | String c s' => Ascii.eqb c "/" || has_slash s'
  end.

Fixpoint containing_dir (s : string) : string :=
  match s with
  | EmptyString => EmptyString
  | String c s' => if has_slash s' then String c (containing_dir s') else EmptyString
  end.

(** [stack] holds the accumulated segments, most recent first. *)
Fixpoint normalize (stack segs : list string) : list string :=
  match segs with
  | [] => rev stack
  | seg :: rest =>
      if seg =? ".." then normalize (tl stack) rest
      else if (seg =? ".") || (seg =? "") then normalize stack rest
      else normalize (seg :: stack) rest
  end.

Definition resolve (source target : string) : string :=
  Py.join "/" (normalize [] (Py.split "/" (containing_dir source ++ "/" ++ target))).

End ResolverSpec.

(** ** Exceptions *)

Inductive exn := ParseError | ValueError | KeyError.

Inductive result (A : Type) :=
| Ok (a : A)
| Raise (e : exn).
Arguments Ok {A} a.
Arguments Raise {A} e.

Definition bind {A B} (r : result A) (f : A -> result B) : result B :=
  match r with
  | Ok a => f a
  | Raise e => Raise e
  end.

Notation "x <- c ;; k" := (bind c (fun x => k))
  (at level 61, c at next level, right associativity).

(** ** Python equality, dictionaries and sets *)

Class PyEq (A : Type) := {
  py_eqb : A -> A -> bool;
  py_eqb_eq : forall x y, py_eqb x y = true <-> x = y
}.

Definition option_eqb {A} (eqb : A -> A -> bool) (x y : option A) : bool :=
  match x, y with
  | Some a, Some b => eqb a b
  | None, None => true
  | _, _ => false
  end.

Lemma option_eqb_eq {A} `{PyEq A} (x y : option A) :
  option_eqb py_eqb x y = true <-> x = y.
Proof.
  destruct x as [a|], y as [b|]; simpl; try (split; (discriminate || reflexivity)).
  rewrite py_eqb_eq. split; [intros ->; reflexivity | intros [= ->]; reflexivity].
Qed.

#[export] Instance PyEq_string : PyEq string :=
  {| py_eqb := String.eqb; py_eqb_eq := String.eqb_eq |}.

#[export] Instance PyEq_nat : PyEq nat :=
  {| py_eqb := Nat.eqb; py_eqb_eq := Nat.eqb_eq |}.

#[export] Instance PyEq_Z : PyEq Z :=
  {| py_eqb := Z.eqb; py_eqb_eq := Z.eqb_eq |}.

#[export] Instance PyEq_option {A} `{PyEq A} : PyEq (option A) :=
  {| py_eqb := option_eqb py_eqb; py_eqb_eq := option_eqb_eq |}.

(** [x in l] *)
Definition py_in {A} `{PyEq A} (x : A) (l : list A) : bool :=
  existsb (py_eqb x) l.

Module PyDict.
Section Dict.
Context {K V : Type} `{PyEq K}.

Definition t := list (K * V).

(** [d.get(k)] *)
Fixpoint get (d : list (K * V)) (k : K) : option V :=
  match d with
  | [] => None
  | (k', v) :: d' => if py_eqb k' k then Some v else get d' k
  end.

(** [d.get(k, dflt)] *)
Definition get_default (d : list (K * V)) (k : K) (dflt : V) : V :=
  match get d k with
  | Some v => v
  | None => dflt
  end.

(** [d[k]] *)
Definition subscript (d : list (K * V)) (k : K) : result V :=
  match get d k with
  | Some v => Ok v
  | None => Raise KeyError
  end.

(** [k in d] *)
Definition mem (d : list (K * V)) (k : K) : bool :=
  match get d k with
  | Some _ => true
  | None => false
  end.

(** [d[k] = v]: an existing key keeps its position. *)
Fixpoint set (d : list (K * V)) (k : K) (v : V) : list (K * V) :=
  match d with
  | [] => [(k, v)]
  | (k', v') :: d' =>
      if py_eqb k' k then (k', v) :: d' else (k', v') :: set d' k v
  end.

Definition keys (d : list (K * V)) : list K := map fst d.

(** [{k: v for ...}] and repeated assignment from a sequence of pairs. *)
Definition update (d : list (K * V)) (l : list (K * V)) : list (K * V) :=
  fold_left (fun acc kv => set acc (fst kv) (snd kv)) l d.

Definition of_list (l : list (K * V)) : list (K * V) := update [] l.
End Dict.

(** [d1 == d2] *)
Definition eqb {K V} `{PyEq K} `{PyEq V} (d1 d2 : list (K * V)) : bool :=
  Nat.eqb (List.length d1) (List.length d2) &&
  forallb (fun kv => py_eqb (get d2 (fst kv)) (Some (snd kv))) d1.
End PyDict.

Module PySet.
Section Set_.
Context {A : Type} `{PyEq A}.

(** [set(l)], listed in order of first occurrence. *)
Definition add (s : list A) (x : A) : list A :=
  if py_in x s then s else s ++ [x].

Definition of_list (l : list A) : list A := fold_left add l [].

(** [s1 - s2] *)
Definition diff (s1 s2 : list A) : list A :=
  filter (fun x => negb (py_in x s2)) s1.

(** [s1 & s2] *)
Definition inter (s1 s2 : list A) : list A :=
  filter (fun x => py_in x s2) s1.

(** [s1 | s2] *)
Definition union (s1 s2 : list A) : list A :=
  s1 ++ diff s2 s1.

(** [s1 == s2] *)
Definition eqb (s1 s2 : list A) : bool :=
  forallb (fun x => py_in x s2) s1 && forallb (fun x => py_in x s1) s2.
End Set_.
End PySet.

(** ** ElementTree *)

(** An [xml.etree.ElementTree.Element]: the tag in Clark notation
    [{namespace}local], the attributes, the text and the child elements. *)
#[warnings="-register-all"]
Inductive element :=
| Element (tag : string) (attrib : list (string * string))
          (text : option string) (children : list element).

Module ET.

Definition tag (e : element) : string :=
  match e with Element t _ _ _ => t end.
Definition attrib (e : element) : list (string * string) :=
  match e with Element _ a _ _ => a end.
Definition text (e : element) : option string :=
  match e with Element _ _ x _ => x end.
Definition children (e : element) : list element :=
  match e with Element _ _ _ c => c end.

(** [e.get(key)] *)
Definition get (e : element) (key : string) : option string :=
  PyDict.get (attrib e) key.

(** [e.get(key, dflt)] *)
Definition get_default (e : element) (key dflt : string) : string :=
  PyDict.get_default (attrib e) key dflt.

(** [e.iter()]: the element and every descendant, in document order. *)
Fixpoint iter (e : element) : list element :=
  match e with
  | Element _ _ _ cs => e :: flat_map iter cs
  end.

Definition tag_is (t : string) (e : element) : bool := tag e =? t.

(** [e.findall('t')]: the children with tag [t]. *)
Definition findall_child (t : string) (e : element) : list element :=
  filter (tag_is t) (children e).

(** [e.findall('.//t')]: the proper descendants with tag [t]. *)
Definition findall_desc (t : string) (e : element) : list element :=
  filter (tag_is t) (flat_map iter (children e)).

(** [e.findall('.//t1/t2')] *)
Definition findall_desc_child (t1 t2 : string) (e : element) : list element :=
  flat_map (findall_child t2) (findall_desc t1 e).

(** [e.find(path)] is the first element of [e.findall(path)]. *)
Definition find_desc (t : string) (e : element) : option element :=
  hd_error (findall_desc t e).
Definition find_desc_child (t1 t2 : string) (e : element) : option element :=
  hd_error (findall_desc_child t1 t2 e).

End ET.

(** A name in Clark notation. *)
Definition qname (ns local : string) : string := "{" ++ ns ++ "}" ++ local.

Module NS.
Definition ct := "http://schemas.openxmlformats.org/package/2006/content-types".
Definition rel := "http://schemas.openxmlformats.org/package/2006/relationships".
Definition p := "http://schemas.openxmlformats.org/presentationml/2006/main".
Definition r := "http://schemas.openxmlformats.org/officeDocument/2006/relationships".
Definition a := "http://schemas.openxmlformats.org/drawingml/2006/main".
Definition ep := "http://schemas.openxmlformats.org/officeDocument/2006/extended-properties".
End NS.

Module REL_TYPES.
Definition slide := "http://schemas.openxmlformats.org/officeDocument/2006/relationships/slide".
Definition slideMaster := "http://schemas.openxmlformats.org/officeDocument/2006/relationships/slideMaster".
Definition slideLayout := "http://schemas.openxmlformats.org/officeDocument/2006/relationships/slideLayout".
Definition theme := "http://schemas.openxmlformats.org/officeDocument/2006/relationships/theme".
Definition notesMaster := "http://schemas.openxmlformats.org/officeDocument/2006/relationships/notesMaster".
Definition notesSlide := "http://schemas.openxmlformats.org/officeDocument/2006/relationships/notesSlide".
Definition image := "http://schemas.openxmlformats.org/officeDocument/2006/relationships/image".
End REL_TYPES.

(** ** Further builtins: [int], [re.match] *)

Definition is_digit (c : ascii) : bool :=
  let n := nat_of_ascii c in Nat.leb 48 n && Nat.leb n 57.

Definition digit_value (c : ascii) : Z := Z.of_nat (nat_of_ascii c - 48).

(** A character of a string is a code point below U+0100.  Among these
    the decimal digits are [0] to [9], and the white space that [int]
    strips is U+0009 to U+000D, U+0020, U+0085 and U+00A0. *)
Definition is_space (c : ascii) : bool :=
  let n := nat_of_ascii c in
  (Nat.leb 9 n && Nat.leb n 13) || Nat.eqb n 32 || Nat.eqb n 133 || Nat.eqb n 160.

Fixpoint lstrip_space (s : string) : string :=
  match s with
  | EmptyString => EmptyString
  | String c s' => if is_space c then lstrip_space s' else s
  end.

(** The string without trailing white space. *)
Fixpoint rstrip_space (s : string) : string :=
  match s with
  | EmptyString => EmptyString
  | String c s' =>
      match rstrip_space s' with
      | EmptyString => if is_space c then EmptyString else String c EmptyString
      | rest => String c rest
      end
  end.

(** Decimal digits with single underscores between them; [prev] tells
    whether the previous character was a digit. *)
Fixpoint int_digits (acc : Z) (prev : bool) (s : string) : option Z :=
  match s with
  | EmptyString => if prev then Some acc else None
  | String c s' =>
      if is_digit c then int_digits (acc * 10 + digit_value c) true s'
      else if Ascii.eqb c "_" && prev then int_digits acc false s'
      else None
  end.

(** The number of digits of a numeral; underscores do not count. *)
Fixpoint count_digits (s : string) : nat :=
  match s with
  | EmptyString => 0
  | String c s' => if is_digit c then S (count_digits s') else count_digits s'
  end.

(** [sys.int_info.default_max_str_digits] *)
Definition int_max_str_digits : nat := 4300.

(** [int(s)]: surrounding white space, an optional sign and decimal
    digits, at most [int_max_str_digits] of them; [None] stands for the
    [ValueError]. *)
Definition py_int (s : string) : option Z :=
  let numeral :=
    match rstrip_space (lstrip_space s) with
    | String "-" body => (true, body)
    | String "+" body => (false, body)
    | body => (false, body)
    end in
  if Nat.ltb int_max_str_digits (count_digits (snd numeral)) then None
  else
    match int_digits 0 false (snd numeral) with
    | Some n => Some (if fst numeral then Z.opp n else n)
    | None => None
    end.

Fixpoint strip_prefix (p s : string) : option string :=
  match p with
  | EmptyString => Some s
  | String a p' =>
      match s with
      | EmptyString => None
      | String b s' => if Ascii.eqb a b then strip_prefix p' s' else None
      end
  end.

Fixpoint drop_digits (s : string) : string :=
  match s with
  | EmptyString => EmptyString
  | String c s' => if is_digit c then drop_digits s' else s
  end.

Definition newline : string := String "010" EmptyString.

(** [re.match(prefix + r'\d+' + suffix + '$', name)] for a literal prefix
    and a literal suffix that starts with a non-digit; [$] also matches
    before a final newline. *)
Definition re_match_numbered (prefix suffix name : string) : bool :=
  match strip_prefix prefix name with
  | None => false
  | Some rest =>
      match rest with
      | EmptyString => false
      | String c _ =>
          is_digit c &&
          (let tail := drop_digits rest in
           (tail =? suffix) || (tail =? suffix ++ newline))
      end
  end.

Definition is_slide_part : string -> bool :=
  re_match_numbered "ppt/slides/slide" ".xml".
Definition is_slidemaster_part : string -> bool :=
  re_match_numbered "ppt/slideMasters/slideMaster" ".xml".
Definition is_layout_part : string -> bool :=
  re_match_numbered "ppt/slideLayouts/slideLayout" ".xml".
Definition is_noteslide_part : string -> bool :=
  re_match_numbered "ppt/notesSlides/notesSlide" ".xml".
Definition is_comment_part : string -> bool :=
  re_match_numbered "ppt/comments/comment" ".xml".

(** A loop whose body may raise. *)
Fixpoint for_each {A S} (body : S -> A -> result S) (l : list A) (s : S) : result S :=
  match l with
  | [] => Ok s
  | x :: xs => s' <- body s x ;; for_each body xs s'
  end.

(** ** Data model *)

(** One entry of [self.relations[source]].  A dictionary entry may hold
    [None]; [rel_resolved] is an [option] so that this can be said. *)
Record relationship := {
  rel_id : string;
  rel_type : string;
  rel_target : string;
  rel_mode : string;
  rel_resolved : option string
}.

Record invalid_relation := {
  inv_rid : string;
  inv_type : string;
  inv_target : string;
  inv_reason : string
}.

(** The issue records, one constructor for each value of ['type']; the
    arguments are the other entries of the record. *)
Inductive issue :=
| I_CRITICAL
| I_ERROR (rels_path : string)
| DUPLICATE_RID (source rid : string) (count : nat)
| BROKEN_REF (source target rid : string)
| MISSING_CONTENT_TYPE (part : string)
| MISSING_LAYOUT_RELS (part : string)
| LAYOUT_NO_MASTER (part : string)
| DUPLICATE_SLIDE_ID (ids : list string)
| DUPLICATE_MASTER_ID (ids : list string)
| INVALID_PRESENTATION_RELS (invalid_relations : list invalid_relation)
| PRES_RELS_INVALID (rel_type : string) (count : nat) (rids targets : list string)
| SECTION_INVALID_SLIDE_REF (section slideId : string)
| MISSING_NOTESMASTER_REL (rid : string)
| NOTESLIDE_MISSING_SLIDE_REF (noteslide rid : string)
| NOTESLIDE_NO_MASTER (noteslide : string)
| APP_SLIDE_COUNT_MISMATCH (declared actual : Z)
| APP_NOTE_COUNT_MISMATCH (declared actual : Z)
| INVALID_COMMENT_AUTHORS_XML
| INVALID_COMMENT_XML (file : string)
| COMMENT_INVALID_AUTHOR_ID (file author_id : string).

(** The ['type'] entry. *)
Definition issue_type (i : issue) : string :=
  match i with
  | I_CRITICAL => "CRITICAL"
  | I_ERROR _ => "ERROR"
  | DUPLICATE_RID _ _ _ => "DUPLICATE_RID"
  | BROKEN_REF _ _ _ => "BROKEN_REF"
  | MISSING_CONTENT_TYPE _ => "MISSING_CONTENT_TYPE"
  | MISSING_LAYOUT_RELS _ => "MISSING_LAYOUT_RELS"
  | LAYOUT_NO_MASTER _ => "LAYOUT_NO_MASTER"
  | DUPLICATE_SLIDE_ID _ => "DUPLICATE_SLIDE_ID"
  | DUPLICATE_MASTER_ID _ => "DUPLICATE_MASTER_ID"
  | INVALID_PRESENTATION_RELS _ => "INVALID_PRESENTATION_RELS"
  | PRES_RELS_INVALID rel_type _ _ _ => "PRES_RELS_INVALID_" ++ Py.upper rel_type
  | SECTION_INVALID_SLIDE_REF _ _ => "SECTION_INVALID_SLIDE_REF"
  | MISSING_NOTESMASTER_REL _ => "MISSING_NOTESMASTER_REL"
  | NOTESLIDE_MISSING_SLIDE_REF _ _ => "NOTESLIDE_MISSING_SLIDE_REF"
  | NOTESLIDE_NO_MASTER _ => "NOTESLIDE_NO_MASTER"
  | APP_SLIDE_COUNT_MISMATCH _ _ => "APP_SLIDE_COUNT_MISMATCH"
  | APP_NOTE_COUNT_MISMATCH _ _ => "APP_NOTE_COUNT_MISMATCH"
  | INVALID_COMMENT_AUTHORS_XML => "INVALID_COMMENT_AUTHORS_XML"
  | INVALID_COMMENT_XML _ => "INVALID_COMMENT_XML"
  | COMMENT_INVALID_AUTHOR_ID _ _ => "COMMENT_INVALID_AUTHOR_ID"
  end.

(** The state of a [PPTXAnalyzer]. *)
Record analyzer := {
  files : list (string * string);
  hashes : list (string * string);
  content_types : list (string * string);
  default_types : list (string * string);
  relations : list (string * list relationship);
  issues : list issue
}.

Definition new_analyzer : analyzer :=
  {| files := []; hashes := []; content_types := []; default_types := [];
     relations := []; issues := [] |}.

Definition set_files (s : analyzer) (f : list (string * string)) : analyzer :=
  {| files := f; hashes := hashes s; content_types := content_types s;
     default_types := default_types s; relations := relations s;
     issues := issues s |}.

Definition set_hashes (s : analyzer) (h : list (string * string)) : analyzer :=
  {| files := files s; hashes := h; content_types := content_types s;
     default_types := default_types s; relations := relations s;
     issues := issues s |}.

Definition set_content_types (s : analyzer) (c : list (string * string)) : analyzer :=
  {| files := files s; hashes := hashes s; content_types := c;
     default_types := default_types s; relations := relations s;
     issues := issues s |}.

Definition set_default_types (s : analyzer) (d : list (string * string)) : analyzer :=
  {| files := files s; hashes := hashes s; content_types := content_types s;
     default_types := d; relations := relations s; issues := issues s |}.

Definition set_relations (s : analyzer) (r : list (string * list relationship)) : analyzer :=
  {| files := files s; hashes := hashes s; content_types := content_types s;
     default_types := default_types s; relations := r; issues := issues s |}.

(** [self.issues.append(i)] for each [i] of [l], in order. *)
Definition add_issues (s : analyzer) (l : list issue) : analyzer :=
  {| files := files s; hashes := hashes s; content_types := content_types s;
     default_types := default_types s; relations := relations s;
     issues := issues s ++ l |}.

(** An opened archive: its entries in directory order, each with the bytes
    that [read] returns for it. *)
Definition zipfile := list (string * string).

Definition namelist (z : zipfile) : list string := map fst z.

(** [zip.read(name)]: of several entries with one name the last one is
    read.  An entry that cannot be read (a wrong checksum, say) ends the
    analysis with an exception of [zipfile]; such archives are not
    described here. *)
Definition zip_read (z : zipfile) (name : string) : string :=
  PyDict.get_default (rev z) name "".

(** ** The analyzer: [PPTXAnalyzer] *)

Definition INVALID_PRES_REL_TYPES : list (string * string) :=
  [ ("image", "Images should be in slide/layout/master .rels, not presentation.xml.rels");
    ("slideLayout", "SlideLayouts should be in slideMaster .rels, not presentation.xml.rels");
    ("notesSlide", "NotesSlides should be in slide .rels, not presentation.xml.rels");
    ("audio", "Audio should be in slide .rels, not presentation.xml.rels");
    ("video", "Video should be in slide .rels, not presentation.xml.rels");
    ("chart", "Charts should be in slide .rels, not presentation.xml.rels");
    ("oleObject", "OLE objects should be in slide .rels, not presentation.xml.rels") ].

(** [_rels_to_part]: [parts.index('_rels')] raises [ValueError] when no
    segment is [_rels]. *)
Definition _rels_to_part (rels_path : string) : result string :=
  if rels_path =? "_rels/.rels" then Ok ""
  else
    let parts := Py.split "/" rels_path in
    match Py.index "_rels" parts with
    | None => Raise ValueError
    | Some rels_idx =>
        let base := Py.join "/" (firstn rels_idx parts) in
        let filename := Py.replace ".rels" "" (Py.last_seg parts) in
        Ok (if base =? "" then filename else (base ++ "/" ++ filename)%string)
    end.

(** The dictionary that [_parse_rels] builds for one [Relationship]
    element. *)
Definition parse_relationship (source_part : string) (rel : element) : relationship :=
  let rid := ET.get_default rel "Id" "" in
  let rtype := ET.get_default rel "Type" "" in
  let target := ET.get_default rel "Target" "" in
  let mode := ET.get_default rel "TargetMode" "Internal" in
  {| rel_id := rid;
     rel_type := rtype;
     rel_target := target;
     rel_mode := mode;
     rel_resolved :=
       if negb (mode =? "External")
       then Some (_resolve_target source_part target)
       else Some target |}.

(** [rel['type'].split('/')[-1]] *)
Definition rel_type_name (rel : relationship) : string :=
  Py.last_seg (Py.split "/" (rel_type rel)).

(** [rid_counts], a [defaultdict(int)]. *)
Definition rid_counts (rels : list relationship) : list (string * nat) :=
  fold_left
    (fun d rel => PyDict.set d (rel_id rel) (PyDict.get_default d (rel_id rel) 0 + 1))
    rels [].

Definition duplicate_rid_issues (source : string) (rels : list relationship) : list issue :=
  flat_map
    (fun rc => if Nat.ltb 1 (snd rc) then [DUPLICATE_RID source (fst rc) (snd rc)] else [])
    (rid_counts rels).

Definition broken_ref_issues (all_parts : list string) (source : string)
    (rels : list relationship) : list issue :=
  flat_map
    (fun rel =>
       if rel_mode rel =? "External" then []
       else
         match rel_resolved rel with
         | Some target =>
             if negb (target =? "") && negb (Py.mem target all_parts)
             then [BROKEN_REF source target (rel_id rel)]
             else []
         | None => []
         end)
    rels.

(** [part.split('.')[-1] if '.' in part else ''] *)
Definition part_ext (part : string) : string :=
  if Py.contains "." part then Py.last_seg (Py.split "." part) else "".

(** The non-empty ['id'] attributes of the elements at [.//t1/t2]. *)
Definition id_list (t1 t2 : string) (root : element) : list string :=
  flat_map
    (fun e =>
       match ET.get e "id" with
       | Some sid => if sid =? "" then [] else [sid]
       | None => []
       end)
    (ET.findall_desc_child (qname NS.p t1) (qname NS.p t2) root).

(** [l.count(x)] *)
Definition py_count (x : string) (l : list string) : nat :=
  List.length (filter (String.eqb x) l).

(** [[s for s in ids if ids.count(s) > 1]] and the issue built from it. *)
Definition duplicate_id_issues (mk : list string -> issue) (ids : list string) : list issue :=
  match filter (fun s => Nat.ltb 1 (py_count s ids)) ids with
  | [] => []
  | (_ :: _) as duplicates => [mk (PySet.of_list duplicates)]
  end.

Definition invalid_rels (pres_rels : list relationship) : list invalid_relation :=
  flat_map
    (fun rel =>
       let rel_type_name := rel_type_name rel in
       match PyDict.get INVALID_PRES_REL_TYPES rel_type_name with
       | Some reason =>
           [ {| inv_rid := rel_id rel; inv_type := rel_type_name;
                inv_target := rel_target rel; inv_reason := reason |} ]
       | None => []
       end)
    pres_rels.

(** [by_type]: the invalid relations grouped by type name. *)
Definition group_invalid (l : list invalid_relation) : list (string * list invalid_relation) :=
  fold_left
    (fun by_type r =>
       PyDict.set by_type (inv_type r) (PyDict.get_default by_type (inv_type r) [] ++ [r]))
    l [].

(** The issues that [_validate_presentation_rels] appends. *)
Definition presentation_rels_issues (pres_rels : list relationship) : list issue :=
  match invalid_rels pres_rels with
  | [] => []
  | (_ :: _) as invalid =>
      INVALID_PRESENTATION_RELS invalid ::
      map (fun tr =>
             PRES_RELS_INVALID (fst tr) (List.length (snd tr))
               (map inv_rid (snd tr)) (map inv_target (snd tr)))
          (group_invalid invalid)
  end.

Record section_ref := { sref_id : option string; sref_rid : option string }.

Record section_refs := {
  sec_name : string;
  sec_id : string;
  sec_slideIds : list section_ref
}.

(** The issues that [_validate_sections] appends. *)
Definition section_issues (pres_root : element) : list issue :=
  let sections :=
    map (fun sect =>
           {| sec_name := ET.get_default sect "name" "";
              sec_id := ET.get_default sect "id" "";
              sec_slideIds :=
                map (fun e => {| sref_id := ET.get e "id";
                                 sref_rid := ET.get e (qname NS.r "id") |})
                    (ET.findall_desc_child (qname NS.p "sldIdLst") (qname NS.p "sldId") sect) |})
        (ET.findall_desc_child (qname NS.p "sectionLst") (qname NS.p "section") pres_root) in
  let all_slide_ids := PySet.of_list (id_list "sldIdLst" "sldId" pres_root) in
  flat_map
    (fun section =>
       flat_map
         (fun slide_ref =>
            match sref_id slide_ref with
            | Some i =>
                if negb (i =? "") && negb (Py.mem i all_slide_ids)
                then [SECTION_INVALID_SLIDE_REF (sec_name section) i]
                else []
            | None => []
            end)
         (sec_slideIds section))
    sections.

Section Analyzer.

(** [ET.fromstring]: [None] stands for [ET.ParseError], the one exception
    of the parser that the source handles.  On a document whose declared
    encoding it cannot decode the parser raises [ValueError] or
    [LookupError] instead, which no handler catches and which ends the
    run; such a run is neither a completed analysis nor a completed
    comparison, and the statements below that start from a completed one
    do not speak about it. *)
Variable fromstring : string -> option element.

(** [hashlib.sha256(content).hexdigest()[:16]] *)
Variable sha256_16 : string -> string.

Definition _load_files (z : zipfile) (s : analyzer) : analyzer :=
  fold_left
    (fun s name =>
       let content := zip_read z name in
       set_hashes (set_files s (PyDict.set (files s) name content))
                  (PyDict.set (hashes s) name (sha256_16 content)))
    (namelist z) s.

Definition _parse_content_types (s : analyzer) : result analyzer :=
  match PyDict.get (files s) "[Content_Types].xml" with
  | None => Ok (add_issues s [I_CRITICAL])
  | Some content =>
      match fromstring content with
      | None => Raise ParseError
      | Some root =>
          let s1 :=
            set_default_types s
              (PyDict.update (default_types s)
                 (map (fun default =>
                         (ET.get_default default "Extension" "",
                          ET.get_default default "ContentType" ""))
                      (ET.findall_child (qname NS.ct "Default") root))) in
          Ok (set_content_types s1
                (PyDict.update (content_types s1)
                   (map (fun override =>
                           (Py.lstrip "/" (ET.get_default override "PartName" ""),
                            ET.get_default override "ContentType" ""))
                        (ET.findall_child (qname NS.ct "Override") root))))
      end
  end.

(** [_parse_rels(rels_path)], where [content] is [self.files[rels_path]]. *)
Definition _parse_rels (rels_path content : string) (s : analyzer) : result analyzer :=
  match fromstring content with
  | None => Ok (add_issues s [I_ERROR rels_path])
  | Some root =>
      source_part <- _rels_to_part rels_path ;;
      let rels :=
        map (parse_relationship source_part)
            (ET.findall_child (qname NS.rel "Relationship") root) in
      Ok (set_relations s (PyDict.set (relations s) source_part rels))
  end.

(** [_parse_all_rels]: the loop runs over the entries of [self.files]. *)
Definition _parse_all_rels (s : analyzer) : result analyzer :=
  for_each
    (fun s nc =>
       if Py.endswith ".rels" (fst nc) then _parse_rels (fst nc) (snd nc) s else Ok s)
    (files s) s.

(** The first loop of [_validate_references]. *)
Definition reference_issues (s : analyzer) : list issue :=
  let all_parts := PyDict.keys (files s) in
  flat_map
    (fun sr =>
       duplicate_rid_issues (fst sr) (snd sr) ++
       broken_ref_issues all_parts (fst sr) (snd sr))
    (relations s).

(** The content-type coverage loop of [_validate_references].  The source
    iterates over a [set] of the part names, so the order of these issues
    among themselves is not determined; they are listed here in the order
    of the part table. *)
Definition content_type_issues (s : analyzer) : list issue :=
  flat_map
    (fun part =>
       if Py.startswith "_rels/" part || Py.endswith ".rels" part then []
       else if part =? "[Content_Types].xml" then []
       else if negb (PyDict.mem (content_types s) part) &&
               negb (PyDict.mem (default_types s) (part_ext part))
       then [MISSING_CONTENT_TYPE part]
       else [])
    (PyDict.keys (files s)).

Definition layout_master_issues (s : analyzer) : list issue :=
  flat_map
    (fun name =>
       if negb (is_layout_part name) then []
       else
         let layout_rels_path :=
           (Py.replace "ppt/slideLayouts/" "ppt/slideLayouts/_rels/" name ++ ".rels")%string in
         if negb (PyDict.mem (files s) layout_rels_path)
         then [MISSING_LAYOUT_RELS name]
         else
           let rels := PyDict.get_default (relations s) name [] in
           if existsb (fun r => Py.contains REL_TYPES.slideMaster (rel_type r)) rels
           then []
           else [LAYOUT_NO_MASTER name])
    (PyDict.keys (files s)).

Definition pres_rels (s : analyzer) : list relationship :=
  PyDict.get_default (relations s) "ppt/presentation.xml" [].

Definition notes_master_issues (s : analyzer) (pres_root : element) : list issue :=
  match ET.find_desc_child (qname NS.p "notesMasterIdLst") (qname NS.p "notesMasterId")
          pres_root with
  | None => []
  | Some notes_master =>
      match ET.get notes_master (qname NS.r "id") with
      | None => []
      | Some rid =>
          if rid =? "" then []
          else if existsb (fun r => rel_id r =? rid) (pres_rels s) then []
          else [MISSING_NOTESMASTER_REL rid]
      end
  end.

(** The issues that [_validate_presentation_ids] appends, those of the
    three checks it calls included. *)
Definition presentation_ids_issues (s : analyzer) : list issue :=
  match PyDict.get (files s) "ppt/presentation.xml" with
  | None => []
  | Some content =>
      match fromstring content with
      | None => []
      | Some root =>
          duplicate_id_issues DUPLICATE_SLIDE_ID (id_list "sldIdLst" "sldId" root) ++
          duplicate_id_issues DUPLICATE_MASTER_ID
            (id_list "sldMasterIdLst" "sldMasterId" root) ++
          presentation_rels_issues (pres_rels s) ++
          section_issues root ++
          notes_master_issues s root
      end
  end.

Definition noteslide_issues (s : analyzer) : list issue :=
  flat_map
    (fun nc =>
       let name := fst nc in
       if negb (is_noteslide_part name) then []
       else
         match fromstring (snd nc) with
         | None => []
         | Some root =>
             let rels := PyDict.get_default (relations s) name [] in
             (match ET.find_desc (qname NS.p "clrMapOvr") root with
              | None => []
              | Some clr_map_ovr =>
                  match ET.get clr_map_ovr (qname NS.r "id") with
                  | None => []
                  | Some slide_ref =>
                      if slide_ref =? "" then []
                      else if existsb
                                (fun r => (rel_id r =? slide_ref) &&
                                          Py.contains "slide" (rel_type r)) rels
                      then []
                      else [NOTESLIDE_MISSING_SLIDE_REF name slide_ref]
                  end
              end) ++
             (if existsb (fun r => Py.contains "notesMaster" (rel_type r)) rels
              then []
              else [NOTESLIDE_NO_MASTER name])
         end)
    (files s).

(** [int(e.text) if e is not None and e.text else 0] *)
Definition int_of_text (e : option element) : result Z :=
  match e with
  | None => Ok 0%Z
  | Some e =>
      match ET.text e with
      | None => Ok 0%Z
      | Some t =>
          if t =? "" then Ok 0%Z
          else match py_int t with
               | Some n => Ok n
               | None => Raise ValueError
               end
      end
  end.

Definition count_parts (is_part : string -> bool) (s : analyzer) : Z :=
  Z.of_nat (List.length (filter is_part (PyDict.keys (files s)))).

Definition app_properties_issues (s : analyzer) : result (list issue) :=
  match PyDict.get (files s) "docProps/app.xml" with
  | None => Ok []
  | Some content =>
      match fromstring content with
      | None => Ok []
      | Some root =>
          declared_slides <- int_of_text (ET.find_desc (qname NS.ep "Slides") root) ;;
          declared_notes <- int_of_text (ET.find_desc (qname NS.ep "Notes") root) ;;
          let actual_slides := count_parts is_slide_part s in
          let actual_notes := count_parts is_noteslide_part s in
          Ok ((if negb (Z.eqb declared_slides actual_slides)
               then [APP_SLIDE_COUNT_MISMATCH declared_slides actual_slides] else []) ++
              (if negb (Z.eqb declared_notes actual_notes)
               then [APP_NOTE_COUNT_MISMATCH declared_notes actual_notes] else []))
      end
  end.

(** The non-empty values of attribute [key] over [elems]. *)
Definition attr_values (key : string) (elems : list element) : list string :=
  flat_map
    (fun e =>
       match ET.get e key with
       | Some v => if v =? "" then [] else [v]
       | None => []
       end)
    elems.

Definition comments_issues (s : analyzer) : list issue :=
  match PyDict.get (files s) "ppt/commentAuthors.xml" with
  | None => []
  | Some content =>
      match fromstring content with
      | None => [INVALID_COMMENT_AUTHORS_XML]
      | Some root =>
          let author_ids :=
            PySet.of_list (attr_values "id" (ET.findall_desc (qname NS.p "cmAuthor") root)) in
          flat_map
            (fun nc =>
               let name := fst nc in
               if negb (is_comment_part name) then []
               else
                 match fromstring (snd nc) with
                 | None => [INVALID_COMMENT_XML name]
                 | Some comment_root =>
                     flat_map
                       (fun author_id =>
                          if negb (Py.mem author_id author_ids)
                          then [COMMENT_INVALID_AUTHOR_ID name author_id]
                          else [])
                       (attr_values "authorId"
                          (ET.findall_desc (qname NS.p "cm") comment_root))
                 end)
            (files s)
      end
  end.

(** [_validate_references]: the checks run in this order, each appending
    to [self.issues]; only the application-properties check can raise. *)
Definition _validate_references (s : analyzer) : result analyzer :=
  let s := add_issues s (reference_issues s) in
  let s := add_issues s (content_type_issues s) in
  let s := add_issues s (layout_master_issues s) in
  let s := add_issues s (presentation_ids_issues s) in
  let s := add_issues s (noteslide_issues s) in
  app <- app_properties_issues s ;;
  let s := add_issues s app in
  Ok (add_issues s (comments_issues s)).

(** The issues of a validation run in the order of the checks; [app] are
    those of the application-properties check. *)
Definition validation_issues (s : analyzer) (app : list issue) : list issue :=
  reference_issues s ++ content_type_issues s ++ layout_master_issues s ++
  presentation_ids_issues s ++ noteslide_issues s ++
  app ++ comments_issues s.

(** [PPTXAnalyzer(path).analyze()] on an opened archive. *)
Definition analyze (z : zipfile) : result analyzer :=
  let s := _load_files z new_analyzer in
  s <- _parse_content_types s ;;
  s <- _parse_all_rels s ;;
  _validate_references s.

End Analyzer.

(** ** The comparator: [PPTXComparator] *)

Inductive severity := INFO | LOW | MEDIUM | HIGH | CRITICAL.

(** The diff records, one constructor for each value of ['type']; the
    arguments are the entries other than ['severity'] and ['msg']. *)
Inductive diff_body :=
| FILE_REMOVED (file : string)
| FILE_ADDED (file : string)
| CONTENT_TYPE_REMOVED (part : string)
| CONTENT_TYPE_CHANGED (part corrupt repaired : string)
| RELATION_REMOVED (source rid target : string)
| RELATION_TARGET_CHANGED (source rid corrupt_target repaired_target : string)
| SLIDE_ID_LIST_CHANGED (corrupt repaired : list (option string * option string))
| PRES_RELS_TYPE_COUNT_CHANGED (rel_type : string) (corrupt_count repaired_count : nat)
    (corrupt_targets repaired_targets : list string)
| PRES_RELS_TOTAL_COUNT_CHANGED (corrupt_count repaired_count : nat)
| SECTION_REMOVED (section_name : string)
| SECTION_ADDED (section_name : string)
| SECTION_SLIDES_CHANGED (section_name : string)
    (corrupt_slides repaired_slides : list (option string))
| NOTESLIDE_REMOVED (noteslide : string)
| NOTESLIDE_ADDED (noteslide : string)
| NOTESLIDE_SLIDE_REF_CHANGED (noteslide : string) (corrupt_slide repaired_slide : option string)
| NOTESLIDE_MASTER_REF_CHANGED (noteslide : string)
    (corrupt_master repaired_master : option string)
| APP_SLIDE_COUNT_CHANGED (corrupt repaired : Z)
| APP_NOTE_COUNT_CHANGED (corrupt repaired : Z)
| APP_HIDDEN_SLIDE_COUNT_CHANGED (corrupt repaired : Z)
| COMMENT_AUTHORS_CHANGED (corrupt repaired : list string)
| COMMENT_FILE_REMOVED (file : string)
| COMMENT_FILE_ADDED (file : string)
| COMMENT_COUNT_CHANGED (file : string) (corrupt repaired : nat)
| XML_CONTENT_CHANGED (file corrupt_hash repaired_hash : string)
| SLIDE_CLRMAPOVR_RID_CHANGED (file : string) (corrupt_rid repaired_rid : option string)
| SLIDE_SHAPE_COUNT_CHANGED (file : string) (corrupt repaired : nat)
| SLIDEMASTER_LAYOUT_COUNT_CHANGED (file : string) (corrupt repaired : nat)
| SLIDELAYOUT_TYPE_CHANGED (file corrupt repaired : string)
| RENAMED_IDENTICAL_CONTENT (hash : string) (corrupt_files repaired_files : list string).

Record diff := { d_body : diff_body; d_severity : severity }.

Definition mk_diff (sev : severity) (b : diff_body) : diff :=
  {| d_body := b; d_severity := sev |}.

(** The ['type'] entry. *)
Definition diff_type (d : diff) : string :=
  match d_body d with
  | FILE_REMOVED _ => "FILE_REMOVED"
  | FILE_ADDED _ => "FILE_ADDED"
  | CONTENT_TYPE_REMOVED _ => "CONTENT_TYPE_REMOVED"
  | CONTENT_TYPE_CHANGED _ _ _ => "CONTENT_TYPE_CHANGED"
  | RELATION_REMOVED _ _ _ => "RELATION_REMOVED"
  | RELATION_TARGET_CHANGED _ _ _ _ => "RELATION_TARGET_CHANGED"
  | SLIDE_ID_LIST_CHANGED _ _ => "SLIDE_ID_LIST_CHANGED"
  | PRES_RELS_TYPE_COUNT_CHANGED _ _ _ _ _ => "PRES_RELS_TYPE_COUNT_CHANGED"
  | PRES_RELS_TOTAL_COUNT_CHANGED _ _ => "PRES_RELS_TOTAL_COUNT_CHANGED"
  | SECTION_REMOVED _ => "SECTION_REMOVED"
  | SECTION_ADDED _ => "SECTION_ADDED"
  | SECTION_SLIDES_CHANGED _ _ _ => "SECTION_SLIDES_CHANGED"
  | NOTESLIDE_REMOVED _ => "NOTESLIDE_REMOVED"
  | NOTESLIDE_ADDED _ => "NOTESLIDE_ADDED"
  | NOTESLIDE_SLIDE_REF_CHANGED _ _ _ => "NOTESLIDE_SLIDE_REF_CHANGED"
  | NOTESLIDE_MASTER_REF_CHANGED _ _ _ => "NOTESLIDE_MASTER_REF_CHANGED"
  | APP_SLIDE_COUNT_CHANGED _ _ => "APP_SLIDE_COUNT_CHANGED"
  | APP_NOTE_COUNT_CHANGED _ _ => "APP_NOTE_COUNT_CHANGED"
  | APP_HIDDEN_SLIDE_COUNT_CHANGED _ _ => "APP_HIDDEN_SLIDE_COUNT_CHANGED"
  | COMMENT_AUTHORS_CHANGED _ _ => "COMMENT_AUTHORS_CHANGED"
  | COMMENT_FILE_REMOVED _ => "COMMENT_FILE_REMOVED"
  | COMMENT_FILE_ADDED _ => "COMMENT_FILE_ADDED"
  | COMMENT_COUNT_CHANGED _ _ _ => "COMMENT_COUNT_CHANGED"
  | XML_CONTENT_CHANGED _ _ _ => "XML_CONTENT_CHANGED"
  | SLIDE_CLRMAPOVR_RID_CHANGED _ _ _ => "SLIDE_CLRMAPOVR_RID_CHANGED"
  | SLIDE_SHAPE_COUNT_CHANGED _ _ _ => "SLIDE_SHAPE_COUNT_CHANGED"
  | SLIDEMASTER_LAYOUT_COUNT_CHANGED _ _ _ => "SLIDEMASTER_LAYOUT_COUNT_CHANGED"
  | SLIDELAYOUT_TYPE_CHANGED _ _ _ => "SLIDELAYOUT_TYPE_CHANGED"
  | RENAMED_IDENTICAL_CONTENT _ _ _ => "RENAMED_IDENTICAL_CONTENT"
  end.

(** A loop whose body appends records and may raise. *)
Fixpoint collect {A B} (body : A -> result (list B)) (l : list A) : result (list B) :=
  match l with
  | [] => Ok []
  | x :: xs => out <- body x ;; rest <- collect body xs ;; Ok (out ++ rest)
  end.

Record id_ref := { ref_id : option string; ref_rid : option string }.

Record section_data := {
  sd_name : string;
  sd_id : string;
  sd_slideIds : list (option string)
}.

Record presentation_data := {
  slideIdList : list id_ref;
  slideMasterIdList : list id_ref;
  notesMasterIdList : list id_ref;
  sections : list section_data
}.

Record app_properties := { app_slides : Z; app_notes : Z; app_hidden_slides : Z }.

Record noteslide_refs := { slide_target : option string; master_target : option string }.

Record author := {
  author_id : option string;
  author_name : option string;
  author_initials : option string
}.

Record comment := {
  cm_authorId : option string;
  cm_dt : option string;
  cm_idx : option string
}.

Record comments_data := {
  authors : list author;
  comments : list (string * list comment)
}.

(** [group_by_type] of [_compare_presentation_rels_detailed]. *)
Definition group_by_type (rels : list relationship) : list (string * list relationship) :=
  fold_left
    (fun by_type rel =>
       PyDict.set by_type (rel_type_name rel)
         (PyDict.get_default by_type (rel_type_name rel) [] ++ [rel]))
    rels [].

Definition id_refs (t1 t2 : string) (root : element) : list id_ref :=
  map (fun e => {| ref_id := ET.get e "id"; ref_rid := ET.get e (qname NS.r "id") |})
      (ET.findall_desc_child (qname NS.p t1) (qname NS.p t2) root).

Section Comparator.

Variable fromstring : string -> option element.

Definition empty_presentation_data : presentation_data :=
  {| slideIdList := []; slideMasterIdList := []; notesMasterIdList := []; sections := [] |}.

Definition get_presentation_data (s : analyzer) : presentation_data :=
  match PyDict.get (files s) "ppt/presentation.xml" with
  | None => empty_presentation_data
  | Some content =>
      match fromstring content with
      | None => empty_presentation_data
      | Some root =>
          {| slideIdList := id_refs "sldIdLst" "sldId" root;
             slideMasterIdList := id_refs "sldMasterIdLst" "sldMasterId" root;
             notesMasterIdList := id_refs "notesMasterIdLst" "notesMasterId" root;
             sections :=
               map (fun sect =>
                      {| sd_name := ET.get_default sect "name" "";
                         sd_id := ET.get_default sect "id" "";
                         sd_slideIds :=
                           map (fun sldId => ET.get sldId "id")
                               (ET.findall_desc_child (qname NS.p "sldIdLst")
                                  (qname NS.p "sldId") sect) |})
                   (ET.findall_desc_child (qname NS.p "sectionLst")
                      (qname NS.p "section") root) |}
      end
  end.

Definition get_app_properties (s : analyzer) : result app_properties :=
  let data := {| app_slides := 0; app_notes := 0; app_hidden_slides := 0 |} in
  match PyDict.get (files s) "docProps/app.xml" with
  | None => Ok data
  | Some content =>
      match fromstring content with
      | None => Ok data
      | Some root =>
          slides <- int_of_text (ET.find_desc (qname NS.ep "Slides") root) ;;
          notes <- int_of_text (ET.find_desc (qname NS.ep "Notes") root) ;;
          hidden <- int_of_text (ET.find_desc (qname NS.ep "HiddenSlides") root) ;;
          Ok {| app_slides := slides; app_notes := notes; app_hidden_slides := hidden |}
      end
  end.

Definition get_noteslides_data (s : analyzer) : list (string * noteslide_refs) :=
  PyDict.of_list
    (flat_map
       (fun nc =>
          let name := fst nc in
          if negb (is_noteslide_part name) then []
          else
            match fromstring (snd nc) with
            | None => []
            | Some _ =>
                let rels := PyDict.get_default (relations s) name [] in
                let slide_rel :=
                  List.find (fun r => Py.contains "slide" (rel_type r) &&
                                      negb (rel_mode r =? "External")) rels in
                let master_rel :=
                  List.find (fun r => Py.contains "notesMaster" (rel_type r)) rels in
                [ (name,
                   {| slide_target :=
                        match slide_rel with Some r => rel_resolved r | None => None end;
                      master_target :=
                        match master_rel with Some r => rel_resolved r | None => None end |}) ]
            end)
       (files s)).

Definition get_comments_data (s : analyzer) : comments_data :=
  {| authors :=
       match PyDict.get (files s) "ppt/commentAuthors.xml" with
       | None => []
       | Some content =>
           match fromstring content with
           | None => []
           | Some root =>
               map (fun a => {| author_id := ET.get a "id";
                                author_name := ET.get a "name";
                                author_initials := ET.get a "initials" |})
                   (ET.findall_desc (qname NS.p "cmAuthor") root)
           end
       end;
     comments :=
       PyDict.of_list
         (flat_map
            (fun nc =>
               if negb (is_comment_part (fst nc)) then []
               else
                 match fromstring (snd nc) with
                 | None => []
                 | Some root =>
                     [ (fst nc,
                        map (fun c => {| cm_authorId := ET.get c "authorId";
                                         cm_dt := ET.get c "dt";
                                         cm_idx := ET.get c "idx" |})
                            (ET.findall_desc (qname NS.p "cm") root)) ]
                 end)
            (files s)) |}.

(** [get_hash_map], a [defaultdict(list)]. *)
Definition get_hash_map (s : analyzer) : list (string * list string) :=
  fold_left
    (fun hash_map nh =>
       PyDict.set hash_map (snd nh) (PyDict.get_default hash_map (snd nh) [] ++ [fst nh]))
    (hashes s) [].

Definition _compare_file_lists (c r : analyzer) : list diff :=
  let c_files := PySet.of_list (PyDict.keys (files c)) in
  let r_files := PySet.of_list (PyDict.keys (files r)) in
  let only_corrupt := PySet.diff c_files r_files in
  let only_repaired := PySet.diff r_files c_files in
  map (fun f => mk_diff HIGH (FILE_REMOVED f)) only_corrupt ++
  map (fun f => mk_diff MEDIUM (FILE_ADDED f)) only_repaired.

Definition _compare_content_types (c r : analyzer) : list diff :=
  let c_ct := content_types c in
  let r_ct := content_types r in
  flat_map
    (fun pc =>
       match PyDict.get r_ct (fst pc) with
       | None => [mk_diff HIGH (CONTENT_TYPE_REMOVED (fst pc))]
       | Some r_ctype =>
           if negb (r_ctype =? snd pc)
           then [mk_diff MEDIUM (CONTENT_TYPE_CHANGED (fst pc) (snd pc) r_ctype)]
           else []
       end)
    c_ct.

(** [{r['id']: r for r in rels}] *)
Definition rel_map (rels : list relationship) : list (string * relationship) :=
  PyDict.of_list (map (fun r => (rel_id r, r)) rels).

Definition _compare_relations (c r : analyzer) : list diff :=
  let c_rels := relations c in
  let r_rels := relations r in
  let all_sources :=
    PySet.union (PySet.of_list (PyDict.keys c_rels)) (PySet.of_list (PyDict.keys r_rels)) in
  flat_map
    (fun source =>
       let c_rel_map := rel_map (PyDict.get_default c_rels source []) in
       let r_rel_map := rel_map (PyDict.get_default r_rels source []) in
       flat_map
         (fun ir =>
            let rid := fst ir in
            let rel := snd ir in
            match PyDict.get r_rel_map rid with
            | None => [mk_diff HIGH (RELATION_REMOVED source rid (rel_target rel))]
            | Some r_rel =>
                if negb (rel_target r_rel =? rel_target rel)
                then [mk_diff HIGH
                        (RELATION_TARGET_CHANGED source rid (rel_target rel)
                           (rel_target r_rel))]
                else []
            end)
         c_rel_map)
    all_sources.

Definition _compare_presentation_rels_detailed (c r : analyzer) : list diff :=
  let c_rels := pres_rels c in
  let r_rels := pres_rels r in
  let c_by_type := group_by_type c_rels in
  let r_by_type := group_by_type r_rels in
  let all_types :=
    PySet.union (PySet.of_list (PyDict.keys c_by_type))
                (PySet.of_list (PyDict.keys r_by_type)) in
  flat_map
    (fun rel_type =>
       let c_group := PyDict.get_default c_by_type rel_type [] in
       let r_group := PyDict.get_default r_by_type rel_type [] in
       let c_count := List.length c_group in
       let r_count := List.length r_group in
       if negb (Nat.eqb c_count r_count) then
         let sev :=
           if Py.mem rel_type ["image"; "slideLayout"; "notesSlide"] then CRITICAL else HIGH in
         [mk_diff sev
            (PRES_RELS_TYPE_COUNT_CHANGED rel_type c_count r_count
               (map rel_target c_group) (map rel_target r_group))]
       else [])
    all_types ++
  (if negb (Nat.eqb (List.length c_rels) (List.length r_rels))
   then [mk_diff HIGH
           (PRES_RELS_TOTAL_COUNT_CHANGED (List.length c_rels) (List.length r_rels))]
   else []).

(** [{s['rid']: s['id'] for s in data['slideIdList']}] *)
Definition slide_map (data : presentation_data) : list (option string * option string) :=
  PyDict.of_list (map (fun s => (ref_rid s, ref_id s)) (slideIdList data)).

Definition _compare_presentation_xml (c r : analyzer) : list diff :=
  let c_slides := slide_map (get_presentation_data c) in
  let r_slides := slide_map (get_presentation_data r) in
  (if negb (PyDict.eqb c_slides r_slides)
   then [mk_diff CRITICAL (SLIDE_ID_LIST_CHANGED c_slides r_slides)]
   else []) ++
  _compare_presentation_rels_detailed c r.

(** [{s['name']: s for s in data['sections']}] *)
Definition section_map (data : presentation_data) : list (string * section_data) :=
  PyDict.of_list (map (fun s => (sd_name s, s)) (sections data)).

Definition _compare_sections (c r : analyzer) : list diff :=
  let c_sections := section_map (get_presentation_data c) in
  let r_sections := section_map (get_presentation_data r) in
  flat_map
    (fun ns => if negb (PyDict.mem r_sections (fst ns))
               then [mk_diff HIGH (SECTION_REMOVED (fst ns))] else [])
    c_sections ++
  flat_map
    (fun ns => if negb (PyDict.mem c_sections (fst ns))
               then [mk_diff MEDIUM (SECTION_ADDED (fst ns))] else [])
    r_sections ++
  flat_map
    (fun ns =>
       match PyDict.get r_sections (fst ns) with
       | None => []
       | Some r_section =>
           let c_ids := PySet.of_list (sd_slideIds (snd ns)) in
           let r_ids := PySet.of_list (sd_slideIds r_section) in
           if negb (PySet.eqb c_ids r_ids)
           then [mk_diff HIGH (SECTION_SLIDES_CHANGED (fst ns) c_ids r_ids)]
           else []
       end)
    c_sections.

Definition _compare_noteslides (c r : analyzer) : list diff :=
  let c_notes := get_noteslides_data c in
  let r_notes := get_noteslides_data r in
  let c_note_names := PySet.of_list (PyDict.keys c_notes) in
  let r_note_names := PySet.of_list (PyDict.keys r_notes) in
  map (fun name => mk_diff HIGH (NOTESLIDE_REMOVED name))
      (PySet.diff c_note_names r_note_names) ++
  map (fun name => mk_diff MEDIUM (NOTESLIDE_ADDED name))
      (PySet.diff r_note_names c_note_names) ++
  flat_map
    (fun name =>
       match PyDict.get c_notes name, PyDict.get r_notes name with
       | Some cn, Some rn =>
           (if negb (py_eqb (slide_target cn) (slide_target rn))
            then [mk_diff CRITICAL
                    (NOTESLIDE_SLIDE_REF_CHANGED name (slide_target cn) (slide_target rn))]
            else []) ++
           (if negb (py_eqb (master_target cn) (master_target rn))
            then [mk_diff HIGH
                    (NOTESLIDE_MASTER_REF_CHANGED name (master_target cn) (master_target rn))]
            else [])
       | _, _ => []
       end)
    (PySet.inter c_note_names r_note_names).

Definition _compare_app_properties (c r : analyzer) : result (list diff) :=
  c_props <- get_app_properties c ;;
  r_props <- get_app_properties r ;;
  Ok ((if negb (Z.eqb (app_slides c_props) (app_slides r_props))
       then [mk_diff HIGH (APP_SLIDE_COUNT_CHANGED (app_slides c_props) (app_slides r_props))]
       else []) ++
      (if negb (Z.eqb (app_notes c_props) (app_notes r_props))
       then [mk_diff HIGH (APP_NOTE_COUNT_CHANGED (app_notes c_props) (app_notes r_props))]
       else []) ++
      (if negb (Z.eqb (app_hidden_slides c_props) (app_hidden_slides r_props))
       then [mk_diff MEDIUM
               (APP_HIDDEN_SLIDE_COUNT_CHANGED (app_hidden_slides c_props)
                  (app_hidden_slides r_props))]
       else [])).

(** [set(a['id'] for a in authors if a['id'])] *)
Definition author_id_set (data : comments_data) : list string :=
  PySet.of_list
    (flat_map
       (fun a =>
          match author_id a with
          | Some i => if i =? "" then [] else [i]
          | None => []
          end)
       (authors data)).

Definition _compare_comments (c r : analyzer) : list diff :=
  let c_comments := get_comments_data c in
  let r_comments := get_comments_data r in
  let c_author_ids := author_id_set c_comments in
  let r_author_ids := author_id_set r_comments in
  let c_comment_files := PySet.of_list (PyDict.keys (comments c_comments)) in
  let r_comment_files := PySet.of_list (PyDict.keys (comments r_comments)) in
  (if negb (PySet.eqb c_author_ids r_author_ids)
   then [mk_diff MEDIUM (COMMENT_AUTHORS_CHANGED c_author_ids r_author_ids)]
   else []) ++
  map (fun file => mk_diff MEDIUM (COMMENT_FILE_REMOVED file))
      (PySet.diff c_comment_files r_comment_files) ++
  map (fun file => mk_diff LOW (COMMENT_FILE_ADDED file))
      (PySet.diff r_comment_files c_comment_files) ++
  flat_map
    (fun file =>
       match PyDict.get (comments c_comments) file, PyDict.get (comments r_comments) file with
       | Some cc, Some rc =>
           if negb (Nat.eqb (List.length cc) (List.length rc))
           then [mk_diff MEDIUM (COMMENT_COUNT_CHANGED file (List.length cc) (List.length rc))]
           else []
       | _, _ => []
       end)
    (PySet.inter c_comment_files r_comment_files).

(** The two [ET.fromstring] calls inside one [try]: [None] when either
    raises [ParseError]; the second document is not parsed when the first
    one is not well-formed. *)
Definition parse_both (c r : analyzer) (filename : string)
  : result (option (element * element)) :=
  c_content <- PyDict.subscript (files c) filename ;;
  match fromstring c_content with
  | None => Ok None
  | Some c_root =>
      r_content <- PyDict.subscript (files r) filename ;;
      match fromstring r_content with
      | None => Ok None
      | Some r_root => Ok (Some (c_root, r_root))
      end
  end.

Definition _compare_slide_xml (c r : analyzer) (filename : string) : result (list diff) :=
  roots <- parse_both c r filename ;;
  match roots with
  | None => Ok []
  | Some (c_root, r_root) =>
      let c_clr := ET.find_desc (qname NS.p "clrMapOvr") c_root in
      let r_clr := ET.find_desc (qname NS.p "clrMapOvr") r_root in
      let c_shapes := List.length (ET.findall_desc (qname NS.p "sp") c_root) in
      let r_shapes := List.length (ET.findall_desc (qname NS.p "sp") r_root) in
      Ok ((match c_clr, r_clr with
           | Some c_clr, Some r_clr =>
               let c_rid := ET.get c_clr (qname NS.r "id") in
               let r_rid := ET.get r_clr (qname NS.r "id") in
               if negb (py_eqb c_rid r_rid)
               then [mk_diff HIGH (SLIDE_CLRMAPOVR_RID_CHANGED filename c_rid r_rid)]
               else []
           | _, _ => []
           end) ++
          (if negb (Nat.eqb c_shapes r_shapes)
           then [mk_diff LOW (SLIDE_SHAPE_COUNT_CHANGED filename c_shapes r_shapes)]
           else []))
  end.

Definition _compare_slidemaster_xml (c r : analyzer) (filename : string)
  : result (list diff) :=
  roots <- parse_both c r filename ;;
  match roots with
  | None => Ok []
  | Some (c_root, r_root) =>
      let count root :=
        List.length (ET.findall_desc_child (qname NS.p "sldLayoutIdLst")
                       (qname NS.p "sldLayoutId") root) in
      let c_layouts := count c_root in
      let r_layouts := count r_root in
      Ok (if negb (Nat.eqb c_layouts r_layouts)
          then [mk_diff HIGH (SLIDEMASTER_LAYOUT_COUNT_CHANGED filename c_layouts r_layouts)]
          else [])
  end.

Definition _compare_slidelayout_xml (c r : analyzer) (filename : string)
  : result (list diff) :=
  roots <- parse_both c r filename ;;
  match roots with
  | None => Ok []
  | Some (c_root, r_root) =>
      let c_type := ET.get_default c_root "type" "" in
      let r_type := ET.get_default r_root "type" "" in
      Ok (if negb (c_type =? r_type)
          then [mk_diff HIGH (SLIDELAYOUT_TYPE_CHANGED filename c_type r_type)]
          else [])
  end.

(** [xml_files] of [_compare_xml_content], and the body of its loop. *)
Definition xml_files (c r : analyzer) : list string :=
  let common_files :=
    PySet.inter (PySet.of_list (PyDict.keys (files c)))
                (PySet.of_list (PyDict.keys (files r))) in
  filter (Py.endswith ".xml") common_files.

Definition xml_content_body (c r : analyzer) (f : string) : result (list diff) :=
  c_hash <- PyDict.subscript (hashes c) f ;;
  r_hash <- PyDict.subscript (hashes r) f ;;
  if negb (c_hash =? r_hash) then
    if is_slide_part f then _compare_slide_xml c r f
    else if is_slidemaster_part f then _compare_slidemaster_xml c r f
    else if is_layout_part f then _compare_slidelayout_xml c r f
    else if f =? "ppt/presentation.xml" then Ok []
    else Ok [mk_diff MEDIUM (XML_CONTENT_CHANGED f c_hash r_hash)]
  else Ok [].

Definition _compare_xml_content (c r : analyzer) : result (list diff) :=
  collect (xml_content_body c r) (xml_files c r).

Definition _detect_hash_matches (c r : analyzer) : list diff :=
  let c_hashes := get_hash_map c in
  let r_hashes := get_hash_map r in
  flat_map
    (fun hf =>
       match PyDict.get r_hashes (fst hf) with
       | None => []
       | Some r_files =>
           if negb (PySet.eqb (PySet.of_list (snd hf)) (PySet.of_list r_files))
           then [mk_diff INFO (RENAMED_IDENTICAL_CONTENT (fst hf) (snd hf) r_files)]
           else []
       end)
    c_hashes.

(** [PPTXComparator(corrupt, repaired).compare().diffs] *)
Definition compare (c r : analyzer) : result (list diff) :=
  let diffs := _compare_file_lists c r in
  let diffs := diffs ++ _compare_content_types c r in
  let diffs := diffs ++ _compare_relations c r in
  let diffs := diffs ++ _compare_presentation_xml c r in
  let diffs := diffs ++ _compare_sections c r in
  let diffs := diffs ++ _compare_noteslides c r in
  app <- _compare_app_properties c r ;;
  let diffs := diffs ++ app in
  let diffs := diffs ++ _compare_comments c r in
  xml <- _compare_xml_content c r ;;
  let diffs := diffs ++ xml in
  Ok (diffs ++ _detect_hash_matches c r).

End Comparator.

(** ** The hypothesis generator: [PPTXComparator._generate_hypotheses] *)

(** The values that the ['evidence'] text is rendered from. *)
Inductive evidence :=
| EV_duplicate_rids (n : nat) (first_rids : list string)
| EV_duplicate_ids (n : nat)
| EV_layouts_without_master (n : nat) (first_parts : list string)
| EV_files_removed (n : nat) (first_files : list string)
| EV_broken_refs (n : nat)
| EV_relation_differences (n : nat)
| EV_text (text : string)
| EV_issues_and_differences (n_issues n_diffs : nat)
| EV_notesmaster_issues (n : nat)
| EV_misplaced (n : nat) (misplaced_types : list string).

Record hypothesis := {
  h_title : string;
  h_evidence : evidence;
  h_fix : string
}.

Definition issue_has_type (t : string) (i : issue) : bool := issue_type i =? t.
Definition issue_type_contains (t : string) (i : issue) : bool :=
  Py.contains t (issue_type i).
Definition diff_has_type (t : string) (d : diff) : bool := diff_type d =? t.
Definition diff_type_contains (t : string) (d : diff) : bool :=
  Py.contains t (diff_type d).

(** [d.get('severity') in ('CRITICAL', 'HIGH')] *)
Definition critical_or_high (d : diff) : bool :=
  match d_severity d with
  | CRITICAL | HIGH => true
  | _ => false
  end.

Definition is_critical (d : diff) : bool :=
  match d_severity d with
  | CRITICAL => true
  | _ => false
  end.

Definition misplaced_title : string :=
  "CRITICAL: Misplaced relations in presentation.xml.rels".

Definition misplaced_fix : string :=
  "Fix the PHP merge code: when cloning resources, ensure relations are added to the correct .rels file:
   - Images -> slide/layout/master .rels
   - SlideLayouts -> slideMaster .rels
   - NotesSlides -> slide .rels
   - Check setResource() and addRelation() methods".

(** The rule for misplaced relations: the issues and diffs that trigger it
    and the hypothesis it builds. *)
Definition invalid_pres_rels_of (issues : list issue) : list issue :=
  filter (fun i => issue_type_contains "PRES_RELS_INVALID" i ||
                   issue_has_type "INVALID_PRESENTATION_RELS" i) issues.

Definition pres_rels_diffs_of (diffs : list diff) : list diff :=
  filter (fun d => diff_type_contains "PRES_RELS_TYPE_COUNT" d && is_critical d) diffs.

Definition misplaced_types_of (invalid_pres_rels : list issue) (pres_rels_diffs : list diff)
  : list string :=
  PySet.of_list
    (flat_map
       (fun i =>
          match i with
          | INVALID_PRESENTATION_RELS invalid_relations => map inv_type invalid_relations
          | _ => []
          end)
       invalid_pres_rels ++
     flat_map
       (fun d =>
          match d_body d with
          | PRES_RELS_TYPE_COUNT_CHANGED rel_type corrupt_count repaired_count _ _ =>
              if Nat.ltb repaired_count corrupt_count then [rel_type] else []
          | _ => []
          end)
       pres_rels_diffs).

Definition misplaced_hypothesis (issues : list issue) (diffs : list diff) : hypothesis :=
  let invalid_pres_rels := invalid_pres_rels_of issues in
  let pres_rels_diffs := pres_rels_diffs_of diffs in
  {| h_title := misplaced_title;
     h_evidence :=
       EV_misplaced (List.length invalid_pres_rels)
         (misplaced_types_of invalid_pres_rels pres_rels_diffs);
     h_fix := misplaced_fix |}.

(** The rules before it, each appending at most one hypothesis. *)
Definition appended_hypotheses (issues : list issue) (diffs : list diff) : list hypothesis :=
  let nonempty {A} (l : list A) := match l with [] => false | _ :: _ => true end in
  let dup_rids := filter (issue_has_type "DUPLICATE_RID") issues in
  let dup_ids :=
    filter (fun i => issue_has_type "DUPLICATE_SLIDE_ID" i ||
                     issue_has_type "DUPLICATE_MASTER_ID" i) issues in
  let no_master := filter (issue_has_type "LAYOUT_NO_MASTER") issues in
  let orphans := filter (diff_has_type "FILE_REMOVED") diffs in
  let broken := filter (issue_has_type "BROKEN_REF") issues in
  let rel_changes := filter (diff_type_contains "RELATION") diffs in
  let slide_issues := filter (diff_has_type "SLIDE_ID_LIST_CHANGED") diffs in
  let noteslide_issues := filter (issue_type_contains "NOTESLIDE") issues in
  let noteslide_diffs :=
    filter (fun d => diff_type_contains "NOTESLIDE" d && critical_or_high d) diffs in
  let section_issues := filter (issue_type_contains "SECTION") issues in
  let section_diffs :=
    filter (fun d => diff_type_contains "SECTION" d && critical_or_high d) diffs in
  let app_issues := filter (issue_type_contains "APP_") issues in
  let app_diffs :=
    filter (fun d => diff_type_contains "APP_" d && critical_or_high d) diffs in
  let notesmaster_issues := filter (issue_type_contains "NOTESMASTER") issues in
  (if nonempty dup_rids then
     [ {| h_title := "CRITICAL: Duplicate rId in .rels files";
          h_evidence :=
            EV_duplicate_rids (List.length dup_rids)
              (flat_map (fun i => match i with
                                  | DUPLICATE_RID _ rid _ => [rid]
                                  | _ => []
                                  end) (firstn 3 dup_rids));
          h_fix := "Remap rId when merging to avoid collisions (use incremental counter per .rels file)" |} ]
   else []) ++
  (if nonempty dup_ids then
     [ {| h_title := "CRITICAL: Duplicate slideId/slideMasterId in presentation.xml";
          h_evidence := EV_duplicate_ids (List.length dup_ids);
          h_fix := "Generate unique IDs when merging (use max existing ID + offset)" |} ]
   else []) ++
  (if nonempty no_master then
     [ {| h_title := "SlideLayout missing slideMaster relation";
          h_evidence :=
            EV_layouts_without_master (List.length no_master)
              (flat_map (fun i => match i with
                                  | LAYOUT_NO_MASTER part => [part]
                                  | _ => []
                                  end) (firstn 3 no_master));
          h_fix := "Ensure slideLayout .rels always includes relation to its slideMaster" |} ]
   else []) ++
  (if nonempty orphans then
     [ {| h_title := "Orphan Parts (unreferenced files)";
          h_evidence :=
            EV_files_removed (List.length orphans)
              (flat_map (fun d => match d_body d with
                                  | FILE_REMOVED file => [file]
                                  | _ => []
                                  end) (firstn 5 orphans));
          h_fix := "After merge, scan all files and remove any not referenced in .rels" |} ]
   else []) ++
  (if nonempty broken then
     [ {| h_title := "Broken Relations (rId points to non-existent part)";
          h_evidence := EV_broken_refs (List.length broken);
          h_fix := "After adding parts, validate all relations resolve to existing files" |} ]
   else []) ++
  (if nonempty rel_changes then
     [ {| h_title := "Invalid Relations Structure";
          h_evidence := EV_relation_differences (List.length rel_changes);
          h_fix := "Ensure rId remapping is consistent across all XML files" |} ]
   else []) ++
  (if nonempty slide_issues then
     [ {| h_title := "Inconsistent slideIdList";
          h_evidence := EV_text "slideIdList in presentation.xml differs";
          h_fix := "Ensure slideId values are unique and rId references match .rels" |} ]
   else []) ++
  (if nonempty noteslide_issues || nonempty noteslide_diffs then
     [ {| h_title := "NoteSlide Reference Issues";
          h_evidence :=
            EV_issues_and_differences (List.length noteslide_issues)
              (List.length noteslide_diffs);
          h_fix := "Ensure bidirectional Slide <-> NoteSlide references are updated when cloning/renaming" |} ]
   else []) ++
  (if nonempty section_issues || nonempty section_diffs then
     [ {| h_title := "Section Reference Issues";
          h_evidence :=
            EV_issues_and_differences (List.length section_issues)
              (List.length section_diffs);
          h_fix := "Update section slideId references after merge when slide IDs are renumbered" |} ]
   else []) ++
  (if nonempty app_issues || nonempty app_diffs then
     [ {| h_title := "App Properties Count Mismatch";
          h_evidence :=
            EV_issues_and_differences (List.length app_issues) (List.length app_diffs);
          h_fix := "Update docProps/app.xml slide and note counts after merge" |} ]
   else []) ++
  (if nonempty notesmaster_issues then
     [ {| h_title := "NotesMaster Missing or Invalid";
          h_evidence := EV_notesmaster_issues (List.length notesmaster_issues);
          h_fix := "Ensure notesMaster is properly referenced in presentation.xml and all notesSlides" |} ]
   else []).

(** [_generate_hypotheses], on [self.corrupt.issues] and [self.diffs]:
    the misplaced-relations hypothesis is inserted at index 0. *)
Definition _generate_hypotheses (issues : list issue) (diffs : list diff) : list hypothesis :=
  let hypotheses := appended_hypotheses issues diffs in
  let hypotheses :=
    match invalid_pres_rels_of issues, pres_rels_diffs_of diffs with
    | [], [] => hypotheses
    | _, _ => misplaced_hypothesis issues diffs :: hypotheses
    end in
  match hypotheses with
  | [] =>
      [ {| h_title := "No obvious issues detected";
           h_evidence := EV_text "Differences may be formatting or optional elements";
           h_fix := "Check XML content diffs in detail" |} ]
  | _ :: _ => hypotheses
  end.

(** ** Notions used in the statements *)

(** The loops that fill a [defaultdict] ([rid_counts], [by_type],
    [hash_map]) have one shape: entry [key a] is updated by [g] for each
    [a] in turn.  [grouped] is the dictionary they end with. *)
Section Grouping.
Context {A K V : Type} `{PyEq K}.
Variables (key : A -> K) (g : V -> A -> V) (dflt : V).

Definition group_step (d : list (K * V)) (a : A) : list (K * V) :=
  PyDict.set d (key a) (g (PyDict.get_default d (key a) dflt) a).

Definition group_value (l : list A) (k : K) : V :=
  fold_left g (filter (fun a => py_eqb (key a) k) l) dflt.

Definition grouped (l : list A) : list (K * V) :=
  map (fun k => (k, group_value l k)) (PySet.of_list (map key l)).
End Grouping.

(** The segments that the resolver loop accumulates. *)
Definition proper_segment (seg : string) : Prop :=
  seg <> ".." /\ seg <> "." /\ seg <> "".

(** The check of the validator that appends an issue of a given type
    ([Build] for the issues appended while the model is built). *)
Inductive check :=
| Build | References | ContentTypes | LayoutChain | PresentationIds
| PresentationRels | Sections | NotesMaster | Noteslides | AppProperties
| Comments.

Definition issue_check (i : issue) : check :=
  match i with
  | I_CRITICAL | I_ERROR _ => Build
  | DUPLICATE_RID _ _ _ | BROKEN_REF _ _ _ => References
  | MISSING_CONTENT_TYPE _ => ContentTypes
  | MISSING_LAYOUT_RELS _ | LAYOUT_NO_MASTER _ => LayoutChain
  | DUPLICATE_SLIDE_ID _ | DUPLICATE_MASTER_ID _ => PresentationIds
  | INVALID_PRESENTATION_RELS _ | PRES_RELS_INVALID _ _ _ _ => PresentationRels
  | SECTION_INVALID_SLIDE_REF _ _ => Sections
  | MISSING_NOTESMASTER_REL _ => NotesMaster
  | NOTESLIDE_MISSING_SLIDE_REF _ _ | NOTESLIDE_NO_MASTER _ => Noteslides
  | APP_SLIDE_COUNT_MISMATCH _ _ | APP_NOTE_COUNT_MISMATCH _ _ => AppProperties
  | INVALID_COMMENT_AUTHORS_XML | INVALID_COMMENT_XML _
  | COMMENT_INVALID_AUTHOR_ID _ _ => Comments
  end.

Definition check_eqb (a b : check) : bool :=
  match a, b with
  | Build, Build | References, References | ContentTypes, ContentTypes
  | LayoutChain, LayoutChain | PresentationIds, PresentationIds
  | PresentationRels, PresentationRels | Sections, Sections
  | NotesMaster, NotesMaster | Noteslides, Noteslides
  | AppProperties, AppProperties | Comments, Comments => true
  | _, _ => false
  end.

(** The issues of one check. *)
Definition issues_of (c : check) (l : list issue) : list issue :=
  filter (fun i => check_eqb (issue_check i) c) l.

(** The archive has a manifest and it is not well-formed. *)
Definition manifest_malformed (fromstring : string -> option element) (z : zipfile) : bool :=
  Py.mem "[Content_Types].xml" (namelist z) &&
  match fromstring (zip_read z "[Content_Types].xml") with
  | None => true
  | Some _ => false
  end.






(** The sub-comparison that appends a diff of a given type. *)
Inductive comparison :=
| FileLists | ContentTypeTable | RelationSets | PresentationXml | SectionLists
| NotesSlides | AppProps | CommentFiles | XmlContent | HashMatches.

Definition diff_origin (d : diff) : comparison :=
  match d_body d with
  | FILE_REMOVED _ | FILE_ADDED _ => FileLists
  | CONTENT_TYPE_REMOVED _ | CONTENT_TYPE_CHANGED _ _ _ => ContentTypeTable
  | RELATION_REMOVED _ _ _ | RELATION_TARGET_CHANGED _ _ _ _ => RelationSets
  | SLIDE_ID_LIST_CHANGED _ _ | PRES_RELS_TYPE_COUNT_CHANGED _ _ _ _ _
  | PRES_RELS_TOTAL_COUNT_CHANGED _ _ => PresentationXml
  | SECTION_REMOVED _ | SECTION_ADDED _ | SECTION_SLIDES_CHANGED _ _ _ => SectionLists
  | NOTESLIDE_REMOVED _ | NOTESLIDE_ADDED _ | NOTESLIDE_SLIDE_REF_CHANGED _ _ _
  | NOTESLIDE_MASTER_REF_CHANGED _ _ _ => NotesSlides
  | APP_SLIDE_COUNT_CHANGED _ _ | APP_NOTE_COUNT_CHANGED _ _
  | APP_HIDDEN_SLIDE_COUNT_CHANGED _ _ => AppProps
  | COMMENT_AUTHORS_CHANGED _ _ | COMMENT_FILE_REMOVED _ | COMMENT_FILE_ADDED _
  | COMMENT_COUNT_CHANGED _ _ _ => CommentFiles
  | XML_CONTENT_CHANGED _ _ _ | SLIDE_CLRMAPOVR_RID_CHANGED _ _ _
  | SLIDE_SHAPE_COUNT_CHANGED _ _ _ | SLIDEMASTER_LAYOUT_COUNT_CHANGED _ _ _
  | SLIDELAYOUT_TYPE_CHANGED _ _ _ => XmlContent
  | RENAMED_IDENTICAL_CONTENT _ _ _ => HashMatches
  end.

(** What [_parse_rels] stores for a relationship of source [source]. *)
Definition resolved_as_parsed (source : string) (r : relationship) : Prop :=
  rel_resolved r =
  Some (if rel_mode r =? "External" then rel_target r
        else _resolve_target source (rel_target r)).

(** The relationship graph as [_parse_all_rels] builds it. *)
Definition relations_as_parsed (s : analyzer) : Prop :=
  NoDup (PyDict.keys (relations s)) /\
  forall source rels r,
    In (source, rels) (relations s) -> In r rels -> resolved_as_parsed source r.

(** The issues appended while the package model is built. *)
Definition build_issue (i : issue) : Prop :=
  i = I_CRITICAL \/ exists rels_path, i = I_ERROR rels_path.

(** The entry of [invalid_relations] for a misplaced relationship. *)
Definition invalid_entry (rel : relationship) : invalid_relation :=
  {| inv_rid := rel_id rel;
     inv_type := rel_type_name rel;
     inv_target := rel_target rel;
     inv_reason := PyDict.get_default INVALID_PRES_REL_TYPES (rel_type_name rel) "" |}.

(** The per-kind issue of [_validate_presentation_rels] for kind [k]. *)
Definition kind_issue (invalid : list invalid_relation) (k : string) : issue :=
  let group := filter (fun r => inv_type r =? k) invalid in
  PRES_RELS_INVALID k (List.length group) (map inv_rid group) (map inv_target group).

(** The [DUPLICATE_RID] issues of one relationship id of one source. *)
Definition duplicate_rid_issues_for (source rid : string) (l : list issue) : list issue :=
  filter
    (fun i =>
       match i with
       | DUPLICATE_RID s r _ => (s =? source) && (r =? rid)
       | _ => false
       end)
    l.

(** Text made of ASCII characters. *)
Fixpoint ascii_only (s : string) : bool :=
  match s with
  | EmptyString => true
  | String c s' => Nat.ltb (nat_of_ascii c) 128 && ascii_only s'
  end.

(** The issues and the diffs that no rule of [_generate_hypotheses] looks
    at: the issues of the types that no rule names, the diffs of the types
    that no rule names, and the diffs that a rule names but drops for
    their severity. *)
Definition unobserved_issue (i : issue) : bool :=
  match i with
  | I_CRITICAL | I_ERROR _ | MISSING_CONTENT_TYPE _ | MISSING_LAYOUT_RELS _
  | INVALID_COMMENT_AUTHORS_XML | INVALID_COMMENT_XML _
  | COMMENT_INVALID_AUTHOR_ID _ _ => true
  | _ => false
  end.

Definition unobserved_diff (d : diff) : bool :=
  match d_body d with
  | FILE_REMOVED _ | RELATION_REMOVED _ _ _ | RELATION_TARGET_CHANGED _ _ _ _
  | SLIDE_ID_LIST_CHANGED _ _ => false
  | NOTESLIDE_REMOVED _ | NOTESLIDE_ADDED _ | NOTESLIDE_SLIDE_REF_CHANGED _ _ _
  | NOTESLIDE_MASTER_REF_CHANGED _ _ _
  | SECTION_REMOVED _ | SECTION_ADDED _ | SECTION_SLIDES_CHANGED _ _ _
  | APP_SLIDE_COUNT_CHANGED _ _ | APP_NOTE_COUNT_CHANGED _ _
  | APP_HIDDEN_SLIDE_COUNT_CHANGED _ _ => negb (critical_or_high d)
  | PRES_RELS_TYPE_COUNT_CHANGED _ _ _ _ _ => negb (is_critical d)
  | _ => true
  end.

(** The hypothesis appended when no rule fires. *)
Definition fallback_hypothesis : hypothesis :=
  {| h_title := "No obvious issues detected";
     h_evidence := EV_text "Differences may be formatting or optional elements";
     h_fix := "Check XML content diffs in detail" |}.

(** The titles of the rules of [appended_hypotheses], in the order of the
    rules, and the entries of a list that a list of flags selects. *)
Definition rule_titles : list string :=
  [ "CRITICAL: Duplicate rId in .rels files";
    "CRITICAL: Duplicate slideId/slideMasterId in presentation.xml";
    "SlideLayout missing slideMaster relation";
    "Orphan Parts (unreferenced files)";
    "Broken Relations (rId points to non-existent part)";
    "Invalid Relations Structure";
    "Inconsistent slideIdList";
    "NoteSlide Reference Issues";
    "Section Reference Issues";
    "App Properties Count Mismatch";
    "NotesMaster Missing or Invalid" ].

Fixpoint select {A} (flags : list bool) (l : list A) : list A :=
  match flags, l with
  | b :: flags', x :: l' => (if b then [x] else []) ++ select flags' l'
  | _, _ => []
  end.

(** The parts of a model whose digest is [h], in the order of the digest
    table. *)
Definition parts_with_digest (s : analyzer) (h : string) : list string :=
  map fst (filter (fun nh => snd nh =? h) (hashes s)).

(** The part that a diff of the XML content comparison is about. *)
Definition diff_file (d : diff) : option string :=
  match d_body d with
  | XML_CONTENT_CHANGED file _ _ | SLIDE_CLRMAPOVR_RID_CHANGED file _ _
  | SLIDE_SHAPE_COUNT_CHANGED file _ _ | SLIDEMASTER_LAYOUT_COUNT_CHANGED file _ _
  | SLIDELAYOUT_TYPE_CHANGED file _ _ => Some file
  | _ => None
  end.

(** What [_parse_all_rels] makes of one entry of the part table: the
    relationships that it stores for a well-formed descriptor, and whether
    it records the entry as a descriptor that is not well-formed. *)
Definition descriptor_relations (fromstring : string -> option element)
    (nc : string * string) : list (string * list relationship) :=
  if Py.endswith ".rels" (fst nc) then
    match fromstring (snd nc), _rels_to_part (fst nc) with
    | Some root, Ok source_part =>
        [ (source_part,
           map (parse_relationship source_part)
               (ET.findall_child (qname NS.rel "Relationship") root)) ]
    | _, _ => []
    end
  else [].

Definition malformed_descriptor (fromstring : string -> option element)
    (nc : string * string) : bool :=
  Py.endswith ".rels" (fst nc) &&
  match fromstring (snd nc) with
  | None => true
  | Some _ => false
  end.

(** Strings of decimal digits. *)
Fixpoint digits_only (s : string) : bool :=
  match s with
  | EmptyString => true
  | String c s' => is_digit c && digits_only s'
  end.

(** The names that [re.match(prefix + r'\d+' + suffix + '$', name)]
    accepts: a non-empty run of digits between prefix and suffix, and
    possibly a final newline. *)
Definition numbered_name (prefix suffix name : string) : Prop :=
  exists digits,
    digits <> "" /\ digits_only digits = true /\
    (name = prefix ++ digits ++ suffix \/ name = prefix ++ digits ++ suffix ++ newline)%string.

(** [layout_rels_path] of [_validate_layout_master_chain]. *)
Definition layout_rels_path (name : string) : string :=
  (Py.replace "ppt/slideLayouts/" "ppt/slideLayouts/_rels/" name ++ ".rels")%string.

(** The archive has the part and its content is well-formed. *)
Definition readable (fromstring : string -> option element) (z : zipfile)
    (name : string) : bool :=
  Py.mem name (namelist z) &&
  match fromstring (zip_read z name) with
  | Some _ => true
  | None => false
  end.

(** The order in which [analyze] runs the checks and [compare] the
    sub-comparisons, and lists whose entries follow an order. *)
Definition check_rank (c : check) : nat :=
  match c with
  | Build => 0 | References => 1 | ContentTypes => 2 | LayoutChain => 3
  | PresentationIds => 4 | PresentationRels => 5 | Sections => 6 | NotesMaster => 7
  | Noteslides => 8 | AppProperties => 9 | Comments => 10
  end.

Definition comparison_rank (c : comparison) : nat :=
  match c with
  | FileLists => 0 | ContentTypeTable => 1 | RelationSets => 2 | PresentationXml => 3
  | SectionLists => 4 | NotesSlides => 5 | AppProps => 6 | CommentFiles => 7
  | XmlContent => 8 | HashMatches => 9
  end.

Fixpoint ordered_by {A} (rank : A -> nat) (l : list A) : Prop :=
  match l with
  | [] => True
  | a :: l' => (forall b, In b l' -> rank a <= rank b) /\ ordered_by rank l'
  end.

(** The number of parts of an archive that [is_part] accepts, each name
    counted once. *)
Definition archive_count (is_part : string -> bool) (z : zipfile) : Z :=
  Z.of_nat (List.length (filter is_part (PySet.of_list (namelist z)))).

(** ** Sample packages *)

(** Small archives for the examples below.  [fromstring] is the parse of
    the few documents that occur in them, every other byte string is not
    well-formed XML; [sha256_16] is a stand-in digest that tells different
    contents apart. *)
Module Sample.

Definition content_types_xml : string :=
  "<Types xmlns='http://schemas.openxmlformats.org/package/2006/content-types'><Default Extension='rels' ContentType='application/vnd.openxmlformats-package.relationships+xml'/><Default Extension='xml' ContentType='application/xml'/><Default Extension='png' ContentType='image/png'/><Override PartName='/ppt/presentation.xml' ContentType='application/vnd.openxmlformats-officedocument.presentationml.presentation.main+xml'/></Types>".

Definition content_types_root : element :=
  Element (qname NS.ct "Types") [] None
    [ Element (qname NS.ct "Default")
        [("Extension", "rels");
         ("ContentType", "application/vnd.openxmlformats-package.relationships+xml")]
        None [];
      Element (qname NS.ct "Default")
        [("Extension", "xml"); ("ContentType", "application/xml")] None [];
      Element (qname NS.ct "Default")
        [("Extension", "png"); ("ContentType", "image/png")] None [];
      Element (qname NS.ct "Override")
        [("PartName", "/ppt/presentation.xml");
         ("ContentType",
          "application/vnd.openxmlformats-officedocument.presentationml.presentation.main+xml")]
        None [] ].

(** The manifest without the override. *)
Definition content_types_plain_xml : string :=
  "<Types xmlns='http://schemas.openxmlformats.org/package/2006/content-types'><Default Extension='rels' ContentType='application/vnd.openxmlformats-package.relationships+xml'/><Default Extension='xml' ContentType='application/xml'/><Default Extension='png' ContentType='image/png'/></Types>".

Definition content_types_plain_root : element :=
  Element (qname NS.ct "Types") [] None
    [ Element (qname NS.ct "Default")
        [("Extension", "rels");
         ("ContentType", "application/vnd.openxmlformats-package.relationships+xml")]
        None [];
      Element (qname NS.ct "Default")
        [("Extension", "xml"); ("ContentType", "application/xml")] None [];
      Element (qname NS.ct "Default")
        [("Extension", "png"); ("ContentType", "image/png")] None [] ].

Definition presentation_xml : string :=
  "<p:presentation xmlns:p='http://schemas.openxmlformats.org/presentationml/2006/main'/>".

Definition presentation_root : element :=
  Element (qname NS.p "presentation") [] None [].

Definition relationship_element (rid type target : string) : element :=
  Element (qname NS.rel "Relationship")
    [("Id", rid); ("Type", type); ("Target", target)] None [].

(** A descriptor with one relationship of kind image. *)
Definition image_rels_xml : string :=
  "<Relationships xmlns='http://schemas.openxmlformats.org/package/2006/relationships'><Relationship Id='rId1' Type='http://schemas.openxmlformats.org/officeDocument/2006/relationships/image' Target='media/pic1.png'/></Relationships>".

Definition image_rels_root : element :=
  Element (qname NS.rel "Relationships") [] None
    [ relationship_element "rId1" REL_TYPES.image "media/pic1.png" ].

(** A descriptor without relationships. *)
Definition empty_rels_xml : string :=
  "<Relationships xmlns='http://schemas.openxmlformats.org/package/2006/relationships'/>".

Definition empty_rels_root : element :=
  Element (qname NS.rel "Relationships") [] None [].

(** A descriptor with two relationships of kind image. *)
Definition two_images_rels_xml : string :=
  "<Relationships xmlns='http://schemas.openxmlformats.org/package/2006/relationships'><Relationship Id='rId1' Type='http://schemas.openxmlformats.org/officeDocument/2006/relationships/image' Target='media/pic1.png'/><Relationship Id='rId2' Type='http://schemas.openxmlformats.org/officeDocument/2006/relationships/image' Target='media/pic2.png'/></Relationships>".

Definition two_images_rels_root : element :=
  Element (qname NS.rel "Relationships") [] None
    [ relationship_element "rId1" REL_TYPES.image "media/pic1.png";
      relationship_element "rId2" REL_TYPES.image "media/pic2.png" ].

(** A descriptor in which [rId1] occurs twice. *)
Definition duplicate_rels_xml : string :=
  "<Relationships xmlns='http://schemas.openxmlformats.org/package/2006/relationships'><Relationship Id='rId1' Type='http://schemas.openxmlformats.org/officeDocument/2006/relationships/image' Target='../media/pic1.png'/><Relationship Id='rId1' Type='http://schemas.openxmlformats.org/officeDocument/2006/relationships/image' Target='../media/pic2.png'/><Relationship Id='rId2' Type='http://schemas.openxmlformats.org/officeDocument/2006/relationships/image' Target='../..'/></Relationships>".

Definition duplicate_rels_root : element :=
  Element (qname NS.rel "Relationships") [] None
    [ relationship_element "rId1" REL_TYPES.image "../media/pic1.png";
      relationship_element "rId1" REL_TYPES.image "../media/pic2.png";
      relationship_element "rId2" REL_TYPES.image "../.." ].

(** A slide descriptor with an external hyperlink and an image. *)
Definition hyperlink_rels_xml : string :=
  "<Relationships xmlns='http://schemas.openxmlformats.org/package/2006/relationships'><Relationship Id='rId1' Type='http://schemas.openxmlformats.org/officeDocument/2006/relationships/hyperlink' Target='http://example.com/' TargetMode='External'/><Relationship Id='rId2' Type='http://schemas.openxmlformats.org/officeDocument/2006/relationships/image' Target='../media/pic1.png'/></Relationships>".

Definition hyperlink_element : element :=
  Element (qname NS.rel "Relationship")
    [("Id", "rId1");
     ("Type", "http://schemas.openxmlformats.org/officeDocument/2006/relationships/hyperlink");
     ("Target", "http://example.com/");
     ("TargetMode", "External")] None [].

Definition hyperlink_rels_root : element :=
  Element (qname NS.rel "Relationships") [] None
    [ hyperlink_element;
      relationship_element "rId2" REL_TYPES.image "../media/pic1.png" ].

Definition slide_xml : string :=
  "<p:sld xmlns:p='http://schemas.openxmlformats.org/presentationml/2006/main'/>".

Definition slide_root : element := Element (qname NS.p "sld") [] None [].

Definition png : string := "PNG".

Definition parses : list (string * element) :=
  [ (content_types_xml, content_types_root);
    (content_types_plain_xml, content_types_plain_root);
    (presentation_xml, presentation_root);
    (image_rels_xml, image_rels_root);
    (empty_rels_xml, empty_rels_root);
    (two_images_rels_xml, two_images_rels_root);
    (duplicate_rels_xml, duplicate_rels_root);
    (hyperlink_rels_xml, hyperlink_rels_root);
    (slide_xml, slide_root) ].

Definition fromstring (content : string) : option element :=
  PyDict.get parses content.

Definition sha256_16 (content : string) : string := content.

Definition analyze : zipfile -> result analyzer := analyze fromstring sha256_16.
Definition compare : analyzer -> analyzer -> result (list diff) := compare fromstring.

(** A package whose presentation descriptor holds one image relationship,
    and its repaired version. *)
Definition corrupt : zipfile :=
  [ ("[Content_Types].xml", content_types_xml);
    ("ppt/presentation.xml", presentation_xml);
    ("ppt/_rels/presentation.xml.rels", image_rels_xml);
    ("ppt/media/pic1.png", png) ].

Definition repaired : zipfile :=
  [ ("[Content_Types].xml", content_types_xml);
    ("ppt/presentation.xml", presentation_xml);
    ("ppt/_rels/presentation.xml.rels", empty_rels_xml);
    ("ppt/media/pic1.png", png) ].

(** The same two packages without the presentation part itself. *)
Definition corrupt_no_presentation : zipfile :=
  [ ("[Content_Types].xml", content_types_xml);
    ("ppt/_rels/presentation.xml.rels", image_rels_xml);
    ("ppt/media/pic1.png", png) ].

Definition repaired_no_presentation : zipfile :=
  [ ("[Content_Types].xml", content_types_xml);
    ("ppt/_rels/presentation.xml.rels", empty_rels_xml);
    ("ppt/media/pic1.png", png) ].

(** Two image relationships in the presentation descriptor. *)
Definition two_images : zipfile :=
  [ ("[Content_Types].xml", content_types_xml);
    ("ppt/presentation.xml", presentation_xml);
    ("ppt/_rels/presentation.xml.rels", two_images_rels_xml);
    ("ppt/media/pic1.png", png);
    ("ppt/media/pic2.png", png) ].

(** A slide whose descriptor repeats [rId1]. *)
Definition duplicate_rid : zipfile :=
  [ ("[Content_Types].xml", content_types_xml);
    ("ppt/slides/slide1.xml", slide_xml);
    ("ppt/slides/_rels/slide1.xml.rels", duplicate_rels_xml);
    ("ppt/media/pic1.png", png) ].

(** A slide with an external hyperlink. *)
Definition with_hyperlink : zipfile :=
  [ ("[Content_Types].xml", content_types_xml);
    ("ppt/slides/slide1.xml", slide_xml);
    ("ppt/slides/_rels/slide1.xml.rels", hyperlink_rels_xml);
    ("ppt/media/pic1.png", png) ].

(** A manifest that is not well-formed. *)
Definition malformed_manifest : zipfile :=
  [ ("[Content_Types].xml", "<Types") ].

(** An entry named like a descriptor outside any [_rels] directory, with
    well-formed and with malformed content. *)
Definition stray_rels : zipfile :=
  [ ("[Content_Types].xml", content_types_xml);
    ("foo.rels", empty_rels_xml) ].

Definition stray_rels_malformed : zipfile :=
  [ ("[Content_Types].xml", content_types_xml);
    ("foo.rels", "<Relationships") ].

(** A package with one more part, override and relationship than
    [repaired]. *)
Definition extended : zipfile :=
  [ ("[Content_Types].xml", content_types_xml);
    ("ppt/presentation.xml", presentation_xml);
    ("ppt/_rels/presentation.xml.rels", image_rels_xml);
    ("ppt/media/pic1.png", png);
    ("ppt/media/pic2.png", png) ].

Definition reduced : zipfile :=
  [ ("[Content_Types].xml", content_types_plain_xml);
    ("ppt/presentation.xml", presentation_xml);
    ("ppt/_rels/presentation.xml.rels", empty_rels_xml);
    ("ppt/media/pic1.png", png) ].

(** The model of an archive whose analysis completes. *)
Definition model (z : zipfile) : analyzer :=
  match analyze z with
  | Ok s => s
  | Raise _ => new_analyzer
  end.

(** The diffs of two models whose comparison completes. *)
Definition diffs_of (c r : analyzer) : list diff :=
  match compare c r with
  | Ok diffs => diffs
  | Raise _ => []
  end.

Definition corrupt_vs_repaired : list diff := diffs_of (model corrupt) (model repaired).
Definition extended_vs_reduced : list diff := diffs_of (model extended) (model reduced).

End Sample.

(** ** Further sample packages *)

(** Archives with sections, layouts, notes, comments and application
    properties.  [fromstring] parses the documents below and those of
    [Sample]. *)
Module Deck.

Definition p_element (local : string) (attrib : list (string * string))
    (children : list element) : element :=
  Element (qname NS.p local) attrib None children.

(** A presentation whose section refers to a slide id that the
    presentation's slide list does not have. *)
Definition sectioned_presentation_xml : string :=
  "<p:presentation xmlns:p='http://schemas.openxmlformats.org/presentationml/2006/main'><p:sldIdLst><p:sldId id='256'/></p:sldIdLst><p:extLst><p:sectionLst><p:section name='Intro' id='s1'><p:sldIdLst><p:sldId id='999'/></p:sldIdLst></p:section></p:sectionLst></p:extLst></p:presentation>".

Definition sectioned_presentation_root : element :=
  p_element "presentation" []
    [ p_element "sldIdLst" [] [ p_element "sldId" [("id", "256")] [] ];
      p_element "extLst" []
        [ p_element "sectionLst" []
            [ p_element "section" [("name", "Intro"); ("id", "s1")]
                [ p_element "sldIdLst" [] [ p_element "sldId" [("id", "999")] [] ] ] ] ] ].

(** Application properties: one slide, no notes; and the same with a
    count of hidden slides that is not a number. *)
Definition ep_element (local text : string) : element :=
  Element (qname NS.ep local) [] (Some text) [].

Definition app_xml : string :=
  "<Properties xmlns='http://schemas.openxmlformats.org/officeDocument/2006/extended-properties'><Slides>1</Slides><Notes>0</Notes><HiddenSlides>0</HiddenSlides></Properties>".

Definition app_root : element :=
  Element (qname NS.ep "Properties") [] None
    [ ep_element "Slides" "1"; ep_element "Notes" "0"; ep_element "HiddenSlides" "0" ].

Definition app_hidden_unreadable_xml : string :=
  "<Properties xmlns='http://schemas.openxmlformats.org/officeDocument/2006/extended-properties'><Slides>1</Slides><Notes>0</Notes><HiddenSlides>none</HiddenSlides></Properties>".

Definition app_hidden_unreadable_root : element :=
  Element (qname NS.ep "Properties") [] None
    [ ep_element "Slides" "1"; ep_element "Notes" "0"; ep_element "HiddenSlides" "none" ].

(** Application properties whose slide count is not a number. *)
Definition app_slides_unreadable_xml : string :=
  "<Properties xmlns='http://schemas.openxmlformats.org/officeDocument/2006/extended-properties'><Slides>one</Slides><Notes>0</Notes></Properties>".

Definition app_slides_unreadable_root : element :=
  Element (qname NS.ep "Properties") [] None
    [ ep_element "Slides" "one"; ep_element "Notes" "0" ].

(** A presentation that lists slide id 256 twice. *)
Definition repeated_ids_presentation_xml : string :=
  "<p:presentation xmlns:p='http://schemas.openxmlformats.org/presentationml/2006/main'><p:sldMasterIdLst><p:sldMasterId id='2147483648'/></p:sldMasterIdLst><p:sldIdLst><p:sldId id='256'/><p:sldId id='257'/><p:sldId id='256'/></p:sldIdLst></p:presentation>".

Definition repeated_ids_presentation_root : element :=
  p_element "presentation" []
    [ p_element "sldMasterIdLst" [] [ p_element "sldMasterId" [("id", "2147483648")] [] ];
      p_element "sldIdLst" []
        [ p_element "sldId" [("id", "256")] [];
          p_element "sldId" [("id", "257")] [];
          p_element "sldId" [("id", "256")] [] ] ].

(** A manifest with defaults for [rels] and [png] and an override for the
    presentation part. *)
Definition manifest_without_xml_xml : string :=
  "<Types xmlns='http://schemas.openxmlformats.org/package/2006/content-types'><Default Extension='rels' ContentType='application/vnd.openxmlformats-package.relationships+xml'/><Default Extension='png' ContentType='image/png'/><Override PartName='/ppt/presentation.xml' ContentType='application/vnd.openxmlformats-officedocument.presentationml.presentation.main+xml'/></Types>".

Definition manifest_without_xml_root : element :=
  Element (qname NS.ct "Types") [] None
    [ Element (qname NS.ct "Default")
        [("Extension", "rels");
         ("ContentType", "application/vnd.openxmlformats-package.relationships+xml")]
        None [];
      Element (qname NS.ct "Default")
        [("Extension", "png"); ("ContentType", "image/png")] None [];
      Element (qname NS.ct "Override")
        [("PartName", "/ppt/presentation.xml");
         ("ContentType",
          "application/vnd.openxmlformats-officedocument.presentationml.presentation.main+xml")]
        None [] ].

Definition layout_xml : string :=
  "<p:sldLayout xmlns:p='http://schemas.openxmlformats.org/presentationml/2006/main'/>".

Definition layout_root : element := p_element "sldLayout" [] [].

(** Two slides, listed in either order. *)
Definition slide_entry (id rid : string) : element :=
  p_element "sldId" [("id", id); (qname NS.r "id", rid)] [].

Definition two_slides_presentation_xml : string :=
  "<p:presentation xmlns:p='http://schemas.openxmlformats.org/presentationml/2006/main' xmlns:r='http://schemas.openxmlformats.org/officeDocument/2006/relationships'><p:sldIdLst><p:sldId id='256' r:id='rId2'/><p:sldId id='257' r:id='rId3'/></p:sldIdLst></p:presentation>".

Definition two_slides_presentation_root : element :=
  p_element "presentation" []
    [ p_element "sldIdLst" [] [ slide_entry "256" "rId2"; slide_entry "257" "rId3" ] ].

Definition swapped_slides_presentation_xml : string :=
  "<p:presentation xmlns:p='http://schemas.openxmlformats.org/presentationml/2006/main' xmlns:r='http://schemas.openxmlformats.org/officeDocument/2006/relationships'><p:sldIdLst><p:sldId id='257' r:id='rId3'/><p:sldId id='256' r:id='rId2'/></p:sldIdLst></p:presentation>".

Definition swapped_slides_presentation_root : element :=
  p_element "presentation" []
    [ p_element "sldIdLst" [] [ slide_entry "257" "rId3"; slide_entry "256" "rId2" ] ].

Definition notes_xml : string :=
  "<p:notes xmlns:p='http://schemas.openxmlformats.org/presentationml/2006/main'/>".

Definition notes_root : element := p_element "notes" [] [].

(** A presentation descriptor with two images, a slide layout and, as it
    should, the theme. *)
Definition mixed_rels_xml : string :=
  "<Relationships xmlns='http://schemas.openxmlformats.org/package/2006/relationships'><Relationship Id='rId1' Type='http://schemas.openxmlformats.org/officeDocument/2006/relationships/image' Target='media/pic1.png'/><Relationship Id='rId2' Type='http://schemas.openxmlformats.org/officeDocument/2006/relationships/slideLayout' Target='slideLayouts/slideLayout1.xml'/><Relationship Id='rId3' Type='http://schemas.openxmlformats.org/officeDocument/2006/relationships/theme' Target='theme/theme1.xml'/><Relationship Id='rId4' Type='http://schemas.openxmlformats.org/officeDocument/2006/relationships/image' Target='media/pic2.png'/></Relationships>".

Definition mixed_rels_root : element :=
  Element (qname NS.rel "Relationships") [] None
    [ Sample.relationship_element "rId1" REL_TYPES.image "media/pic1.png";
      Sample.relationship_element "rId2" REL_TYPES.slideLayout "slideLayouts/slideLayout1.xml";
      Sample.relationship_element "rId3" REL_TYPES.theme "theme/theme1.xml";
      Sample.relationship_element "rId4" REL_TYPES.image "media/pic2.png" ].

Definition parses : list (string * element) :=
  [ (sectioned_presentation_xml, sectioned_presentation_root);
    (notes_xml, notes_root);
    (two_slides_presentation_xml, two_slides_presentation_root);
    (swapped_slides_presentation_xml, swapped_slides_presentation_root);
    (layout_xml, layout_root);
    (manifest_without_xml_xml, manifest_without_xml_root);
    (repeated_ids_presentation_xml, repeated_ids_presentation_root);
    (app_xml, app_root);
    (app_hidden_unreadable_xml, app_hidden_unreadable_root);
    (mixed_rels_xml, mixed_rels_root);
    (app_slides_unreadable_xml, app_slides_unreadable_root) ].

Definition fromstring (content : string) : option element :=
  match PyDict.get parses content with
  | Some root => Some root
  | None => Sample.fromstring content
  end.

Definition sha256_16 (content : string) : string := content.

Definition analyze : zipfile -> result analyzer := analyze fromstring sha256_16.
Definition compare : analyzer -> analyzer -> result (list diff) := compare fromstring.

Definition sectioned : zipfile :=
  [ ("[Content_Types].xml", Sample.content_types_xml);
    ("ppt/presentation.xml", sectioned_presentation_xml);
    ("ppt/_rels/presentation.xml.rels", Sample.empty_rels_xml) ].

(** The model of an archive whose analysis completes. *)
Definition model (z : zipfile) : analyzer :=
  match analyze z with
  | Ok s => s
  | Raise _ => new_analyzer
  end.

(** An archive with two entries of one name. *)
Definition repeated_entry : zipfile :=
  [ ("ppt/media/pic1.png", "PNG1");
    ("ppt/media/pic2.png", "PNG");
    ("ppt/media/pic1.png", "PNG2") ].

(** One slide and application properties. *)
Definition with_app : zipfile :=
  [ ("[Content_Types].xml", Sample.content_types_xml);
    ("ppt/slides/slide1.xml", Sample.slide_xml);
    ("docProps/app.xml", app_xml) ].

Definition hidden_count_unreadable : zipfile :=
  [ ("[Content_Types].xml", Sample.content_types_xml);
    ("ppt/slides/slide1.xml", Sample.slide_xml);
    ("docProps/app.xml", app_hidden_unreadable_xml) ].

Definition slide_count_unreadable : zipfile :=
  [ ("[Content_Types].xml", Sample.content_types_xml);
    ("ppt/slides/slide1.xml", Sample.slide_xml);
    ("docProps/app.xml", app_slides_unreadable_xml) ].

Definition repeated_ids : zipfile :=
  [ ("[Content_Types].xml", Sample.content_types_xml);
    ("ppt/presentation.xml", repeated_ids_presentation_xml) ].

(** [with_app] with a slide that is not well-formed. *)
Definition broken_slide : zipfile :=
  [ ("[Content_Types].xml", Sample.content_types_xml);
    ("ppt/slides/slide1.xml", "<p:sld");
    ("docProps/app.xml", app_xml) ].

(** A picture whose extension is written in upper case. *)
Definition upper_case_extension : zipfile :=
  [ ("[Content_Types].xml", manifest_without_xml_xml);
    ("ppt/presentation.xml", Sample.presentation_xml);
    ("ppt/media/pic1.PNG", Sample.png) ].

(** No manifest, and two descriptors that are not well-formed. *)
Definition two_broken_descriptors : zipfile :=
  [ ("_rels/.rels", Sample.empty_rels_xml);
    ("ppt/_rels/presentation.xml.rels", "<Relationships");
    ("ppt/slides/slide1.xml", Sample.slide_xml);
    ("ppt/slides/_rels/slide1.xml.rels", "") ].

(** [sectioned] compared with the same package without sections. *)
Definition plain : zipfile :=
  [ ("[Content_Types].xml", Sample.content_types_xml);
    ("ppt/presentation.xml", Sample.presentation_xml);
    ("ppt/_rels/presentation.xml.rels", Sample.empty_rels_xml) ].

Definition sectioned_vs_plain : list diff :=
  match compare (model sectioned) (model plain) with
  | Ok diffs => diffs
  | Raise _ => []
  end.

(** A slide layout whose descriptor is not well-formed. *)
Definition layout_broken_descriptor : zipfile :=
  [ ("[Content_Types].xml", Sample.content_types_xml);
    ("ppt/slideLayouts/slideLayout1.xml", layout_xml);
    ("ppt/slideLayouts/_rels/slideLayout1.xml.rels", "<Relationships>") ].

(** Comments that are not well-formed, without and with a list of authors
    that is not well-formed either. *)
Definition comments_without_authors : zipfile :=
  [ ("[Content_Types].xml", Sample.content_types_xml);
    ("ppt/comments/comment1.xml", "<p:cmLst") ].

Definition comments_broken_authors : zipfile :=
  [ ("[Content_Types].xml", Sample.content_types_xml);
    ("ppt/commentAuthors.xml", "<p:cmAuthorLst");
    ("ppt/comments/comment1.xml", "<p:cmLst") ].

(** Two slides, the first of them entered twice, with application
    properties that declare one slide. *)
Definition slide_listed_twice : zipfile :=
  [ ("[Content_Types].xml", Sample.content_types_xml);
    ("ppt/slides/slide1.xml", Sample.slide_xml);
    ("ppt/slides/slide2.xml", Sample.slide_xml);
    ("ppt/slides/slide1.xml", Sample.slide_xml);
    ("docProps/app.xml", app_xml) ].

Definition two_slides : zipfile :=
  [ ("[Content_Types].xml", Sample.content_types_xml);
    ("ppt/presentation.xml", two_slides_presentation_xml) ].

Definition swapped_slides : zipfile :=
  [ ("[Content_Types].xml", Sample.content_types_xml);
    ("ppt/presentation.xml", swapped_slides_presentation_xml) ].

Definition two_vs_swapped : list diff :=
  match compare (model two_slides) (model swapped_slides) with
  | Ok diffs => diffs
  | Raise _ => []
  end.

(** Misplaced relationships of two kinds in the presentation
    descriptor. *)
Definition mixed_rels : zipfile :=
  [ ("[Content_Types].xml", Sample.content_types_xml);
    ("ppt/presentation.xml", Sample.presentation_xml);
    ("ppt/_rels/presentation.xml.rels", mixed_rels_xml) ].

(** A notes slide without relationships. *)
Definition notes_without_master : zipfile :=
  [ ("[Content_Types].xml", Sample.content_types_xml);
    ("ppt/notesSlides/notesSlide1.xml", notes_xml);
    ("ppt/notesSlides/_rels/notesSlide1.xml.rels", Sample.empty_rels_xml) ].

End Deck.

(** * Lemmas and theorems *)

(** ** Lemmas on the string primitives *)

Lemma split_nonempty (sep : ascii) (s : string) : Py.split sep s <> [].
Proof.
  induction s as [|c s IH]; simpl; [discriminate|].
  destruct (Ascii.eqb c sep); [discriminate|].
  destruct (Py.split sep s); discriminate.
Qed.

Lemma join_cons_char (sep : string) (c : ascii) (seg : string) (l : list string) :
  Py.join sep (String c seg :: l) = String c (Py.join sep (seg :: l)).
Proof. destruct l; reflexivity. Qed.

Lemma has_slash_split (s : string) :
  ResolverSpec.has_slash s = false <-> exists seg, Py.split "/" s = [seg].
Proof.
  induction s as [|c s IH]; simpl.
  - split; [eexists; reflexivity | reflexivity].
  - destruct (Ascii.eqb c "/") eqn:E; simpl.
    + split; [discriminate|]. intros [seg H].
      injection H as _ H. now apply split_nonempty in H.
    + destruct (Py.split "/" s) as [|seg segs] eqn:Hs.
      * now apply split_nonempty in Hs.
      * rewrite IH. split; intros [x H].
        -- injection H as _ ->. eexists; reflexivity.
        -- injection H as _ ->. eexists; reflexivity.
Qed.

Lemma containing_dir_base (s : string) :
  ResolverSpec.containing_dir s = source_base s.
Proof.
  unfold source_base.
  induction s as [|c s IH]; [reflexivity|].
  cbn [ResolverSpec.containing_dir Py.split].
  destruct (ResolverSpec.has_slash s) eqn:Hh.
  - assert (Hlen : forall seg, Py.split "/" s <> [seg]).
    { intros seg H. assert (ResolverSpec.has_slash s = false)
        by (apply has_slash_split; eauto). congruence. }
    destruct (Py.split "/" s) as [|seg segs] eqn:Hs;
      [now apply split_nonempty in Hs|].
    destruct segs as [|seg2 segs]; [now specialize (Hlen seg)|].
    destruct (Ascii.eqb c "/") eqn:E.
    + apply Ascii.eqb_eq in E. subst c.
      rewrite IH.
      change (removelast ("" :: seg :: seg2 :: segs))
        with ("" :: removelast (seg :: seg2 :: segs)).
      remember (removelast (seg :: seg2 :: segs)) as r.
      destruct r as [|x r]; [|reflexivity].
      simpl in Heqr. destruct segs; discriminate.
    + rewrite IH.
      change (removelast (String c seg :: seg2 :: segs))
        with (String c seg :: removelast (seg2 :: segs)).
      change (removelast (seg :: seg2 :: segs))
        with (seg :: removelast (seg2 :: segs)).
      now rewrite join_cons_char.
  - apply has_slash_split in Hh. destruct Hh as [seg Hs]. rewrite Hs.
    destruct (Ascii.eqb c "/"); reflexivity.
Qed.

Lemma rev_removelast {A} (l : list A) : rev (removelast l) = tl (rev l).
Proof.
  induction l as [|x l IH] using rev_ind; [reflexivity|].
  rewrite removelast_last, rev_unit. reflexivity.
Qed.

Lemma normalize_loop (parts acc : list string) :
  ResolverSpec.normalize (rev acc) parts = fold_left resolve_step parts acc.
Proof.
  revert acc. induction parts as [|p parts IH]; intros acc; simpl.
  - apply rev_involutive.
  - unfold resolve_step at 2.
    destruct (p =? "..") eqn:E1.
    + destruct acc as [|a acc]; [apply (IH [])|].
      rewrite <- IH, rev_removelast. reflexivity.
    + destruct (p =? ".") eqn:E2; destruct (p =? "") eqn:E3; simpl;
        try apply IH.
      rewrite <- IH, rev_unit. reflexivity.
Qed.

Lemma resolve_loop_normalize (parts : list string) :
  resolve_loop parts = ResolverSpec.normalize [] parts.
Proof. symmetry. apply (normalize_loop parts []). Qed.

(** The primitives on small inputs. *)

Example split_trailing_slash : Py.split "/" "a//b/" = ["a"; ""; "b"; ""].
Proof. reflexivity. Qed.

Example split_empty : Py.split "/" "" = [""].
Proof. reflexivity. Qed.

Example join_segments : Py.join "/" ["ppt"; "slides"; "slide1.xml"] = "ppt/slides/slide1.xml".
Proof. reflexivity. Qed.

Example lstrip_slashes : Py.lstrip "/" "//ppt/a.xml" = "ppt/a.xml".
Proof. reflexivity. Qed.

Example replace_layout_dir :
  Py.replace "ppt/slideLayouts/" "ppt/slideLayouts/_rels/" "ppt/slideLayouts/slideLayout1.xml" =
  "ppt/slideLayouts/_rels/slideLayout1.xml".
Proof. reflexivity. Qed.

Example replace_every_occurrence : Py.replace ".rels" "" "a.rels.rels" = "a".
Proof. reflexivity. Qed.

Example upper_kind : Py.upper "notesSlide" = "NOTESSLIDE".
Proof. reflexivity. Qed.

Example int_with_spaces : py_int " 12 " = Some 12%Z.
Proof. reflexivity. Qed.

Example int_of_letters : py_int "five" = None.
Proof. reflexivity. Qed.

Example slide_part_matches :
  is_slide_part "ppt/slides/slide12.xml" = true /\
  is_slide_part "ppt/slides/slide.xml" = false /\
  is_slide_part "ppt/slides/slide1.xml.bak" = false /\
  is_slide_part "x/ppt/slides/slide1.xml" = false.
Proof. repeat split. Qed.

Example rels_to_part_presentation :
  _rels_to_part "ppt/_rels/presentation.xml.rels" = Ok "ppt/presentation.xml".
Proof. reflexivity. Qed.

Example rels_to_part_root : _rels_to_part "_rels/.rels" = Ok "".
Proof. reflexivity. Qed.

Example rels_to_part_stray_name : _rels_to_part "foo.rels" = Raise ValueError.
Proof. reflexivity. Qed.

Example findall_descendants_then_children :
  map ET.attrib
    (ET.findall_desc_child "lst" "id"
       (Element "root" [] None
          [ Element "lst" [] None
              [ Element "id" [("id", "1")] None []; Element "other" [] None [] ];
            Element "ext" [] None
              [ Element "lst" [] None [ Element "id" [("id", "2")] None [] ] ];
            Element "id" [("id", "3")] None [] ])) =
  [ [("id", "1")]; [("id", "2")] ].
Proof. reflexivity. Qed.

(** ** The resolver *)

Lemma split_no_slash (s seg : string) :
  In seg (Py.split "/" s) -> ResolverSpec.has_slash seg = false.
Proof.
  revert seg. induction s as [|c s IH]; simpl; intros seg Hin.
  - destruct Hin as [<-|[]]. reflexivity.
  - destruct (Ascii.eqb c "/") eqn:E.
    + destruct Hin as [<-|Hin]; [reflexivity | now apply IH].
    + destruct (Py.split "/" s) as [|x xs] eqn:Hs; simpl in Hin.
      * destruct Hin as [<-|[]]. simpl. now rewrite E.
      * destruct Hin as [<-|Hin].
        -- simpl. rewrite E. apply IH. now left.
        -- apply IH. now right.
Qed.

Lemma split_without_slash (x : string) :
  ResolverSpec.has_slash x = false -> Py.split "/" x = [x].
Proof.
  induction x as [|c x IH]; simpl; [reflexivity|].
  intros H. apply orb_false_iff in H. destruct H as [E H].
  rewrite E, IH by assumption. reflexivity.
Qed.

Lemma split_app_slash (x y : string) :
  ResolverSpec.has_slash x = false ->
  Py.split "/" (x ++ "/" ++ y) = x :: Py.split "/" y.
Proof.
  induction x as [|c x IH]; simpl; [reflexivity|].
  intros H. apply orb_false_iff in H. destruct H as [E H].
  rewrite E. simpl in IH. rewrite IH by assumption. reflexivity.
Qed.

Lemma split_join (l : list string) :
  l <> [] ->
  Forall (fun seg => ResolverSpec.has_slash seg = false) l ->
  Py.split "/" (Py.join "/" l) = l.
Proof.
  induction l as [|x l IH]; [congruence|].
  intros _ Hall. inversion Hall as [|? ? Hx Hl]; subst.
  destruct l as [|y l].
  - simpl. now apply split_without_slash.
  - change (Py.join "/" (x :: y :: l)) with (x ++ "/" ++ Py.join "/" (y :: l))%string.
    rewrite split_app_slash by assumption.
    rewrite IH; [reflexivity | discriminate | assumption].
Qed.

Lemma in_removelast {A} (x : A) (l : list A) : In x (removelast l) -> In x l.
Proof.
  induction l as [|y l IH]; simpl; [tauto|].
  destruct l; [tauto|]. intros [->|H]; [now left | right; now apply IH].
Qed.

Lemma resolve_step_proper (P : string -> Prop) (parts acc : list string) :
  Forall P parts ->
  Forall (fun seg => proper_segment seg /\ P seg) acc ->
  Forall (fun seg => proper_segment seg /\ P seg) (fold_left resolve_step parts acc).
Proof.
  revert acc. induction parts as [|p parts IH]; intros acc Hparts Hacc; [exact Hacc|].
  inversion Hparts as [|? ? Hp Hrest]; subst. simpl. apply IH; [assumption|].
  unfold resolve_step.
  destruct (p =? "..") eqn:E1.
  - destruct acc as [|a acc]; [constructor|].
    rewrite Forall_forall in *. intros x Hx. apply Hacc. now apply in_removelast.
  - destruct (p =? "") eqn:E2; destruct (p =? ".") eqn:E3; simpl; try assumption.
    apply Forall_app. split; [assumption|]. constructor; [|constructor].
    apply String.eqb_neq in E1, E2, E3. repeat split; assumption.
Qed.

Lemma resolve_loop_proper (s : string) :
  Forall (fun seg => proper_segment seg /\ ResolverSpec.has_slash seg = false)
         (resolve_loop (Py.split "/" s)).
Proof.
  apply resolve_step_proper; [|constructor].
  apply Forall_forall. intros seg. apply split_no_slash.
Qed.

Lemma resolve_with_directory (source target : string) :
  Py.startswith "/" target = false ->
  source_base source <> "" ->
  _resolve_target source target =
  Py.join "/" (resolve_loop (Py.split "/" (source_base source ++ "/" ++ target))).
Proof.
  intros Ht Hb. unfold _resolve_target. rewrite Ht.
  destruct (source =? "") eqn:Es.
  - apply String.eqb_eq in Es. subst source. now contradict Hb.
  - cbv zeta. apply String.eqb_neq in Hb. now rewrite Hb.
Qed.

Lemma resolve_without_directory (source target : string) :
  Py.startswith "/" target = false ->
  source_base source = "" ->
  _resolve_target source target = target.
Proof.
  intros Ht Hb. unfold _resolve_target. rewrite Ht.
  destruct (source =? ""); [reflexivity|]. cbv zeta. now rewrite Hb.
Qed.

Lemma resolve_loop_proper_segments (segs acc : list string) :
  Forall proper_segment segs -> fold_left resolve_step segs acc = acc ++ segs.
Proof.
  revert acc. induction segs as [|p segs IH]; intros acc Hall; simpl.
  - now rewrite app_nil_r.
  - inversion Hall as [|? ? (H1 & H2 & H3) Hrest]; subst.
    rewrite IH by assumption. unfold resolve_step.
    apply String.eqb_neq in H1, H2, H3. rewrite H1, H2, H3. simpl.
    now rewrite <- app_assoc.
Qed.

Lemma length_removelast_cons {A} (a : A) (l : list A) :
  List.length (removelast (a :: l)) = List.length l.
Proof.
  revert a. induction l as [|b l IH]; intros a; [reflexivity|].
  change (removelast (a :: b :: l)) with (a :: removelast (b :: l)).
  cbn [List.length]. now rewrite IH.
Qed.

Lemma resolve_loop_pops (k : nat) (acc : list string) :
  List.length acc <= k -> fold_left resolve_step (repeat ".." k) acc = [].
Proof.
  revert acc. induction k as [|k IH]; intros acc Hlen.
  - destruct acc; [reflexivity | simpl in Hlen; lia].
  - cbn [repeat fold_left]. apply IH.
    destruct acc as [|a acc]; [simpl; lia|].
    change (resolve_step (a :: acc) "..") with (removelast (a :: acc)).
    rewrite length_removelast_cons. simpl in Hlen. lia.
Qed.

(** At least as many [..] segments as accumulated segments empty the
    accumulator, and the loop goes on from there. *)
Lemma resolve_loop_excess (segs rest : list string) (k : nat) :
  Forall proper_segment segs -> List.length segs <= k ->
  resolve_loop (segs ++ repeat ".." k ++ rest) = resolve_loop rest.
Proof.
  intros Hall Hlen. unfold resolve_loop.
  rewrite !fold_left_app, (resolve_loop_proper_segments segs [] Hall).
  now rewrite resolve_loop_pops.
Qed.

(** A source without a slash, the empty one included, has no containing
    directory. *)
Lemma source_base_without_slash (source : string) :
  ResolverSpec.has_slash source = false -> source_base source = "".
Proof.
  intros H. unfold source_base. now rewrite (split_without_slash source H).
Qed.

Lemma resolve_absolute (source target : string) :
  Py.startswith "/" target = true ->
  _resolve_target source target = Py.lstrip "/" target.
Proof. intros Ht. unfold _resolve_target. now rewrite Ht. Qed.

(** Removing the leading slashes removes leading empty segments and
    nothing else. *)
Lemma split_lstrip (t : string) :
  exists k, Py.split "/" t = repeat "" k ++ Py.split "/" (Py.lstrip "/" t).
Proof.
  induction t as [|c t IH].
  - exists 0. reflexivity.
  - cbn [Py.lstrip]. destruct (Ascii.eqb c "/") eqn:E.
    + destruct IH as [k IH]. exists (S k). cbn [Py.split]. rewrite E.
      cbn [repeat app]. f_equal. exact IH.
    + exists 0. reflexivity.
Qed.

Lemma lstrip_keeps_segment (t seg : string) :
  seg <> "" -> In seg (Py.split "/" t) -> In seg (Py.split "/" (Py.lstrip "/" t)).
Proof.
  intros Hseg Hin. destruct (split_lstrip t) as [k Hk]. rewrite Hk in Hin.
  apply in_app_or in Hin. destruct Hin as [Hin|Hin]; [|exact Hin].
  apply repeat_spec in Hin. congruence.
Qed.

(** C3 (as stated, refuted): with a source at the package root a [..]
    segment of the target is kept, not absorbed. *)
Lemma resolve_root_source_keeps_dotdot :
  _resolve_target "b.xml" "../c.xml" = "../c.xml" /\
  In ".." (Py.split "/" (_resolve_target "b.xml" "../c.xml")).
Proof. split; [reflexivity | simpl; auto]. Qed.

(** C3 (amended): the three equations of the specification hold; for a
    source with a non-empty containing directory and a target without a
    leading slash, excess [..] segments are absorbed: at least as many
    [..] segments as there are accumulated segments leave an empty
    accumulator from which resolution goes on, and no [..] segment is left
    in the result.  Nothing is normalised in the other cases: for a source
    without a containing directory (the empty source, a source at the
    package root) the target is returned as it is; of a target with a
    leading slash the leading slashes are removed and every other segment
    is kept, [..] segments included. *)
Theorem resolve_examples_and_absorption :
  _resolve_target "a/b/c.xml" "../d.xml" = "a/d.xml" /\
  _resolve_target "" "x.xml" = "x.xml" /\
  _resolve_target "a/b.xml" "/c.xml" = "c.xml" /\
  _resolve_target "a/b.xml" "../../../c.xml" = "c.xml" /\
  (forall segs rest k,
     Forall proper_segment segs -> List.length segs <= k ->
     resolve_loop (segs ++ repeat ".." k ++ rest) = resolve_loop rest) /\
  (forall source target,
    source_base source <> "" ->
    Py.startswith "/" target = false ->
    _resolve_target source target =
      Py.join "/" (resolve_loop (Py.split "/" (source_base source ++ "/" ++ target))) /\
    ~ In ".." (Py.split "/" (_resolve_target source target))) /\
  (forall source, ResolverSpec.has_slash source = false -> source_base source = "") /\
  (forall source target,
     source_base source = "" ->
     Py.startswith "/" target = false ->
     _resolve_target source target = target) /\
  (forall source target,
     Py.startswith "/" target = true ->
     _resolve_target source target = Py.lstrip "/" target /\
     (exists k,
        Py.split "/" target = repeat "" k ++ Py.split "/" (_resolve_target source target)) /\
     (In ".." (Py.split "/" target) ->
      In ".." (Py.split "/" (_resolve_target source target)))) /\
  _resolve_target "a/b.xml" "/../c.xml" = "../c.xml" /\
  _resolve_target "" "../c.xml" = "../c.xml".
Proof.
  repeat (split; [reflexivity|]).
  split; [intros segs rest k; apply resolve_loop_excess|].
  split; [|split; [|split; [|split; [|split; reflexivity]]]].
  - intros source target Hb Ht.
    split; [now apply resolve_with_directory|]. intros Hin.
    rewrite resolve_with_directory in Hin by assumption.
    pose proof (resolve_loop_proper (source_base source ++ "/" ++ target)) as Hp.
    destruct (resolve_loop (Py.split "/" (source_base source ++ "/" ++ target)))
      as [|x l] eqn:Hl.
    + simpl in Hin. destruct Hin as [H|[]]. discriminate.
    + rewrite split_join in Hin.
      * rewrite Forall_forall in Hp. apply Hp in Hin. destruct Hin as [[H _] _]. now apply H.
      * discriminate.
      * eapply Forall_impl; [|exact Hp]. intros a [_ H]. exact H.
  - exact source_base_without_slash.
  - intros source target Hb Ht. now apply resolve_without_directory.
  - intros source target Ht. rewrite (resolve_absolute source target Ht).
    split; [reflexivity|]. split; [apply split_lstrip|].
    apply lstrip_keeps_segment. discriminate.
Qed.

Lemma resolve_examples_and_absorption_witness :
  resolve_loop (["ppt"; "slides"] ++ repeat ".." 3 ++ ["media"; "pic1.png"]) =
    resolve_loop ["media"; "pic1.png"] /\
  ~ In ".." (Py.split "/" (_resolve_target "ppt/slides/slide1.xml" "../../../media/pic1.png")) /\
  _resolve_target "presentation.xml" "../media/./pic1.png" = "../media/./pic1.png" /\
  _resolve_target "ppt/slides/slide1.xml" "//ppt/../media/./pic1.png" =
    "ppt/../media/./pic1.png" /\
  In ".." (Py.split "/" (_resolve_target "ppt/slides/slide1.xml" "//ppt/../media/./pic1.png")).
Proof.
  destruct resolve_examples_and_absorption
    as (_ & _ & _ & _ & Hexcess & H & Hbase & Hroot & Habsolute & _).
  split; [|split; [|split; [|split]]].
  - apply Hexcess.
    + repeat constructor; discriminate.
    + simpl. lia.
  - apply H; [discriminate | reflexivity].
  - apply Hroot; [apply Hbase|]; reflexivity.
  - exact (proj1 (Habsolute "ppt/slides/slide1.xml" "//ppt/../media/./pic1.png" eq_refl)).
  - apply (proj2 (proj2 (Habsolute "ppt/slides/slide1.xml" "//ppt/../media/./pic1.png"
                           eq_refl))).
    simpl. auto.
Defined.

(** C4 (as stated, refuted): for a source at the package root the target
    is returned as it is, not normalised. *)
Lemma resolve_root_source_not_normalised :
  _resolve_target "b.xml" "./x.xml" = "./x.xml" /\
  ResolverSpec.resolve "b.xml" "./x.xml" = "x.xml" /\
  _resolve_target "b.xml" "./x.xml" <> ResolverSpec.resolve "b.xml" "./x.xml".
Proof. repeat split; try reflexivity. discriminate. Qed.

(** C4 (amended): for a target without a leading slash, a source whose
    containing directory is non-empty resolves to the normalised
    concatenation of that directory and the target, as the specification
    words it; a source whose containing directory is empty resolves to the
    target unchanged. *)
Theorem resolve_refines_spec (source target : string) :
  Py.startswith "/" target = false ->
  (ResolverSpec.containing_dir source <> "" ->
   _resolve_target source target = ResolverSpec.resolve source target) /\
  (ResolverSpec.containing_dir source = "" ->
   _resolve_target source target = target).
Proof.
  intros Ht. rewrite containing_dir_base. split; intros Hb.
  - rewrite resolve_with_directory by assumption.
    unfold ResolverSpec.resolve.
    now rewrite containing_dir_base, resolve_loop_normalize.
  - now apply resolve_without_directory.
Qed.

Lemma resolve_refines_spec_witness :
  _resolve_target "ppt/slides/slide1.xml" "../media/./pic1.png" = "ppt/media/pic1.png" /\
  _resolve_target "b.xml" "./x.xml" = "./x.xml".
Proof.
  split.
  - destruct (resolve_refines_spec "ppt/slides/slide1.xml" "../media/./pic1.png"
                eq_refl) as [H _].
    rewrite H; [reflexivity | discriminate].
  - destruct (resolve_refines_spec "b.xml" "./x.xml" eq_refl) as [_ H].
    apply H. reflexivity.
Defined.

(** ** Dictionaries and sets *)

Section PyEqFacts.
Context {A : Type} `{PyEq A}.

Lemma py_eqb_refl (x : A) : py_eqb x x = true.
Proof. now apply py_eqb_eq. Qed.

Lemma py_eqb_neq (x y : A) : py_eqb x y = false <-> x <> y.
Proof.
  split.
  - intros E Heq. apply py_eqb_eq in Heq. congruence.
  - intros Hne. destruct (py_eqb x y) eqn:E; [|reflexivity].
    apply py_eqb_eq in E. contradiction.
Qed.

Lemma py_eqb_sym (x y : A) : py_eqb x y = py_eqb y x.
Proof.
  destruct (py_eqb y x) eqn:E.
  - apply py_eqb_eq in E. subst. apply py_eqb_refl.
  - apply py_eqb_neq. apply py_eqb_neq in E. congruence.
Qed.

Lemma py_in_In (x : A) (l : list A) : py_in x l = true <-> In x l.
Proof.
  unfold py_in. rewrite existsb_exists. split.
  - intros [y [Hy E]]. apply py_eqb_eq in E. now subst.
  - intros Hx. exists x. split; [assumption | apply py_eqb_refl].
Qed.

Lemma py_in_not_In (x : A) (l : list A) : py_in x l = false <-> ~ In x l.
Proof.
  rewrite <- py_in_In. destruct (py_in x l); split; congruence.
Qed.
End PyEqFacts.

Lemma py_mem_In (x : string) (l : list string) : Py.mem x l = true <-> In x l.
Proof.
  unfold Py.mem. rewrite existsb_exists. split.
  - intros [y [Hy E]]. apply String.eqb_eq in E. now subst.
  - intros Hx. exists x. split; [assumption | apply String.eqb_refl].
Qed.

Section PySetFacts.
Context {A : Type} `{PyEq A}.

Lemma set_in_add (s : list A) (x y : A) :
  In y (PySet.add s x) <-> In y s \/ y = x.
Proof.
  unfold PySet.add. destruct (py_in x s) eqn:E.
  - apply py_in_In in E. split; [auto | intros [?| ->]; assumption].
  - rewrite in_app_iff. simpl. intuition congruence.
Qed.

Lemma set_nodup_add (s : list A) (x : A) : NoDup s -> NoDup (PySet.add s x).
Proof.
  intros Hs. unfold PySet.add. destruct (py_in x s) eqn:E; [assumption|].
  apply py_in_not_In in E.
  apply NoDup_app; [assumption | repeat constructor; simpl; tauto |].
  intros y Hy [<-|[]]. contradiction.
Qed.

Lemma set_fold_add_spec (l s : list A) :
  (forall y, In y (fold_left PySet.add l s) <-> In y s \/ In y l) /\
  (NoDup s -> NoDup (fold_left PySet.add l s)).
Proof.
  revert s. induction l as [|x l IH]; intros s; simpl.
  - split; [intuition | auto].
  - destruct (IH (PySet.add s x)) as [IH1 IH2]. split.
    + intros y. rewrite IH1, set_in_add. intuition congruence.
    + intros Hs. apply IH2. now apply set_nodup_add.
Qed.

Lemma set_in_of_list (l : list A) (y : A) : In y (PySet.of_list l) <-> In y l.
Proof.
  unfold PySet.of_list. destruct (set_fold_add_spec l []) as [H1 _].
  rewrite H1. simpl. tauto.
Qed.

Lemma set_nodup_of_list (l : list A) : NoDup (PySet.of_list l).
Proof.
  unfold PySet.of_list. destruct (set_fold_add_spec l []) as [_ H2].
  apply H2. constructor.
Qed.

Lemma set_of_list_snoc (l : list A) (x : A) :
  PySet.of_list (l ++ [x]) = PySet.add (PySet.of_list l) x.
Proof. unfold PySet.of_list. now rewrite fold_left_app. Qed.

Lemma set_in_diff (s1 s2 : list A) (y : A) :
  In y (PySet.diff s1 s2) <-> In y s1 /\ ~ In y s2.
Proof.
  unfold PySet.diff. rewrite filter_In, negb_true_iff, py_in_not_In. tauto.
Qed.

Lemma set_in_inter (s1 s2 : list A) (y : A) :
  In y (PySet.inter s1 s2) <-> In y s1 /\ In y s2.
Proof. unfold PySet.inter. rewrite filter_In, py_in_In. tauto. Qed.

Lemma set_in_union (s1 s2 : list A) (y : A) :
  In y (PySet.union s1 s2) <-> In y s1 \/ In y s2.
Proof.
  unfold PySet.union. rewrite in_app_iff, set_in_diff.
  destruct (py_in y s1) eqn:E.
  - apply py_in_In in E. tauto.
  - apply py_in_not_In in E. tauto.
Qed.

Lemma set_eqb_spec (s1 s2 : list A) :
  PySet.eqb s1 s2 = true <-> (forall y, In y s1 <-> In y s2).
Proof.
  unfold PySet.eqb. rewrite andb_true_iff, !forallb_forall. split.
  - intros [H1 H2] y. split; intros Hy.
    + now apply py_in_In, H1.
    + now apply py_in_In, H2.
  - intros Hy. split; intros x Hx; apply py_in_In, Hy, Hx.
Qed.

End PySetFacts.

Section PyDictFacts.
Context {K V : Type} `{PyEq K}.
Implicit Types (d : list (K * V)) (k : K) (v : V).

Lemma dict_get_set_same d k v : PyDict.get (PyDict.set d k v) k = Some v.
Proof.
  induction d as [|[k' v'] d IH]; simpl.
  - now rewrite py_eqb_refl.
  - destruct (py_eqb k' k) eqn:E; simpl; rewrite E; [reflexivity | assumption].
Qed.

Lemma dict_get_set_other d k k' v :
  k' <> k -> PyDict.get (PyDict.set d k v) k' = PyDict.get d k'.
Proof.
  intros Hne. induction d as [|[k0 v0] d IH]; simpl.
  - assert (py_eqb k k' = false) as -> by (apply py_eqb_neq; congruence).
    reflexivity.
  - destruct (py_eqb k0 k) eqn:E; simpl.
    + apply py_eqb_eq in E. subst k0.
      assert (py_eqb k k' = false) as -> by (apply py_eqb_neq; congruence).
      reflexivity.
    + rewrite IH. reflexivity.
Qed.

Lemma dict_get_none d k : PyDict.get d k = None <-> ~ In k (PyDict.keys d).
Proof.
  induction d as [|[k' v'] d IH]; simpl; [tauto|].
  destruct (py_eqb k' k) eqn:E.
  - apply py_eqb_eq in E. subst. split; [discriminate | tauto].
  - apply py_eqb_neq in E. rewrite IH. tauto.
Qed.

Lemma dict_get_in d k v : PyDict.get d k = Some v -> In (k, v) d.
Proof.
  induction d as [|[k' v'] d IH]; simpl; [discriminate|].
  destruct (py_eqb k' k) eqn:E.
  - apply py_eqb_eq in E. intros [= ->]. subst. now left.
  - intros Hg. right. now apply IH.
Qed.

Lemma dict_in_get d k v :
  NoDup (PyDict.keys d) -> In (k, v) d -> PyDict.get d k = Some v.
Proof.
  induction d as [|[k' v'] d IH]; simpl; [tauto|].
  intros Hnd [Heq|Hin]; inversion Hnd as [|? ? Hk Hd]; subst.
  - injection Heq as -> ->. now rewrite py_eqb_refl.
  - destruct (py_eqb k' k) eqn:E; [|now apply IH].
    apply py_eqb_eq in E. subst k'. exfalso. apply Hk.
    change k with (fst (k, v)). now apply in_map.
Qed.

Lemma dict_mem_In d k : PyDict.mem d k = true <-> In k (PyDict.keys d).
Proof.
  unfold PyDict.mem. destruct (PyDict.get d k) eqn:E.
  - split; [intros _ | reflexivity].
    apply dict_get_in in E. change k with (fst (k, v)). now apply in_map.
  - apply dict_get_none in E. split; [discriminate | contradiction].
Qed.

Lemma dict_keys_set d k v :
  PyDict.keys (PyDict.set d k v) =
  if PyDict.mem d k then PyDict.keys d else PyDict.keys d ++ [k].
Proof.
  unfold PyDict.mem, PyDict.keys.
  induction d as [|[k' v'] d IH]; simpl; [reflexivity|].
  destruct (py_eqb k' k) eqn:E; simpl; [reflexivity|].
  rewrite IH. destruct (PyDict.get d k); reflexivity.
Qed.

Lemma dict_in_keys_set d k v k' :
  In k' (PyDict.keys (PyDict.set d k v)) <-> In k' (PyDict.keys d) \/ k' = k.
Proof.
  rewrite dict_keys_set. destruct (PyDict.mem d k) eqn:E.
  - apply dict_mem_In in E. split; [auto | intros [?| ->]; assumption].
  - rewrite in_app_iff. simpl. intuition congruence.
Qed.

Lemma dict_nodup_set d k v :
  NoDup (PyDict.keys d) -> NoDup (PyDict.keys (PyDict.set d k v)).
Proof.
  intros Hnd. rewrite dict_keys_set. destruct (PyDict.mem d k) eqn:E; [assumption|].
  assert (~ In k (PyDict.keys d)) as Hk.
  { intros Hin. apply dict_mem_In in Hin. congruence. }
  apply NoDup_app; [assumption | repeat constructor; simpl; tauto |].
  intros y Hy [<-|[]]. contradiction.
Qed.

Lemma dict_in_set d k v k' v' :
  In (k', v') (PyDict.set d k v) -> (k' = k /\ v' = v) \/ In (k', v') d.
Proof.
  induction d as [|[k0 v0] d IH]; simpl.
  - intros [[= <- <-]|[]]. now left.
  - destruct (py_eqb k0 k) eqn:E; simpl.
    + apply py_eqb_eq in E. subst k0.
      intros [[= <- <-]|Hin]; [now left | right; now right].
    + intros [Heq|Hin]; [right; now left|].
      destruct (IH Hin) as [?|?]; [now left | right; now right].
Qed.

Lemma dict_update_spec (l d : list (K * V)) :
  (NoDup (PyDict.keys d) -> NoDup (PyDict.keys (PyDict.update d l))) /\
  (forall k, In k (PyDict.keys (PyDict.update d l)) <->
             In k (PyDict.keys d) \/ In k (map fst l)) /\
  (forall k v, In (k, v) (PyDict.update d l) -> In (k, v) d \/ In (k, v) l).
Proof.
  unfold PyDict.update. revert d. induction l as [|[k0 v0] l IH]; intros d; simpl.
  - repeat split; auto. intros [?|[]]; assumption.
  - destruct (IH (PyDict.set d k0 v0)) as (IH1 & IH2 & IH3). repeat split.
    + intros Hnd. apply IH1. now apply dict_nodup_set.
    + rewrite IH2, dict_in_keys_set. intuition congruence.
    + rewrite IH2, dict_in_keys_set. intuition congruence.
    + intros k v Hin. destruct (IH3 k v Hin) as [Hs|Hl]; [|right; now right].
      destruct (dict_in_set _ _ _ _ _ Hs) as [[-> ->]|?]; [right; now left | now left].
Qed.

Lemma dict_nodup_of_list (l : list (K * V)) : NoDup (PyDict.keys (PyDict.of_list l)).
Proof. apply dict_update_spec. constructor. Qed.

Lemma dict_in_keys_of_list (l : list (K * V)) k :
  In k (PyDict.keys (PyDict.of_list l)) <-> In k (map fst l).
Proof.
  unfold PyDict.of_list.
  destruct (dict_update_spec l []) as (_ & H2 & _). rewrite H2. simpl. tauto.
Qed.

End PyDictFacts.

Section GroupingFacts.
Context {A K V : Type} `{PyEq K}.
Variables (key : A -> K) (g : V -> A -> V) (dflt : V).

Lemma dict_get_keyed (F : K -> V) (ks : list K) (t : K) :
  PyDict.get (map (fun k => (k, F k)) ks) t =
  if py_in t ks then Some (F t) else None.
Proof.
  induction ks as [|k ks IH]; simpl; [reflexivity|].
  rewrite (py_eqb_sym t k). destruct (py_eqb k t) eqn:E; simpl.
  - apply py_eqb_eq in E. now subst.
  - exact IH.
Qed.

Lemma dict_set_absent (d : list (K * V)) (k : K) (v : V) :
  PyDict.get d k = None -> PyDict.set d k v = d ++ [(k, v)].
Proof.
  induction d as [|[k' v'] d IH]; simpl; [reflexivity|].
  destruct (py_eqb k' k); [discriminate|]. intros Hg. now rewrite IH.
Qed.

Lemma dict_set_keyed (F : K -> V) (ks : list K) (t : K) (v : V) :
  NoDup ks -> In t ks ->
  PyDict.set (map (fun k => (k, F k)) ks) t v =
  map (fun k => (k, if py_eqb k t then v else F k)) ks.
Proof.
  induction ks as [|k ks IH]; simpl; [tauto|].
  intros Hnd Hin. inversion Hnd as [|? ? Hk Hks]; subst.
  destruct (py_eqb k t) eqn:E.
  - apply py_eqb_eq in E. subst k. f_equal.
    apply map_ext_in. intros k Hkin.
    assert (py_eqb k t = false) as -> by (apply py_eqb_neq; congruence).
    reflexivity.
  - f_equal. apply IH; [assumption|].
    destruct Hin as [->|Hin]; [|assumption].
    rewrite py_eqb_refl in E. discriminate.
Qed.

Lemma group_value_snoc (l : list A) (a : A) (k : K) :
  group_value key g dflt (l ++ [a]) k =
  if py_eqb (key a) k then g (group_value key g dflt l k) a
  else group_value key g dflt l k.
Proof.
  unfold group_value. rewrite filter_app. simpl.
  destruct (py_eqb (key a) k).
  - now rewrite fold_left_app.
  - now rewrite app_nil_r.
Qed.

Lemma group_value_absent (l : list A) (k : K) :
  ~ In k (map key l) -> group_value key g dflt l k = dflt.
Proof.
  intros Hk. unfold group_value.
  replace (filter (fun a => py_eqb (key a) k) l) with (@nil A); [reflexivity|].
  symmetry. induction l as [|a l IH]; simpl; [reflexivity|].
  simpl in Hk. destruct (py_eqb (key a) k) eqn:E.
  - apply py_eqb_eq in E. tauto.
  - apply IH. tauto.
Qed.

(** A loop of this shape ends with [grouped]. *)
Lemma fold_group_step (l : list A) :
  fold_left (group_step key g dflt) l [] = grouped key g dflt l.
Proof.
  induction l as [|a l IH] using rev_ind; [reflexivity|].
  rewrite fold_left_app, IH. simpl.
  unfold grouped, group_step. rewrite map_app.
  change (map key [a]) with [key a]. rewrite set_of_list_snoc.
  set (ks := PySet.of_list (map key l)).
  assert (Hnd : NoDup ks) by apply set_nodup_of_list.
  unfold PyDict.get_default. rewrite dict_get_keyed.
  unfold PySet.add. destruct (py_in (key a) ks) eqn:E.
  - apply py_in_In in E. rewrite dict_set_keyed by assumption.
    apply map_ext. intros k. rewrite group_value_snoc.
    rewrite (py_eqb_sym k (key a)).
    destruct (py_eqb (key a) k) eqn:Ek; [|reflexivity].
    apply py_eqb_eq in Ek. now subst k.
  - apply py_in_not_In in E.
    rewrite dict_set_absent.
    2:{ rewrite dict_get_keyed.
        assert (py_in (key a) ks = false) as -> by now apply py_in_not_In.
        reflexivity. }
    rewrite map_app. simpl. f_equal.
    + apply map_ext_in. intros k Hk. rewrite group_value_snoc.
      assert (py_eqb (key a) k = false) as ->; [|reflexivity].
      apply py_eqb_neq. intros Hka. subst k. contradiction.
    + rewrite group_value_snoc, py_eqb_refl.
      rewrite group_value_absent; [reflexivity|].
      intros Hin. apply E. now apply set_in_of_list.
Qed.

End GroupingFacts.

Lemma fold_snoc_id {A} (l acc : list A) :
  fold_left (fun acc a => acc ++ [a]) l acc = acc ++ l.
Proof.
  revert acc. induction l as [|a l IH]; intros acc; simpl.
  - now rewrite app_nil_r.
  - rewrite IH, <- app_assoc. reflexivity.
Qed.

Lemma fold_succ_length {A} (l : list A) (n : nat) :
  fold_left (fun n _ => n + 1) l n = n + List.length l.
Proof.
  revert n. induction l as [|a l IH]; intros n; simpl; [lia|].
  rewrite IH. lia.
Qed.

(** ** Building the package model *)

Lemma for_each_invariant {A S} (P : S -> Prop) (body : S -> A -> result S)
    (l : list A) :
  (forall s x s', In x l -> P s -> body s x = Ok s' -> P s') ->
  forall s s', P s -> for_each body l s = Ok s' -> P s'.
Proof.
  induction l as [|x l IH]; intros Hbody s s' Hs Hrun; simpl in Hrun.
  - injection Hrun as <-. exact Hs.
  - destruct (body s x) as [s1|e] eqn:Hb; [|discriminate]. simpl in Hrun.
    apply (IH (fun s x s' Hin => Hbody s x s' (or_intror Hin)) s1 s');
      [|assumption].
    apply (Hbody s x s1); [now left | assumption | assumption].
Qed.

Lemma dict_update_keyed {V} (f : string -> V) (names : list string)
    (d : list (string * V)) (k : string) :
  PyDict.get (PyDict.update d (map (fun n => (n, f n)) names)) k =
  if Py.mem k names then Some (f k) else PyDict.get d k.
Proof.
  unfold PyDict.update. revert d. induction names as [|n names IH]; intros d; simpl;
    [reflexivity|].
  rewrite IH. destruct (Py.mem k names); [now rewrite orb_true_r|].
  rewrite orb_false_r. destruct (k =? n) eqn:E.
  - apply String.eqb_eq in E. subst. apply dict_get_set_same.
  - apply String.eqb_neq in E. now apply dict_get_set_other.
Qed.

Section AnalyzerFacts.

Variable fromstring : string -> option element.
Variable sha256_16 : string -> string.

Lemma load_files_spec (z : zipfile) (s : analyzer) :
  files (_load_files sha256_16 z s) =
    PyDict.update (files s) (map (fun n => (n, zip_read z n)) (namelist z)) /\
  content_types (_load_files sha256_16 z s) = content_types s /\
  default_types (_load_files sha256_16 z s) = default_types s /\
  relations (_load_files sha256_16 z s) = relations s /\
  issues (_load_files sha256_16 z s) = issues s.
Proof.
  unfold _load_files, PyDict.update.
  generalize (namelist z) as names. intros names. revert s.
  induction names as [|n names IH]; intros s; simpl; [repeat split|].
  destruct (IH (set_hashes (set_files s (PyDict.set (files s) n (zip_read z n)))
                  (PyDict.set (hashes s) n (sha256_16 (zip_read z n)))))
    as (H1 & H2 & H3 & H4 & H5).
  rewrite H1, H2, H3, H4, H5. repeat split.
Qed.

(** The parts of the model are the entries of the archive. *)
Lemma load_files_get (z : zipfile) (k : string) :
  PyDict.get (files (_load_files sha256_16 z new_analyzer)) k =
  if Py.mem k (namelist z) then Some (zip_read z k) else None.
Proof.
  destruct (load_files_spec z new_analyzer) as (-> & _).
  apply (dict_update_keyed (zip_read z) (namelist z) []).
Qed.

Lemma load_files_nodup (z : zipfile) :
  NoDup (PyDict.keys (files (_load_files sha256_16 z new_analyzer))).
Proof.
  destruct (load_files_spec z new_analyzer) as (-> & _).
  apply dict_update_spec. constructor.
Qed.

Lemma parse_content_types_spec (s s' : analyzer) :
  _parse_content_types fromstring s = Ok s' ->
  files s' = files s /\ relations s' = relations s /\
  exists l, issues s' = issues s ++ l /\ Forall build_issue l.
Proof.
  unfold _parse_content_types. intros Hrun.
  destruct (PyDict.get (files s) "[Content_Types].xml") as [content|].
  - destruct (fromstring content); [|discriminate].
    injection Hrun as <-. repeat split. exists []. simpl.
    now rewrite app_nil_r.
  - injection Hrun as <-. repeat split. exists [I_CRITICAL]. split; [reflexivity|].
    constructor; [now left | constructor].
Qed.

Lemma parse_relationship_as_parsed (source : string) (rel : element) :
  resolved_as_parsed source (parse_relationship source rel).
Proof.
  unfold resolved_as_parsed, parse_relationship. simpl.
  destruct (ET.get_default rel "TargetMode" "Internal" =? "External"); reflexivity.
Qed.

Lemma parse_rels_spec (rels_path content : string) (s s' : analyzer) :
  _parse_rels fromstring rels_path content s = Ok s' ->
  files s' = files s /\
  (relations_as_parsed s -> relations_as_parsed s') /\
  exists l, issues s' = issues s ++ l /\ Forall build_issue l.
Proof.
  unfold _parse_rels. intros Hrun.
  destruct (fromstring content) as [root|].
  - destruct (_rels_to_part rels_path) as [source_part|e]; [|discriminate].
    simpl in Hrun. injection Hrun as <-. simpl.
    split; [reflexivity|]. split.
    + intros [Hnd Hall]. split; simpl.
      * now apply dict_nodup_set.
      * intros source rels r Hin Hr.
        apply dict_in_set in Hin. destruct Hin as [[-> ->]|Hin].
        -- apply in_map_iff in Hr. destruct Hr as [e [<- _]].
           apply parse_relationship_as_parsed.
        -- now apply (Hall source rels r).
    + exists []. now rewrite app_nil_r.
  - injection Hrun as <-. simpl.
    split; [reflexivity|]. split; [tauto|].
    exists [I_ERROR rels_path]. split; [reflexivity|].
    constructor; [right; now eexists | constructor].
Qed.

Lemma parse_all_rels_spec (s s' : analyzer) :
  _parse_all_rels fromstring s = Ok s' ->
  files s' = files s /\
  (relations_as_parsed s -> relations_as_parsed s') /\
  exists l, issues s' = issues s ++ l /\ Forall build_issue l.
Proof.
  unfold _parse_all_rels. generalize (files s) at 1 as entries. intros entries Hrun.
  refine (for_each_invariant
            (fun t => files t = files s /\
                      (relations_as_parsed s -> relations_as_parsed t) /\
                      exists l, issues t = issues s ++ l /\ Forall build_issue l)
            _ entries _ s s' _ Hrun).
  - intros t x t' _ (Hf & Hr & l & Hi & Hl) Hb.
    destruct (Py.endswith ".rels" (fst x)).
    + apply parse_rels_spec in Hb. destruct Hb as (Hf' & Hr' & l' & Hi' & Hl').
      split; [congruence|]. split; [intros Hs; apply Hr', Hr, Hs|].
      exists (l ++ l'). rewrite Hi', Hi, app_assoc. split; [reflexivity|].
      apply Forall_app. now split.
    + injection Hb as <-. split; [assumption|]. split; [assumption|].
      now exists l.
  - split; [reflexivity|]. split; [tauto|]. exists []. now rewrite app_nil_r.
Qed.

Lemma app_properties_add_issues (s : analyzer) (l : list issue) :
  app_properties_issues fromstring (add_issues s l) = app_properties_issues fromstring s.
Proof. reflexivity. Qed.

Lemma validate_references_spec (s : analyzer) :
  _validate_references fromstring s =
  (app <- app_properties_issues fromstring s ;;
   Ok (add_issues s (validation_issues fromstring s app))).
Proof.
  unfold _validate_references, validation_issues. cbv zeta.
  rewrite !app_properties_add_issues.
  destruct (app_properties_issues fromstring s) as [app|e]; [|reflexivity].
  simpl. unfold add_issues. simpl. f_equal. f_equal.
  rewrite <- !app_assoc. reflexivity.
Qed.

(** What a completed analysis has built and found. *)
Lemma analyze_spec (z : zipfile) (s : analyzer) :
  analyze fromstring sha256_16 z = Ok s ->
  files s = files (_load_files sha256_16 z new_analyzer) /\
  relations_as_parsed s /\
  exists pre app,
    Forall build_issue pre /\
    app_properties_issues fromstring s = Ok app /\
    issues s = pre ++ validation_issues fromstring s app.
Proof.
  unfold analyze. intros Hrun.
  set (s0 := _load_files sha256_16 z new_analyzer) in *.
  destruct (_parse_content_types fromstring s0) as [s1|e] eqn:H1; [|discriminate].
  simpl in Hrun.
  destruct (_parse_all_rels fromstring s1) as [s2|e] eqn:H2; [|discriminate].
  simpl in Hrun. rewrite validate_references_spec in Hrun.
  destruct (app_properties_issues fromstring s2) as [app|e] eqn:H3; [|discriminate].
  simpl in Hrun. injection Hrun as <-.
  apply parse_content_types_spec in H1. destruct H1 as (Hf1 & Hr1 & l1 & Hi1 & Hl1).
  apply parse_all_rels_spec in H2. destruct H2 as (Hf2 & Hr2 & l2 & Hi2 & Hl2).
  assert (Hs0 : relations s0 = [] /\ issues s0 = []).
  { subst s0. destruct (load_files_spec z new_analyzer) as (_ & _ & _ & -> & ->).
    now split. }
  destruct Hs0 as [Hrel0 Hiss0].
  repeat split.
  - simpl. congruence.
  - apply Hr2. unfold relations_as_parsed. rewrite Hr1, Hrel0. split.
    + constructor.
    + intros ? ? ? [].
  - apply Hr2. unfold relations_as_parsed. rewrite Hr1, Hrel0. split.
    + constructor.
    + intros ? ? ? [].
  - exists (l1 ++ l2), app. repeat split.
    + apply Forall_app. now split.
    + exact H3.
    + simpl. rewrite Hi2, Hi1, Hiss0. reflexivity.
Qed.

End AnalyzerFacts.

(** ** Which check appends which issue *)

Ltac in_cases :=
  repeat match goal with
    | H : In _ (flat_map _ _) |- _ =>
        apply in_flat_map in H; destruct H as (? & ? & H)
    | H : In _ (map _ _) |- _ =>
        apply in_map_iff in H; destruct H as (? & H & ?)
    | H : In _ (_ ++ _) |- _ => apply in_app_or in H; destruct H as [H|H]
    | H : In _ [] |- _ => destruct H
    | H : In _ (_ :: _) |- _ => destruct H as [H|H]
    | H : In _ (if ?c then _ else _) |- _ => destruct c eqn:?
    | H : In _ (match ?c with _ => _ end) |- _ => destruct c eqn:?
    end.

Lemma filter_none {A} (P : A -> bool) (l : list A) :
  (forall x, In x l -> P x = false) -> filter P l = [].
Proof.
  induction l as [|x l IH]; intros H; simpl; [reflexivity|].
  rewrite (H x) by now left. apply IH. intros y Hy. apply H. now right.
Qed.

Lemma filter_all {A} (P : A -> bool) (l : list A) :
  (forall x, In x l -> P x = true) -> filter P l = l.
Proof.
  induction l as [|x l IH]; intros H; simpl; [reflexivity|].
  rewrite (H x) by now left. f_equal. apply IH. intros y Hy. apply H. now right.
Qed.

Lemma issues_of_other (c : check) (l : list issue) :
  (forall i, In i l -> issue_check i <> c) -> issues_of c l = [].
Proof.
  intros H. apply filter_none. intros i Hi. specialize (H i Hi).
  destruct (issue_check i), c; try reflexivity; congruence.
Qed.

Lemma issues_of_same (c : check) (l : list issue) :
  (forall i, In i l -> issue_check i = c) -> issues_of c l = l.
Proof.
  intros H. apply filter_all. intros i Hi. rewrite (H i Hi). now destruct c.
Qed.

Lemma issues_of_app (c : check) (l1 l2 : list issue) :
  issues_of c (l1 ++ l2) = issues_of c l1 ++ issues_of c l2.
Proof. apply filter_app. Qed.

Lemma presentation_rels_issues_check (rels : list relationship) (i : issue) :
  In i (presentation_rels_issues rels) -> issue_check i = PresentationRels.
Proof.
  unfold presentation_rels_issues. intros H.
  destruct (invalid_rels rels); [destruct H|].
  destruct H as [<-|H]; [reflexivity|].
  apply in_map_iff in H. destruct H as (? & <- & _). reflexivity.
Qed.

Lemma duplicate_id_issues_check (mk : list string -> issue) (ids : list string) (i : issue) :
  (forall l, issue_check (mk l) = PresentationIds) ->
  In i (duplicate_id_issues mk ids) -> issue_check i = PresentationIds.
Proof.
  unfold duplicate_id_issues. intros Hmk H.
  destruct (filter _ ids); [destruct H|]. destruct H as [<-|[]]. apply Hmk.
Qed.

Section IssueOrigins.

Variable fromstring : string -> option element.

Lemma reference_issues_check (s : analyzer) (i : issue) :
  In i (reference_issues s) -> issue_check i = References.
Proof.
  unfold reference_issues, duplicate_rid_issues, broken_ref_issues.
  intros H. in_cases; subst; reflexivity.
Qed.

Lemma content_type_issues_check (s : analyzer) (i : issue) :
  In i (content_type_issues s) -> issue_check i = ContentTypes.
Proof.
  unfold content_type_issues. intros H. in_cases; subst; reflexivity.
Qed.

Lemma layout_master_issues_check (s : analyzer) (i : issue) :
  In i (layout_master_issues s) -> issue_check i = LayoutChain.
Proof.
  unfold layout_master_issues. intros H. in_cases; subst; reflexivity.
Qed.

Lemma noteslide_issues_check (s : analyzer) (i : issue) :
  In i (noteslide_issues fromstring s) -> issue_check i = Noteslides.
Proof.
  unfold noteslide_issues. intros H. in_cases; subst; reflexivity.
Qed.

Lemma comments_issues_check (s : analyzer) (i : issue) :
  In i (comments_issues fromstring s) -> issue_check i = Comments.
Proof.
  unfold comments_issues. intros H. in_cases; subst; reflexivity.
Qed.

Lemma app_properties_issues_check (s : analyzer) (app : list issue) (i : issue) :
  app_properties_issues fromstring s = Ok app ->
  In i app -> issue_check i = AppProperties.
Proof.
  unfold app_properties_issues. intros Hrun H.
  destruct (PyDict.get (files s) "docProps/app.xml") as [content|];
    [|injection Hrun as <-; destruct H].
  destruct (fromstring content) as [root|]; [|injection Hrun as <-; destruct H].
  destruct (int_of_text _) as [a|]; [|discriminate]. simpl in Hrun.
  destruct (int_of_text _) as [b|]; [|discriminate]. simpl in Hrun.
  injection Hrun as <-. in_cases; subst; reflexivity.
Qed.

Lemma section_issues_check (root : element) (i : issue) :
  In i (section_issues root) -> issue_check i = Sections.
Proof.
  unfold section_issues. intros H. in_cases; subst; reflexivity.
Qed.

Lemma notes_master_issues_check (s : analyzer) (root : element) (i : issue) :
  In i (notes_master_issues s root) -> issue_check i = NotesMaster.
Proof.
  unfold notes_master_issues. intros H. in_cases; subst; reflexivity.
Qed.

(** The issues about the presentation descriptor among those of
    [_validate_presentation_ids]. *)
Lemma presentation_ids_issues_rels (s : analyzer) :
  issues_of PresentationRels (presentation_ids_issues fromstring s) =
  match PyDict.get (files s) "ppt/presentation.xml" with
  | None => []
  | Some content =>
      match fromstring content with
      | None => []
      | Some _ => presentation_rels_issues (pres_rels s)
      end
  end.
Proof.
  unfold presentation_ids_issues.
  destruct (PyDict.get (files s) "ppt/presentation.xml") as [content|]; [|reflexivity].
  destruct (fromstring content) as [root|]; [|reflexivity].
  rewrite !issues_of_app.
  rewrite (issues_of_same _ (presentation_rels_issues _))
    by apply presentation_rels_issues_check.
  rewrite !issues_of_other; [now rewrite app_nil_r | | | |].
  - intros i Hi. apply notes_master_issues_check in Hi. congruence.
  - intros i Hi. apply section_issues_check in Hi. congruence.
  - intros i Hi. apply duplicate_id_issues_check in Hi; [congruence | reflexivity].
  - intros i Hi. apply duplicate_id_issues_check in Hi; [congruence | reflexivity].
Qed.

Lemma presentation_ids_issues_not_references (s : analyzer) (i : issue) :
  In i (presentation_ids_issues fromstring s) -> issue_check i <> References.
Proof.
  unfold presentation_ids_issues. intros H.
  destruct (PyDict.get (files s) "ppt/presentation.xml") as [content|]; [|destruct H].
  destruct (fromstring content) as [root|]; [|destruct H].
  repeat (apply in_app_or in H; destruct H as [H|H]).
  - apply duplicate_id_issues_check in H; [congruence | reflexivity].
  - apply duplicate_id_issues_check in H; [congruence | reflexivity].
  - apply presentation_rels_issues_check in H. congruence.
  - apply section_issues_check in H. congruence.
  - apply notes_master_issues_check in H. congruence.
Qed.

Lemma build_issue_check (l : list issue) (i : issue) :
  Forall build_issue l -> In i l -> issue_check i = Build.
Proof.
  intros Hl Hi. rewrite Forall_forall in Hl.
  destruct (Hl i Hi) as [->|[p ->]]; reflexivity.
Qed.

(** Of the issues of a completed analysis, those of the reference check
    are [reference_issues] and those about the presentation descriptor
    come from [_validate_presentation_rels]. *)
Lemma analysis_issues_by_check (s : analyzer) (pre app : list issue) :
  Forall build_issue pre ->
  app_properties_issues fromstring s = Ok app ->
  issues s = pre ++ validation_issues fromstring s app ->
  issues_of References (issues s) = reference_issues s /\
  issues_of PresentationRels (issues s) =
    issues_of PresentationRels (presentation_ids_issues fromstring s).
Proof.
  intros Hpre Happ ->. unfold validation_issues. rewrite !issues_of_app.
  split.
  - rewrite (issues_of_same _ (reference_issues s)) by apply reference_issues_check.
    rewrite !issues_of_other; [now rewrite app_nil_r | | | | | | |].
    + intros i Hi. apply comments_issues_check in Hi. congruence.
    + intros i Hi. apply (app_properties_issues_check s app) in Hi; congruence.
    + intros i Hi. apply noteslide_issues_check in Hi. congruence.
    + apply presentation_ids_issues_not_references.
    + intros i Hi. apply layout_master_issues_check in Hi. congruence.
    + intros i Hi. apply content_type_issues_check in Hi. congruence.
    + intros i Hi. apply (build_issue_check pre) in Hi; congruence.
  - rewrite (issues_of_other _ pre).
    2:{ intros i Hi. apply (build_issue_check pre) in Hi; congruence. }
    rewrite (issues_of_other _ (reference_issues s)).
    2:{ intros i Hi. apply reference_issues_check in Hi. congruence. }
    rewrite (issues_of_other _ (content_type_issues s)).
    2:{ intros i Hi. apply content_type_issues_check in Hi. congruence. }
    rewrite (issues_of_other _ (layout_master_issues s)).
    2:{ intros i Hi. apply layout_master_issues_check in Hi. congruence. }
    rewrite (issues_of_other _ (noteslide_issues fromstring s)).
    2:{ intros i Hi. apply noteslide_issues_check in Hi. congruence. }
    rewrite (issues_of_other _ app).
    2:{ intros i Hi. apply (app_properties_issues_check s app) in Hi; congruence. }
    rewrite (issues_of_other _ (comments_issues fromstring s)).
    2:{ intros i Hi. apply comments_issues_check in Hi. congruence. }
    simpl. now rewrite app_nil_r.
Qed.

End IssueOrigins.

(** ** Relationships as parsed *)

(** C5 (as stated, refuted): for an external relationship [resolved] is
    set; it holds the target. *)
Lemma external_relationship_has_resolved :
  let r := parse_relationship "ppt/slides/slide1.xml" Sample.hyperlink_element in
  rel_mode r = "External" /\
  rel_resolved r = Some "http://example.com/" /\
  rel_resolved r <> None.
Proof. repeat split. discriminate. Qed.

(** C5 (amended): in the model of an analysed package every relationship
    has [resolved] set: for mode External it is the literal target, not
    resolved against the source; for any other mode it is the canonical
    path that the resolver computes from the source part and the target. *)
Theorem resolved_of_parsed_relationship
    (fromstring : string -> option element) (sha256_16 : string -> string)
    (z : zipfile) (s : analyzer) :
  analyze fromstring sha256_16 z = Ok s ->
  forall source rels r,
    In (source, rels) (relations s) -> In r rels ->
    (rel_mode r = "External" -> rel_resolved r = Some (rel_target r)) /\
    (rel_mode r <> "External" ->
     rel_resolved r = Some (_resolve_target source (rel_target r))).
Proof.
  intros Hrun source rels r Hin Hr.
  apply analyze_spec in Hrun. destruct Hrun as (_ & [_ Hall] & _).
  specialize (Hall source rels r Hin Hr). unfold resolved_as_parsed in Hall.
  split; intros Hm.
  - rewrite Hall, Hm. reflexivity.
  - apply String.eqb_neq in Hm. rewrite Hall, Hm. reflexivity.
Qed.

Lemma resolved_of_parsed_relationship_witness :
  rel_resolved (parse_relationship "ppt/slides/slide1.xml" Sample.hyperlink_element) =
    Some "http://example.com/" /\
  rel_resolved (parse_relationship "ppt/slides/slide1.xml"
                  (Sample.relationship_element "rId2" REL_TYPES.image "../media/pic1.png")) =
    Some "ppt/media/pic1.png".
Proof.
  assert (Hrun : analyze Sample.fromstring Sample.sha256_16 Sample.with_hyperlink =
                 Ok (Sample.model Sample.with_hyperlink))
    by (vm_compute; reflexivity).
  pose proof (resolved_of_parsed_relationship Sample.fromstring Sample.sha256_16
                Sample.with_hyperlink (Sample.model Sample.with_hyperlink) Hrun
                "ppt/slides/slide1.xml"
                (map (parse_relationship "ppt/slides/slide1.xml")
                     (ET.children Sample.hyperlink_rels_root))) as H.
  split.
  - apply (H (parse_relationship "ppt/slides/slide1.xml" Sample.hyperlink_element)).
    + vm_compute. left. reflexivity.
    + vm_compute. left. reflexivity.
    + vm_compute. reflexivity.
  - apply (H (parse_relationship "ppt/slides/slide1.xml"
                (Sample.relationship_element "rId2" REL_TYPES.image "../media/pic1.png"))).
    + vm_compute. left. reflexivity.
    + vm_compute. right. left. reflexivity.
    + vm_compute. discriminate.
Defined.

(** ** Misplaced relationships in the presentation descriptor *)

Lemma group_invalid_grouped (invalid : list invalid_relation) :
  group_invalid invalid =
  map (fun k => (k, filter (fun r => inv_type r =? k) invalid))
      (PySet.of_list (map inv_type invalid)).
Proof.
  unfold group_invalid.
  change (fold_left _ invalid [])
    with (fold_left (group_step inv_type (fun l r => l ++ [r]) []) invalid []).
  rewrite fold_group_step. unfold grouped. apply map_ext. intros k.
  unfold group_value. rewrite fold_snoc_id. reflexivity.
Qed.

(** The issues of [_validate_presentation_rels]: one issue that lists
    every misplaced relationship, then one issue for each kind. *)
Lemma presentation_rels_issues_spec (rels : list relationship) :
  presentation_rels_issues rels =
  match invalid_rels rels with
  | [] => []
  | _ :: _ =>
      INVALID_PRESENTATION_RELS (invalid_rels rels) ::
      map (kind_issue (invalid_rels rels))
          (PySet.of_list (map inv_type (invalid_rels rels)))
  end.
Proof.
  unfold presentation_rels_issues.
  destruct (invalid_rels rels) as [|r l] eqn:E; [reflexivity|].
  f_equal. rewrite group_invalid_grouped, map_map. reflexivity.
Qed.

Lemma invalid_rels_rids (rels : list relationship) :
  map inv_rid (invalid_rels rels) =
  map rel_id
    (filter (fun r => PyDict.mem INVALID_PRES_REL_TYPES (rel_type_name r)) rels).
Proof.
  unfold invalid_rels. induction rels as [|r rels IH]; [reflexivity|].
  cbn [flat_map filter]. unfold PyDict.mem at 1.
  destruct (PyDict.get INVALID_PRES_REL_TYPES (rel_type_name r)).
  - cbn [app map inv_rid]. now rewrite IH.
  - cbn [app]. exact IH.
Qed.

(** C6 (as stated, refuted): two misplaced image relationships (N = 2,
    k = 1) yield two issues, the list and the count for kind image, not
    N + k = 3. *)
Lemma two_misplaced_images_yield_two_issues :
  Sample.analyze Sample.two_images = Ok (Sample.model Sample.two_images) /\
  List.length (invalid_rels (pres_rels (Sample.model Sample.two_images))) = 2 /\
  List.length
    (PySet.of_list
       (map inv_type (invalid_rels (pres_rels (Sample.model Sample.two_images))))) = 1 /\
  issues_of PresentationRels (issues (Sample.model Sample.two_images)) =
    [ INVALID_PRESENTATION_RELS (invalid_rels (pres_rels (Sample.model Sample.two_images)));
      PRES_RELS_INVALID "image" 2 ["rId1"; "rId2"]
        ["media/pic1.png"; "media/pic2.png"] ] /\
  List.length (issues_of PresentationRels (issues (Sample.model Sample.two_images))) <> 2 + 1.
Proof.
  split; [vm_compute; reflexivity|].
  split; [vm_compute; reflexivity|].
  split; [vm_compute; reflexivity|].
  split; [vm_compute; reflexivity|].
  vm_compute. discriminate.
Qed.

(** The list of invalid relations in terms of the relationships: one
    entry for each relationship of a disallowed kind, in their order. *)
Lemma invalid_rels_entries (rels : list relationship) :
  invalid_rels rels =
  map invalid_entry
    (filter (fun r => Py.mem (rel_type_name r) (PyDict.keys INVALID_PRES_REL_TYPES)) rels).
Proof.
  unfold invalid_rels. induction rels as [|r rels IH]; [reflexivity|].
  cbn [flat_map filter]. rewrite IH.
  destruct (PyDict.get INVALID_PRES_REL_TYPES (rel_type_name r)) as [reason|] eqn:E.
  - assert (Hmem : Py.mem (rel_type_name r) (PyDict.keys INVALID_PRES_REL_TYPES) = true).
    { apply py_mem_In, dict_mem_In. unfold PyDict.mem. now rewrite E. }
    rewrite Hmem. cbn [map app]. f_equal.
    unfold invalid_entry, PyDict.get_default. now rewrite E.
  - assert (Hmem : Py.mem (rel_type_name r) (PyDict.keys INVALID_PRES_REL_TYPES) = false).
    { destruct (Py.mem _ _) eqn:Hm; [|reflexivity].
      apply py_mem_In, dict_mem_In in Hm. unfold PyDict.mem in Hm. now rewrite E in Hm. }
    now rewrite Hmem.
Qed.

Lemma filter_map_swap {A B} (f : A -> B) (P : B -> bool) (l : list A) :
  filter P (map f l) = map f (filter (fun a => P (f a)) l).
Proof.
  induction l as [|a l IH]; [reflexivity|]. cbn [map filter].
  destruct (P (f a)); cbn [map]; now rewrite IH.
Qed.

(** The per-kind issue in terms of the relationships of that kind. *)
Lemma kind_issue_entries (misplaced : list relationship) (k : string) :
  kind_issue (map invalid_entry misplaced) k =
  let group := filter (fun r => rel_type_name r =? k) misplaced in
  PRES_RELS_INVALID k (List.length group) (map rel_id group) (map rel_target group).
Proof.
  unfold kind_issue. cbv zeta.
  rewrite (filter_map_swap invalid_entry (fun e => inv_type e =? k)).
  cbn [inv_type invalid_entry]. now rewrite length_map, !map_map.
Qed.

Lemma presentation_rels_issues_entries (rels : list relationship) :
  let misplaced :=
    filter (fun r => Py.mem (rel_type_name r) (PyDict.keys INVALID_PRES_REL_TYPES)) rels in
  let of_kind := fun k => filter (fun r => rel_type_name r =? k) misplaced in
  presentation_rels_issues rels =
  match misplaced with
  | [] => []
  | _ :: _ =>
      INVALID_PRESENTATION_RELS (map invalid_entry misplaced) ::
      map (fun k =>
             PRES_RELS_INVALID k (List.length (of_kind k))
               (map rel_id (of_kind k)) (map rel_target (of_kind k)))
          (PySet.of_list (map rel_type_name misplaced))
  end.
Proof.
  intros misplaced of_kind.
  rewrite presentation_rels_issues_spec, invalid_rels_entries. fold misplaced.
  assert (Hk : map (kind_issue (map invalid_entry misplaced))
                 (PySet.of_list (map inv_type (map invalid_entry misplaced))) =
               map (fun k =>
                      PRES_RELS_INVALID k (List.length (of_kind k))
                        (map rel_id (of_kind k)) (map rel_target (of_kind k)))
                   (PySet.of_list (map rel_type_name misplaced))).
  { rewrite map_map.
    change (map (fun x => inv_type (invalid_entry x)) misplaced)
      with (map rel_type_name misplaced).
    apply map_ext. intros k. apply kind_issue_entries. }
  rewrite Hk. now destruct misplaced.
Qed.

(** C6 (amended): when the presentation part is present and well-formed
    and its descriptor holds N >= 1 relationships of a disallowed kind, of
    k distinct kinds, the validator appends one INVALID_PRESENTATION_RELS
    issue whose list has one entry for each of these relationships, in the
    order of the descriptor, with its id, kind and target; it is followed
    by one issue for each kind, named PRES_RELS_INVALID_ and the kind in
    upper case, that carries the number, the ids and the targets of the
    relationships of that kind: 1 + k issues; with N = 0 it appends
    none.  [misplaced] are the relationships of a disallowed kind, [kinds]
    their kinds without repetition. *)
Theorem misplaced_relationships_issues
    (fromstring : string -> option element) (sha256_16 : string -> string)
    (z : zipfile) (s : analyzer) (content : string) (root : element) :
  analyze fromstring sha256_16 z = Ok s ->
  PyDict.get (files s) "ppt/presentation.xml" = Some content ->
  fromstring content = Some root ->
  let disallowed :=
    ["image"; "slideLayout"; "notesSlide"; "audio"; "video"; "chart"; "oleObject"] in
  let misplaced := filter (fun r => Py.mem (rel_type_name r) disallowed) (pres_rels s) in
  let kinds := PySet.of_list (map rel_type_name misplaced) in
  let of_kind := fun k => filter (fun r => rel_type_name r =? k) misplaced in
  invalid_rels (pres_rels s) = map invalid_entry misplaced /\
  NoDup kinds /\
  (forall k, In k kinds <-> exists r, In r misplaced /\ rel_type_name r = k) /\
  (forall k, In k kinds -> In k disallowed) /\
  issues_of PresentationRels (issues s) =
    match misplaced with
    | [] => []
    | _ :: _ =>
        INVALID_PRESENTATION_RELS (map invalid_entry misplaced) ::
        map (fun k =>
               PRES_RELS_INVALID k (List.length (of_kind k))
                 (map rel_id (of_kind k)) (map rel_target (of_kind k)))
            kinds
    end /\
  (forall k,
     issue_type
       (PRES_RELS_INVALID k (List.length (of_kind k))
          (map rel_id (of_kind k)) (map rel_target (of_kind k))) =
     ("PRES_RELS_INVALID_" ++ Py.upper k)%string) /\
  List.length (issues_of PresentationRels (issues s)) =
    match misplaced with
    | [] => 0
    | _ :: _ => 1 + List.length kinds
    end.
Proof.
  intros Hrun Hget Hparse disallowed misplaced kinds of_kind.
  assert (Hinv : invalid_rels (pres_rels s) = map invalid_entry misplaced)
    by apply invalid_rels_entries.
  assert (Hkinds : forall k, In k kinds <-> exists r, In r misplaced /\ rel_type_name r = k).
  { intros k. unfold kinds. rewrite set_in_of_list, in_map_iff.
    split; intros (r & H1 & H2); exists r; tauto. }
  assert (Hissues : issues_of PresentationRels (issues s) =
            match misplaced with
            | [] => []
            | _ :: _ =>
                INVALID_PRESENTATION_RELS (map invalid_entry misplaced) ::
                map (fun k =>
                       PRES_RELS_INVALID k (List.length (of_kind k))
                         (map rel_id (of_kind k)) (map rel_target (of_kind k)))
                    kinds
            end).
  { apply analyze_spec in Hrun. destruct Hrun as (_ & _ & pre & app & Hpre & Happ & Hiss).
    destruct (analysis_issues_by_check fromstring s pre app Hpre Happ Hiss) as [_ Hrels].
    rewrite Hrels, presentation_ids_issues_rels, Hget, Hparse.
    exact (presentation_rels_issues_entries (pres_rels s)). }
  split; [exact Hinv|]. split; [apply set_nodup_of_list|]. split; [exact Hkinds|].
  split; [|split; [exact Hissues|split; [reflexivity|]]].
  - intros k Hk. apply Hkinds in Hk. destruct Hk as (r & Hr & <-).
    apply filter_In in Hr. now apply py_mem_In.
  - rewrite Hissues. destruct misplaced; [reflexivity|]. simpl. now rewrite length_map.
Qed.

Lemma misplaced_relationships_issues_witness :
  issues_of PresentationRels (issues (Deck.model Deck.mixed_rels)) =
    [ INVALID_PRESENTATION_RELS
        [ {| inv_rid := "rId1"; inv_type := "image"; inv_target := "media/pic1.png";
             inv_reason :=
               "Images should be in slide/layout/master .rels, not presentation.xml.rels" |};
          {| inv_rid := "rId2"; inv_type := "slideLayout";
             inv_target := "slideLayouts/slideLayout1.xml";
             inv_reason :=
               "SlideLayouts should be in slideMaster .rels, not presentation.xml.rels" |};
          {| inv_rid := "rId4"; inv_type := "image"; inv_target := "media/pic2.png";
             inv_reason :=
               "Images should be in slide/layout/master .rels, not presentation.xml.rels" |} ];
      PRES_RELS_INVALID "image" 2 ["rId1"; "rId4"] ["media/pic1.png"; "media/pic2.png"];
      PRES_RELS_INVALID "slideLayout" 1 ["rId2"] ["slideLayouts/slideLayout1.xml"] ] /\
  List.length (issues_of PresentationRels (issues (Deck.model Deck.mixed_rels))) = 1 + 2.
Proof.
  assert (Hrun : analyze Deck.fromstring Deck.sha256_16 Deck.mixed_rels =
                 Ok (Deck.model Deck.mixed_rels))
    by (vm_compute; reflexivity).
  assert (Hget : PyDict.get (files (Deck.model Deck.mixed_rels))
                   "ppt/presentation.xml" = Some Sample.presentation_xml)
    by (vm_compute; reflexivity).
  assert (Hparse : Deck.fromstring Sample.presentation_xml =
                   Some Sample.presentation_root)
    by (vm_compute; reflexivity).
  destruct (misplaced_relationships_issues Deck.fromstring Deck.sha256_16
              Deck.mixed_rels (Deck.model Deck.mixed_rels)
              Sample.presentation_xml Sample.presentation_root Hrun Hget Hparse)
    as (_ & _ & _ & _ & Hissues & _ & Hlength).
  split.
  - rewrite Hissues. vm_compute. reflexivity.
  - rewrite Hlength. vm_compute. reflexivity.
Defined.

(** ** Duplicate relationship ids and broken references *)

Lemma filter_flat_map {A B} (P : B -> bool) (f : A -> list B) (l : list A) :
  filter P (flat_map f l) = flat_map (fun x => filter P (f x)) l.
Proof.
  induction l as [|x l IH]; simpl; [reflexivity|].
  now rewrite filter_app, IH.
Qed.

Lemma flat_map_nil {A B} (f : A -> list B) (l : list A) :
  (forall x, In x l -> f x = []) -> flat_map f l = [].
Proof.
  induction l as [|x l IH]; intros H; simpl; [reflexivity|].
  rewrite (H x) by now left. apply IH. intros y Hy. apply H. now right.
Qed.

(** Over a duplicate-free list only one element contributes. *)
Lemma flat_map_single {A B} (f : A -> list B) (l : list A) (a : A) :
  NoDup l -> In a l ->
  (forall x, In x l -> x <> a -> f x = []) ->
  flat_map f l = f a.
Proof.
  induction l as [|x l IH]; intros Hnd Hin Hf; [destruct Hin|].
  inversion Hnd as [|? ? Hx Hl]; subst. simpl.
  destruct Hin as [->|Hin].
  - rewrite (flat_map_nil f l), app_nil_r; [reflexivity|].
    intros y Hy. apply Hf; [now right|]. intros ->. contradiction.
  - rewrite (Hf x); [|now left|intros ->; contradiction].
    apply IH; [assumption | assumption |].
    intros y Hy. apply Hf. now right.
Qed.

Lemma flat_map_keyed {V B} (h : string * V -> list B) (d : list (string * V))
    (k : string) :
  NoDup (PyDict.keys d) ->
  (forall x, In x d -> fst x <> k -> h x = []) ->
  flat_map h d =
  match PyDict.get d k with
  | Some v => h (k, v)
  | None => []
  end.
Proof.
  intros Hnd Hh. destruct (PyDict.get d k) as [v|] eqn:Hg.
  - apply dict_get_in in Hg. apply flat_map_single.
    + apply (NoDup_map_inv fst). exact Hnd.
    + exact Hg.
    + intros [k' v'] Hx Hne. apply Hh; [assumption|]. simpl. intros ->.
      apply Hne. f_equal.
      apply (dict_in_get d k v') in Hx; [|assumption].
      apply (dict_in_get d k v) in Hg; [|assumption]. congruence.
  - apply flat_map_nil. intros x Hx. apply Hh; [assumption|].
    intros Hk. apply dict_get_none in Hg. apply Hg.
    rewrite <- Hk. now apply in_map.
Qed.

Lemma rid_counts_grouped (rels : list relationship) :
  rid_counts rels =
  map (fun rid => (rid, List.length (filter (fun r => rel_id r =? rid) rels)))
      (PySet.of_list (map rel_id rels)).
Proof.
  unfold rid_counts.
  change (fold_left _ rels [])
    with (fold_left (group_step rel_id (fun (n : nat) (_ : relationship) => n + 1) 0)
            rels []).
  rewrite fold_group_step. unfold grouped. apply map_ext. intros k.
  unfold group_value. rewrite fold_succ_length. reflexivity.
Qed.

Lemma filter_rel_id_absent (rid : string) (rels : list relationship) :
  ~ In rid (map rel_id rels) -> filter (fun r => rel_id r =? rid) rels = [].
Proof.
  intros Hn. apply filter_none. intros r Hr. apply String.eqb_neq.
  intros <-. apply Hn. now apply in_map.
Qed.

(** The [DUPLICATE_RID] issues of one source for one id. *)
Lemma duplicate_rid_issues_one (source rid : string) (rels : list relationship) :
  duplicate_rid_issues_for source rid (duplicate_rid_issues source rels) =
  let n := List.length (filter (fun r => rel_id r =? rid) rels) in
  if Nat.leb 2 n then [DUPLICATE_RID source rid n] else [].
Proof.
  unfold duplicate_rid_issues_for, duplicate_rid_issues.
  rewrite rid_counts_grouped, filter_flat_map, flat_map_concat_map, map_map,
    <- flat_map_concat_map.
  cbn [fst snd].
  destruct (py_in rid (PySet.of_list (map rel_id rels))) eqn:E.
  - apply py_in_In in E.
    rewrite (flat_map_single _ _ rid); [| apply set_nodup_of_list | exact E |].
    + cbv zeta. destruct (List.length (filter (fun r => rel_id r =? rid) rels)) as [|[|n]];
        try reflexivity.
      simpl. now rewrite !String.eqb_refl.
    + intros x _ Hne.
      destruct (Nat.ltb 1 _); [|reflexivity]. simpl.
      apply String.eqb_neq in Hne. now rewrite Hne, andb_false_r.
  - apply py_in_not_In in E. rewrite set_in_of_list in E.
    rewrite filter_rel_id_absent by assumption. simpl.
    apply flat_map_nil. intros x Hx.
    destruct (Nat.ltb 1 _); [|reflexivity]. simpl.
    assert (x <> rid) as Hne.
    { intros ->. apply E. apply (proj1 (set_in_of_list (map rel_id rels) rid)). exact Hx. }
    apply String.eqb_neq in Hne. now rewrite Hne, andb_false_r.
Qed.

Lemma duplicate_rid_issues_other (source source' rid : string)
    (rels : list relationship) :
  source' <> source ->
  duplicate_rid_issues_for source rid (duplicate_rid_issues source' rels) = [].
Proof.
  intros Hne. apply filter_none. intros i Hi.
  unfold duplicate_rid_issues in Hi. in_cases; subst.
  apply String.eqb_neq in Hne. simpl. now rewrite Hne.
Qed.

Lemma duplicate_rid_issues_for_broken (source source' rid : string)
    (parts : list string) (rels : list relationship) :
  duplicate_rid_issues_for source rid (broken_ref_issues parts source' rels) = [].
Proof.
  apply filter_none. intros i Hi.
  unfold broken_ref_issues in Hi. in_cases; subst. reflexivity.
Qed.

Lemma duplicate_rid_issues_for_references (source rid : string) (l : list issue) :
  duplicate_rid_issues_for source rid (issues_of References l) =
  duplicate_rid_issues_for source rid l.
Proof.
  unfold duplicate_rid_issues_for, issues_of.
  induction l as [|i l IH]; [reflexivity|]. simpl.
  destruct i; simpl; rewrite ?IH; reflexivity.
Qed.

(** C8: in the model of an analysed package, for every source and every
    relationship id, the issue list holds exactly one DUPLICATE_RID issue
    for that source and id when the id occurs n >= 2 times in the
    relationship set of the source, and its count is n; it holds none when
    the id occurs once or not at all. *)
Theorem duplicate_rid_reported_once
    (fromstring : string -> option element) (sha256_16 : string -> string)
    (z : zipfile) (s : analyzer) :
  analyze fromstring sha256_16 z = Ok s ->
  forall source rid,
    let n :=
      List.length
        (filter (fun r => rel_id r =? rid) (PyDict.get_default (relations s) source [])) in
    duplicate_rid_issues_for source rid (issues s) =
    if Nat.leb 2 n then [DUPLICATE_RID source rid n] else [].
Proof.
  intros Hrun source rid.
  apply analyze_spec in Hrun.
  destruct Hrun as (_ & [Hnd _] & pre & app & Hpre & Happ & Hiss).
  destruct (analysis_issues_by_check fromstring s pre app Hpre Happ Hiss) as [Href _].
  rewrite <- duplicate_rid_issues_for_references, Href.
  unfold reference_issues, duplicate_rid_issues_for. rewrite filter_flat_map.
  rewrite (flat_map_keyed _ (relations s) source Hnd).
  - unfold PyDict.get_default.
    destruct (PyDict.get (relations s) source) as [rels|]; [|reflexivity].
    cbn [fst snd]. rewrite filter_app.
    fold (duplicate_rid_issues_for source rid (duplicate_rid_issues source rels)).
    fold (duplicate_rid_issues_for source rid
            (broken_ref_issues (PyDict.keys (files s)) source rels)).
    rewrite duplicate_rid_issues_one, duplicate_rid_issues_for_broken.
    apply app_nil_r.
  - intros [source' rels] _ Hne. cbn [fst snd] in *. rewrite filter_app.
    fold (duplicate_rid_issues_for source rid (duplicate_rid_issues source' rels)).
    fold (duplicate_rid_issues_for source rid
            (broken_ref_issues (PyDict.keys (files s)) source' rels)).
    now rewrite duplicate_rid_issues_other, duplicate_rid_issues_for_broken.
Qed.

Lemma duplicate_rid_reported_once_witness :
  duplicate_rid_issues_for "ppt/slides/slide1.xml" "rId1"
    (issues (Sample.model Sample.duplicate_rid)) =
    [DUPLICATE_RID "ppt/slides/slide1.xml" "rId1" 2] /\
  duplicate_rid_issues_for "ppt/slides/slide1.xml" "rId2"
    (issues (Sample.model Sample.duplicate_rid)) = [].
Proof.
  assert (Hrun : analyze Sample.fromstring Sample.sha256_16 Sample.duplicate_rid =
                 Ok (Sample.model Sample.duplicate_rid))
    by (vm_compute; reflexivity).
  pose proof (duplicate_rid_reported_once Sample.fromstring Sample.sha256_16
                Sample.duplicate_rid (Sample.model Sample.duplicate_rid) Hrun) as H.
  split.
  - rewrite (H "ppt/slides/slide1.xml" "rId1"). vm_compute. reflexivity.
  - rewrite (H "ppt/slides/slide1.xml" "rId2"). vm_compute. reflexivity.
Defined.

Lemma broken_ref_issues_in (parts : list string) (src : string)
    (rels : list relationship) (source target rid : string) :
  In (BROKEN_REF source target rid) (broken_ref_issues parts src rels) <->
  src = source /\
  exists rel,
    In rel rels /\ rel_mode rel <> "External" /\ rel_resolved rel = Some target /\
    rel_id rel = rid /\ target <> "" /\ ~ In target parts.
Proof.
  unfold broken_ref_issues. rewrite in_flat_map. split.
  - intros (rel & Hrel & Hin).
    destruct (rel_mode rel =? "External") eqn:Em; [destruct Hin|].
    destruct (rel_resolved rel) as [t|] eqn:Er; [|destruct Hin].
    destruct (negb (t =? "") && negb (Py.mem t parts)) eqn:Ec; [|destruct Hin].
    destruct Hin as [Heq|[]]. injection Heq as -> -> <-.
    apply andb_true_iff in Ec. destruct Ec as [Et Ep].
    apply negb_true_iff in Et, Ep.
    split; [reflexivity|]. exists rel. repeat split; try assumption.
    + now apply String.eqb_neq.
    + now apply String.eqb_neq.
    + intros Hin. apply py_mem_In in Hin. congruence.
  - intros (-> & rel & Hrel & Hm & Hr & Hid & Ht & Hp).
    exists rel. split; [assumption|].
    apply String.eqb_neq in Hm, Ht. rewrite Hm, Hr, Ht. simpl.
    destruct (Py.mem target parts) eqn:Ep.
    + apply py_mem_In in Ep. contradiction.
    + simpl. left. now rewrite Hid.
Qed.

Lemma broken_ref_not_duplicate (src : string) (rels : list relationship)
    (source target rid : string) :
  ~ In (BROKEN_REF source target rid) (duplicate_rid_issues src rels).
Proof.
  unfold duplicate_rid_issues. intros H. in_cases; discriminate.
Qed.

(** C10: in the model of an analysed package a BROKEN_REF issue is never
    reported with an empty target, and a BROKEN_REF issue for a source, a
    target and an id is in the issue list exactly when the relationship
    set of the source has a relationship with that id whose mode is not
    External and whose resolved path is that target, non-empty and not
    among the parts. *)
Theorem broken_ref_needs_nonempty_target
    (fromstring : string -> option element) (sha256_16 : string -> string)
    (z : zipfile) (s : analyzer) :
  analyze fromstring sha256_16 z = Ok s ->
  (forall source rid, ~ In (BROKEN_REF source "" rid) (issues s)) /\
  (forall source target rid,
     In (BROKEN_REF source target rid) (issues s) <->
     exists rel,
       In rel (PyDict.get_default (relations s) source []) /\
       rel_mode rel <> "External" /\
       rel_resolved rel = Some target /\
       rel_id rel = rid /\
       target <> "" /\
       ~ In target (PyDict.keys (files s))).
Proof.
  intros Hrun. apply analyze_spec in Hrun.
  destruct Hrun as (_ & [Hnd _] & pre & app & Hpre & Happ & Hiss).
  destruct (analysis_issues_by_check fromstring s pre app Hpre Happ Hiss) as [Href _].
  assert (Hmain : forall source target rid,
    In (BROKEN_REF source target rid) (issues s) <->
    exists rel,
      In rel (PyDict.get_default (relations s) source []) /\
      rel_mode rel <> "External" /\ rel_resolved rel = Some target /\
      rel_id rel = rid /\ target <> "" /\ ~ In target (PyDict.keys (files s))).
  { intros source target rid.
    assert (In (BROKEN_REF source target rid) (issues s) <->
            In (BROKEN_REF source target rid) (reference_issues s)) as ->.
    { rewrite <- Href. unfold issues_of. rewrite filter_In. simpl. tauto. }
    unfold reference_issues. rewrite in_flat_map. split.
    - intros ([src rels] & Hsr & Hin). cbn [fst snd] in Hin.
      apply in_app_or in Hin. destruct Hin as [Hin|Hin].
      + now apply broken_ref_not_duplicate in Hin.
      + apply broken_ref_issues_in in Hin. destruct Hin as (-> & rel & Hrel & Hrest).
        exists rel. split; [|exact Hrest].
        unfold PyDict.get_default.
        now rewrite (dict_in_get _ _ _ Hnd Hsr).
    - intros (rel & Hrel & Hrest). unfold PyDict.get_default in Hrel.
      destruct (PyDict.get (relations s) source) as [rels|] eqn:Hg; [|destruct Hrel].
      exists (source, rels). split; [now apply dict_get_in|].
      cbn [fst snd]. apply in_or_app. right.
      apply broken_ref_issues_in. split; [reflexivity|]. now exists rel. }
  split; [|exact Hmain].
  intros source rid Hin. apply Hmain in Hin.
  destruct Hin as (rel & _ & _ & _ & _ & Ht & _). now apply Ht.
Qed.

Lemma broken_ref_needs_nonempty_target_witness :
  In (BROKEN_REF "ppt/slides/slide1.xml" "ppt/media/pic2.png" "rId1")
     (issues (Sample.model Sample.duplicate_rid)) /\
  map (fun r => (rel_id r, rel_mode r, rel_resolved r))
      (PyDict.get_default (relations (Sample.model Sample.duplicate_rid))
         "ppt/slides/slide1.xml" []) =
    [ ("rId1", "Internal", Some "ppt/media/pic1.png");
      ("rId1", "Internal", Some "ppt/media/pic2.png");
      ("rId2", "Internal", Some "") ] /\
  ~ In "" (PyDict.keys (files (Sample.model Sample.duplicate_rid))) /\
  ~ In (BROKEN_REF "ppt/slides/slide1.xml" "" "rId2")
       (issues (Sample.model Sample.duplicate_rid)).
Proof.
  assert (Hrun : analyze Sample.fromstring Sample.sha256_16 Sample.duplicate_rid =
                 Ok (Sample.model Sample.duplicate_rid))
    by (vm_compute; reflexivity).
  destruct (broken_ref_needs_nonempty_target Sample.fromstring Sample.sha256_16
              Sample.duplicate_rid (Sample.model Sample.duplicate_rid) Hrun)
    as [Hnever Hiff].
  split; [|split; [|split]].
  - apply Hiff.
    exists (parse_relationship "ppt/slides/slide1.xml"
              (Sample.relationship_element "rId1" REL_TYPES.image "../media/pic2.png")).
    repeat split.
    + vm_compute. right. left. reflexivity.
    + vm_compute. discriminate.
    + vm_compute. discriminate.
    + vm_compute. intuition discriminate.
  - vm_compute. reflexivity.
  - vm_compute. intuition discriminate.
  - apply Hnever.
Defined.

(** ** Failures while the model is built *)

Section BuildFailures.

Variable fromstring : string -> option element.
Variable sha256_16 : string -> string.

Lemma load_files_entry (z : zipfile) (name : string) :
  In name (namelist z) ->
  PyDict.get (files (_load_files sha256_16 z new_analyzer)) name =
  Some (zip_read z name).
Proof.
  intros Hin. rewrite load_files_get.
  apply py_mem_In in Hin. now rewrite Hin.
Qed.

(** A missing manifest is recorded and leaves both tables empty. *)
Lemma missing_manifest_recorded (z : zipfile) :
  ~ In "[Content_Types].xml" (namelist z) ->
  exists s,
    _parse_content_types fromstring (_load_files sha256_16 z new_analyzer) = Ok s /\
    issues s = [I_CRITICAL] /\ content_types s = [] /\ default_types s = [].
Proof.
  intros Hn. unfold _parse_content_types. rewrite load_files_get.
  destruct (Py.mem "[Content_Types].xml" (namelist z)) eqn:E.
  - apply py_mem_In in E. contradiction.
  - eexists. split; [reflexivity|].
    destruct (load_files_spec sha256_16 z new_analyzer) as (_ & Hc & Hd & _ & Hi).
    simpl. rewrite Hi, Hc, Hd. repeat split.
Qed.

Lemma malformed_manifest_aborts_early (z : zipfile) :
  In "[Content_Types].xml" (namelist z) ->
  fromstring (zip_read z "[Content_Types].xml") = None ->
  analyze fromstring sha256_16 z = Raise ParseError.
Proof.
  intros Hin Hparse. unfold analyze, _parse_content_types.
  rewrite (load_files_entry z _ Hin), Hparse. reflexivity.
Qed.

Lemma index_absent (x : string) (l : list string) :
  ~ In x l -> Py.index x l = None.
Proof.
  induction l as [|y l IH]; simpl; [reflexivity|]. intros Hn.
  destruct (y =? x) eqn:E.
  - apply String.eqb_eq in E. tauto.
  - rewrite IH by tauto. reflexivity.
Qed.

Lemma rels_to_part_stray (name : string) :
  name <> "_rels/.rels" ->
  ~ In "_rels" (Py.split "/" name) ->
  _rels_to_part name = Raise ValueError.
Proof.
  intros Hne Hn. unfold _rels_to_part.
  apply String.eqb_neq in Hne. rewrite Hne, index_absent by assumption.
  reflexivity.
Qed.

Lemma parse_rels_raises (rels_path content : string) (s : analyzer) (e : exn) :
  _parse_rels fromstring rels_path content s = Raise e -> e = ValueError.
Proof.
  unfold _parse_rels, _rels_to_part.
  destruct (fromstring content); [|discriminate].
  destruct (rels_path =? "_rels/.rels"); [discriminate|].
  destruct (Py.index "_rels" (Py.split "/" rels_path)); [discriminate|].
  simpl. now intros [= <-].
Qed.

(** The loop of [_parse_all_rels] stops with [ValueError] at the first
    well-formed descriptor outside a [_rels] directory. *)
Lemma parse_all_rels_stray (entries : list (string * string)) (name content : string)
    (root : element) :
  In (name, content) entries ->
  Py.endswith ".rels" name = true ->
  fromstring content = Some root ->
  _rels_to_part name = Raise ValueError ->
  forall s,
    for_each
      (fun s nc =>
         if Py.endswith ".rels" (fst nc)
         then _parse_rels fromstring (fst nc) (snd nc) s
         else Ok s)
      entries s = Raise ValueError.
Proof.
  intros Hin Hend Hparse Hpart.
  induction entries as [|x entries IH]; [destruct Hin|]. intros s.
  cbn [for_each].
  destruct Hin as [->|Hin].
  - cbn [fst snd]. rewrite Hend. unfold _parse_rels. rewrite Hparse, Hpart.
    reflexivity.
  - destruct (Py.endswith ".rels" (fst x)).
    + destruct (_parse_rels fromstring (fst x) (snd x) s) as [s'|e] eqn:Hx.
      * simpl. now apply IH.
      * apply parse_rels_raises in Hx. now subst e.
    + simpl. now apply IH.
Qed.

End BuildFailures.

(** C2 (the code departs from the claim): when the archive has a manifest
    that is not well-formed XML, [ET.fromstring] raises [ParseError] in
    [_parse_content_types], nothing catches it and the analysis aborts:
    there is no model, no empty table and no issue record. *)
Theorem malformed_manifest_aborts
    (fromstring : string -> option element) (sha256_16 : string -> string)
    (z : zipfile) :
  In "[Content_Types].xml" (namelist z) ->
  fromstring (zip_read z "[Content_Types].xml") = None ->
  _parse_content_types fromstring (_load_files sha256_16 z new_analyzer) =
    Raise ParseError /\
  analyze fromstring sha256_16 z = Raise ParseError.
Proof.
  intros Hin Hparse. split; [|now apply malformed_manifest_aborts_early].
  unfold _parse_content_types.
  rewrite (load_files_entry sha256_16 z _ Hin), Hparse. reflexivity.
Qed.

Lemma malformed_manifest_aborts_witness :
  Sample.analyze Sample.malformed_manifest = Raise ParseError.
Proof.
  apply (malformed_manifest_aborts Sample.fromstring Sample.sha256_16
           Sample.malformed_manifest).
  - vm_compute. auto.
  - vm_compute. reflexivity.
Defined.

(** C9 (as stated, refuted): a stray descriptor whose content is not
    well-formed is recorded as an issue and the analysis completes. *)
Lemma malformed_stray_descriptor_is_recorded :
  In "foo.rels" (namelist Sample.stray_rels_malformed) /\
  Py.endswith ".rels" "foo.rels" = true /\
  ~ In "_rels" (Py.split "/" "foo.rels") /\
  Sample.analyze Sample.stray_rels_malformed =
    Ok (Sample.model Sample.stray_rels_malformed) /\
  issues (Sample.model Sample.stray_rels_malformed) = [I_ERROR "foo.rels"].
Proof.
  split; [vm_compute; auto|].
  split; [vm_compute; reflexivity|].
  split; [vm_compute; intuition discriminate|].
  split; vm_compute; reflexivity.
Qed.

(** C9 (amended): if the archive has an entry whose name ends in [.rels],
    is not [_rels/.rels], has no [_rels] segment, and whose content is
    well-formed XML, the analysis aborts with an uncaught exception: the
    [ValueError] of the search for the [_rels] segment, or, when the
    manifest is malformed, the [ParseError] raised before that. *)
Theorem stray_descriptor_aborts
    (fromstring : string -> option element) (sha256_16 : string -> string)
    (z : zipfile) (name : string) (root : element) :
  In name (namelist z) ->
  Py.endswith ".rels" name = true ->
  name <> "_rels/.rels" ->
  ~ In "_rels" (Py.split "/" name) ->
  fromstring (zip_read z name) = Some root ->
  analyze fromstring sha256_16 z =
  Raise (if manifest_malformed fromstring z then ParseError else ValueError).
Proof.
  intros Hin Hend Hne Hseg Hparse.
  unfold manifest_malformed.
  destruct (Py.mem "[Content_Types].xml" (namelist z)) eqn:Em.
  - apply py_mem_In in Em.
    destruct (fromstring (zip_read z "[Content_Types].xml")) as [ct|] eqn:Ec.
    + cbn [andb]. unfold analyze.
      destruct (_parse_content_types fromstring (_load_files sha256_16 z new_analyzer))
        as [s1|e] eqn:H1.
      * cbn [bind]. apply parse_content_types_spec in H1. destruct H1 as (Hf & _).
        unfold _parse_all_rels.
        rewrite (parse_all_rels_stray fromstring (files s1) name (zip_read z name) root);
          try assumption; [reflexivity | | now apply rels_to_part_stray].
        rewrite Hf. apply dict_get_in. now apply load_files_entry.
      * unfold _parse_content_types in H1.
        rewrite (load_files_entry sha256_16 z _ Em), Ec in H1. discriminate.
    + cbn [andb]. now apply malformed_manifest_aborts_early.
  - cbn [andb]. unfold analyze.
    destruct (_parse_content_types fromstring (_load_files sha256_16 z new_analyzer))
      as [s1|e] eqn:H1.
    + cbn [bind]. apply parse_content_types_spec in H1. destruct H1 as (Hf & _).
      unfold _parse_all_rels.
      rewrite (parse_all_rels_stray fromstring (files s1) name (zip_read z name) root);
        try assumption; [reflexivity | | now apply rels_to_part_stray].
      rewrite Hf. apply dict_get_in. now apply load_files_entry.
    + unfold _parse_content_types in H1. rewrite load_files_get, Em in H1.
      discriminate.
Qed.

Lemma stray_descriptor_aborts_witness :
  Sample.analyze Sample.stray_rels = Raise ValueError.
Proof.
  apply (stray_descriptor_aborts Sample.fromstring Sample.sha256_16 Sample.stray_rels
           "foo.rels" Sample.empty_rels_root).
  - vm_compute. auto.
  - vm_compute. reflexivity.
  - discriminate.
  - vm_compute. intuition discriminate.
  - vm_compute. reflexivity.
Defined.

(** ** The comparison and the hypotheses *)

Lemma group_by_type_grouped (rels : list relationship) :
  group_by_type rels =
  map (fun k => (k, filter (fun r => rel_type_name r =? k) rels))
      (PySet.of_list (map rel_type_name rels)).
Proof.
  unfold group_by_type.
  change (fold_left _ rels [])
    with (fold_left (group_step rel_type_name (fun l r => l ++ [r]) []) rels []).
  rewrite fold_group_step. unfold grouped. apply map_ext. intros k.
  unfold group_value. rewrite fold_snoc_id. reflexivity.
Qed.

Lemma group_by_type_keys (rels : list relationship) :
  PyDict.keys (group_by_type rels) = PySet.of_list (map rel_type_name rels).
Proof.
  rewrite group_by_type_grouped. unfold PyDict.keys. rewrite map_map. apply map_id.
Qed.

Lemma filter_type_absent (k : string) (rels : list relationship) :
  ~ In k (map rel_type_name rels) -> filter (fun r => rel_type_name r =? k) rels = [].
Proof.
  intros Hn. apply filter_none. intros r Hr. apply String.eqb_neq.
  intros <-. apply Hn. now apply in_map.
Qed.

(** The group of a kind is the sub-list of the relationships of that
    kind. *)
Lemma group_by_type_get (rels : list relationship) (k : string) :
  PyDict.get_default (group_by_type rels) k [] =
  filter (fun r => rel_type_name r =? k) rels.
Proof.
  rewrite group_by_type_grouped. unfold PyDict.get_default.
  rewrite dict_get_keyed.
  destruct (py_in k (PySet.of_list (map rel_type_name rels))) eqn:E; [reflexivity|].
  apply py_in_not_In in E. symmetry. apply filter_type_absent.
  intros Hin. apply E. now apply set_in_of_list.
Qed.

(** The diffs of [_compare_presentation_rels_detailed] about the count of
    one kind. *)
Lemma pres_rels_type_count_diff (c r : analyzer) (k : string) :
  let c_group := filter (fun rel => rel_type_name rel =? k) (pres_rels c) in
  let r_group := filter (fun rel => rel_type_name rel =? k) (pres_rels r) in
  List.length c_group <> List.length r_group ->
  In (mk_diff (if Py.mem k ["image"; "slideLayout"; "notesSlide"] then CRITICAL else HIGH)
        (PRES_RELS_TYPE_COUNT_CHANGED k (List.length c_group) (List.length r_group)
           (map rel_target c_group) (map rel_target r_group)))
     (_compare_presentation_rels_detailed c r).
Proof.
  intros c_group r_group Hne. unfold _compare_presentation_rels_detailed.
  apply in_or_app. left. apply in_flat_map. exists k. split.
  - apply set_in_union. rewrite !set_in_of_list, !group_by_type_keys, !set_in_of_list.
    destruct (in_dec string_dec k (map rel_type_name (pres_rels c))) as [Hc|Hc];
      [now left|].
    destruct (in_dec string_dec k (map rel_type_name (pres_rels r))) as [Hr|Hr];
      [now right|].
    exfalso. apply Hne. unfold c_group, r_group.
    now rewrite !filter_type_absent.
  - rewrite !group_by_type_get. fold c_group. fold r_group.
    apply Nat.eqb_neq in Hne. rewrite Hne. simpl. now left.
Qed.

Section ComparatorFacts.

Variable fromstring : string -> option element.

(** The diff list of a completed comparison, in the order of the
    sub-comparisons. *)
Lemma compare_spec (c r : analyzer) (diffs : list diff) :
  compare fromstring c r = Ok diffs <->
  exists app xml,
    _compare_app_properties fromstring c r = Ok app /\
    _compare_xml_content fromstring c r = Ok xml /\
    diffs =
      _compare_file_lists c r ++ _compare_content_types c r ++
      _compare_relations c r ++ _compare_presentation_xml fromstring c r ++
      _compare_sections fromstring c r ++ _compare_noteslides fromstring c r ++
      app ++ _compare_comments fromstring c r ++ xml ++ _detect_hash_matches c r.
Proof.
  unfold compare. split.
  - intros Hrun.
    destruct (_compare_app_properties fromstring c r) as [app|e]; [|discriminate].
    simpl in Hrun.
    destruct (_compare_xml_content fromstring c r) as [xml|e]; [|discriminate].
    simpl in Hrun. injection Hrun as <-. exists app, xml.
    repeat split. rewrite <- !app_assoc. reflexivity.
  - intros (app & xml & -> & -> & ->). simpl. rewrite <- !app_assoc. reflexivity.
Qed.

Lemma compare_has_presentation_xml (c r : analyzer) (diffs : list diff) (d : diff) :
  compare fromstring c r = Ok diffs ->
  In d (_compare_presentation_xml fromstring c r) -> In d diffs.
Proof.
  intros Hrun Hd. apply compare_spec in Hrun.
  destruct Hrun as (app & xml & _ & _ & ->).
  do 3 (apply in_or_app; right). apply in_or_app. now left.
Qed.

End ComparatorFacts.

Lemma filter_nonempty {A} (P : A -> bool) (l : list A) (x : A) :
  In x l -> P x = true -> filter P l <> [].
Proof.
  intros Hin HP Hnil.
  assert (In x (filter P l)) as H by (apply filter_In; now split).
  rewrite Hnil in H. destruct H.
Qed.

(** The misplaced-relations hypothesis comes first whenever its rule is
    triggered. *)
Lemma misplaced_hypothesis_first (issues : list issue) (diffs : list diff) :
  invalid_pres_rels_of issues <> [] \/ pres_rels_diffs_of diffs <> [] ->
  exists rest,
    _generate_hypotheses issues diffs = misplaced_hypothesis issues diffs :: rest.
Proof.
  intros H. unfold _generate_hypotheses. exists (appended_hypotheses issues diffs).
  destruct (invalid_pres_rels_of issues) as [|i l];
    destruct (pres_rels_diffs_of diffs) as [|d l']; try reflexivity.
  destruct H as [H|H]; now contradict H.
Qed.

Lemma invalid_rels_image (rels : list relationship) (r : relationship) :
  In r rels -> rel_type_name r = "image" -> invalid_rels rels <> [].
Proof.
  intros Hin Hk Hnil.
  assert (In {| inv_rid := rel_id r; inv_type := "image"; inv_target := rel_target r;
                inv_reason :=
                  "Images should be in slide/layout/master .rels, not presentation.xml.rels" |}
             (invalid_rels rels)) as H.
  { unfold invalid_rels. apply in_flat_map. exists r. split; [assumption|].
    rewrite Hk. simpl. now left. }
  rewrite Hnil in H. destruct H.
Qed.

(** C1 (as stated, refuted): without the presentation part itself the
    validator does not look at the presentation descriptor: no
    INVALID_PRESENTATION_RELS issue, although the descriptor holds exactly
    one image relationship that the repaired package lacks. *)
Lemma no_presentation_part_no_invalid_rels_issue :
  Sample.analyze Sample.corrupt_no_presentation =
    Ok (Sample.model Sample.corrupt_no_presentation) /\
  Sample.analyze Sample.repaired_no_presentation =
    Ok (Sample.model Sample.repaired_no_presentation) /\
  map (fun r => (rel_type_name r, rel_target r))
      (pres_rels (Sample.model Sample.corrupt_no_presentation)) =
    [("image", "media/pic1.png")] /\
  pres_rels (Sample.model Sample.repaired_no_presentation) = [] /\
  issues (Sample.model Sample.corrupt_no_presentation) = [] /\
  ~ exists i, In i (issues (Sample.model Sample.corrupt_no_presentation)) /\
              Py.contains "INVALID_PRESENTATION_RELS" (issue_type i) = true.
Proof.
  split; [vm_compute; reflexivity|].
  split; [vm_compute; reflexivity|].
  split; [vm_compute; reflexivity|].
  split; [vm_compute; reflexivity|].
  split; [vm_compute; reflexivity|].
  intros (i & Hi & _). vm_compute in Hi. exact Hi.
Qed.

(** C1 (amended): let A be an analysed package whose presentation
    descriptor holds exactly one relationship of kind image, and B an
    analysed package whose presentation descriptor holds none.  Then a
    completed comparison of A with B includes the
    PRES_RELS_TYPE_COUNT_CHANGED diff for kind image with counts 1 and 0
    and severity CRITICAL, and the hypothesis list made from the issues of
    A and these diffs starts with the misplaced-relations hypothesis.  The
    issues of A include an INVALID_PRESENTATION_RELS issue provided A
    contains a well-formed presentation part. *)
Theorem misplaced_image_scenario
    (fromstring : string -> option element) (sha256_16 : string -> string)
    (zA zB : zipfile) (A B : analyzer) (diffs : list diff) (image : relationship) :
  analyze fromstring sha256_16 zA = Ok A ->
  analyze fromstring sha256_16 zB = Ok B ->
  compare fromstring A B = Ok diffs ->
  filter (fun r => rel_type_name r =? "image") (pres_rels A) = [image] ->
  filter (fun r => rel_type_name r =? "image") (pres_rels B) = [] ->
  (forall content root,
     PyDict.get (files A) "ppt/presentation.xml" = Some content ->
     fromstring content = Some root ->
     In (INVALID_PRESENTATION_RELS (invalid_rels (pres_rels A))) (issues A)) /\
  In (mk_diff CRITICAL
        (PRES_RELS_TYPE_COUNT_CHANGED "image" 1 0 [rel_target image] []))
     diffs /\
  exists rest,
    _generate_hypotheses (issues A) diffs = misplaced_hypothesis (issues A) diffs :: rest /\
    h_title (misplaced_hypothesis (issues A) diffs) =
      "CRITICAL: Misplaced relations in presentation.xml.rels".
Proof.
  intros HA HB Hcmp HimgA HimgB.
  assert (Himage : In image (pres_rels A) /\ rel_type_name image = "image").
  { assert (In image (filter (fun r => rel_type_name r =? "image") (pres_rels A)))
      as H by (rewrite HimgA; now left).
    apply filter_In in H. destruct H as [H1 H2]. split; [assumption|].
    now apply String.eqb_eq. }
  assert (Hdiff : In (mk_diff CRITICAL
                        (PRES_RELS_TYPE_COUNT_CHANGED "image" 1 0 [rel_target image] []))
                     diffs).
  { apply (compare_has_presentation_xml fromstring A B diffs _ Hcmp).
    unfold _compare_presentation_xml. apply in_or_app. right.
    pose proof (pres_rels_type_count_diff A B "image") as H.
    cbv zeta in H. rewrite HimgA, HimgB in H. apply H. discriminate. }
  split; [|split].
  - intros content root Hget Hparse.
    apply analyze_spec in HA. destruct HA as (_ & _ & pre & app & Hpre & Happ & Hiss).
    destruct (analysis_issues_by_check fromstring A pre app Hpre Happ Hiss) as [_ Hrels].
    rewrite presentation_ids_issues_rels, Hget, Hparse in Hrels.
    assert (In (INVALID_PRESENTATION_RELS (invalid_rels (pres_rels A)))
               (issues_of PresentationRels (issues A))) as Hin.
    { rewrite Hrels, presentation_rels_issues_spec.
      destruct (invalid_rels (pres_rels A)) eqn:E; [|now left].
      exfalso. destruct Himage as [H1 H2].
      now apply (invalid_rels_image (pres_rels A) image). }
    unfold issues_of in Hin. now apply filter_In in Hin.
  - exact Hdiff.
  - destruct (misplaced_hypothesis_first (issues A) diffs) as [rest Hrest].
    + right. apply (filter_nonempty _ diffs _ Hdiff). reflexivity.
    + exists rest. split; [exact Hrest | reflexivity].
Qed.

Lemma misplaced_image_scenario_witness :
  In (INVALID_PRESENTATION_RELS (invalid_rels (pres_rels (Sample.model Sample.corrupt))))
     (issues (Sample.model Sample.corrupt)) /\
  In (mk_diff CRITICAL (PRES_RELS_TYPE_COUNT_CHANGED "image" 1 0 ["media/pic1.png"] []))
     Sample.corrupt_vs_repaired /\
  hd_error (_generate_hypotheses (issues (Sample.model Sample.corrupt))
              Sample.corrupt_vs_repaired) =
    Some (misplaced_hypothesis (issues (Sample.model Sample.corrupt))
            Sample.corrupt_vs_repaired).
Proof.
  assert (HA : analyze Sample.fromstring Sample.sha256_16 Sample.corrupt =
               Ok (Sample.model Sample.corrupt)) by (vm_compute; reflexivity).
  assert (HB : analyze Sample.fromstring Sample.sha256_16 Sample.repaired =
               Ok (Sample.model Sample.repaired)) by (vm_compute; reflexivity).
  assert (Hcmp : compare Sample.fromstring (Sample.model Sample.corrupt)
                   (Sample.model Sample.repaired) = Ok Sample.corrupt_vs_repaired)
    by (vm_compute; reflexivity).
  assert (Hget : PyDict.get (files (Sample.model Sample.corrupt)) "ppt/presentation.xml" =
                 Some Sample.presentation_xml) by (vm_compute; reflexivity).
  assert (Hparse : Sample.fromstring Sample.presentation_xml =
                   Some Sample.presentation_root) by (vm_compute; reflexivity).
  destruct (misplaced_image_scenario Sample.fromstring Sample.sha256_16
              Sample.corrupt Sample.repaired
              (Sample.model Sample.corrupt) (Sample.model Sample.repaired)
              Sample.corrupt_vs_repaired
              (parse_relationship "ppt/presentation.xml"
                 (Sample.relationship_element "rId1" REL_TYPES.image "media/pic1.png"))
              HA HB Hcmp)
    as (H1 & H2 & rest & H3 & _).
  - vm_compute. reflexivity.
  - vm_compute. reflexivity.
  - split; [exact (H1 _ _ Hget Hparse)|]. split; [exact H2|]. rewrite H3. reflexivity.
Defined.

(** ** The two directions of a comparison *)

Lemma dict_in_keys_value {K V} (d : list (K * V)) (k : K) :
  In k (PyDict.keys d) -> exists v, In (k, v) d.
Proof.
  unfold PyDict.keys. intros Hin. apply in_map_iff in Hin.
  destruct Hin as ([k' v] & Hk & Hin). simpl in Hk. subst k'. now exists v.
Qed.

Lemma dict_in_keys {K V} (d : list (K * V)) (k : K) (v : V) :
  In (k, v) d -> In k (PyDict.keys d).
Proof. intros Hin. change k with (fst (k, v)). now apply in_map. Qed.



Lemma collect_in {A B} (body : A -> result (list B)) (l : list A) (out : list B) :
  collect body l = Ok out ->
  forall d, In d out <-> exists x o, In x l /\ body x = Ok o /\ In d o.
Proof.
  revert out. induction l as [|x l IH]; intros out Hrun d; simpl in Hrun.
  - injection Hrun as <-. split; [intros [] | intros (? & ? & [] & _)].
  - destruct (body x) as [o|e] eqn:Hx; [|discriminate]. simpl in Hrun.
    destruct (collect body l) as [rest|e] eqn:Hl; [|discriminate]. simpl in Hrun.
    injection Hrun as <-. rewrite in_app_iff, (IH rest eq_refl d). split.
    + intros [Hd|(y & o' & Hy & Hb & Hd)].
      * exists x, o. repeat split; [now left | assumption | assumption].
      * exists y, o'. repeat split; [now right | assumption | assumption].
    + intros (y & o' & [<-|Hy] & Hb & Hd).
      * left. congruence.
      * right. now exists y, o'.
Qed.



Lemma rel_map_nodup (rels : list relationship) : NoDup (PyDict.keys (rel_map rels)).
Proof. apply dict_nodup_of_list. Qed.


Lemma compare_file_lists_in (c r : analyzer) (d : diff) :
  In d (_compare_file_lists c r) <->
  (exists f, In f (PyDict.keys (files c)) /\ ~ In f (PyDict.keys (files r)) /\
             d = mk_diff HIGH (FILE_REMOVED f)) \/
  (exists f, In f (PyDict.keys (files r)) /\ ~ In f (PyDict.keys (files c)) /\
             d = mk_diff MEDIUM (FILE_ADDED f)).
Proof.
  unfold _compare_file_lists. rewrite in_app_iff, !in_map_iff.
  split.
  - intros [(f & <- & Hf)|(f & <- & Hf)]; apply set_in_diff in Hf;
      rewrite !set_in_of_list in Hf; [left | right]; exists f; tauto.
  - intros [(f & Hc & Hr & ->)|(f & Hr & Hc & ->)]; [left | right]; exists f;
      (split; [reflexivity|]); apply set_in_diff; rewrite !set_in_of_list; tauto.
Qed.

Lemma compare_content_types_in (c r : analyzer) (d : diff) :
  In d (_compare_content_types c r) <->
  exists part ctype,
    In (part, ctype) (content_types c) /\
    ((PyDict.get (content_types r) part = None /\
      d = mk_diff HIGH (CONTENT_TYPE_REMOVED part)) \/
     (exists r_ctype,
        PyDict.get (content_types r) part = Some r_ctype /\ r_ctype <> ctype /\
        d = mk_diff MEDIUM (CONTENT_TYPE_CHANGED part ctype r_ctype))).
Proof.
  unfold _compare_content_types. rewrite in_flat_map. split.
  - intros ([part ctype] & Hin & Hd). cbn [fst snd] in Hd.
    exists part, ctype. split; [assumption|].
    destruct (PyDict.get (content_types r) part) as [rc|].
    + destruct (rc =? ctype) eqn:E; [destruct Hd|].
      destruct Hd as [<-|[]]. right. exists rc.
      repeat split. now apply String.eqb_neq.
    + destruct Hd as [<-|[]]. now left.
  - intros (part & ctype & Hin & H). exists (part, ctype). split; [assumption|].
    cbn [fst snd]. destruct H as [[-> ->]|(rc & -> & Hne & ->)].
    + now left.
    + apply String.eqb_neq in Hne. rewrite Hne. now left.
Qed.

Lemma compare_relations_in (c r : analyzer) (d : diff) :
  In d (_compare_relations c r) <->
  exists source rid rel,
    (In source (PyDict.keys (relations c)) \/ In source (PyDict.keys (relations r))) /\
    In (rid, rel) (rel_map (PyDict.get_default (relations c) source [])) /\
    ((PyDict.get (rel_map (PyDict.get_default (relations r) source [])) rid = None /\
      d = mk_diff HIGH (RELATION_REMOVED source rid (rel_target rel))) \/
     (exists r_rel,
        PyDict.get (rel_map (PyDict.get_default (relations r) source [])) rid = Some r_rel /\
        rel_target r_rel <> rel_target rel /\
        d = mk_diff HIGH
              (RELATION_TARGET_CHANGED source rid (rel_target rel) (rel_target r_rel)))).
Proof.
  unfold _compare_relations. rewrite in_flat_map. split.
  - intros (source & Hs & Hd). apply set_in_union in Hs.
    rewrite !set_in_of_list in Hs. apply in_flat_map in Hd.
    destruct Hd as ([rid rel] & Hin & Hd). cbn [fst snd] in Hd.
    exists source, rid, rel. split; [assumption|]. split; [assumption|].
    destruct (PyDict.get (rel_map (PyDict.get_default (relations r) source [])) rid)
      as [r_rel|].
    + destruct (rel_target r_rel =? rel_target rel) eqn:E; [destruct Hd|].
      destruct Hd as [<-|[]]. right. exists r_rel.
      repeat split. now apply String.eqb_neq.
    + destruct Hd as [<-|[]]. now left.
  - intros (source & rid & rel & Hs & Hin & H). exists source. split.
    + apply set_in_union. now rewrite !set_in_of_list.
    + apply in_flat_map. exists (rid, rel). split; [assumption|]. cbn [fst snd].
      destruct H as [[-> ->]|(r_rel & -> & Hne & ->)].
      * now left.
      * apply String.eqb_neq in Hne. rewrite Hne. now left.
Qed.


Lemma compare_presentation_rels_in (c r : analyzer) (d : diff) :
  In d (_compare_presentation_rels_detailed c r) <->
  (exists k,
     let c_group := filter (fun rel => rel_type_name rel =? k) (pres_rels c) in
     let r_group := filter (fun rel => rel_type_name rel =? k) (pres_rels r) in
     List.length c_group <> List.length r_group /\
     d = mk_diff
           (if Py.mem k ["image"; "slideLayout"; "notesSlide"] then CRITICAL else HIGH)
           (PRES_RELS_TYPE_COUNT_CHANGED k (List.length c_group) (List.length r_group)
              (map rel_target c_group) (map rel_target r_group))) \/
  (List.length (pres_rels c) <> List.length (pres_rels r) /\
   d = mk_diff HIGH
         (PRES_RELS_TOTAL_COUNT_CHANGED (List.length (pres_rels c))
            (List.length (pres_rels r)))).
Proof.
  split.
  - unfold _compare_presentation_rels_detailed. rewrite in_app_iff, in_flat_map.
    intros [(k & _ & Hd)|Hd].
    + left. exists k. rewrite !group_by_type_get in Hd. cbv zeta.
      destruct (Nat.eqb _ _) eqn:E; [destruct Hd|].
      destruct Hd as [<-|[]]. split; [now apply Nat.eqb_neq | reflexivity].
    + right. destruct (Nat.eqb _ _) eqn:E; [destruct Hd|].
      destruct Hd as [<-|[]]. split; [now apply Nat.eqb_neq | reflexivity].
  - intros [(k & Hne & ->)|[Hne ->]].
    + now apply pres_rels_type_count_diff.
    + unfold _compare_presentation_rels_detailed. apply in_or_app. right.
      apply Nat.eqb_neq in Hne. rewrite Hne. now left.
Qed.


Section PresentationMirror.

Variable fromstring : string -> option element.

Lemma slide_map_nodup (data : presentation_data) : NoDup (PyDict.keys (slide_map data)).
Proof. apply dict_nodup_of_list. Qed.

Lemma section_map_nodup (data : presentation_data) :
  NoDup (PyDict.keys (section_map data)).
Proof. apply dict_nodup_of_list. Qed.


Lemma compare_sections_in (c r : analyzer) (d : diff) :
  let c_sections := section_map (get_presentation_data fromstring c) in
  let r_sections := section_map (get_presentation_data fromstring r) in
  In d (_compare_sections fromstring c r) <->
  (exists name, In name (PyDict.keys c_sections) /\ ~ In name (PyDict.keys r_sections) /\
                d = mk_diff HIGH (SECTION_REMOVED name)) \/
  (exists name, In name (PyDict.keys r_sections) /\ ~ In name (PyDict.keys c_sections) /\
                d = mk_diff MEDIUM (SECTION_ADDED name)) \/
  (exists name c_section r_section,
     PyDict.get c_sections name = Some c_section /\
     PyDict.get r_sections name = Some r_section /\
     PySet.eqb (PySet.of_list (sd_slideIds c_section))
               (PySet.of_list (sd_slideIds r_section)) = false /\
     d = mk_diff HIGH
           (SECTION_SLIDES_CHANGED name (PySet.of_list (sd_slideIds c_section))
              (PySet.of_list (sd_slideIds r_section)))).
Proof.
  intros c_sections r_sections. unfold _compare_sections.
  fold c_sections. fold r_sections. rewrite !in_app_iff, !in_flat_map. split.
  - intros [([name cs] & Hin & Hd)|[([name rs] & Hin & Hd)|([name cs] & Hin & Hd)]];
      cbn [fst snd] in Hd.
    + left. destruct (PyDict.mem r_sections name) eqn:E; [destruct Hd|].
      destruct Hd as [<-|[]]. exists name. repeat split.
      * now apply dict_in_keys in Hin.
      * intros Hk. apply dict_mem_In in Hk. congruence.
    + right. left. destruct (PyDict.mem c_sections name) eqn:E; [destruct Hd|].
      destruct Hd as [<-|[]]. exists name. repeat split.
      * now apply dict_in_keys in Hin.
      * intros Hk. apply dict_mem_In in Hk. congruence.
    + right. right.
      destruct (PyDict.get r_sections name) as [rs|] eqn:Er; [|destruct Hd].
      destruct (PySet.eqb _ _) eqn:E; [destruct Hd|].
      destruct Hd as [<-|[]]. exists name, cs, rs. repeat split; try assumption.
      apply dict_in_get; [apply section_map_nodup | assumption].
  - intros [(name & Hc & Hr & ->)|[(name & Hr & Hc & ->)|(name & cs & rs & Hc & Hr & E & ->)]].
    + left. apply dict_in_keys_value in Hc. destruct Hc as [cs Hc].
      exists (name, cs). split; [assumption|]. cbn [fst snd].
      destruct (PyDict.mem r_sections name) eqn:E; [|now left].
      apply dict_mem_In in E. contradiction.
    + right. left. apply dict_in_keys_value in Hr. destruct Hr as [rs Hr].
      exists (name, rs). split; [assumption|]. cbn [fst snd].
      destruct (PyDict.mem c_sections name) eqn:E; [|now left].
      apply dict_mem_In in E. contradiction.
    + right. right. exists (name, cs). split; [now apply dict_get_in|].
      cbn [fst snd]. rewrite Hr, E. now left.
Qed.


End PresentationMirror.


Section ContentMirror.

Variable fromstring : string -> option element.

Lemma compare_noteslides_in (c r : analyzer) (d : diff) :
  let c_notes := get_noteslides_data fromstring c in
  let r_notes := get_noteslides_data fromstring r in
  In d (_compare_noteslides fromstring c r) <->
  (exists name, In name (PyDict.keys c_notes) /\ ~ In name (PyDict.keys r_notes) /\
                d = mk_diff HIGH (NOTESLIDE_REMOVED name)) \/
  (exists name, In name (PyDict.keys r_notes) /\ ~ In name (PyDict.keys c_notes) /\
                d = mk_diff MEDIUM (NOTESLIDE_ADDED name)) \/
  (exists name cn rn,
     PyDict.get c_notes name = Some cn /\ PyDict.get r_notes name = Some rn /\
     ((slide_target cn <> slide_target rn /\
       d = mk_diff CRITICAL
             (NOTESLIDE_SLIDE_REF_CHANGED name (slide_target cn) (slide_target rn))) \/
      (master_target cn <> master_target rn /\
       d = mk_diff HIGH
             (NOTESLIDE_MASTER_REF_CHANGED name (master_target cn) (master_target rn))))).
Proof.
  intros c_notes r_notes. unfold _compare_noteslides.
  fold c_notes. fold r_notes. rewrite !in_app_iff, !in_map_iff, in_flat_map. split.
  - intros [(name & <- & Hin)|[(name & <- & Hin)|(name & Hin & Hd)]].
    + left. apply set_in_diff in Hin. rewrite !set_in_of_list in Hin.
      exists name. tauto.
    + right. left. apply set_in_diff in Hin. rewrite !set_in_of_list in Hin.
      exists name. tauto.
    + right. right.
      destruct (PyDict.get c_notes name) as [cn|] eqn:Ec; [|destruct Hd].
      destruct (PyDict.get r_notes name) as [rn|] eqn:Er; [|destruct Hd].
      exists name, cn, rn. split; [exact Ec|]. split; [exact Er|].
      apply in_app_or in Hd. destruct Hd as [Hd|Hd].
      * left. destruct (py_eqb (slide_target cn) (slide_target rn)) eqn:E;
          [destruct Hd|]. destruct Hd as [<-|[]].
        split; [now apply py_eqb_neq | reflexivity].
      * right. destruct (py_eqb (master_target cn) (master_target rn)) eqn:E;
          [destruct Hd|]. destruct Hd as [<-|[]].
        split; [now apply py_eqb_neq | reflexivity].
  - intros [(name & Hc & Hr & ->)|[(name & Hr & Hc & ->)|(name & cn & rn & Hc & Hr & H)]].
    + left. exists name. split; [reflexivity|].
      apply set_in_diff. now rewrite !set_in_of_list.
    + right. left. exists name. split; [reflexivity|].
      apply set_in_diff. now rewrite !set_in_of_list.
    + right. right. exists name. split.
      * apply set_in_inter. rewrite !set_in_of_list.
        apply dict_get_in in Hc, Hr. split; eapply dict_in_keys; eassumption.
      * rewrite Hc, Hr. apply in_or_app.
        destruct H as [[Hne ->]|[Hne ->]]; [left | right];
          apply py_eqb_neq in Hne; rewrite Hne; now left.
Qed.













Lemma compare_xml_content_unfold (c r : analyzer) :
  _compare_xml_content fromstring c r = collect (xml_content_body fromstring c r) (xml_files c r).
Proof. reflexivity. Qed.

Lemma xml_files_in (c r : analyzer) (f : string) :
  In f (xml_files c r) <->
  Py.endswith ".xml" f = true /\
  In f (PyDict.keys (files c)) /\ In f (PyDict.keys (files r)).
Proof.
  unfold xml_files. rewrite filter_In, set_in_inter, !set_in_of_list. tauto.
Qed.



End ContentMirror.

(** ** Which sub-comparison appends which diff *)

Section DiffOrigins.

Variable fromstring : string -> option element.

Lemma compare_file_lists_origin (c r : analyzer) (d : diff) :
  In d (_compare_file_lists c r) -> diff_origin d = FileLists.
Proof.
  intros H. apply compare_file_lists_in in H.
  destruct H as [(f & _ & _ & ->)|(f & _ & _ & ->)]; reflexivity.
Qed.

Lemma compare_content_types_origin (c r : analyzer) (d : diff) :
  In d (_compare_content_types c r) -> diff_origin d = ContentTypeTable.
Proof.
  intros H. apply compare_content_types_in in H.
  destruct H as (part & ctype & _ & [[_ ->]|(rc & _ & _ & ->)]); reflexivity.
Qed.

Lemma compare_relations_origin (c r : analyzer) (d : diff) :
  In d (_compare_relations c r) -> diff_origin d = RelationSets.
Proof.
  intros H. apply compare_relations_in in H.
  destruct H as (source & rid & rel & _ & _ & [[_ ->]|(r_rel & _ & _ & ->)]);
    reflexivity.
Qed.

Lemma compare_presentation_xml_origin (c r : analyzer) (d : diff) :
  In d (_compare_presentation_xml fromstring c r) -> diff_origin d = PresentationXml.
Proof.
  unfold _compare_presentation_xml. rewrite in_app_iff. intros [H|H].
  - destruct (PyDict.eqb _ _); [destruct H|]. destruct H as [<-|[]]. reflexivity.
  - apply compare_presentation_rels_in in H.
    destruct H as [(k & _ & ->)|[_ ->]]; reflexivity.
Qed.

Lemma compare_sections_origin (c r : analyzer) (d : diff) :
  In d (_compare_sections fromstring c r) -> diff_origin d = SectionLists.
Proof.
  intros H. apply compare_sections_in in H.
  destruct H as [(name & _ & _ & ->)|[(name & _ & _ & ->)|(name & cs & rs & _ & _ & _ & ->)]];
    reflexivity.
Qed.

Lemma compare_noteslides_origin (c r : analyzer) (d : diff) :
  In d (_compare_noteslides fromstring c r) -> diff_origin d = NotesSlides.
Proof.
  intros H. apply compare_noteslides_in in H.
  destruct H as [(name & _ & _ & ->)|[(name & _ & _ & ->)|
                 (name & cn & rn & _ & _ & [[_ ->]|[_ ->]])]];
    reflexivity.
Qed.

Lemma compare_app_properties_origin (c r : analyzer) (app : list diff) (d : diff) :
  _compare_app_properties fromstring c r = Ok app ->
  In d app -> diff_origin d = AppProps.
Proof.
  unfold _compare_app_properties. intros Hrun H.
  destruct (get_app_properties fromstring c) as [cp|e]; [|discriminate].
  destruct (get_app_properties fromstring r) as [rp|e]; [|discriminate].
  simpl in Hrun. injection Hrun as <-. in_cases; subst; reflexivity.
Qed.

Lemma compare_comments_origin (c r : analyzer) (d : diff) :
  In d (_compare_comments fromstring c r) -> diff_origin d = CommentFiles.
Proof.
  unfold _compare_comments. intros H. in_cases; subst; reflexivity.
Qed.

Lemma xml_content_body_origin (c r : analyzer) (f : string) (o : list diff) (d : diff) :
  xml_content_body fromstring c r f = Ok o -> In d o -> diff_origin d = XmlContent.
Proof.
  unfold xml_content_body, _compare_slide_xml, _compare_slidemaster_xml,
    _compare_slidelayout_xml.
  intros Hrun H.
  destruct (PyDict.subscript (hashes c) f) as [ch|]; [|discriminate].
  destruct (PyDict.subscript (hashes r) f) as [rh|]; [|discriminate].
  cbn [bind] in Hrun.
  destruct (negb (ch =? rh)); [|injection Hrun as <-; destruct H].
  destruct (is_slide_part f).
  { destruct (parse_both fromstring c r f) as [[[a b]|]|]; [| |discriminate];
      cbn [bind] in Hrun; injection Hrun as <-; in_cases; subst; reflexivity. }
  destruct (is_slidemaster_part f).
  { destruct (parse_both fromstring c r f) as [[[a b]|]|]; [| |discriminate];
      cbn [bind] in Hrun; injection Hrun as <-; in_cases; subst; reflexivity. }
  destruct (is_layout_part f).
  { destruct (parse_both fromstring c r f) as [[[a b]|]|]; [| |discriminate];
      cbn [bind] in Hrun; injection Hrun as <-; in_cases; subst; reflexivity. }
  destruct (f =? "ppt/presentation.xml"); injection Hrun as <-;
    in_cases; subst; reflexivity.
Qed.

Lemma compare_xml_content_origin (c r : analyzer) (xml : list diff) (d : diff) :
  _compare_xml_content fromstring c r = Ok xml ->
  In d xml -> diff_origin d = XmlContent.
Proof.
  rewrite compare_xml_content_unfold. intros Hrun H.
  apply (collect_in _ _ _ Hrun) in H. destruct H as (f & o & _ & Ho & Hd).
  now apply (xml_content_body_origin c r f o).
Qed.

Lemma detect_hash_matches_origin (c r : analyzer) (d : diff) :
  In d (_detect_hash_matches c r) -> diff_origin d = HashMatches.
Proof.
  unfold _detect_hash_matches. intros H. in_cases; subst; reflexivity.
Qed.

(** A diff of a completed comparison comes from the sub-comparison that
    its type names. *)
Lemma compare_component (c r : analyzer) (diffs : list diff) (d : diff) :
  compare fromstring c r = Ok diffs ->
  In d diffs ->
  match diff_origin d with
  | FileLists => In d (_compare_file_lists c r)
  | ContentTypeTable => In d (_compare_content_types c r)
  | RelationSets => In d (_compare_relations c r)
  | PresentationXml => In d (_compare_presentation_xml fromstring c r)
  | SectionLists => In d (_compare_sections fromstring c r)
  | NotesSlides => In d (_compare_noteslides fromstring c r)
  | AppProps =>
      exists app, _compare_app_properties fromstring c r = Ok app /\ In d app
  | CommentFiles => In d (_compare_comments fromstring c r)
  | XmlContent =>
      exists xml, _compare_xml_content fromstring c r = Ok xml /\ In d xml
  | HashMatches => In d (_detect_hash_matches c r)
  end.
Proof.
  intros Hrun Hd. apply compare_spec in Hrun.
  destruct Hrun as (app & xml & Happ & Hxml & ->).
  rewrite !in_app_iff in Hd.
  destruct Hd as [Hd|[Hd|[Hd|[Hd|[Hd|[Hd|[Hd|[Hd|[Hd|Hd]]]]]]]]].
  - now rewrite (compare_file_lists_origin c r d Hd).
  - now rewrite (compare_content_types_origin c r d Hd).
  - now rewrite (compare_relations_origin c r d Hd).
  - now rewrite (compare_presentation_xml_origin c r d Hd).
  - now rewrite (compare_sections_origin c r d Hd).
  - now rewrite (compare_noteslides_origin c r d Hd).
  - rewrite (compare_app_properties_origin c r app d Happ Hd). now exists app.
  - now rewrite (compare_comments_origin c r d Hd).
  - rewrite (compare_xml_content_origin c r xml d Hxml Hd). now exists xml.
  - now rewrite (detect_hash_matches_origin c r d Hd).
Qed.


End DiffOrigins.





(** * Further properties of the analyzer, the comparator and the resolver *)

(** ** Element trees *)

Lemma element_induction (P : element -> Prop) :
  (forall t a x cs, Forall P cs -> P (Element t a x cs)) -> forall e, P e.
Proof.
  intros H. fix IH 1. intros [t a x cs]. apply H.
  induction cs as [|c cs IHcs]; constructor; [apply IH | exact IHcs].
Qed.

Lemma iter_unfold (e : element) :
  ET.iter e = e :: flat_map ET.iter (ET.children e).
Proof. destruct e; reflexivity. Qed.

Lemma iter_self (e : element) : In e (ET.iter e).
Proof. rewrite iter_unfold. now left. Qed.

(** A descendant of a descendant is a descendant. *)
Lemma iter_trans (e x y : element) :
  In x (ET.iter e) -> In y (ET.iter x) -> In y (ET.iter e).
Proof.
  revert x y. induction e as [t a tx cs IH] using element_induction.
  intros x y Hx Hy. rewrite iter_unfold in Hx. simpl in Hx.
  destruct Hx as [<-|Hx]; [exact Hy|].
  rewrite iter_unfold. simpl. right.
  apply in_flat_map in Hx. destruct Hx as (c & Hc & Hx).
  apply in_flat_map. exists c. split; [exact Hc|].
  rewrite Forall_forall in IH. exact (IH c Hc x y Hx Hy).
Qed.

Lemma proper_descendant_trans (e x y : element) :
  In x (flat_map ET.iter (ET.children e)) ->
  In y (flat_map ET.iter (ET.children x)) ->
  In y (flat_map ET.iter (ET.children e)).
Proof.
  intros Hx Hy. apply in_flat_map in Hx. destruct Hx as (c & Hc & Hx).
  apply in_flat_map. exists c. split; [exact Hc|].
  apply (iter_trans c x y Hx). rewrite iter_unfold. now right.
Qed.

Lemma child_proper_descendant (e c : element) :
  In c (ET.children e) -> In c (flat_map ET.iter (ET.children e)).
Proof.
  intros Hc. apply in_flat_map. exists c. split; [exact Hc|apply iter_self].
Qed.

Lemma findall_desc_child_in (t1 t2 : string) (e x : element) :
  In x (ET.findall_desc_child t1 t2 e) <->
  exists p, In p (flat_map ET.iter (ET.children e)) /\ ET.tag p = t1 /\
            In x (ET.children p) /\ ET.tag x = t2.
Proof.
  unfold ET.findall_desc_child, ET.findall_desc, ET.findall_child, ET.tag_is.
  rewrite in_flat_map. split.
  - intros (p & Hp & Hx). apply filter_In in Hp, Hx.
    destruct Hp as (Hp & Ht1), Hx as (Hx & Ht2).
    apply String.eqb_eq in Ht1, Ht2. now exists p.
  - intros (p & Hp & Ht1 & Hx & Ht2). exists p.
    rewrite !filter_In, !String.eqb_eq. tauto.
Qed.

(** What [.//t1/t2] finds below an element that [.//u1/u2] finds below
    [root] is found by [.//t1/t2] below [root] too. *)
Lemma findall_desc_child_nested (u1 u2 t1 t2 : string) (root sect x : element) :
  In sect (ET.findall_desc_child u1 u2 root) ->
  In x (ET.findall_desc_child t1 t2 sect) ->
  In x (ET.findall_desc_child t1 t2 root).
Proof.
  rewrite !findall_desc_child_in.
  intros (p & Hp & _ & Hsect & _) (q & Hq & Ht1 & Hx & Ht2).
  exists q. split; [|tauto].
  apply (proper_descendant_trans root sect q); [|exact Hq].
  apply (proper_descendant_trans root p sect Hp).
  now apply child_proper_descendant.
Qed.

(** The slide ids that a section references are collected with
    [.//p:sldIdLst/p:sldId] below the section element, and the valid ids
    with the same path below the root, which finds the section's own
    entries as well: for every presentation tree the section check
    appends nothing. *)
Lemma section_issues_nil (pres_root : element) :
  section_issues pres_root = [].
Proof.
  unfold section_issues. apply flat_map_nil. intros section Hsection.
  apply in_map_iff in Hsection. destruct Hsection as (sect & <- & Hsect). simpl.
  apply flat_map_nil. intros slide_ref Href.
  apply in_map_iff in Href. destruct Href as (e & <- & He). simpl.
  destruct (ET.get e "id") as [i|] eqn:Hid; [|reflexivity].
  destruct (i =? "") eqn:Hi; [reflexivity|]. simpl.
  assert (Hin : In i (PySet.of_list (id_list "sldIdLst" "sldId" pres_root))).
  { apply set_in_of_list. unfold id_list. apply in_flat_map. exists e. split.
    - exact (findall_desc_child_nested _ _ _ _ pres_root sect e Hsect He).
    - rewrite Hid, Hi. now left. }
  apply py_mem_In in Hin. now rewrite Hin.
Qed.

(** ** Which check appends which issue *)

Section IssueComponents.

Variable fromstring : string -> option element.
Variable sha256_16 : string -> string.

Lemma presentation_ids_issue_component (s : analyzer) (i : issue) :
  In i (presentation_ids_issues fromstring s) ->
  exists content root,
    PyDict.get (files s) "ppt/presentation.xml" = Some content /\
    fromstring content = Some root /\
    match issue_check i with
    | PresentationIds =>
        In i (duplicate_id_issues DUPLICATE_SLIDE_ID (id_list "sldIdLst" "sldId" root)) \/
        In i (duplicate_id_issues DUPLICATE_MASTER_ID
                (id_list "sldMasterIdLst" "sldMasterId" root))
    | PresentationRels => In i (presentation_rels_issues (pres_rels s))
    | NotesMaster => In i (notes_master_issues s root)
    | _ => False
    end.
Proof.
  unfold presentation_ids_issues. intros H.
  destruct (PyDict.get (files s) "ppt/presentation.xml") as [content|]; [|destruct H].
  destruct (fromstring content) as [root|] eqn:Hroot; [|destruct H].
  exists content, root. split; [reflexivity|]. split; [exact Hroot|].
  rewrite section_issues_nil in H. simpl in H.
  repeat (apply in_app_or in H; destruct H as [H|H]).
  - rewrite (duplicate_id_issues_check DUPLICATE_SLIDE_ID _ i (fun _ => eq_refl) H).
    now left.
  - rewrite (duplicate_id_issues_check DUPLICATE_MASTER_ID _ i (fun _ => eq_refl) H).
    now right.
  - now rewrite (presentation_rels_issues_check _ i H).
  - now rewrite (notes_master_issues_check s root i H).
Qed.

(** An issue of a completed analysis comes from the check that its type
    names, run on the finished model. *)
Lemma analysis_issue_component (z : zipfile) (s : analyzer) (i : issue) :
  analyze fromstring sha256_16 z = Ok s ->
  In i (issues s) ->
  match issue_check i with
  | Build => build_issue i
  | References => In i (reference_issues s)
  | ContentTypes => In i (content_type_issues s)
  | LayoutChain => In i (layout_master_issues s)
  | PresentationIds | PresentationRels | Sections | NotesMaster =>
      In i (presentation_ids_issues fromstring s)
  | Noteslides => In i (noteslide_issues fromstring s)
  | AppProperties =>
      exists app, app_properties_issues fromstring s = Ok app /\ In i app
  | Comments => In i (comments_issues fromstring s)
  end.
Proof.
  intros Hrun Hi. apply analyze_spec in Hrun.
  destruct Hrun as (_ & _ & pre & app & Hpre & Happ & Hissues).
  rewrite Hissues in Hi. unfold validation_issues in Hi.
  rewrite !in_app_iff in Hi.
  destruct Hi as [Hi|[Hi|[Hi|[Hi|[Hi|[Hi|[Hi|Hi]]]]]]].
  - rewrite (build_issue_check pre i Hpre Hi).
    rewrite Forall_forall in Hpre. now apply Hpre.
  - now rewrite (reference_issues_check s i Hi).
  - now rewrite (content_type_issues_check s i Hi).
  - now rewrite (layout_master_issues_check s i Hi).
  - destruct (presentation_ids_issue_component s i Hi) as (content & root & _ & _ & Hc).
    destruct (issue_check i); try contradiction; exact Hi.
  - now rewrite (noteslide_issues_check fromstring s i Hi).
  - rewrite (app_properties_issues_check fromstring s app i Happ Hi). now exists app.
  - now rewrite (comments_issues_check fromstring s i Hi).
Qed.

(** Conversely, what a check appends is in the issue list. *)
Lemma analysis_issue_includes (z : zipfile) (s : analyzer) (i : issue) :
  analyze fromstring sha256_16 z = Ok s ->
  In i (reference_issues s) \/ In i (content_type_issues s) \/
  In i (layout_master_issues s) \/ In i (presentation_ids_issues fromstring s) \/
  In i (noteslide_issues fromstring s) \/
  (exists app, app_properties_issues fromstring s = Ok app /\ In i app) \/
  In i (comments_issues fromstring s) ->
  In i (issues s).
Proof.
  intros Hrun H. apply analyze_spec in Hrun.
  destruct Hrun as (_ & _ & pre & app & Hpre & Happ & ->).
  unfold validation_issues. rewrite !in_app_iff.
  destruct H as [H|[H|[H|[H|[H|[(app' & Happ' & H)|H]]]]]]; try tauto.
  rewrite Happ in Happ'. injection Happ' as <-. tauto.
Qed.

End IssueComponents.

(** X1.  No completed analysis reports a section that refers to a missing
    slide: the ids that [_validate_sections] checks are found by the very
    search that collects the valid ids, so the check cannot fire, whatever
    the sections of the presentation refer to. *)
Theorem section_check_never_fires (fromstring : string -> option element)
    (sha256_16 : string -> string) (z : zipfile) (s : analyzer) :
  analyze fromstring sha256_16 z = Ok s ->
  forall i, In i (issues s) -> issue_check i <> Sections.
Proof.
  intros Hrun i Hi Hc.
  pose proof (analysis_issue_component fromstring sha256_16 z s i Hrun Hi) as H.
  rewrite Hc in H.
  destruct (presentation_ids_issue_component fromstring s i H)
    as (content & root & _ & _ & H').
  now rewrite Hc in H'.
Qed.

Lemma section_check_never_fires_witness :
  map sd_slideIds (sections (get_presentation_data Deck.fromstring
                               (Deck.model Deck.sectioned))) = [[Some "999"]] /\
  map ref_id (slideIdList (get_presentation_data Deck.fromstring
                             (Deck.model Deck.sectioned))) = [Some "256"; Some "999"] /\
  forall i, In i (issues (Deck.model Deck.sectioned)) -> issue_check i <> Sections.
Proof.
  assert (Hrun : analyze Deck.fromstring Deck.sha256_16 Deck.sectioned =
                 Ok (Deck.model Deck.sectioned))
    by (vm_compute; reflexivity).
  split; [vm_compute; reflexivity|]. split; [vm_compute; reflexivity|].
  exact (section_check_never_fires Deck.fromstring Deck.sha256_16 Deck.sectioned
           (Deck.model Deck.sectioned) Hrun).
Defined.

(** ** The resolver on clean paths *)

Lemma startswith_slash (s : string) :
  Py.startswith "/" s =
  match s with
  | EmptyString => false
  | String c _ => Ascii.eqb c "/"
  end.
Proof.
  destruct s as [|c s]; [reflexivity|]. unfold Py.startswith.
  change (String.prefix "/" (String c s))
    with (if ascii_dec "/" c then String.prefix "" s else false).
  destruct (ascii_dec "/" c) as [<-|Hne].
  - now destruct s.
  - symmetry. apply Ascii.eqb_neq. congruence.
Qed.

Lemma lstrip_not_absolute (s : string) :
  Py.startswith "/" (Py.lstrip "/" s) = false.
Proof.
  induction s as [|c s IH]; [reflexivity|]. simpl.
  destruct (Ascii.eqb c "/") eqn:Hc; [exact IH|].
  rewrite startswith_slash. exact Hc.
Qed.

Lemma join_proper_not_absolute (l : list string) :
  Forall (fun seg => proper_segment seg /\ ResolverSpec.has_slash seg = false) l ->
  Py.startswith "/" (Py.join "/" l) = false.
Proof.
  intros Hall. destruct l as [|seg l]; [reflexivity|].
  inversion Hall as [|? ? ((_ & _ & Hne) & Hslash) _]; subst.
  destruct seg as [|c seg]; [congruence|].
  rewrite join_cons_char, startswith_slash. simpl in Hslash.
  now apply orb_false_iff in Hslash.
Qed.

(** [split] then [join] gives the string back. *)
Lemma join_split (s : string) : Py.join "/" (Py.split "/" s) = s.
Proof.
  induction s as [|c s IH]; [reflexivity|]. simpl.
  destruct (Ascii.eqb c "/") eqn:Hc.
  - apply Ascii.eqb_eq in Hc. subst c.
    destruct (Py.split "/" s) as [|seg segs] eqn:Hs; [now apply split_nonempty in Hs|].
    change (Py.join "/" ("" :: seg :: segs)) with ("/" ++ Py.join "/" (seg :: segs))%string.
    now rewrite IH.
  - destruct (Py.split "/" s) as [|seg segs] eqn:Hs; [now apply split_nonempty in Hs|].
    now rewrite join_cons_char, IH.
Qed.

Lemma split_app (x y : string) :
  Py.split "/" (x ++ "/" ++ y) = Py.split "/" x ++ Py.split "/" y.
Proof.
  induction x as [|c x IH]; [reflexivity|].
  change ((String c x ++ "/" ++ y)%string) with (String c (x ++ "/" ++ y)%string).
  simpl. change (String "/" y) with ("/" ++ y)%string. rewrite IH.
  destruct (Ascii.eqb c "/"); [reflexivity|].
  destruct (Py.split "/" x) as [|seg segs] eqn:Hs; [now apply split_nonempty in Hs|].
  reflexivity.
Qed.

(** X2.  The resolver never returns a path with a leading slash,
    whatever the source and the target: an absolute target loses all its
    leading slashes, a target returned unchanged is not absolute, and the
    joined segments start with a non-empty segment without slash. *)
Theorem resolve_never_absolute (source target : string) :
  Py.startswith "/" (_resolve_target source target) = false.
Proof.
  unfold _resolve_target.
  destruct (Py.startswith "/" target) eqn:Habs; [apply lstrip_not_absolute|].
  destruct (source =? ""); [exact Habs|].
  destruct (source_base source =? ""); [exact Habs|].
  apply join_proper_not_absolute, resolve_loop_proper.
Qed.

(** X3.  Where nothing has to be normalised the resolver concatenates:
    for a source in a directory whose segments are proper and a target
    whose segments are proper (no empty segment, no [.] and no [..]), the
    result is the directory, a slash and the target. *)
Theorem resolve_clean_paths (source target : string) :
  Forall proper_segment (Py.split "/" (source_base source)) ->
  Forall proper_segment (Py.split "/" target) ->
  _resolve_target source target = (source_base source ++ "/" ++ target)%string.
Proof.
  intros Hbase Htarget.
  assert (Hrel : Py.startswith "/" target = false).
  { rewrite startswith_slash. destruct target as [|c t]; [reflexivity|].
    destruct (Ascii.eqb c "/") eqn:Hc; [|reflexivity].
    simpl in Htarget. rewrite Hc in Htarget.
    inversion Htarget as [|? ? (_ & _ & Hne) _]. congruence. }
  assert (Hdir : source_base source <> "").
  { intros Hdir. rewrite Hdir in Hbase.
    inversion Hbase as [|? ? (_ & _ & Hne) _]. congruence. }
  rewrite (resolve_with_directory source target Hrel Hdir).
  rewrite split_app. unfold resolve_loop.
  rewrite (resolve_loop_proper_segments _ []).
  - simpl. rewrite <- split_app. apply join_split.
  - apply Forall_app. now split.
Qed.

Lemma resolve_clean_paths_witness :
  _resolve_target "ppt/slides/slide1.xml" "media/pic1.png" = "ppt/slides/media/pic1.png".
Proof.
  apply (resolve_clean_paths "ppt/slides/slide1.xml" "media/pic1.png").
  - vm_compute. repeat constructor; discriminate.
  - vm_compute. repeat constructor; discriminate.
Defined.

(** ** Descriptor paths: [_rels_to_part] *)

Lemma prefix_nil (s : string) : String.prefix "" s = true.
Proof. now destruct s. Qed.

Lemma prefix_cons (a b : ascii) (p s : string) :
  String.prefix (String a p) (String b s) =
  if Ascii.eqb a b then String.prefix p s else false.
Proof.
  change (String.prefix (String a p) (String b s))
    with (if ascii_dec a b then String.prefix p s else false).
  destruct (ascii_dec a b) as [->|Hne].
  - now rewrite Ascii.eqb_refl.
  - apply Ascii.eqb_neq in Hne. now rewrite Hne.
Qed.

(** An occurrence of [.rels] cannot straddle the end of a string that is
    followed by [.rels]. *)
Lemma prefix_rels_app (c : ascii) (s : string) :
  String.prefix ".rels" (String c s) = false ->
  String.prefix ".rels" (String c s ++ ".rels") = false.
Proof.
  destruct s as [|c1 [|c2 [|c3 [|c4 s]]]]; cbn [append];
    rewrite ?prefix_cons, ?prefix_nil;
    repeat match goal with
      | |- context [Ascii.eqb ?a ?b] => destruct (Ascii.eqb a b) eqn:?
      end;
    try reflexivity; try discriminate;
    repeat match goal with
      | H : Ascii.eqb _ _ = true |- _ => apply Ascii.eqb_eq in H; subst
      end;
    try discriminate.
Qed.

Lemma replace_rels_suffix (name : string) :
  Py.contains ".rels" name = false ->
  Py.replace ".rels" "" (name ++ ".rels") = name.
Proof.
  unfold Py.replace. induction name as [|c name IH]; intros Hno; [reflexivity|].
  simpl in Hno. apply orb_false_iff in Hno. destruct Hno as [Hpre Hno].
  apply prefix_rels_app in Hpre.
  change ((String c name ++ ".rels")%string) with (String c (name ++ ".rels")) in *.
  cbn [Py.replace_from]. rewrite Hpre. now rewrite IH.
Qed.

Lemma index_app_absent (x : string) (pre rest : list string) :
  ~ In x pre -> Py.index x (pre ++ x :: rest) = Some (List.length pre).
Proof.
  induction pre as [|y pre IH]; intros Hno; simpl.
  - now rewrite String.eqb_refl.
  - destruct (y =? x) eqn:Hy.
    + apply String.eqb_eq in Hy. subst. exfalso. apply Hno. now left.
    + rewrite IH; [reflexivity|]. intros Hin. apply Hno. now right.
Qed.

Lemma firstn_length_app {A} (l1 l2 : list A) : firstn (List.length l1) (l1 ++ l2) = l1.
Proof.
  rewrite <- (Nat.add_0_r (List.length l1)), firstn_app_2. simpl. apply app_nil_r.
Qed.

(** [_rels_to_part] in terms of the segments of the path: the segments
    before the first [_rels] and the last segment are kept, the segments
    between them are dropped. *)
Lemma rels_to_part_segments (path file : string) (pre rest : list string) :
  Py.split "/" path = pre ++ "_rels" :: rest ++ [file] ->
  ~ In "_rels" pre ->
  _rels_to_part path =
  Ok (if Py.join "/" pre =? "" then Py.replace ".rels" "" file
      else (Py.join "/" pre ++ "/" ++ Py.replace ".rels" "" file)%string).
Proof.
  intros Hsplit Hpre. unfold _rels_to_part.
  destruct (path =? "_rels/.rels") eqn:Hroot.
  - apply String.eqb_eq in Hroot. subst path.
    destruct pre as [|x pre].
    + destruct rest as [|y rest]; [injection Hsplit as <-; reflexivity|].
      destruct rest; discriminate.
    + injection Hsplit as <- _. exfalso. apply Hpre. now left.
  - rewrite Hsplit, (index_app_absent "_rels" pre _ Hpre), firstn_length_app.
    unfold Py.last_seg.
    change (pre ++ "_rels" :: rest ++ [file]) with (pre ++ ("_rels" :: rest) ++ [file]).
    now rewrite app_assoc, last_last.
Qed.

Lemma has_slash_app (x y : string) :
  ResolverSpec.has_slash (x ++ y) =
  ResolverSpec.has_slash x || ResolverSpec.has_slash y.
Proof.
  induction x as [|c x IH]; [reflexivity|]. simpl. now rewrite IH, orb_assoc.
Qed.

Lemma split_descriptor (dir mid file : list string) (d m f : string) :
  Py.split "/" d = dir -> Py.split "/" m = mid -> Py.split "/" f = file ->
  Py.split "/" (d ++ "/_rels/" ++ m ++ "/" ++ f) = dir ++ "_rels" :: mid ++ file.
Proof.
  intros <- <- <-.
  change (d ++ "/_rels/" ++ m ++ "/" ++ f)%string
    with (d ++ "/" ++ ("_rels" ++ "/" ++ (m ++ "/" ++ f)))%string.
  now rewrite !split_app.
Qed.

(** X4.  Descriptor naming and [_rels_to_part] are inverse to each other:
    for a part [name] in directory [dir], the descriptor
    [dir/_rels/name.rels] is mapped back to [dir/name], and the descriptor
    [_rels/name.rels] of a part at the package root to [name] (the root
    descriptor [_rels/.rels], with the empty name, included), provided no
    segment of [dir] is [_rels], and [name] has no slash and no
    occurrence of [.rels], all of which [replace] would remove. *)
Theorem rels_to_part_round_trip (dir name : string) :
  ResolverSpec.has_slash name = false ->
  Py.contains ".rels" name = false ->
  ~ In "_rels" (Py.split "/" dir) ->
  (dir <> "" ->
   _rels_to_part (dir ++ "/_rels/" ++ name ++ ".rels") = Ok (dir ++ "/" ++ name)%string) /\
  _rels_to_part ("_rels/" ++ name ++ ".rels") = Ok name.
Proof.
  intros Hslash Hrels Hdir.
  assert (Hfile : Py.split "/" (name ++ ".rels") = [(name ++ ".rels")%string]).
  { apply split_without_slash. rewrite has_slash_app, Hslash. reflexivity. }
  split.
  - intros Hne.
    rewrite (rels_to_part_segments _ (name ++ ".rels") (Py.split "/" dir) []).
    + rewrite join_split, replace_rels_suffix by exact Hrels.
      apply String.eqb_neq in Hne. now rewrite Hne.
    + change (dir ++ "/_rels/" ++ name ++ ".rels")%string
        with (dir ++ "/" ++ ("_rels" ++ "/" ++ (name ++ ".rels")))%string.
      now rewrite !split_app, Hfile.
    + exact Hdir.
  - rewrite (rels_to_part_segments _ (name ++ ".rels") [] []).
    + simpl. now rewrite replace_rels_suffix.
    + change ("_rels/" ++ name ++ ".rels")%string
        with ("_rels" ++ "/" ++ (name ++ ".rels"))%string.
      now rewrite split_app, Hfile.
    + intros [].
Qed.

Lemma rels_to_part_round_trip_witness :
  _rels_to_part "ppt/slides/_rels/slide1.xml.rels" = Ok "ppt/slides/slide1.xml" /\
  _rels_to_part "_rels/.rels" = Ok "".
Proof.
  split.
  - apply (rels_to_part_round_trip "ppt/slides" "slide1.xml");
      [reflexivity | reflexivity | | discriminate].
    vm_compute. intuition discriminate.
  - apply (rels_to_part_round_trip "ppt/slides" "");
      [reflexivity | reflexivity |].
    vm_compute. intuition discriminate.
Defined.

(** X5.  [_rels_to_part] keeps what precedes the first [_rels] segment and
    the last segment only: a descriptor that lies in any directory [mid]
    below [_rels] is mapped to the same part as the descriptor directly in
    [_rels], so the relationships of the two are stored under one source
    and the one parsed later replaces the other. *)
Theorem rels_to_part_drops_nested_directories (dir mid name : string) :
  ResolverSpec.has_slash name = false ->
  ~ In "_rels" (Py.split "/" dir) ->
  _rels_to_part (dir ++ "/_rels/" ++ mid ++ "/" ++ name) =
  _rels_to_part (dir ++ "/_rels/" ++ name).
Proof.
  intros Hslash Hdir.
  assert (Hfile : Py.split "/" name = [name]) by now apply split_without_slash.
  rewrite (rels_to_part_segments _ name (Py.split "/" dir) (Py.split "/" mid)).
  - rewrite (rels_to_part_segments _ name (Py.split "/" dir) []); [reflexivity| |exact Hdir].
    change (dir ++ "/_rels/" ++ name)%string
      with (dir ++ "/" ++ ("_rels" ++ "/" ++ name))%string.
    now rewrite !split_app, Hfile.
  - now apply split_descriptor.
  - exact Hdir.
Qed.

Lemma rels_to_part_drops_nested_directories_witness :
  _rels_to_part "ppt/_rels/old/backup/presentation.xml.rels" =
  _rels_to_part "ppt/_rels/presentation.xml.rels".
Proof.
  change "ppt/_rels/old/backup/presentation.xml.rels"
    with ("ppt" ++ "/_rels/" ++ "old/backup" ++ "/" ++ "presentation.xml.rels")%string.
  change "ppt/_rels/presentation.xml.rels"
    with ("ppt" ++ "/_rels/" ++ "presentation.xml.rels")%string.
  apply (rels_to_part_drops_nested_directories "ppt" "old/backup" "presentation.xml.rels").
  - reflexivity.
  - vm_compute. intuition discriminate.
Defined.

(** ** The tables of the model *)

Lemma dict_update_keyed_map {V} (f : string -> V) (names : list string) :
  PyDict.update [] (map (fun n => (n, f n)) names) =
  map (fun n => (n, f n)) (PySet.of_list names).
Proof.
  unfold PyDict.update.
  induction names as [|x names IH] using rev_ind; [reflexivity|].
  rewrite map_app, fold_left_app, IH, set_of_list_snoc. simpl.
  assert (Hnd : NoDup (PySet.of_list names)) by apply set_nodup_of_list.
  unfold PySet.add. destruct (py_in x (PySet.of_list names)) eqn:E.
  - apply py_in_In in E. rewrite (dict_set_keyed (A := unit) (fun v _ => v) (f x) f _ x (f x) Hnd E).
    apply map_ext. intros k. destruct (py_eqb k x) eqn:Ek; [|reflexivity].
    apply py_eqb_eq in Ek. now subst.
  - rewrite dict_set_absent.
    + now rewrite map_app.
    + rewrite dict_get_keyed. now rewrite E.
Qed.

Section ModelFacts.

Variable fromstring : string -> option element.
Variable sha256_16 : string -> string.

Lemma load_files_hashes (z : zipfile) (s : analyzer) :
  hashes (_load_files sha256_16 z s) =
  PyDict.update (hashes s) (map (fun n => (n, sha256_16 (zip_read z n))) (namelist z)).
Proof.
  unfold _load_files, PyDict.update.
  generalize (namelist z) as names. intros names. revert s.
  induction names as [|n names IH]; intros s; simpl; [reflexivity|].
  now rewrite IH.
Qed.

(** The part table holds each name of the archive once, in the order of
    first occurrence, with the bytes that [read] returns for the name;
    the digest table runs parallel to it. *)
Lemma load_files_tables (z : zipfile) :
  files (_load_files sha256_16 z new_analyzer) =
    map (fun n => (n, zip_read z n)) (PySet.of_list (namelist z)) /\
  hashes (_load_files sha256_16 z new_analyzer) =
    map (fun n => (n, sha256_16 (zip_read z n))) (PySet.of_list (namelist z)).
Proof.
  split.
  - destruct (load_files_spec sha256_16 z new_analyzer) as (-> & _).
    apply (dict_update_keyed_map (zip_read z)).
  - rewrite load_files_hashes.
    apply (dict_update_keyed_map (fun n => sha256_16 (zip_read z n))).
Qed.

Lemma parse_content_types_tables (s s' : analyzer) :
  _parse_content_types fromstring s = Ok s' ->
  hashes s' = hashes s /\
  (NoDup (PyDict.keys (content_types s)) -> NoDup (PyDict.keys (content_types s'))).
Proof.
  unfold _parse_content_types. intros Hrun.
  destruct (PyDict.get (files s) "[Content_Types].xml") as [content|].
  - destruct (fromstring content); [|discriminate].
    injection Hrun as <-. split; [reflexivity|]. simpl. apply dict_update_spec.
  - injection Hrun as <-. split; [reflexivity|]. simpl. tauto.
Qed.

Lemma parse_all_rels_tables (s s' : analyzer) :
  _parse_all_rels fromstring s = Ok s' ->
  hashes s' = hashes s /\ content_types s' = content_types s /\
  default_types s' = default_types s.
Proof.
  unfold _parse_all_rels. generalize (files s) at 1 as entries. intros entries Hrun.
  refine (for_each_invariant
            (fun t => hashes t = hashes s /\ content_types t = content_types s /\
                      default_types t = default_types s)
            _ entries _ s s' _ Hrun).
  - intros t x t' _ (Hh & Hc & Hd) Hb.
    destruct (Py.endswith ".rels" (fst x)); [|injection Hb as <-; tauto].
    unfold _parse_rels in Hb. destruct (fromstring (snd x)).
    + destruct (_rels_to_part (fst x)); [|discriminate].
      simpl in Hb. injection Hb as <-. simpl. tauto.
    + injection Hb as <-. simpl. tauto.
  - tauto.
Qed.

Lemma validate_references_tables (s s' : analyzer) :
  _validate_references fromstring s = Ok s' ->
  files s' = files s /\ hashes s' = hashes s /\
  content_types s' = content_types s /\ default_types s' = default_types s /\
  relations s' = relations s.
Proof.
  rewrite validate_references_spec.
  destruct (app_properties_issues fromstring s); [|discriminate].
  simpl. intros Hrun. injection Hrun as <-. simpl. tauto.
Qed.

(** The stages of a completed analysis. *)
Lemma analyze_stages (z : zipfile) (s : analyzer) :
  analyze fromstring sha256_16 z = Ok s ->
  exists s1 s2,
    _parse_content_types fromstring (_load_files sha256_16 z new_analyzer) = Ok s1 /\
    _parse_all_rels fromstring s1 = Ok s2 /\
    _validate_references fromstring s2 = Ok s.
Proof.
  unfold analyze. intros Hrun.
  destruct (_parse_content_types fromstring _) as [s1|e]; [|discriminate].
  simpl in Hrun.
  destruct (_parse_all_rels fromstring s1) as [s2|e] eqn:H2; [|discriminate].
  simpl in Hrun. now exists s1, s2.
Qed.

Lemma analyze_tables (z : zipfile) (s : analyzer) :
  analyze fromstring sha256_16 z = Ok s ->
  files s = map (fun n => (n, zip_read z n)) (PySet.of_list (namelist z)) /\
  hashes s = map (fun n => (n, sha256_16 (zip_read z n))) (PySet.of_list (namelist z)) /\
  NoDup (PyDict.keys (content_types s)).
Proof.
  intros Hrun. pose proof (analyze_spec fromstring sha256_16 z s Hrun) as (Hf & _).
  destruct (analyze_stages z s Hrun) as (s1 & s2 & H1 & H2 & H3).
  destruct (load_files_tables z) as (Hfiles & Hhashes).
  apply parse_content_types_tables in H1. destruct H1 as (Hh1 & Hc1).
  apply parse_all_rels_tables in H2. destruct H2 as (Hh2 & Hc2 & _).
  apply validate_references_tables in H3. destruct H3 as (_ & Hh3 & Hc3 & _).
  split; [congruence|]. split; [congruence|].
  rewrite Hc3, Hc2. apply Hc1.
  destruct (load_files_spec sha256_16 z new_analyzer) as (_ & -> & _). constructor.
Qed.

End ModelFacts.

(** X6.  The part table and the digest table of a completed analysis:
    each name of the archive occurs once, in the order of first
    occurrence, whatever the number of entries with that name; it is
    bound to the bytes that [read] returns for the name, and the digest
    table binds the same names, in the same order, to the digests of
    these bytes. *)
Theorem analysis_parts_and_digests (fromstring : string -> option element)
    (sha256_16 : string -> string) (z : zipfile) (s : analyzer) :
  analyze fromstring sha256_16 z = Ok s ->
  files s = map (fun name => (name, zip_read z name)) (PySet.of_list (namelist z)) /\
  hashes s = map (fun nc => (fst nc, sha256_16 (snd nc))) (files s).
Proof.
  intros Hrun. destruct (analyze_tables fromstring sha256_16 z s Hrun) as (Hf & Hh & _).
  split; [exact Hf|]. rewrite Hh, Hf, map_map. reflexivity.
Qed.

Lemma analysis_parts_and_digests_witness :
  files (Deck.model Deck.repeated_entry) =
    [("ppt/media/pic1.png", "PNG2"); ("ppt/media/pic2.png", "PNG")] /\
  hashes (Deck.model Deck.repeated_entry) =
    map (fun nc => (fst nc, Deck.sha256_16 (snd nc)))
        (files (Deck.model Deck.repeated_entry)).
Proof.
  assert (Hrun : analyze Deck.fromstring Deck.sha256_16 Deck.repeated_entry =
                 Ok (Deck.model Deck.repeated_entry))
    by (vm_compute; reflexivity).
  destruct (analysis_parts_and_digests Deck.fromstring Deck.sha256_16 Deck.repeated_entry
              (Deck.model Deck.repeated_entry) Hrun) as (Hf & Hh).
  split; [|exact Hh]. rewrite Hf. vm_compute. reflexivity.
Defined.

(** ** Comparing analysed packages *)

Section SetDictFacts.
Context {A : Type} `{PyEq A}.

Lemma set_diff_self (s : list A) : PySet.diff s s = [].
Proof.
  unfold PySet.diff. apply filter_none. intros x Hx.
  apply py_in_In in Hx. now rewrite Hx.
Qed.

Lemma set_eqb_refl (s : list A) : PySet.eqb s s = true.
Proof. apply set_eqb_spec. tauto. Qed.

Lemma dict_eqb_refl {V} `{PyEq V} (d : list (A * V)) :
  NoDup (PyDict.keys d) -> PyDict.eqb d d = true.
Proof.
  intros Hnd. unfold PyDict.eqb. rewrite Nat.eqb_refl. simpl.
  apply forallb_forall. intros [k v] Hkv. simpl.
  rewrite (dict_in_get d k v Hnd Hkv). apply py_eqb_refl.
Qed.

End SetDictFacts.

Lemma collect_nil {A B} (body : A -> result (list B)) (l : list A) :
  (forall x, In x l -> body x = Ok []) -> collect body l = Ok [].
Proof.
  induction l as [|x l IH]; intros Hall; simpl; [reflexivity|].
  rewrite (Hall x (or_introl eq_refl)). simpl.
  rewrite IH; [reflexivity|]. intros y Hy. apply Hall. now right.
Qed.

Lemma get_hash_map_nodup (s : analyzer) : NoDup (PyDict.keys (get_hash_map s)).
Proof.
  unfold get_hash_map.
  assert (Hgen : forall l acc, NoDup (PyDict.keys acc) ->
            NoDup (PyDict.keys
              (fold_left
                 (fun (hash_map : list (string * list string)) (nh : string * string) =>
                    PyDict.set hash_map (snd nh)
                      (PyDict.get_default hash_map (snd nh) [] ++ [fst nh])) l acc))).
  { induction l as [|nh l IH]; intros acc Hacc; simpl; [exact Hacc|].
    apply IH. now apply dict_nodup_set. }
  apply Hgen. constructor.
Qed.

Lemma int_of_text_raises (e : option element) (x : exn) :
  int_of_text e = Raise x -> x = ValueError.
Proof.
  unfold int_of_text. destruct e as [e|]; [|discriminate].
  destruct (ET.text e) as [t|]; [|discriminate].
  destruct (t =? ""); [discriminate|].
  destruct (py_int t); [discriminate|]. congruence.
Qed.

Lemma int_of_text_rejected (e : element) (t : string) :
  ET.text e = Some t -> t <> "" -> py_int t = None ->
  int_of_text (Some e) = Raise ValueError.
Proof.
  intros Ht Hne Hint. unfold int_of_text. rewrite Ht.
  apply String.eqb_neq in Hne. now rewrite Hne, Hint.
Qed.

Section CompareAnalysed.

Variable fromstring : string -> option element.
Variable sha256_16 : string -> string.

(** [get_app_properties] reads the three counts. *)
Lemma get_app_properties_rejected (s : analyzer) (content : string) (root e : element)
    (tag t : string) :
  PyDict.get (files s) "docProps/app.xml" = Some content ->
  fromstring content = Some root ->
  In tag ["Slides"; "Notes"; "HiddenSlides"] ->
  ET.find_desc (qname NS.ep tag) root = Some e ->
  ET.text e = Some t -> t <> "" -> py_int t = None ->
  get_app_properties fromstring s = Raise ValueError.
Proof.
  intros Hget Hroot Htag Hfind Ht Hne Hint.
  pose proof (int_of_text_rejected e t Ht Hne Hint) as Hrej.
  unfold get_app_properties. rewrite Hget, Hroot.
  destruct Htag as [<-|[<-|[<-|[]]]].
  - now rewrite Hfind, Hrej.
  - destruct (int_of_text (ET.find_desc (qname NS.ep "Slides") root)) as [n|x] eqn:H1;
      cbn [bind]; [|now rewrite (int_of_text_raises _ x H1)].
    now rewrite Hfind, Hrej.
  - destruct (int_of_text (ET.find_desc (qname NS.ep "Slides") root)) as [n|x] eqn:H1;
      cbn [bind]; [|now rewrite (int_of_text_raises _ x H1)].
    destruct (int_of_text (ET.find_desc (qname NS.ep "Notes") root)) as [m|x] eqn:H2;
      cbn [bind]; [|now rewrite (int_of_text_raises _ x H2)].
    now rewrite Hfind, Hrej.
Qed.

(** Every part of an analysed package has its digest. *)
Lemma analysis_hash_of_part (z : zipfile) (s : analyzer) (f : string) :
  analyze fromstring sha256_16 z = Ok s ->
  In f (PyDict.keys (files s)) ->
  PyDict.subscript (hashes s) f = Ok (sha256_16 (zip_read z f)).
Proof.
  intros Hrun Hf.
  destruct (analyze_tables fromstring sha256_16 z s Hrun) as (Hfiles & Hhashes & _).
  rewrite Hfiles in Hf. unfold PyDict.keys in Hf. rewrite map_map in Hf. simpl in Hf.
  rewrite map_id in Hf. apply py_in_In in Hf.
  unfold PyDict.subscript. rewrite Hhashes.
  rewrite (dict_get_keyed (fun n => sha256_16 (zip_read z n))). now rewrite Hf.
Qed.

Lemma compare_unfold (c r : analyzer) :
  compare fromstring c r =
  (app <- _compare_app_properties fromstring c r ;;
   xml <- _compare_xml_content fromstring c r ;;
   Ok (_compare_file_lists c r ++ _compare_content_types c r ++
       _compare_relations c r ++ _compare_presentation_xml fromstring c r ++
       _compare_sections fromstring c r ++ _compare_noteslides fromstring c r ++
       app ++ _compare_comments fromstring c r ++ xml ++ _detect_hash_matches c r)).
Proof.
  unfold compare.
  destruct (_compare_app_properties fromstring c r) as [app|e]; [|reflexivity].
  cbn [bind].
  destruct (_compare_xml_content fromstring c r) as [xml|e]; [|reflexivity].
  cbn [bind]. now rewrite <- !app_assoc.
Qed.

(** *** A package compared with itself *)

Lemma compare_file_lists_self (s : analyzer) : _compare_file_lists s s = [].
Proof. unfold _compare_file_lists. now rewrite set_diff_self. Qed.

Lemma compare_content_types_self (s : analyzer) :
  NoDup (PyDict.keys (content_types s)) -> _compare_content_types s s = [].
Proof.
  intros Hnd. unfold _compare_content_types. apply flat_map_nil.
  intros [part ctype] Hin. simpl.
  rewrite (dict_in_get _ _ _ Hnd Hin). now rewrite String.eqb_refl.
Qed.

Lemma compare_relations_self (s : analyzer) : _compare_relations s s = [].
Proof.
  unfold _compare_relations. apply flat_map_nil. intros source _.
  apply flat_map_nil. intros [rid rel] Hin. simpl.
  rewrite (dict_in_get _ _ _ (rel_map_nodup _) Hin). now rewrite String.eqb_refl.
Qed.

Lemma compare_presentation_xml_self (s : analyzer) :
  _compare_presentation_xml fromstring s s = [].
Proof.
  unfold _compare_presentation_xml, _compare_presentation_rels_detailed.
  rewrite (dict_eqb_refl _ (slide_map_nodup _)), Nat.eqb_refl. simpl.
  rewrite app_nil_r. apply flat_map_nil. intros rel_type _.
  now rewrite Nat.eqb_refl.
Qed.

Lemma compare_sections_self (s : analyzer) : _compare_sections fromstring s s = [].
Proof.
  unfold _compare_sections.
  set (m := section_map (get_presentation_data fromstring s)).
  assert (Hmem : forall ns, In ns m -> PyDict.mem m (fst ns) = true).
  { intros [name sd] Hin. apply dict_mem_In. exact (dict_in_keys m name sd Hin). }
  rewrite !(flat_map_nil (fun ns => if negb (PyDict.mem m (fst ns)) then _ else _)).
  - simpl. apply flat_map_nil. intros [name sd] Hin. simpl.
    rewrite (dict_in_get m name sd (section_map_nodup _) Hin).
    now rewrite set_eqb_refl.
  - intros ns Hin. now rewrite (Hmem ns Hin).
  - intros ns Hin. now rewrite (Hmem ns Hin).
Qed.

Lemma compare_noteslides_self (s : analyzer) : _compare_noteslides fromstring s s = [].
Proof.
  unfold _compare_noteslides. rewrite set_diff_self. simpl.
  apply flat_map_nil. intros name _.
  destruct (PyDict.get (get_noteslides_data fromstring s) name) as [cn|]; [|reflexivity].
  assert (Hrefl : forall o : option string, option_eqb String.eqb o o = true)
    by (intros [x|]; [apply String.eqb_refl | reflexivity]).
  now rewrite !Hrefl.
Qed.

Lemma compare_app_properties_self (s : analyzer) (p : app_properties) :
  get_app_properties fromstring s = Ok p ->
  _compare_app_properties fromstring s s = Ok [].
Proof.
  intros Hp. unfold _compare_app_properties. rewrite Hp. cbn [bind].
  now rewrite !Z.eqb_refl.
Qed.

Lemma compare_comments_self (s : analyzer) : _compare_comments fromstring s s = [].
Proof.
  unfold _compare_comments. rewrite set_eqb_refl, set_diff_self. cbn [negb map app].
  apply flat_map_nil. intros file _.
  destruct (PyDict.get (comments (get_comments_data fromstring s)) file) as [cc|];
    [|reflexivity].
  now rewrite Nat.eqb_refl.
Qed.

Lemma compare_xml_content_self (z : zipfile) (s : analyzer) :
  analyze fromstring sha256_16 z = Ok s ->
  _compare_xml_content fromstring s s = Ok [].
Proof.
  intros Hrun. rewrite compare_xml_content_unfold. apply collect_nil.
  intros f Hf. apply (proj1 (xml_files_in fromstring s s f)) in Hf.
  destruct Hf as (_ & Hf & _).
  unfold xml_content_body. rewrite (analysis_hash_of_part z s f Hrun Hf).
  cbn [bind]. now rewrite String.eqb_refl.
Qed.

Lemma detect_hash_matches_self (s : analyzer) : _detect_hash_matches s s = [].
Proof.
  unfold _detect_hash_matches. apply flat_map_nil. intros [h fs] Hin. simpl.
  rewrite (dict_in_get _ _ _ (get_hash_map_nodup s) Hin). now rewrite set_eqb_refl.
Qed.

End CompareAnalysed.

(** X7.  The comparison reads all three counts of the application
    properties of both packages, the count of hidden slides included,
    which the analysis does not read.  When the application properties of
    a package are well-formed and the text of [Slides], [Notes] or
    [HiddenSlides] is ASCII text that [int] rejects, no comparison with
    this package, on either side, completes.  An analysis of the package
    may well have completed, even without an issue. *)
Theorem comparison_reads_every_count (fromstring : string -> option element)
    (c r : analyzer) (content : string) (root e : element) (tag t : string) :
  PyDict.get (files c) "docProps/app.xml" = Some content ->
  fromstring content = Some root ->
  In tag ["Slides"; "Notes"; "HiddenSlides"] ->
  ET.find_desc (qname NS.ep tag) root = Some e ->
  ET.text e = Some t -> t <> "" -> ascii_only t = true -> py_int t = None ->
  (forall diffs, compare fromstring c r <> Ok diffs) /\
  (forall diffs, compare fromstring r c <> Ok diffs).
Proof.
  intros Hget Hroot Htag Hfind Ht Hne _ Hint.
  pose proof (get_app_properties_rejected fromstring c content root e tag t
                Hget Hroot Htag Hfind Ht Hne Hint) as Hc.
  split; intros diffs; rewrite compare_unfold; unfold _compare_app_properties.
  - rewrite Hc. discriminate.
  - destruct (get_app_properties fromstring r); cbn [bind]; [rewrite Hc|]; discriminate.
Qed.

Lemma comparison_reads_every_count_witness :
  analyze Deck.fromstring Deck.sha256_16 Deck.hidden_count_unreadable =
    Ok (Deck.model Deck.hidden_count_unreadable) /\
  issues (Deck.model Deck.hidden_count_unreadable) = [] /\
  compare Deck.fromstring (Deck.model Deck.hidden_count_unreadable)
    (Deck.model Deck.with_app) <> Ok [] /\
  compare Deck.fromstring (Deck.model Deck.with_app)
    (Deck.model Deck.hidden_count_unreadable) <> Ok [].
Proof.
  split; [vm_compute; reflexivity|]. split; [vm_compute; reflexivity|].
  assert (H : (forall diffs,
                 compare Deck.fromstring (Deck.model Deck.hidden_count_unreadable)
                   (Deck.model Deck.with_app) <> Ok diffs) /\
              (forall diffs,
                 compare Deck.fromstring (Deck.model Deck.with_app)
                   (Deck.model Deck.hidden_count_unreadable) <> Ok diffs));
    [|split; [exact (proj1 H [])|exact (proj2 H [])]].
  apply (comparison_reads_every_count Deck.fromstring
           (Deck.model Deck.hidden_count_unreadable) (Deck.model Deck.with_app)
           Deck.app_hidden_unreadable_xml Deck.app_hidden_unreadable_root
           (Deck.ep_element "HiddenSlides" "none") "HiddenSlides" "none").
  - vm_compute. reflexivity.
  - vm_compute. reflexivity.
  - simpl. tauto.
  - vm_compute. reflexivity.
  - reflexivity.
  - discriminate.
  - reflexivity.
  - reflexivity.
Defined.

(** X8.  A package compared with itself: whenever the comparison of the
    model of a completed analysis with itself completes, it has no diff;
    every sub-comparison comes out empty. *)
Theorem compare_self (fromstring : string -> option element)
    (sha256_16 : string -> string) (z : zipfile) (s : analyzer) (diffs : list diff) :
  analyze fromstring sha256_16 z = Ok s ->
  compare fromstring s s = Ok diffs ->
  diffs = [].
Proof.
  intros Hrun Hcmp.
  assert (Hp : exists p, get_app_properties fromstring s = Ok p).
  { rewrite compare_unfold in Hcmp. unfold _compare_app_properties in Hcmp.
    destruct (get_app_properties fromstring s) as [p|x]; [now exists p|discriminate]. }
  destruct Hp as [p Hp].
  rewrite compare_unfold in Hcmp.
  rewrite (compare_app_properties_self fromstring s p Hp) in Hcmp. cbn [bind] in Hcmp.
  rewrite (compare_xml_content_self fromstring sha256_16 z s Hrun) in Hcmp.
  cbn [bind] in Hcmp.
  destruct (analyze_tables fromstring sha256_16 z s Hrun) as (_ & _ & Hct).
  rewrite compare_file_lists_self, (compare_content_types_self s Hct),
    compare_relations_self, compare_presentation_xml_self, compare_sections_self,
    compare_noteslides_self, compare_comments_self, detect_hash_matches_self in Hcmp.
  now injection Hcmp as <-.
Qed.

Lemma compare_self_witness :
  exists diffs,
    compare Deck.fromstring (Deck.model Deck.with_app) (Deck.model Deck.with_app) =
      Ok diffs /\
    diffs = [].
Proof.
  assert (Ha : analyze Deck.fromstring Deck.sha256_16 Deck.with_app =
               Ok (Deck.model Deck.with_app))
    by (vm_compute; reflexivity).
  assert (Hcmp : compare Deck.fromstring (Deck.model Deck.with_app)
                   (Deck.model Deck.with_app) = Ok [])
    by (vm_compute; reflexivity).
  exists []. split; [exact Hcmp|].
  exact (compare_self Deck.fromstring Deck.sha256_16 Deck.with_app
           (Deck.model Deck.with_app) [] Ha Hcmp).
Defined.

(** ** Entries of the part table *)

Section LoadedEntries.

Variable sha256_16 : string -> string.

Lemma loaded_entry (z : zipfile) (nc : string * string) :
  In nc (files (_load_files sha256_16 z new_analyzer)) <->
  In (fst nc) (namelist z) /\ snd nc = zip_read z (fst nc).
Proof.
  destruct (load_files_tables sha256_16 z) as (-> & _). rewrite in_map_iff. split.
  - intros (n & <- & Hn). simpl. split; [|reflexivity].
    exact (proj1 (set_in_of_list (namelist z) n) Hn).
  - intros (Hn & Hc). exists (fst nc). split.
    + destruct nc as [n c]. simpl in *. now subst.
    + exact (proj2 (set_in_of_list (namelist z) (fst nc)) Hn).
Qed.

End LoadedEntries.

(** ** Counts that end the analysis *)

(** X9.  A third way for an analysis to end without a model, besides the
    manifest and the stray descriptor: the application properties are
    well-formed and the text of [Slides] or of [Notes] is ASCII text that
    [int] rejects.  The [ValueError] of [int] is not handled, so no
    analysis of such an archive completes. *)
Theorem unreadable_count_ends_analysis (fromstring : string -> option element)
    (sha256_16 : string -> string) (z : zipfile) (root e : element) (tag t : string) :
  In "docProps/app.xml" (namelist z) ->
  fromstring (zip_read z "docProps/app.xml") = Some root ->
  In tag ["Slides"; "Notes"] ->
  ET.find_desc (qname NS.ep tag) root = Some e ->
  ET.text e = Some t -> t <> "" -> ascii_only t = true -> py_int t = None ->
  forall s, analyze fromstring sha256_16 z <> Ok s.
Proof.
  intros Hin Hroot Htag Hfind Ht Hne _ Hint s Hrun.
  pose proof (int_of_text_rejected e t Ht Hne Hint) as Hrej.
  apply analyze_spec in Hrun. destruct Hrun as (Hfiles & _ & pre & app & _ & Happ & _).
  unfold app_properties_issues in Happ. rewrite Hfiles, load_files_get in Happ.
  rewrite (proj2 (py_mem_In _ _) Hin), Hroot in Happ.
  destruct Htag as [<-|[<-|[]]].
  - rewrite Hfind, Hrej in Happ. discriminate.
  - destruct (int_of_text (ET.find_desc (qname NS.ep "Slides") root)); [|discriminate].
    cbn [bind] in Happ. rewrite Hfind, Hrej in Happ. discriminate.
Qed.

Lemma unreadable_count_ends_analysis_witness :
  analyze Deck.fromstring Deck.sha256_16 Deck.slide_count_unreadable <> Ok new_analyzer.
Proof.
  apply (unreadable_count_ends_analysis Deck.fromstring Deck.sha256_16
           Deck.slide_count_unreadable Deck.app_slides_unreadable_root
           (Deck.ep_element "Slides" "one") "Slides" "one").
  - vm_compute. tauto.
  - vm_compute. reflexivity.
  - simpl. tauto.
  - vm_compute. reflexivity.
  - reflexivity.
  - discriminate.
  - reflexivity.
  - reflexivity.
Defined.

(** ** Repeated slide and master ids *)

Lemma py_count_in (x : string) (l : list string) : 0 < py_count x l -> In x l.
Proof.
  unfold py_count. induction l as [|y l IH]; simpl; [lia|].
  destruct (x =? y) eqn:E.
  - apply String.eqb_eq in E. intros _. now left.
  - intros H. right. now apply IH.
Qed.

Lemma duplicate_id_issues_spec (mk : list string -> issue) (ids : list string) :
  (forall i, In i (duplicate_id_issues mk ids) ->
     exists l, i = mk l /\ NoDup l /\ forall x, In x l <-> 1 < py_count x ids) /\
  ((exists x, 1 < py_count x ids) -> exists l, In (mk l) (duplicate_id_issues mk ids)).
Proof.
  unfold duplicate_id_issues.
  set (duplicates := filter (fun s => Nat.ltb 1 (py_count s ids)) ids).
  assert (Hin : forall x, In x (PySet.of_list duplicates) <-> 1 < py_count x ids).
  { intros x. rewrite set_in_of_list. unfold duplicates.
    rewrite filter_In, Nat.ltb_lt. split; [tauto|].
    intros H. split; [|exact H]. apply py_count_in. lia. }
  destruct duplicates as [|d ds] eqn:Hd.
  - split; [intros i []|]. intros (x & Hx). apply Hin in Hx. destruct Hx.
  - split.
    + intros i [<-|[]]. exists (PySet.of_list (d :: ds)).
      split; [reflexivity|]. split; [apply set_nodup_of_list|exact Hin].
    + intros _. exists (PySet.of_list (d :: ds)). now left.
Qed.

Section DuplicateIds.

Variable fromstring : string -> option element.
Variable sha256_16 : string -> string.

Lemma duplicate_id_issue_of_analysis (z : zipfile) (s : analyzer) (content : string)
    (root : element) (i : issue) :
  analyze fromstring sha256_16 z = Ok s ->
  PyDict.get (files s) "ppt/presentation.xml" = Some content ->
  fromstring content = Some root ->
  issue_check i = PresentationIds ->
  In i (issues s) <->
  In i (duplicate_id_issues DUPLICATE_SLIDE_ID (id_list "sldIdLst" "sldId" root)) \/
  In i (duplicate_id_issues DUPLICATE_MASTER_ID
          (id_list "sldMasterIdLst" "sldMasterId" root)).
Proof.
  intros Hrun Hget Hroot Hc. split.
  - intros Hi.
    pose proof (analysis_issue_component fromstring sha256_16 z s i Hrun Hi) as H.
    rewrite Hc in H.
    destruct (presentation_ids_issue_component fromstring s i H)
      as (content' & root' & Hget' & Hroot' & H').
    rewrite Hc in H'. rewrite Hget in Hget'. injection Hget' as <-.
    rewrite Hroot in Hroot'. injection Hroot' as <-. exact H'.
  - intros Hi. apply (analysis_issue_includes fromstring sha256_16 z s i Hrun).
    right. right. right. left. unfold presentation_ids_issues.
    rewrite Hget, Hroot, !in_app_iff. tauto.
Qed.

End DuplicateIds.

(** X10.  Repeated ids in the presentation part.  A completed analysis
    reports [DUPLICATE_SLIDE_ID] exactly when some non-empty [id] occurs
    more than once among the [p:sldIdLst/p:sldId] elements, and the [ids]
    of the record are the ids that occur more than once, each listed
    once; likewise [DUPLICATE_MASTER_ID] for [p:sldMasterIdLst/p:sldMasterId]. *)
Theorem duplicate_ids_reported (fromstring : string -> option element)
    (sha256_16 : string -> string) (z : zipfile) (s : analyzer) (content : string)
    (root : element) :
  analyze fromstring sha256_16 z = Ok s ->
  PyDict.get (files s) "ppt/presentation.xml" = Some content ->
  fromstring content = Some root ->
  let slide_ids := id_list "sldIdLst" "sldId" root in
  let master_ids := id_list "sldMasterIdLst" "sldMasterId" root in
  ((exists l, In (DUPLICATE_SLIDE_ID l) (issues s)) <->
   exists x, 1 < py_count x slide_ids) /\
  (forall l, In (DUPLICATE_SLIDE_ID l) (issues s) ->
     NoDup l /\ forall x, In x l <-> 1 < py_count x slide_ids) /\
  ((exists l, In (DUPLICATE_MASTER_ID l) (issues s)) <->
   exists x, 1 < py_count x master_ids) /\
  (forall l, In (DUPLICATE_MASTER_ID l) (issues s) ->
     NoDup l /\ forall x, In x l <-> 1 < py_count x master_ids).
Proof.
  intros Hrun Hget Hroot slide_ids master_ids.
  pose proof (fun i => duplicate_id_issue_of_analysis fromstring sha256_16 z s content
                         root i Hrun Hget Hroot) as Hiff.
  destruct (duplicate_id_issues_spec DUPLICATE_SLIDE_ID slide_ids) as (Hs1 & Hs2).
  destruct (duplicate_id_issues_spec DUPLICATE_MASTER_ID master_ids) as (Hm1 & Hm2).
  assert (Hslide : forall l, In (DUPLICATE_SLIDE_ID l) (issues s) ->
            NoDup l /\ forall x, In x l <-> 1 < py_count x slide_ids).
  { intros l Hl. apply (proj1 (Hiff (DUPLICATE_SLIDE_ID l) eq_refl)) in Hl. destruct Hl as [Hl|Hl].
    - destruct (Hs1 _ Hl) as (l' & Heq & H). injection Heq as ->. exact H.
    - destruct (Hm1 _ Hl) as (l' & Heq & _). discriminate. }
  assert (Hmaster : forall l, In (DUPLICATE_MASTER_ID l) (issues s) ->
            NoDup l /\ forall x, In x l <-> 1 < py_count x master_ids).
  { intros l Hl. apply (proj1 (Hiff (DUPLICATE_MASTER_ID l) eq_refl)) in Hl. destruct Hl as [Hl|Hl].
    - destruct (Hs1 _ Hl) as (l' & Heq & _). discriminate.
    - destruct (Hm1 _ Hl) as (l' & Heq & H). injection Heq as ->. exact H. }
  split; [|split; [exact Hslide|split; [|exact Hmaster]]].
  - split.
    + intros (l & Hl). destruct (Hslide l Hl) as (_ & Hx).
      apply (proj1 (Hiff (DUPLICATE_SLIDE_ID l) eq_refl)) in Hl. destruct Hl as [Hl|Hl].
      * destruct (Hs1 _ Hl) as (l' & _ & _ & Hx').
        unfold duplicate_id_issues in Hl. fold slide_ids in Hl.
        destruct (filter _ slide_ids) as [|d ds] eqn:Hd; [destruct Hl|].
        exists d. assert (Hdin : In d (filter (fun s0 => Nat.ltb 1 (py_count s0 slide_ids))
                                          slide_ids)) by (rewrite Hd; now left).
        apply filter_In in Hdin. now apply Nat.ltb_lt.
      * destruct (Hm1 _ Hl) as (l' & Heq & _). discriminate.
    + intros Hx. destruct (Hs2 Hx) as (l & Hl). exists l.
      apply (proj2 (Hiff (DUPLICATE_SLIDE_ID l) eq_refl)). now left.
  - split.
    + intros (l & Hl). apply (proj1 (Hiff (DUPLICATE_MASTER_ID l) eq_refl)) in Hl. destruct Hl as [Hl|Hl].
      * destruct (Hs1 _ Hl) as (l' & Heq & _). discriminate.
      * unfold duplicate_id_issues in Hl. fold master_ids in Hl.
        destruct (filter _ master_ids) as [|d ds] eqn:Hd; [destruct Hl|].
        exists d. assert (Hdin : In d (filter (fun s0 => Nat.ltb 1 (py_count s0 master_ids))
                                          master_ids)) by (rewrite Hd; now left).
        apply filter_In in Hdin. now apply Nat.ltb_lt.
    + intros Hx. destruct (Hm2 Hx) as (l & Hl). exists l.
      apply (proj2 (Hiff (DUPLICATE_MASTER_ID l) eq_refl)). now right.
Qed.

Lemma duplicate_ids_reported_witness :
  id_list "sldIdLst" "sldId" Deck.repeated_ids_presentation_root = ["256"; "257"; "256"] /\
  In (DUPLICATE_SLIDE_ID ["256"]) (issues (Deck.model Deck.repeated_ids)) /\
  (forall l, In (DUPLICATE_SLIDE_ID l) (issues (Deck.model Deck.repeated_ids)) ->
     In "256" l /\ ~ In "257" l) /\
  ~ exists l, In (DUPLICATE_MASTER_ID l) (issues (Deck.model Deck.repeated_ids)).
Proof.
  assert (Hrun : analyze Deck.fromstring Deck.sha256_16 Deck.repeated_ids =
                 Ok (Deck.model Deck.repeated_ids))
    by (vm_compute; reflexivity).
  assert (Hget : PyDict.get (files (Deck.model Deck.repeated_ids)) "ppt/presentation.xml" =
                 Some Deck.repeated_ids_presentation_xml)
    by (vm_compute; reflexivity).
  assert (Hroot : Deck.fromstring Deck.repeated_ids_presentation_xml =
                  Some Deck.repeated_ids_presentation_root)
    by (vm_compute; reflexivity).
  destruct (duplicate_ids_reported Deck.fromstring Deck.sha256_16 Deck.repeated_ids
              (Deck.model Deck.repeated_ids) _ _ Hrun Hget Hroot)
    as (_ & Hslide & Hmaster & _).
  split; [vm_compute; reflexivity|]. split; [vm_compute; left; reflexivity|]. split.
  - intros l Hl. destruct (Hslide l Hl) as (_ & Hx). split.
    + apply Hx. vm_compute. lia.
    + intros H. apply Hx in H. vm_compute in H. lia.
  - intros H. apply Hmaster in H. destruct H as (x & Hx).
    assert (Hm : id_list "sldMasterIdLst" "sldMasterId" Deck.repeated_ids_presentation_root =
                 ["2147483648"])
      by (vm_compute; reflexivity).
    rewrite Hm in Hx. unfold py_count in Hx. cbn [filter] in Hx.
    destruct (String.eqb x "2147483648"); cbn [List.length] in Hx; lia.
Defined.

(** ** What the hypothesis generator looks at *)

Lemma filter_observed {A} (Q P : A -> bool) (l : list A) :
  (forall x, Q x = false -> P x = false) -> filter P (filter Q l) = filter P l.
Proof.
  intros H. induction l as [|x l IH]; simpl; [reflexivity|].
  destruct (Q x) eqn:Hq; simpl.
  - now rewrite IH.
  - now rewrite (H x Hq), IH.
Qed.

Ltac observed_issue_side :=
  let i := fresh "i" in
  let Hi := fresh "Hi" in
  intros i Hi; destruct i; try discriminate Hi; vm_compute; reflexivity.

Ltac observed_diff_side :=
  let d := fresh "d" in
  let Hd := fresh "Hd" in
  intros d Hd; destruct d as [[] []]; try discriminate Hd; vm_compute; reflexivity.

(** X11.  The hypotheses depend on part of the findings only.  Issues of
    the types CRITICAL, ERROR, MISSING_CONTENT_TYPE, MISSING_LAYOUT_RELS
    and the three comment types, and diffs that no rule names or that a
    rule drops for their severity, have no influence on the result; a
    package all of whose issues are of these types, compared without any
    diff, gets the single hypothesis that no obvious issue was
    detected. *)
Theorem hypotheses_ignore_unobserved (issues : list issue) (diffs : list diff) :
  _generate_hypotheses issues diffs =
    _generate_hypotheses (filter (fun i => negb (unobserved_issue i)) issues)
                         (filter (fun d => negb (unobserved_diff d)) diffs) /\
  ((forall i, In i issues -> unobserved_issue i = true) ->
   (forall d, In d diffs -> unobserved_diff d = true) ->
   _generate_hypotheses issues diffs = [fallback_hypothesis]).
Proof.
  assert (Heq : _generate_hypotheses issues diffs =
            _generate_hypotheses (filter (fun i => negb (unobserved_issue i)) issues)
                                 (filter (fun d => negb (unobserved_diff d)) diffs)).
  { unfold _generate_hypotheses, appended_hypotheses, misplaced_hypothesis,
      invalid_pres_rels_of, pres_rels_diffs_of.
    cbv zeta.
    repeat match goal with
      | |- context [filter ?P (filter (fun i : issue => negb (unobserved_issue i)) ?l)] =>
          rewrite (filter_observed (fun i : issue => negb (unobserved_issue i)) P l)
            by observed_issue_side
      | |- context [filter ?P (filter (fun d : diff => negb (unobserved_diff d)) ?l)] =>
          rewrite (filter_observed (fun d : diff => negb (unobserved_diff d)) P l)
            by observed_diff_side
      end.
    reflexivity. }
  split; [exact Heq|].
  intros Hi Hd. rewrite Heq.
  rewrite (filter_none _ issues), (filter_none _ diffs).
  - reflexivity.
  - intros d Hin. now rewrite (Hd d Hin).
  - intros i Hin. now rewrite (Hi i Hin).
Qed.

Lemma hypotheses_ignore_unobserved_witness :
  _generate_hypotheses (issues (Deck.model Deck.repeated_entry)) [] = [fallback_hypothesis].
Proof.
  apply (proj2 (hypotheses_ignore_unobserved (issues (Deck.model Deck.repeated_entry)) [])).
  - vm_compute. intros i [<-|[<-|[<-|[]]]]; reflexivity.
  - intros d [].
Defined.

(** ** The shape of the hypothesis list *)

Lemma select_in {A} (flags : list bool) (l : list A) (x : A) :
  In x (select flags l) -> In x l.
Proof.
  revert l. induction flags as [|b flags IH]; intros [|y l]; simpl; try tauto.
  rewrite in_app_iff. intros [H|H].
  - destruct b; [|destruct H]. destruct H as [->|[]]. now left.
  - right. now apply IH.
Qed.

Lemma select_nodup {A} (flags : list bool) (l : list A) :
  NoDup l -> NoDup (select flags l).
Proof.
  revert l. induction flags as [|b flags IH]; intros [|y l] Hnd; simpl;
    try constructor.
  inversion Hnd as [|? ? Hy Hl]; subst.
  destruct b; simpl; [|now apply IH].
  constructor; [|now apply IH].
  intros Hin. apply Hy. exact (select_in flags l y Hin).
Qed.

Lemma select_length {A} (flags : list bool) (l : list A) :
  List.length (select flags l) <= List.length l.
Proof.
  revert l. induction flags as [|b flags IH]; intros [|y l]; simpl; try lia.
  rewrite length_app. specialize (IH l). destruct b; simpl; lia.
Qed.

Lemma map_if {A B} (f : A -> B) (b : bool) (x : A) :
  map f (if b then [x] else []) = if b then [f x] else [].
Proof. now destruct b. Qed.

(** Each rule contributes its title, or nothing. *)
Lemma appended_hypotheses_titles (issues : list issue) (diffs : list diff) :
  exists flags, map h_title (appended_hypotheses issues diffs) = select flags rule_titles.
Proof.
  unfold appended_hypotheses. cbv zeta.
  rewrite !map_app, !map_if. cbn [h_title].
  eexists [_; _; _; _; _; _; _; _; _; _; _].
  unfold rule_titles. cbn [select]. rewrite app_nil_r. reflexivity.
Qed.

Lemma rule_titles_nodup : NoDup rule_titles.
Proof.
  rewrite <- (eq_refl : nodup string_dec rule_titles = rule_titles).
  apply NoDup_nodup.
Qed.

Lemma rule_titles_other (t : string) :
  In t rule_titles -> t <> misplaced_title /\ t <> h_title fallback_hypothesis.
Proof.
  intros Hin. apply py_mem_In in Hin. split; intros ->; vm_compute in Hin; discriminate.
Qed.

(** X12.  The list of hypotheses is never empty and has at most twelve
    entries; no title occurs twice; a hypothesis that no obvious issue was
    detected is the only entry of its list; and the hypothesis about
    misplaced relations occurs at the head of the list only. *)
Theorem hypotheses_shape (issues : list issue) (diffs : list diff) :
  let hs := _generate_hypotheses issues diffs in
  hs <> [] /\ List.length hs <= 12 /\ NoDup (map h_title hs) /\
  (forall h, In h hs -> h_title h = h_title fallback_hypothesis ->
             hs = [fallback_hypothesis]) /\
  (forall h, In h (tl hs) -> h_title h <> misplaced_title).
Proof.
  destruct (appended_hypotheses_titles issues diffs) as (flags & Htitles).
  assert (Hin : forall h, In h (appended_hypotheses issues diffs) ->
                  In (h_title h) rule_titles).
  { intros h Hh. apply (select_in flags). rewrite <- Htitles. now apply in_map. }
  assert (Hnd : NoDup (map h_title (appended_hypotheses issues diffs))).
  { rewrite Htitles. apply select_nodup, rule_titles_nodup. }
  assert (Hlen : List.length (appended_hypotheses issues diffs) <= 11).
  { rewrite <- (length_map h_title), Htitles.
    exact (select_length flags rule_titles). }
  unfold _generate_hypotheses. cbv zeta.
  set (appended := appended_hypotheses issues diffs) in *.
  assert (Hplain : match appended with
                   | [] => [fallback_hypothesis]
                   | _ :: _ => appended
                   end <> [] /\
                   List.length match appended with
                               | [] => [fallback_hypothesis]
                               | _ :: _ => appended
                               end <= 12 /\
                   NoDup (map h_title match appended with
                                      | [] => [fallback_hypothesis]
                                      | _ :: _ => appended
                                      end) /\
                   (forall h, In h match appended with
                                   | [] => [fallback_hypothesis]
                                   | _ :: _ => appended
                                   end ->
                      h_title h = h_title fallback_hypothesis ->
                      match appended with
                      | [] => [fallback_hypothesis]
                      | _ :: _ => appended
                      end = [fallback_hypothesis]) /\
                   (forall h, In h (tl match appended with
                                       | [] => [fallback_hypothesis]
                                       | _ :: _ => appended
                                       end) ->
                      h_title h <> misplaced_title)).
  { destruct appended as [|h0 rest] eqn:Happ.
    - split; [discriminate|]. split; [simpl; lia|].
      split; [repeat constructor; intros []|]. split; [reflexivity|]. intros h [].
    - split; [discriminate|]. split; [lia|]. split; [exact Hnd|]. split.
      + intros h Hh Ht. apply Hin, rule_titles_other in Hh. tauto.
      + intros h Hh. apply (rule_titles_other (h_title h)). apply Hin. now right. }
  assert (Hmis : (misplaced_hypothesis issues diffs :: appended) <> [] /\
                 List.length (misplaced_hypothesis issues diffs :: appended) <= 12 /\
                 NoDup (map h_title (misplaced_hypothesis issues diffs :: appended)) /\
                 (forall h, In h (misplaced_hypothesis issues diffs :: appended) ->
                    h_title h = h_title fallback_hypothesis ->
                    misplaced_hypothesis issues diffs :: appended = [fallback_hypothesis]) /\
                 (forall h, In h (tl (misplaced_hypothesis issues diffs :: appended)) ->
                    h_title h <> misplaced_title)).
  { split; [discriminate|]. split; [simpl; lia|]. split; [|split].
    - simpl. constructor; [|exact Hnd]. intros H. apply in_map_iff in H.
      destruct H as (h & Ht & Hh). apply Hin, rule_titles_other in Hh.
      destruct Hh as (Hh & _). now apply Hh.
    - intros h [<-|Hh] Ht; [discriminate Ht|].
      apply Hin, rule_titles_other in Hh. tauto.
    - intros h Hh. apply (rule_titles_other (h_title h)). now apply Hin. }
  destruct (invalid_pres_rels_of issues), (pres_rels_diffs_of diffs);
    [exact Hplain | exact Hmis | exact Hmis | exact Hmis].
Qed.

(** ** Parts with identical content *)

Lemma fold_snoc_map {A B} (f : A -> B) (l : list A) (acc : list B) :
  fold_left (fun acc a => acc ++ [f a]) l acc = acc ++ map f l.
Proof.
  revert acc. induction l as [|x l IH]; intros acc; simpl; [now rewrite app_nil_r|].
  rewrite IH, <- app_assoc. reflexivity.
Qed.

Lemma get_hash_map_grouped (s : analyzer) :
  get_hash_map s =
  map (fun h => (h, parts_with_digest s h)) (PySet.of_list (map snd (hashes s))).
Proof.
  unfold get_hash_map.
  change (fold_left _ (hashes s) [])
    with (fold_left (group_step (@snd string string)
                       (fun (l : list string) (nh : string * string) => l ++ [fst nh]) [])
            (hashes s) []).
  rewrite fold_group_step. unfold grouped. apply map_ext. intros h.
  unfold group_value, parts_with_digest.
  change (fun a : string * string => py_eqb (snd a) h)
    with (fun nh : string * string => snd nh =? h).
  f_equal. apply (fold_snoc_map (@fst string string) _ []).
Qed.

Lemma get_hash_map_get (s : analyzer) (h : string) :
  PyDict.get (get_hash_map s) h =
  if Py.mem h (map snd (hashes s)) then Some (parts_with_digest s h) else None.
Proof.
  rewrite get_hash_map_grouped, (dict_get_keyed (parts_with_digest s)).
  destruct (Py.mem h (map snd (hashes s))) eqn:E.
  - apply py_mem_In in E.
    assert (Hin : py_in h (PySet.of_list (map snd (hashes s))) = true).
    { apply py_in_In. apply (proj2 (set_in_of_list _ _)). exact E. }
    now rewrite Hin.
  - assert (Hin : py_in h (PySet.of_list (map snd (hashes s))) = false).
    { apply py_in_not_In. intros H.
      apply (proj1 (set_in_of_list _ _)) in H.
      apply (proj2 (py_mem_In _ _)) in H. congruence. }
    now rewrite Hin.
Qed.

Lemma detect_hash_matches_list (c r : analyzer) :
  _detect_hash_matches c r =
  map (fun h =>
         mk_diff INFO
           (RENAMED_IDENTICAL_CONTENT h (parts_with_digest c h) (parts_with_digest r h)))
      (filter
         (fun h =>
            Py.mem h (map snd (hashes r)) &&
            negb (PySet.eqb (PySet.of_list (parts_with_digest c h))
                            (PySet.of_list (parts_with_digest r h))))
         (PySet.of_list (map snd (hashes c)))).
Proof.
  unfold _detect_hash_matches. cbv zeta. rewrite (get_hash_map_grouped c).
  induction (PySet.of_list (map snd (hashes c))) as [|h l IH]; [reflexivity|].
  cbn [map flat_map filter fst snd]. rewrite IH, get_hash_map_get.
  destruct (Py.mem h (map snd (hashes r))); [|reflexivity]. cbn [andb].
  now destruct (PySet.eqb _ _).
Qed.

Lemma nodup_filter {A} (P : A -> bool) (l : list A) : NoDup l -> NoDup (filter P l).
Proof.
  induction 1 as [|x l Hx Hl IH]; simpl; [constructor|].
  destruct (P x); [|exact IH]. constructor; [|exact IH].
  intros Hin. apply filter_In in Hin. tauto.
Qed.

(** X13.  What [_detect_hash_matches] reports: exactly one diff for each
    digest that occurs in both packages and whose parts are not the same
    set of names in the two, with the parts of either package that have
    this digest, in table order; the diffs come in the order in which
    their digests first occur in the first package.  So it reports renamed
    parts, and equally the parts of which one package has a further
    copy. *)
Theorem detect_hash_matches_spec (c r : analyzer) :
  let reported :=
    filter
      (fun h =>
         Py.mem h (map snd (hashes r)) &&
         negb (PySet.eqb (PySet.of_list (parts_with_digest c h))
                         (PySet.of_list (parts_with_digest r h))))
      (PySet.of_list (map snd (hashes c))) in
  _detect_hash_matches c r =
    map (fun h =>
           mk_diff INFO
             (RENAMED_IDENTICAL_CONTENT h (parts_with_digest c h) (parts_with_digest r h)))
        reported /\
  NoDup reported /\
  (forall h,
     In h reported <->
     In h (map snd (hashes c)) /\ In h (map snd (hashes r)) /\
     ~ (forall name, In name (parts_with_digest c h) <-> In name (parts_with_digest r h))) /\
  NoDup (_detect_hash_matches c r) /\
  (forall h,
     List.length
       (filter
          (fun d =>
             match d_body d with
             | RENAMED_IDENTICAL_CONTENT h' _ _ => h' =? h
             | _ => false
             end)
          (_detect_hash_matches c r)) =
     if Py.mem h reported then 1 else 0).
Proof.
  intros reported.
  assert (Hlist := detect_hash_matches_list c r). fold reported in Hlist.
  assert (Hnd : NoDup reported) by apply nodup_filter, set_nodup_of_list.
  assert (Hin : forall h,
            In h reported <->
            In h (map snd (hashes c)) /\ In h (map snd (hashes r)) /\
            ~ (forall name,
                 In name (parts_with_digest c h) <-> In name (parts_with_digest r h))).
  { intros h. unfold reported. rewrite filter_In, set_in_of_list, andb_true_iff.
    rewrite py_mem_In, negb_true_iff.
    assert (Heq : PySet.eqb (PySet.of_list (parts_with_digest c h))
                            (PySet.of_list (parts_with_digest r h)) = false <->
                  ~ (forall name,
                       In name (parts_with_digest c h) <-> In name (parts_with_digest r h))).
    { split.
      - intros Hf Hsame.
        assert (Ht : PySet.eqb (PySet.of_list (parts_with_digest c h))
                               (PySet.of_list (parts_with_digest r h)) = true).
        { apply set_eqb_spec. intros y. rewrite !set_in_of_list. apply Hsame. }
        congruence.
      - intros Hdiff. destruct (PySet.eqb _ _) eqn:E; [|reflexivity].
        exfalso. apply Hdiff. intros name.
        pose proof (proj1 (set_eqb_spec _ _) E name) as H.
        now rewrite !set_in_of_list in H. }
    tauto. }
  split; [exact Hlist|]. split; [exact Hnd|]. split; [exact Hin|]. split.
  - rewrite Hlist. clear Hlist Hin. induction Hnd as [|h l Hh Hl IH]; [constructor|].
    cbn [map]. constructor; [|exact IH].
    intros H. apply in_map_iff in H. destruct H as (h' & Heq & Hh').
    injection Heq as ->. contradiction.
  - intros h. rewrite Hlist. clear Hlist Hin.
    induction Hnd as [|h' l Hh Hl IH]; [reflexivity|].
    cbn [map filter d_body mk_diff Py.mem existsb].
    rewrite (String.eqb_sym h h').
    destruct (h' =? h) eqn:E; cbn [orb List.length].
    + apply String.eqb_eq in E. subst h'. fold (Py.mem h l) in IH |- *.
      assert (Hno : Py.mem h l = false).
      { destruct (Py.mem h l) eqn:Hm; [|reflexivity]. apply py_mem_In in Hm. contradiction. }
      rewrite Hno in IH. now rewrite IH.
    + exact IH.
Qed.

Lemma detect_hash_matches_spec_witness :
  _detect_hash_matches (Sample.model Sample.extended) (Sample.model Sample.reduced) =
    [ mk_diff INFO
        (RENAMED_IDENTICAL_CONTENT "PNG" ["ppt/media/pic1.png"; "ppt/media/pic2.png"]
           ["ppt/media/pic1.png"]) ].
Proof.
  rewrite (proj1 (detect_hash_matches_spec (Sample.model Sample.extended)
                    (Sample.model Sample.reduced))).
  vm_compute. reflexivity.
Defined.

(** ** Parts that the XML content comparison passes over *)

Section XmlContentFacts.

Variable fromstring : string -> option element.

Lemma diff_file_origin (d : diff) (f : string) :
  diff_file d = Some f -> diff_origin d = XmlContent.
Proof. unfold diff_file, diff_origin. destruct (d_body d); now intros. Qed.

Lemma xml_content_body_file (c r : analyzer) (f : string) (o : list diff) (d : diff) :
  xml_content_body fromstring c r f = Ok o -> In d o -> diff_file d = Some f.
Proof.
  unfold xml_content_body, _compare_slide_xml, _compare_slidemaster_xml,
    _compare_slidelayout_xml.
  intros Hrun H.
  destruct (PyDict.subscript (hashes c) f) as [ch|]; [|discriminate].
  destruct (PyDict.subscript (hashes r) f) as [rh|]; [|discriminate].
  cbn [bind] in Hrun.
  destruct (negb (ch =? rh)); [|injection Hrun as <-; destruct H].
  destruct (is_slide_part f).
  { destruct (parse_both fromstring c r f) as [[[a b]|]|]; [| |discriminate];
      cbn [bind] in Hrun; injection Hrun as <-; in_cases; subst; reflexivity. }
  destruct (is_slidemaster_part f).
  { destruct (parse_both fromstring c r f) as [[[a b]|]|]; [| |discriminate];
      cbn [bind] in Hrun; injection Hrun as <-; in_cases; subst; reflexivity. }
  destruct (is_layout_part f).
  { destruct (parse_both fromstring c r f) as [[[a b]|]|]; [| |discriminate];
      cbn [bind] in Hrun; injection Hrun as <-; in_cases; subst; reflexivity. }
  destruct (f =? "ppt/presentation.xml"); injection Hrun as <-;
    in_cases; subst; reflexivity.
Qed.

(** A diff about part [f] comes from the body of the loop run on [f]. *)
Lemma diff_file_body (c r : analyzer) (diffs : list diff) (d : diff) (f : string) :
  compare fromstring c r = Ok diffs -> In d diffs -> diff_file d = Some f ->
  exists o, xml_content_body fromstring c r f = Ok o /\ In d o.
Proof.
  intros Hrun Hd Hf.
  pose proof (compare_component fromstring c r diffs d Hrun Hd) as H.
  rewrite (diff_file_origin d f Hf) in H. destruct H as (xml & Hxml & Hin).
  rewrite compare_xml_content_unfold in Hxml.
  apply (collect_in _ _ _ Hxml) in Hin. destruct Hin as (f' & o & _ & Ho & Hdo).
  pose proof (xml_content_body_file c r f' o d Ho Hdo) as Hf'.
  rewrite Hf in Hf'. injection Hf' as <-. now exists o.
Qed.

Lemma parse_both_unparsable (c r : analyzer) (f cc rc : string) :
  PyDict.get (files c) f = Some cc -> PyDict.get (files r) f = Some rc ->
  fromstring cc = None \/ fromstring rc = None ->
  parse_both fromstring c r f = Ok None.
Proof.
  intros Hc Hr Hno. unfold parse_both, PyDict.subscript. rewrite Hc, Hr. cbn [bind].
  destruct (fromstring cc); [|reflexivity]. cbn [bind].
  destruct (fromstring rc); [|reflexivity]. destruct Hno; discriminate.
Qed.

End XmlContentFacts.

(** X14.  Parts that the XML content comparison passes over in silence.
    The presentation part never gets a diff of this comparison, however
    its content differs; and a slide, slide master or slide layout that is
    not well-formed in either package gets none, although its digests
    differ: the parse error is swallowed and nothing is recorded. *)
Theorem xml_content_silent (fromstring : string -> option element) (c r : analyzer)
    (diffs : list diff) :
  compare fromstring c r = Ok diffs ->
  (forall d, In d diffs -> diff_file d <> Some "ppt/presentation.xml") /\
  (forall f cc rc,
     is_slide_part f || is_slidemaster_part f || is_layout_part f = true ->
     PyDict.get (files c) f = Some cc -> PyDict.get (files r) f = Some rc ->
     fromstring cc = None \/ fromstring rc = None ->
     forall d, In d diffs -> diff_file d <> Some f).
Proof.
  intros Hrun. split.
  - intros d Hd Hf.
    destruct (diff_file_body fromstring c r diffs d _ Hrun Hd Hf) as (o & Ho & Hin).
    unfold xml_content_body in Ho.
    destruct (PyDict.subscript (hashes c) _) as [ch|]; [|discriminate].
    destruct (PyDict.subscript (hashes r) _) as [rh|]; [|discriminate].
    cbn [bind] in Ho.
    change (is_slide_part "ppt/presentation.xml") with false in Ho.
    change (is_slidemaster_part "ppt/presentation.xml") with false in Ho.
    change (is_layout_part "ppt/presentation.xml") with false in Ho.
    change ("ppt/presentation.xml" =? "ppt/presentation.xml") with true in Ho.
    cbv iota in Ho.
    destruct (negb (ch =? rh)); injection Ho as <-; destruct Hin.
  - intros f cc rc Hkind Hc Hr Hno d Hd Hf.
    destruct (diff_file_body fromstring c r diffs d f Hrun Hd Hf) as (o & Ho & Hin).
    unfold xml_content_body, _compare_slide_xml, _compare_slidemaster_xml,
      _compare_slidelayout_xml in Ho.
    rewrite (parse_both_unparsable fromstring c r f cc rc Hc Hr Hno) in Ho.
    destruct (PyDict.subscript (hashes c) f) as [ch|]; [|discriminate].
    destruct (PyDict.subscript (hashes r) f) as [rh|]; [|discriminate].
    cbn [bind] in Ho.
    destruct (negb (ch =? rh)); [|injection Ho as <-; destruct Hin].
    destruct (is_slide_part f); [injection Ho as <-; destruct Hin|].
    destruct (is_slidemaster_part f); [injection Ho as <-; destruct Hin|].
    destruct (is_layout_part f); [injection Ho as <-; destruct Hin|].
    discriminate Hkind.
Qed.

Lemma xml_content_silent_witness :
  PyDict.get (hashes (Deck.model Deck.with_app)) "ppt/slides/slide1.xml" <>
    PyDict.get (hashes (Deck.model Deck.broken_slide)) "ppt/slides/slide1.xml" /\
  compare Deck.fromstring (Deck.model Deck.with_app) (Deck.model Deck.broken_slide) = Ok [] /\
  forall d, In d (@nil diff) -> diff_file d <> Some "ppt/slides/slide1.xml".
Proof.
  assert (Hrun : compare Deck.fromstring (Deck.model Deck.with_app)
                   (Deck.model Deck.broken_slide) = Ok [])
    by (vm_compute; reflexivity).
  split; [vm_compute; discriminate|]. split; [exact Hrun|].
  apply (proj2 (xml_content_silent Deck.fromstring _ _ _ Hrun)
           "ppt/slides/slide1.xml" Sample.slide_xml "<p:sld").
  - reflexivity.
  - vm_compute. reflexivity.
  - vm_compute. reflexivity.
  - right. vm_compute. reflexivity.
Defined.

(** ** Content-type coverage *)

Section Coverage.

Variable fromstring : string -> option element.
Variable sha256_16 : string -> string.

Lemma analyze_type_tables (z : zipfile) (s : analyzer) :
  analyze fromstring sha256_16 z = Ok s ->
  exists s1,
    _parse_content_types fromstring (_load_files sha256_16 z new_analyzer) = Ok s1 /\
    content_types s = content_types s1 /\ default_types s = default_types s1 /\
    exists l, issues s = issues s1 ++ l.
Proof.
  intros Hrun. destruct (analyze_stages fromstring sha256_16 z s Hrun) as (s1 & s2 & H1 & H2 & H3).
  exists s1. split; [exact H1|].
  destruct (parse_all_rels_tables fromstring sha256_16 s1 s2 H2) as (_ & Hc2 & Hd2).
  destruct (parse_all_rels_spec fromstring sha256_16 s1 s2 H2) as (_ & _ & l2 & Hi2 & _).
  destruct (validate_references_tables fromstring s2 s H3) as (_ & _ & Hc3 & Hd3 & _).
  rewrite validate_references_spec in H3.
  destruct (app_properties_issues fromstring s2) as [app|]; [|discriminate].
  cbn [bind] in H3. injection H3 as <-.
  split; [congruence|]. split; [congruence|].
  exists (l2 ++ validation_issues fromstring s2 app). simpl.
  now rewrite Hi2, app_assoc.
Qed.

Lemma missing_content_type_of_analysis (z : zipfile) (s : analyzer) (part : string) :
  analyze fromstring sha256_16 z = Ok s ->
  In (MISSING_CONTENT_TYPE part) (issues s) <->
  In part (namelist z) /\
  Py.startswith "_rels/" part = false /\ Py.endswith ".rels" part = false /\
  part <> "[Content_Types].xml" /\
  PyDict.mem (content_types s) part = false /\
  PyDict.mem (default_types s) (part_ext part) = false.
Proof.
  intros Hrun.
  assert (Hkeys : forall p, In p (PyDict.keys (files s)) <-> In p (namelist z)).
  { intros p. destruct (analyze_tables fromstring sha256_16 z s Hrun) as (-> & _).
    unfold PyDict.keys. rewrite map_map. simpl. rewrite map_id.
    apply set_in_of_list. }
  assert (Hbody : In (MISSING_CONTENT_TYPE part) (content_type_issues s) <->
                  In part (PyDict.keys (files s)) /\
                  Py.startswith "_rels/" part = false /\ Py.endswith ".rels" part = false /\
                  part <> "[Content_Types].xml" /\
                  PyDict.mem (content_types s) part = false /\
                  PyDict.mem (default_types s) (part_ext part) = false).
  { unfold content_type_issues. rewrite in_flat_map. split.
    - intros (p & Hp & Hin).
      destruct (Py.startswith "_rels/" p) eqn:E1; [destruct Hin|].
      destruct (Py.endswith ".rels" p) eqn:E2; [destruct Hin|]. simpl in Hin.
      destruct (p =? "[Content_Types].xml") eqn:E3; [destruct Hin|].
      destruct (PyDict.mem (content_types s) p) eqn:E4; [destruct Hin|].
      destruct (PyDict.mem (default_types s) (part_ext p)) eqn:E5; [destruct Hin|].
      simpl in Hin. destruct Hin as [Heq|[]]. injection Heq as ->.
      apply String.eqb_neq in E3. tauto.
    - intros (Hp & E1 & E2 & E3 & E4 & E5). exists part. split; [exact Hp|].
      apply String.eqb_neq in E3. rewrite E1, E2, E3, E4, E5. now left. }
  rewrite <- Hkeys, <- Hbody. split.
  - intros Hi. exact (analysis_issue_component fromstring sha256_16 z s _ Hrun Hi).
  - intros Hi. apply (analysis_issue_includes fromstring sha256_16 z s _ Hrun). tauto.
Qed.

Lemma dict_update_mem {V} (l : list (string * V)) (k : string) :
  PyDict.mem (PyDict.update [] l) k = false <-> forall kv, In kv l -> fst kv <> k.
Proof.
  destruct (dict_update_spec l (@nil (string * V))) as (_ & Hkeys & _).
  split.
  - intros Hmem kv Hkv Heq. subst k.
    assert (Hin : In (fst kv) (PyDict.keys (PyDict.update [] l))).
    { apply Hkeys. right. now apply in_map. }
    apply dict_mem_In in Hin. congruence.
  - intros Hno. destruct (PyDict.mem (PyDict.update [] l) k) eqn:E; [|reflexivity].
    apply dict_mem_In, Hkeys in E. destruct E as [[]|E].
    apply in_map_iff in E. destruct E as (kv & Hk & Hkv).
    now destruct (Hno kv Hkv).
Qed.

End Coverage.

(** X15.  An archive without the manifest.  Whenever its analysis
    completes, the first issue is the CRITICAL one about the missing
    manifest, the two type tables are empty, and the parts reported as
    [MISSING_CONTENT_TYPE] are exactly those that are not descriptors. *)
Theorem missing_manifest_reports_every_part (fromstring : string -> option element)
    (sha256_16 : string -> string) (z : zipfile) (s : analyzer) :
  ~ In "[Content_Types].xml" (namelist z) ->
  analyze fromstring sha256_16 z = Ok s ->
  (exists rest, issues s = I_CRITICAL :: rest) /\
  content_types s = [] /\ default_types s = [] /\
  forall part,
    In (MISSING_CONTENT_TYPE part) (issues s) <->
    In part (namelist z) /\
    Py.startswith "_rels/" part = false /\ Py.endswith ".rels" part = false.
Proof.
  intros Hno Hrun.
  destruct (analyze_type_tables fromstring sha256_16 z s Hrun)
    as (s1 & H1 & Hc & Hd & l & Hi).
  destruct (missing_manifest_recorded fromstring sha256_16 z Hno)
    as (s1' & H1' & Hi1 & Hc1 & Hd1).
  rewrite H1 in H1'. injection H1' as <-.
  split; [|split; [congruence|split; [congruence|]]].
  - exists l. now rewrite Hi, Hi1.
  - intros part.
    rewrite (missing_content_type_of_analysis fromstring sha256_16 z s part Hrun).
    rewrite Hc, Hd, Hc1, Hd1. split; [tauto|].
    intros (Hp & E1 & E2). repeat split; try assumption.
    intros ->. contradiction.
Qed.

Lemma missing_manifest_reports_every_part_witness :
  (exists rest, issues (Deck.model Deck.repeated_entry) = I_CRITICAL :: rest) /\
  In (MISSING_CONTENT_TYPE "ppt/media/pic2.png") (issues (Deck.model Deck.repeated_entry)).
Proof.
  assert (Hrun : analyze Deck.fromstring Deck.sha256_16 Deck.repeated_entry =
                 Ok (Deck.model Deck.repeated_entry))
    by (vm_compute; reflexivity).
  assert (Hno : ~ In "[Content_Types].xml" (namelist Deck.repeated_entry))
    by (vm_compute; intuition discriminate).
  destruct (missing_manifest_reports_every_part Deck.fromstring Deck.sha256_16
              Deck.repeated_entry _ Hno Hrun) as (Hfirst & _ & _ & Hall).
  split; [exact Hfirst|]. apply Hall.
  split; [vm_compute; tauto|]. split; reflexivity.
Defined.

(** X16.  Coverage by the manifest.  With a well-formed manifest, a part
    of the archive that is neither a descriptor nor the manifest is
    reported as [MISSING_CONTENT_TYPE] exactly when no [Override] names it
    (the [PartName] with its leading slashes removed) and no [Default] has
    the text after its last dot as [Extension], compared as written. *)
Theorem missing_content_type_reported (fromstring : string -> option element)
    (sha256_16 : string -> string) (z : zipfile) (s : analyzer) (root : element) :
  analyze fromstring sha256_16 z = Ok s ->
  In "[Content_Types].xml" (namelist z) ->
  fromstring (zip_read z "[Content_Types].xml") = Some root ->
  forall part,
    In (MISSING_CONTENT_TYPE part) (issues s) <->
    In part (namelist z) /\
    Py.startswith "_rels/" part = false /\ Py.endswith ".rels" part = false /\
    part <> "[Content_Types].xml" /\
    (forall o, In o (ET.findall_child (qname NS.ct "Override") root) ->
               Py.lstrip "/" (ET.get_default o "PartName" "") <> part) /\
    (forall d, In d (ET.findall_child (qname NS.ct "Default") root) ->
               ET.get_default d "Extension" "" <> part_ext part).
Proof.
  intros Hrun Hin Hroot part.
  destruct (analyze_type_tables fromstring sha256_16 z s Hrun)
    as (s1 & H1 & Hc & Hd & _).
  unfold _parse_content_types in H1.
  rewrite (load_files_entry sha256_16 z _ Hin), Hroot in H1.
  injection H1 as <-. simpl in Hc, Hd.
  destruct (load_files_spec sha256_16 z new_analyzer) as (_ & Hc0 & Hd0 & _).
  rewrite Hc0 in Hc. rewrite Hd0 in Hd. simpl in Hc, Hd.
  rewrite (missing_content_type_of_analysis fromstring sha256_16 z s part Hrun).
  rewrite Hc, Hd.
  change (PyDict.update (content_types new_analyzer)) with (@PyDict.update string string _ []).
  rewrite !dict_update_mem.
  split.
  - intros (H1 & H2 & H3 & H4 & H5 & H6). repeat split; try assumption.
    + intros o Ho. apply (H5 (_, _) (in_map _ _ o Ho)).
    + intros d Hd'. apply (H6 (_, _) (in_map _ _ d Hd')).
  - intros (H1 & H2 & H3 & H4 & H5 & H6). repeat split; try assumption.
    + intros kv Hkv. apply in_map_iff in Hkv. destruct Hkv as (o & <- & Ho).
      simpl. now apply H5.
    + intros kv Hkv. apply in_map_iff in Hkv. destruct Hkv as (d & <- & Hd').
      simpl. now apply H6.
Qed.

Lemma missing_content_type_reported_witness :
  In (MISSING_CONTENT_TYPE "ppt/media/pic1.PNG") (issues (Deck.model Deck.upper_case_extension)) /\
  ~ In (MISSING_CONTENT_TYPE "ppt/presentation.xml")
       (issues (Deck.model Deck.upper_case_extension)).
Proof.
  assert (Hrun : analyze Deck.fromstring Deck.sha256_16 Deck.upper_case_extension =
                 Ok (Deck.model Deck.upper_case_extension))
    by (vm_compute; reflexivity).
  assert (Hin : In "[Content_Types].xml" (namelist Deck.upper_case_extension))
    by (vm_compute; tauto).
  assert (Hroot : Deck.fromstring (zip_read Deck.upper_case_extension "[Content_Types].xml") =
                  Some Deck.manifest_without_xml_root)
    by (vm_compute; reflexivity).
  pose proof (missing_content_type_reported Deck.fromstring Deck.sha256_16
                Deck.upper_case_extension _ _ Hrun Hin Hroot) as H.
  split.
  - apply H. split; [vm_compute; tauto|]. split; [reflexivity|]. split; [reflexivity|].
    split; [discriminate|]. split.
    + intros o Ho. vm_compute in Ho. destruct Ho as [<-|[]]. vm_compute. discriminate.
    + intros d Hd. vm_compute in Hd. destruct Hd as [<-|[<-|[]]]; vm_compute; discriminate.
  - intros Hi. apply H in Hi. destruct Hi as (_ & _ & _ & _ & Ho & _).
    apply (Ho (Element (qname NS.ct "Override")
                 [("PartName", "/ppt/presentation.xml");
                  ("ContentType",
                   "application/vnd.openxmlformats-officedocument.presentationml.presentation.main+xml")]
                 None [])).
    + vm_compute. left. reflexivity.
    + reflexivity.
Defined.

(** ** The relationship graph and the issues of the build *)

Section BuildPhase.

Variable fromstring : string -> option element.
Variable sha256_16 : string -> string.

Lemma parse_all_rels_closed (entries : list (string * string)) (s s' : analyzer) :
  for_each
    (fun s nc =>
       if Py.endswith ".rels" (fst nc)
       then _parse_rels fromstring (fst nc) (snd nc) s
       else Ok s)
    entries s = Ok s' ->
  relations s' =
    PyDict.update (relations s) (flat_map (descriptor_relations fromstring) entries) /\
  issues s' =
    issues s ++
    map (fun nc => I_ERROR (fst nc)) (filter (malformed_descriptor fromstring) entries).
Proof.
  revert s. induction entries as [|x entries IH]; intros s Hrun.
  - injection Hrun as <-. simpl. now rewrite app_nil_r.
  - cbn [for_each] in Hrun. cbn [flat_map filter].
    unfold descriptor_relations at 1. unfold malformed_descriptor at 1.
    destruct (Py.endswith ".rels" (fst x)) eqn:Hend.
    + unfold _parse_rels in Hrun.
      destruct (fromstring (snd x)) as [root|].
      * destruct (_rels_to_part (fst x)) as [source_part|e]; [|discriminate].
        cbn [bind] in Hrun. destruct (IH _ Hrun) as (Hr & Hi).
        split; [exact Hr|exact Hi].
      * cbn [bind] in Hrun. destruct (IH _ Hrun) as (Hr & Hi).
        split; [exact Hr|]. rewrite Hi. simpl. now rewrite <- app_assoc.
    + cbn [bind] in Hrun. destruct (IH _ Hrun) as (Hr & Hi).
      split; [exact Hr|exact Hi].
Qed.

Lemma validation_issues_not_build (s : analyzer) (app : list issue) :
  app_properties_issues fromstring s = Ok app ->
  issues_of Build (validation_issues fromstring s app) = [].
Proof.
  intros Happ. apply issues_of_other. intros i Hi Hc. unfold validation_issues in Hi.
  rewrite !in_app_iff in Hi.
  destruct Hi as [Hi|[Hi|[Hi|[Hi|[Hi|[Hi|Hi]]]]]].
  - apply reference_issues_check in Hi. congruence.
  - apply content_type_issues_check in Hi. congruence.
  - apply layout_master_issues_check in Hi. congruence.
  - destruct (presentation_ids_issue_component fromstring s i Hi)
      as (content & root & _ & _ & H).
    now rewrite Hc in H.
  - apply noteslide_issues_check in Hi. congruence.
  - apply (app_properties_issues_check fromstring s app) in Hi; congruence.
  - apply comments_issues_check in Hi. congruence.
Qed.

(** The relationship graph and the issue list of a completed analysis in
    closed form. *)
Lemma analyze_closed (z : zipfile) (s : analyzer) :
  analyze fromstring sha256_16 z = Ok s ->
  exists app,
    app_properties_issues fromstring s = Ok app /\
    relations s = PyDict.of_list (flat_map (descriptor_relations fromstring) (files s)) /\
    issues s =
      (if Py.mem "[Content_Types].xml" (namelist z) then [] else [I_CRITICAL]) ++
      map (fun nc => I_ERROR (fst nc)) (filter (malformed_descriptor fromstring) (files s)) ++
      validation_issues fromstring s app.
Proof.
  intros Hrun.
  destruct (analyze_stages fromstring sha256_16 z s Hrun) as (s1 & s2 & H1 & H2 & H3).
  pose proof (analyze_spec fromstring sha256_16 z s Hrun) as (Hfiles & _).
  pose proof (parse_content_types_spec fromstring _ s1 H1) as (Hf1 & Hr1 & _).
  destruct (load_files_spec sha256_16 z new_analyzer) as (_ & _ & _ & Hr0 & Hi0).
  assert (Hi1 : issues s1 =
                if Py.mem "[Content_Types].xml" (namelist z) then [] else [I_CRITICAL]).
  { unfold _parse_content_types in H1. rewrite load_files_get in H1.
    destruct (Py.mem "[Content_Types].xml" (namelist z)).
    - destruct (fromstring (zip_read z "[Content_Types].xml")); [|discriminate].
      injection H1 as <-. simpl. exact Hi0.
    - injection H1 as <-. simpl. now rewrite Hi0. }
  unfold _parse_all_rels in H2. rewrite Hf1 in H2.
  destruct (parse_all_rels_closed _ s1 s2 H2) as (Hr2 & Hi2).
  rewrite validate_references_spec in H3.
  destruct (app_properties_issues fromstring s2) as [app|] eqn:Happ; [|discriminate].
  cbn [bind] in H3. injection H3 as <-. simpl in *.
  exists app. split; [exact Happ|]. rewrite Hfiles. split.
  - rewrite Hr2, Hr1, Hr0. reflexivity.
  - now rewrite Hi2, Hi1, <- app_assoc.
Qed.

End BuildPhase.

(** X17.  What the build of the model leaves behind.  The relationship
    graph of a completed analysis binds, for each well-formed descriptor
    of the part table in table order, the source part of the descriptor
    to its relationships, a later descriptor of the same source replacing
    an earlier one; the issues of the build are the CRITICAL issue when
    the manifest is missing, followed by one ERROR issue for each
    descriptor that is not well-formed, in table order. *)
Theorem build_phase (fromstring : string -> option element)
    (sha256_16 : string -> string) (z : zipfile) (s : analyzer) :
  analyze fromstring sha256_16 z = Ok s ->
  relations s = PyDict.of_list (flat_map (descriptor_relations fromstring) (files s)) /\
  issues_of Build (issues s) =
    (if Py.mem "[Content_Types].xml" (namelist z) then [] else [I_CRITICAL]) ++
    map (fun nc => I_ERROR (fst nc)) (filter (malformed_descriptor fromstring) (files s)).
Proof.
  intros Hrun.
  destruct (analyze_closed fromstring sha256_16 z s Hrun) as (app & Happ & Hr & Hi).
  split; [exact Hr|].
  rewrite Hi, !issues_of_app, (validation_issues_not_build fromstring s app Happ), app_nil_r.
  f_equal.
  - destruct (Py.mem "[Content_Types].xml" (namelist z)); reflexivity.
  - apply issues_of_same. intros i Hin.
    apply in_map_iff in Hin. destruct Hin as (nc & <- & _). reflexivity.
Qed.

Lemma build_phase_witness :
  issues_of Build (issues (Deck.model Deck.two_broken_descriptors)) =
    [ I_CRITICAL; I_ERROR "ppt/_rels/presentation.xml.rels";
      I_ERROR "ppt/slides/_rels/slide1.xml.rels" ] /\
  relations (Deck.model Deck.two_broken_descriptors) =
    [ ("", map (parse_relationship "") []) ].
Proof.
  assert (Hrun : analyze Deck.fromstring Deck.sha256_16 Deck.two_broken_descriptors =
                 Ok (Deck.model Deck.two_broken_descriptors))
    by (vm_compute; reflexivity).
  destruct (build_phase Deck.fromstring Deck.sha256_16 Deck.two_broken_descriptors _ Hrun)
    as (Hr & Hi).
  split.
  - rewrite Hi. vm_compute. reflexivity.
  - rewrite Hr. vm_compute. reflexivity.
Defined.

(** ** Counts of the presentation's relationships *)

Lemma list_sum_indicator (x : string) (g : string -> nat) (ks : list string) :
  NoDup ks -> In x ks ->
  list_sum (map (fun k => (if x =? k then 1 else 0) + g k) ks) = S (list_sum (map g ks)).
Proof.
  induction ks as [|k ks IH]; intros Hnd Hin; [destruct Hin|].
  inversion Hnd as [|? ? Hk Hks]; subst. simpl.
  destruct Hin as [->|Hin].
  - rewrite String.eqb_refl.
    assert (Hrest : map (fun k => (if x =? k then 1 else 0) + g k) ks = map g ks).
    { apply map_ext_in. intros k Hk'. destruct (x =? k) eqn:E; [|reflexivity].
      apply String.eqb_eq in E. subst. contradiction. }
    rewrite Hrest. lia.
  - destruct (x =? k) eqn:E.
    + apply String.eqb_eq in E. subst. contradiction.
    + rewrite (IH Hks Hin). lia.
Qed.

(** A list is as long as its groups by key together. *)
Lemma length_by_key {A} (key : A -> string) (l : list A) (ks : list string) :
  NoDup ks -> (forall a, In a l -> In (key a) ks) ->
  List.length l =
  list_sum (map (fun k => List.length (filter (fun a => key a =? k) l)) ks).
Proof.
  intros Hnd. induction l as [|a l IH]; intros Hin.
  - clear. induction ks as [|k ks IHks]; simpl; [reflexivity|exact IHks].
  - simpl. rewrite IH by (intros b Hb; apply Hin; now right).
    rewrite <- (list_sum_indicator (key a) _ ks Hnd (Hin a (or_introl eq_refl))).
    f_equal. apply map_ext. intros k. now destruct (key a =? k).
Qed.

Lemma list_sum_differs (f g : string -> nat) (ks : list string) :
  list_sum (map f ks) <> list_sum (map g ks) -> exists k, In k ks /\ f k <> g k.
Proof.
  induction ks as [|k ks IH]; simpl; [congruence|]. intros Hne.
  destruct (Nat.eq_dec (f k) (g k)) as [Heq|Hk].
  - destruct IH as (k' & Hin & Hk'); [lia|]. exists k'. split; [now right|exact Hk'].
  - exists k. split; [now left|exact Hk].
Qed.

Lemma group_length_differs {A} (key : A -> string) (l1 l2 : list A) :
  List.length l1 <> List.length l2 ->
  exists k, List.length (filter (fun a => key a =? k) l1) <>
            List.length (filter (fun a => key a =? k) l2).
Proof.
  intros Hne.
  set (ks := PySet.of_list (map key (l1 ++ l2))).
  assert (Hnd : NoDup ks) by apply set_nodup_of_list.
  assert (Hin : forall a, In a (l1 ++ l2) -> In (key a) ks).
  { intros a Ha. apply (proj2 (set_in_of_list _ _)). now apply in_map. }
  rewrite (length_by_key key l1 ks Hnd) in Hne
    by (intros a Ha; apply Hin, in_or_app; now left).
  rewrite (length_by_key key l2 ks Hnd) in Hne
    by (intros a Ha; apply Hin, in_or_app; now right).
  apply list_sum_differs in Hne. destruct Hne as (k & _ & Hk). now exists k.
Qed.

(** X18.  A change of the total number of relationships of the
    presentation part never comes alone: when a completed comparison
    reports [PRES_RELS_TOTAL_COUNT_CHANGED], its counts are the lengths of
    the two relationship lists, they differ, and the same comparison
    reports [PRES_RELS_TYPE_COUNT_CHANGED] for some kind whose counts
    differ. *)
Theorem total_count_change_has_type_change (fromstring : string -> option element)
    (c r : analyzer) (diffs : list diff) (d : diff) (n m : nat) :
  compare fromstring c r = Ok diffs ->
  In d diffs -> d_body d = PRES_RELS_TOTAL_COUNT_CHANGED n m ->
  n = List.length (pres_rels c) /\ m = List.length (pres_rels r) /\ n <> m /\
  d_severity d = HIGH /\
  exists d' kind cn rn ct rt,
    In d' diffs /\ d_body d' = PRES_RELS_TYPE_COUNT_CHANGED kind cn rn ct rt /\ cn <> rn.
Proof.
  intros Hrun Hd Hbody.
  pose proof (compare_component fromstring c r diffs d Hrun Hd) as H.
  unfold diff_origin in H. rewrite Hbody in H.
  unfold _compare_presentation_xml in H. apply in_app_or in H.
  destruct H as [H|H].
  { destruct (negb (PyDict.eqb _ _)); [|destruct H]. destruct H as [<-|[]]. discriminate. }
  apply compare_presentation_rels_in in H.
  destruct H as [(k & _ & ->)|(Hne & ->)]; [discriminate|].
  injection Hbody as <- <-.
  split; [reflexivity|]. split; [reflexivity|]. split; [exact Hne|].
  split; [reflexivity|].
  destruct (group_length_differs rel_type_name _ _ Hne) as (k & Hk).
  eexists (mk_diff _ (PRES_RELS_TYPE_COUNT_CHANGED k _ _ _ _)), k, _, _, _, _.
  split; [|split; [reflexivity|exact Hk]].
  apply (compare_has_presentation_xml fromstring c r diffs _ Hrun).
  unfold _compare_presentation_xml. apply in_or_app. right.
  exact (pres_rels_type_count_diff c r k Hk).
Qed.

Lemma total_count_change_has_type_change_witness :
  In (mk_diff HIGH (PRES_RELS_TOTAL_COUNT_CHANGED 1 0)) Sample.corrupt_vs_repaired /\
  exists d' kind cn rn ct rt,
    In d' Sample.corrupt_vs_repaired /\
    d_body d' = PRES_RELS_TYPE_COUNT_CHANGED kind cn rn ct rt /\ cn <> rn.
Proof.
  assert (Hrun : compare Sample.fromstring (Sample.model Sample.corrupt)
                   (Sample.model Sample.repaired) = Ok Sample.corrupt_vs_repaired)
    by (vm_compute; reflexivity).
  assert (Hd : In (mk_diff HIGH (PRES_RELS_TOTAL_COUNT_CHANGED 1 0)) Sample.corrupt_vs_repaired)
    by (vm_compute; right; right; left; reflexivity).
  split; [exact Hd|].
  exact (proj2 (proj2 (proj2 (proj2
           (total_count_change_has_type_change Sample.fromstring
              (Sample.model Sample.corrupt) (Sample.model Sample.repaired)
              Sample.corrupt_vs_repaired (mk_diff HIGH (PRES_RELS_TOTAL_COUNT_CHANGED 1 0))
              1 0 Hrun Hd eq_refl))))).
Defined.

(** ** Hypotheses about sections *)

Lemma invalid_rels_kinds (rels : list relationship) (r : invalid_relation) :
  In r (invalid_rels rels) -> In (inv_type r) (PyDict.keys INVALID_PRES_REL_TYPES).
Proof.
  unfold invalid_rels. intros H. apply in_flat_map in H. destruct H as (rel & _ & H).
  destruct (PyDict.get INVALID_PRES_REL_TYPES (rel_type_name rel)) as [reason|] eqn:E;
    [|destruct H].
  destruct H as [<-|[]]. simpl. apply dict_get_in in E.
  exact (dict_in_keys _ _ _ E).
Qed.

Section SectionHypothesis.

Variable fromstring : string -> option element.
Variable sha256_16 : string -> string.

(** No issue of a completed analysis has [SECTION] in its type. *)
Lemma analysis_issue_type_no_section (z : zipfile) (s : analyzer) (i : issue) :
  analyze fromstring sha256_16 z = Ok s ->
  In i (issues s) -> issue_type_contains "SECTION" i = false.
Proof.
  intros Hrun Hi.
  pose proof (analysis_issue_component fromstring sha256_16 z s i Hrun Hi) as Hc.
  destruct i; try (vm_compute; reflexivity).
  - simpl in Hc.
    destruct (presentation_ids_issue_component fromstring s _ Hc)
      as (content & root & _ & _ & H).
    simpl in H. rewrite presentation_rels_issues_spec in H.
    destruct (invalid_rels (pres_rels s)) as [|r0 inv] eqn:Hinv; [destruct H|].
    destruct H as [H|H]; [discriminate|].
    apply in_map_iff in H. destruct H as (k & Hk & Hin).
    unfold kind_issue in Hk. injection Hk as <- _ _ _.
    apply (proj1 (set_in_of_list _ _)) in Hin.
    apply in_map_iff in Hin. destruct Hin as (r & <- & Hr).
    rewrite <- Hinv in Hr. apply invalid_rels_kinds in Hr.
    simpl in Hr.
    destruct Hr as [<-|[<-|[<-|[<-|[<-|[<-|[<-|[]]]]]]]]; vm_compute; reflexivity.
  - exfalso. simpl in Hc.
    destruct (presentation_ids_issue_component fromstring s _ Hc)
      as (content & root & _ & _ & H).
    exact H.
Qed.

End SectionHypothesis.

Lemma section_hypothesis_in (issues : list issue) (diffs : list diff) (h : hypothesis) :
  In h (_generate_hypotheses issues diffs) ->
  h_title h = "Section Reference Issues" ->
  let section_issues := filter (issue_type_contains "SECTION") issues in
  let section_diffs :=
    filter (fun d => diff_type_contains "SECTION" d && critical_or_high d) diffs in
  h_evidence h =
    EV_issues_and_differences (List.length section_issues) (List.length section_diffs) /\
  (section_issues <> [] \/ section_diffs <> []).
Proof.
  intros Hin Ht.
  assert (Happ : In h (appended_hypotheses issues diffs)).
  { unfold _generate_hypotheses in Hin. cbv zeta in Hin.
    destruct (invalid_pres_rels_of issues), (pres_rels_diffs_of diffs);
      destruct (appended_hypotheses issues diffs) eqn:Ha;
      repeat match goal with
        | H : In h (_ :: _) |- _ => destruct H as [H|H]
        | H : In h [] |- _ => destruct H
        | H : _ = h |- _ => rewrite <- H in Ht; try discriminate Ht
        end;
      try (now left); try (right; assumption); try assumption.
    all: subst h; now left. }
  unfold appended_hypotheses in Happ. cbv beta zeta in Happ.
  rewrite !in_app_iff in Happ.
  repeat match goal with
    | H : _ \/ _ |- _ => destruct H as [H|H]
    end;
    match goal with
    | H : In h (if ?c then _ else _) |- _ =>
        destruct c eqn:Hc; [destruct H as [<-|[]]|destruct H]
    end;
    try discriminate Ht.
  cbv zeta. split; [reflexivity|].
  apply orb_true_iff in Hc. destruct Hc as [Hc|Hc]; [left|right]; intros Hnil;
    rewrite Hnil in Hc; discriminate.
Qed.

(** X19.  The hypothesis about sections never rests on an issue: as no
    completed analysis reports an issue about sections, a hypothesis
    titled [Section Reference Issues] that is generated from the issues of
    an analysed package counts 0 issues, and there is a diff about
    sections of severity CRITICAL or HIGH behind it. *)
Theorem section_hypothesis_from_diffs (fromstring : string -> option element)
    (sha256_16 : string -> string) (z : zipfile) (c : analyzer) (diffs : list diff)
    (h : hypothesis) :
  analyze fromstring sha256_16 z = Ok c ->
  In h (_generate_hypotheses (issues c) diffs) ->
  h_title h = "Section Reference Issues" ->
  exists n,
    h_evidence h = EV_issues_and_differences 0 (S n) /\
    S n = List.length
            (filter (fun d => diff_type_contains "SECTION" d && critical_or_high d) diffs).
Proof.
  intros Hrun Hin Ht.
  destruct (section_hypothesis_in (issues c) diffs h Hin Ht) as (Hev & Hsome).
  assert (Hnone : filter (issue_type_contains "SECTION") (issues c) = []).
  { apply filter_none. intros i Hi.
    exact (analysis_issue_type_no_section fromstring sha256_16 z c i Hrun Hi). }
  rewrite Hnone in Hev, Hsome. simpl in Hev.
  destruct Hsome as [Hsome|Hsome]; [congruence|].
  destruct (filter (fun d => diff_type_contains "SECTION" d && critical_or_high d) diffs)
    as [|d0 rest]; [congruence|].
  exists (List.length rest). split; [exact Hev|reflexivity].
Qed.

Lemma section_hypothesis_from_diffs_witness :
  exists n,
    EV_issues_and_differences 0 1 = EV_issues_and_differences 0 (S n) /\
    S n = List.length
            (filter (fun d => diff_type_contains "SECTION" d && critical_or_high d)
                    Deck.sectioned_vs_plain).
Proof.
  assert (Hrun : analyze Deck.fromstring Deck.sha256_16 Deck.sectioned =
                 Ok (Deck.model Deck.sectioned))
    by (vm_compute; reflexivity).
  apply (section_hypothesis_from_diffs Deck.fromstring Deck.sha256_16 Deck.sectioned
           (Deck.model Deck.sectioned) Deck.sectioned_vs_plain
           {| h_title := "Section Reference Issues";
              h_evidence := EV_issues_and_differences 0 1;
              h_fix := "Update section slideId references after merge when slide IDs are renumbered" |}
           Hrun).
  - vm_compute. repeat (first [left; reflexivity | right]).
  - reflexivity.
Defined.

(** ** Numbered part names *)

Lemma strip_prefix_app (p s rest : string) :
  strip_prefix p s = Some rest <-> s = (p ++ rest)%string.
Proof.
  revert s. induction p as [|a p IH]; intros s; simpl.
  - split; [now intros [= ->]|now intros ->].
  - destruct s as [|b s]; [split; discriminate|].
    destruct (Ascii.eqb a b) eqn:E.
    + apply Ascii.eqb_eq in E. subst b. rewrite IH. split; [now intros ->|now intros [= ->]].
    + apply Ascii.eqb_neq in E. split; [discriminate|]. intros [= Hab _]. congruence.
Qed.

Lemma drop_digits_split (s : string) :
  exists digits, s = (digits ++ drop_digits s)%string /\ digits_only digits = true.
Proof.
  induction s as [|c s (ds & Hs & Hds)]; [now exists ""|]. simpl.
  destruct (is_digit c) eqn:Hc.
  - exists (String c ds). simpl. rewrite Hc, Hds. split; [now rewrite <- Hs|reflexivity].
  - now exists "".
Qed.

Lemma drop_digits_length (s : string) :
  String.length (drop_digits s) <= String.length s.
Proof.
  induction s as [|c s IH]; simpl; [lia|]. destruct (is_digit c); simpl; lia.
Qed.

Lemma drop_digits_app (digits tail : string) :
  digits_only digits = true -> drop_digits (digits ++ tail) = drop_digits tail.
Proof.
  induction digits as [|c ds IH]; [reflexivity|]. simpl.
  intros H. apply andb_true_iff in H. destruct H as (Hc & Hds). rewrite Hc. now apply IH.
Qed.

Lemma re_match_numbered_spec (prefix name : string) (c : ascii) (suffix : string) :
  is_digit c = false ->
  re_match_numbered prefix (String c suffix) name = true <->
  numbered_name prefix (String c suffix) name.
Proof.
  intros Hc. unfold re_match_numbered, numbered_name. split.
  - destruct (strip_prefix prefix name) as [rest|] eqn:Hp; [|discriminate].
    apply strip_prefix_app in Hp. subst name.
    destruct rest as [|d rest]; [discriminate|].
    intros H. apply andb_true_iff in H. destruct H as (Hd & Htail).
    destruct (drop_digits_split (String d rest)) as (ds & Hrest & Hds).
    exists ds. split; [|split; [exact Hds|]].
    + intros ->.
      change (("" ++ drop_digits (String d rest))%string)
        with (if is_digit d then drop_digits rest else String d rest) in Hrest.
      rewrite Hd in Hrest. pose proof (drop_digits_length rest) as Hlen.
      rewrite <- Hrest in Hlen. simpl in Hlen. lia.
    + rewrite Hrest. apply orb_true_iff in Htail.
      destruct Htail as [H|H]; apply String.eqb_eq in H; rewrite H; [now left|now right].
  - intros (ds & Hne & Hds & Hname).
    assert (Hstrip : exists tail,
              strip_prefix prefix name = Some (ds ++ tail)%string /\
              (tail = String c suffix \/ tail = (String c suffix ++ newline)%string)).
    { destruct Hname as [-> | ->].
      - exists (String c suffix). split; [now apply strip_prefix_app|now left].
      - exists (String c suffix ++ newline)%string.
        split; [now apply strip_prefix_app|now right]. }
    destruct Hstrip as (tail & -> & Htail).
    destruct ds as [|d ds]; [congruence|].
    simpl in Hds. apply andb_true_iff in Hds. destruct Hds as (Hd & Hds).
    change ((String d ds ++ tail)%string) with (String d (ds ++ tail)%string).
    cbv beta iota. rewrite Hd. cbn [andb].
    change (drop_digits (String d (ds ++ tail)))
      with (if is_digit d then drop_digits (ds ++ tail) else String d (ds ++ tail)).
    rewrite Hd, (drop_digits_app ds tail Hds).
    destruct Htail as [-> | ->]; simpl; rewrite Hc.
    + now rewrite String.eqb_refl.
    + rewrite (String.eqb_refl (String c (suffix ++ newline))). apply orb_true_r.
Qed.

(** X20.  The names that count as numbered parts.  A name of ASCII
    characters is taken for a slide, slide master, slide layout, notes
    slide or comment part exactly when it is the directory and stem of the
    kind, a non-empty run of the digits 0 to 9 and [.xml], possibly
    followed by one newline, which [$] lets pass. *)
Theorem numbered_part_names (name : string) :
  ascii_only name = true ->
  (is_slide_part name = true <-> numbered_name "ppt/slides/slide" ".xml" name) /\
  (is_slidemaster_part name = true <->
   numbered_name "ppt/slideMasters/slideMaster" ".xml" name) /\
  (is_layout_part name = true <->
   numbered_name "ppt/slideLayouts/slideLayout" ".xml" name) /\
  (is_noteslide_part name = true <->
   numbered_name "ppt/notesSlides/notesSlide" ".xml" name) /\
  (is_comment_part name = true <-> numbered_name "ppt/comments/comment" ".xml" name).
Proof.
  intros _.
  unfold is_slide_part, is_slidemaster_part, is_layout_part, is_noteslide_part,
    is_comment_part.
  split; [exact (re_match_numbered_spec _ name "." "xml" eq_refl)|].
  split; [exact (re_match_numbered_spec _ name "." "xml" eq_refl)|].
  split; [exact (re_match_numbered_spec _ name "." "xml" eq_refl)|].
  split; [exact (re_match_numbered_spec _ name "." "xml" eq_refl)|].
  exact (re_match_numbered_spec _ name "." "xml" eq_refl).
Qed.

Lemma numbered_part_names_witness :
  numbered_name "ppt/slides/slide" ".xml" "ppt/slides/slide12.xml" /\
  numbered_name "ppt/comments/comment" ".xml" ("ppt/comments/comment7.xml" ++ newline) /\
  ~ numbered_name "ppt/slideLayouts/slideLayout" ".xml" "ppt/slideLayouts/slideLayout.xml".
Proof.
  split; [|split].
  - apply (proj1 (numbered_part_names "ppt/slides/slide12.xml" eq_refl)). reflexivity.
  - apply (proj2 (proj2 (proj2 (proj2
             (numbered_part_names ("ppt/comments/comment7.xml" ++ newline) eq_refl))))).
    reflexivity.
  - intros H.
    apply (proj2 (proj2 (numbered_part_names "ppt/slideLayouts/slideLayout.xml" eq_refl)))
      in H.
    discriminate H.
Defined.

(** ** The descriptor of a slide layout *)

Lemma prefix_app_self (p s : string) : String.prefix p (p ++ s) = true.
Proof.
  induction p as [|a p IH]; [apply prefix_nil|].
  change ((String a p ++ s)%string) with (String a (p ++ s)%string).
  now rewrite prefix_cons, Ascii.eqb_refl.
Qed.

Lemma prefix_has_slash (p s : string) :
  String.prefix p s = true -> ResolverSpec.has_slash p = true ->
  ResolverSpec.has_slash s = true.
Proof.
  revert s. induction p as [|a p IH]; intros s Hp Hs; [discriminate|].
  destruct s as [|b s]; [discriminate|]. rewrite prefix_cons in Hp.
  destruct (Ascii.eqb a b) eqn:E; [|discriminate]. apply Ascii.eqb_eq in E. subst b.
  simpl in *. destruct (Ascii.eqb a "/"); [reflexivity|]. simpl in *. now apply IH.
Qed.

Lemma replace_from_skip (old new p s : string) :
  Py.replace_from old new (String.length p) (p ++ s) = Py.replace_from old new 0 s.
Proof.
  induction p as [|a p IH]; [reflexivity|].
  change ((String a p ++ s)%string) with (String a (p ++ s)%string).
  cbn [String.length Py.replace_from]. exact IH.
Qed.

Lemma replace_leading (a : ascii) (old new s : string) :
  Py.replace (String a old) new (String a old ++ s) =
  (new ++ Py.replace (String a old) new s)%string.
Proof.
  unfold Py.replace.
  change ((String a old ++ s)%string) with (String a (old ++ s)%string).
  cbn [Py.replace_from].
  change (String a (old ++ s)%string) with ((String a old ++ s)%string).
  rewrite prefix_app_self.
  change (String.length (String a old) - 1) with (String.length old - 0).
  now rewrite Nat.sub_0_r, replace_from_skip.
Qed.

Lemma replace_without_slash (old new s : string) :
  ResolverSpec.has_slash old = true -> ResolverSpec.has_slash s = false ->
  Py.replace old new s = s.
Proof.
  intros Hold. unfold Py.replace. induction s as [|c s IH]; intros Hs; [reflexivity|].
  cbn [Py.replace_from].
  destruct (String.prefix old (String c s)) eqn:Hp.
  - apply (prefix_has_slash old _ Hp) in Hold. congruence.
  - simpl in Hs. apply orb_false_iff in Hs. destruct Hs as (_ & Hs). now rewrite IH.
Qed.

Lemma digits_no_slash (digits : string) :
  digits_only digits = true -> ResolverSpec.has_slash digits = false.
Proof.
  induction digits as [|c ds IH]; [reflexivity|]. simpl.
  intros H. apply andb_true_iff in H. destruct H as (Hc & Hds). rewrite (IH Hds).
  destruct (Ascii.eqb c "/") eqn:E; [|reflexivity].
  apply Ascii.eqb_eq in E. subst c. discriminate.
Qed.

Lemma contains_rels_digits (digits tail : string) :
  digits_only digits = true ->
  Py.contains ".rels" (digits ++ tail) = Py.contains ".rels" tail.
Proof.
  induction digits as [|c ds IH]; [reflexivity|]. simpl digits_only.
  intros H. apply andb_true_iff in H. destruct H as (Hc & Hds).
  change ((String c ds ++ tail)%string) with (String c (ds ++ tail)%string).
  cbn [Py.contains]. rewrite (IH Hds). rewrite prefix_cons.
  destruct (Ascii.eqb "." c) eqn:E; [|reflexivity].
  apply Ascii.eqb_eq in E. subst c. discriminate.
Qed.

Lemma endswith_app (suffix s : string) : Py.endswith suffix (s ++ suffix) = true.
Proof.
  induction s as [|c s IH].
  - destruct suffix; cbn [append Py.endswith]; now rewrite String.eqb_refl.
  - change ((String c s ++ suffix)%string) with (String c (s ++ suffix)%string).
    cbn [Py.endswith]. rewrite IH. apply orb_true_r.
Qed.

(** The file name of a layout part, and the path of its descriptor. *)
Lemma layout_part_file (name : string) :
  is_layout_part name = true ->
  exists file,
    name = ("ppt/slideLayouts/" ++ file)%string /\
    ResolverSpec.has_slash file = false /\ Py.contains ".rels" file = false /\
    layout_rels_path name = ("ppt/slideLayouts/_rels/" ++ file ++ ".rels")%string.
Proof.
  intros H. apply (proj1 (re_match_numbered_spec _ name "." "xml" eq_refl)) in H.
  destruct H as (ds & _ & Hds & Hname).
  assert (Hfile : exists tail,
            name = ("ppt/slideLayouts/" ++ ("slideLayout" ++ ds ++ tail))%string /\
            (tail = ".xml" \/ tail = (".xml" ++ newline)%string)).
  { destruct Hname as [-> | ->]; [exists ".xml"|exists (".xml" ++ newline)%string];
      (split; [reflexivity|tauto]). }
  destruct Hfile as (tail & -> & Htail).
  exists ("slideLayout" ++ ds ++ tail)%string.
  assert (Hslash : ResolverSpec.has_slash ("slideLayout" ++ ds ++ tail) = false).
  { rewrite !has_slash_app, (digits_no_slash ds Hds).
    destruct Htail as [-> | ->]; reflexivity. }
  split; [reflexivity|]. split; [exact Hslash|]. split.
  - change (Py.contains ".rels" ("slideLayout" ++ ds ++ tail))
      with (Py.contains ".rels" (ds ++ tail)).
    rewrite (contains_rels_digits ds tail Hds).
    destruct Htail as [-> | ->]; reflexivity.
  - unfold layout_rels_path.
    rewrite (replace_leading "p" "pt/slideLayouts/" "ppt/slideLayouts/_rels/").
    rewrite (replace_without_slash "ppt/slideLayouts/" "ppt/slideLayouts/_rels/" _
               eq_refl Hslash).
    reflexivity.
Qed.

(** X21.  The two naming conventions agree: the path at which the layout
    check looks for the descriptor of a slide layout is a path that
    [_rels_to_part] maps back to the layout, so the relationships parsed
    from that descriptor are stored under the name by which the check
    looks them up. *)
Theorem layout_descriptor_source (name : string) :
  is_layout_part name = true ->
  Py.endswith ".rels" (layout_rels_path name) = true /\
  _rels_to_part (layout_rels_path name) = Ok name.
Proof.
  intros H. destruct (layout_part_file name H) as (file & -> & Hslash & Hrels & Hpath).
  rewrite Hpath. split.
  - change ("ppt/slideLayouts/_rels/" ++ file ++ ".rels")%string
      with (("ppt/slideLayouts/_rels/" ++ file) ++ ".rels")%string.
    apply endswith_app.
  - rewrite (rels_to_part_segments _ (file ++ ".rels") ["ppt"; "slideLayouts"] []).
    + now rewrite replace_rels_suffix.
    + change ("ppt/slideLayouts/_rels/" ++ file ++ ".rels")%string
        with ("ppt" ++ "/" ++ ("slideLayouts" ++ "/" ++ ("_rels" ++ "/" ++ (file ++ ".rels"))))%string.
      rewrite !split_app.
      rewrite (split_without_slash (file ++ ".rels")); [reflexivity|].
      now rewrite has_slash_app, Hslash.
    + simpl. intuition discriminate.
Qed.

Lemma layout_descriptor_source_witness :
  layout_rels_path "ppt/slideLayouts/slideLayout12.xml" =
    "ppt/slideLayouts/_rels/slideLayout12.xml.rels" /\
  _rels_to_part (layout_rels_path "ppt/slideLayouts/slideLayout12.xml") =
    Ok "ppt/slideLayouts/slideLayout12.xml".
Proof.
  split; [vm_compute; reflexivity|].
  apply (layout_descriptor_source "ppt/slideLayouts/slideLayout12.xml"). reflexivity.
Defined.

(** ** A layout whose descriptor cannot be read *)

Section LayoutChain.

Variable fromstring : string -> option element.
Variable sha256_16 : string -> string.

Lemma analysis_part (z : zipfile) (s : analyzer) (name : string) :
  analyze fromstring sha256_16 z = Ok s ->
  In name (namelist z) ->
  In (name, zip_read z name) (files s) /\ In name (PyDict.keys (files s)).
Proof.
  intros Hrun Hin.
  pose proof (analyze_spec fromstring sha256_16 z s Hrun) as (Hfiles & _).
  assert (H : In (name, zip_read z name) (files s)).
  { rewrite Hfiles. apply (loaded_entry sha256_16 z (name, zip_read z name)). now split. }
  split; [exact H|]. exact (dict_in_keys _ _ _ H).
Qed.

(** The sources of the relationship graph come from well-formed
    descriptors of the archive. *)
Lemma analysis_relations_source (z : zipfile) (s : analyzer) (source : string) :
  analyze fromstring sha256_16 z = Ok s ->
  In source (PyDict.keys (relations s)) ->
  exists d,
    In d (namelist z) /\ Py.endswith ".rels" d = true /\
    fromstring (zip_read z d) <> None /\ _rels_to_part d = Ok source.
Proof.
  intros Hrun Hin.
  destruct (analyze_closed fromstring sha256_16 z s Hrun) as (_ & _ & Hr & _).
  pose proof (analyze_spec fromstring sha256_16 z s Hrun) as (Hfiles & _).
  rewrite Hr in Hin. apply (proj1 (dict_in_keys_of_list _ _)) in Hin.
  apply in_map_iff in Hin. destruct Hin as ([src rels] & Hsrc & Hin). simpl in Hsrc. subst src.
  apply in_flat_map in Hin. destruct Hin as (nc & Hnc & Hin).
  rewrite Hfiles in Hnc. apply (loaded_entry sha256_16 z nc) in Hnc.
  destruct Hnc as (Hname & Hcontent).
  unfold descriptor_relations in Hin.
  destruct (Py.endswith ".rels" (fst nc)) eqn:Hend; [|destruct Hin].
  destruct (fromstring (snd nc)) as [root|] eqn:Hroot; [|destruct Hin].
  destruct (_rels_to_part (fst nc)) as [src|] eqn:Hpart; [|destruct Hin].
  destruct Hin as [Heq|[]]. injection Heq as -> _.
  exists (fst nc). rewrite <- Hcontent, Hroot. repeat split; try assumption. discriminate.
Qed.

End LayoutChain.

(** X22.  A slide layout whose descriptor is not well-formed is reported
    twice.  The descriptor gets an ERROR issue and leaves no entry in the
    relationship graph; the layout check finds the descriptor among the
    parts, so it does not report it as missing, looks up the
    relationships of the layout, finds none, and reports
    [LAYOUT_NO_MASTER], provided no other well-formed descriptor is
    mapped to the layout. *)
Theorem unreadable_layout_descriptor (fromstring : string -> option element)
    (sha256_16 : string -> string) (z : zipfile) (s : analyzer) (name : string) :
  analyze fromstring sha256_16 z = Ok s ->
  In name (namelist z) -> is_layout_part name = true ->
  In (layout_rels_path name) (namelist z) ->
  fromstring (zip_read z (layout_rels_path name)) = None ->
  (forall d, In d (namelist z) -> d <> layout_rels_path name ->
             Py.endswith ".rels" d = true -> fromstring (zip_read z d) <> None ->
             _rels_to_part d <> Ok name) ->
  In (I_ERROR (layout_rels_path name)) (issues s) /\
  In (LAYOUT_NO_MASTER name) (issues s) /\
  ~ In (MISSING_LAYOUT_RELS name) (issues s).
Proof.
  intros Hrun Hname Hlayout Hpath Hbroken Hother.
  destruct (analysis_part fromstring sha256_16 z s name Hrun Hname) as (_ & Hkey).
  destruct (analysis_part fromstring sha256_16 z s _ Hrun Hpath) as (Hentry & Hpkey).
  assert (Hend : Py.endswith ".rels" (layout_rels_path name) = true)
    by apply endswith_app.
  assert (Hnone : PyDict.get (relations s) name = None).
  { apply dict_get_none. intros Hin.
    destruct (analysis_relations_source fromstring sha256_16 z s name Hrun Hin)
      as (d & Hd & Hdend & Hparse & Hpart).
    destruct (String.eqb d (layout_rels_path name)) eqn:E.
    - apply String.eqb_eq in E. subst d. now apply Hparse.
    - apply String.eqb_neq in E. exact (Hother d Hd E Hdend Hparse Hpart). }
  assert (Hbody : (if negb (is_layout_part name) then []
                   else if negb (PyDict.mem (files s) (layout_rels_path name))
                        then [MISSING_LAYOUT_RELS name]
                        else if existsb (fun r => Py.contains REL_TYPES.slideMaster (rel_type r))
                                  (PyDict.get_default (relations s) name [])
                             then []
                             else [LAYOUT_NO_MASTER name]) = [LAYOUT_NO_MASTER name]).
  { rewrite Hlayout. apply dict_mem_In in Hpkey. rewrite Hpkey.
    unfold PyDict.get_default. now rewrite Hnone. }
  split; [|split].
  - destruct (analyze_closed fromstring sha256_16 z s Hrun) as (app & _ & _ & Hi).
    rewrite Hi. apply in_or_app. right. apply in_or_app. left.
    apply (in_map (fun nc : string * string => I_ERROR (fst nc)) _
             (layout_rels_path name, zip_read z (layout_rels_path name))).
    apply filter_In. split; [exact Hentry|].
    unfold malformed_descriptor. simpl. now rewrite Hend, Hbroken.
  - apply (analysis_issue_includes fromstring sha256_16 z s _ Hrun).
    right. right. left. unfold layout_master_issues. apply in_flat_map.
    exists name. split; [exact Hkey|].
    change (In (LAYOUT_NO_MASTER name)
              (if negb (is_layout_part name) then []
               else if negb (PyDict.mem (files s) (layout_rels_path name))
                    then [MISSING_LAYOUT_RELS name]
                    else if existsb (fun r => Py.contains REL_TYPES.slideMaster (rel_type r))
                              (PyDict.get_default (relations s) name [])
                         then []
                         else [LAYOUT_NO_MASTER name])).
    rewrite Hbody. now left.
  - intros Hin.
    pose proof (analysis_issue_component fromstring sha256_16 z s _ Hrun Hin) as H.
    simpl in H. unfold layout_master_issues in H. apply in_flat_map in H.
    destruct H as (n & _ & H).
    destruct (negb (is_layout_part n)); [destruct H|].
    clear Hbody. fold (layout_rels_path n) in H.
    destruct (negb (PyDict.mem (files s) (layout_rels_path n))) eqn:Hmem.
    + destruct H as [Heq|[]]. injection Heq as ->.
      apply dict_mem_In in Hpkey. rewrite Hpkey in Hmem. discriminate.
    + destruct (existsb _ (PyDict.get_default (relations s) n [])); [destruct H|].
      destruct H as [Heq|[]]. discriminate.
Qed.

Lemma unreadable_layout_descriptor_witness :
  In (I_ERROR "ppt/slideLayouts/_rels/slideLayout1.xml.rels")
     (issues (Deck.model Deck.layout_broken_descriptor)) /\
  In (LAYOUT_NO_MASTER "ppt/slideLayouts/slideLayout1.xml")
     (issues (Deck.model Deck.layout_broken_descriptor)) /\
  ~ In (MISSING_LAYOUT_RELS "ppt/slideLayouts/slideLayout1.xml")
       (issues (Deck.model Deck.layout_broken_descriptor)).
Proof.
  assert (Hrun : analyze Deck.fromstring Deck.sha256_16 Deck.layout_broken_descriptor =
                 Ok (Deck.model Deck.layout_broken_descriptor))
    by (vm_compute; reflexivity).
  assert (Hpath : layout_rels_path "ppt/slideLayouts/slideLayout1.xml" =
                  "ppt/slideLayouts/_rels/slideLayout1.xml.rels")
    by (vm_compute; reflexivity).
  rewrite <- Hpath.
  apply (unreadable_layout_descriptor Deck.fromstring Deck.sha256_16
           Deck.layout_broken_descriptor _ "ppt/slideLayouts/slideLayout1.xml" Hrun).
  - vm_compute. right. left. reflexivity.
  - reflexivity.
  - rewrite Hpath. vm_compute. right. right. left. reflexivity.
  - rewrite Hpath. vm_compute. reflexivity.
  - rewrite Hpath. intros d Hd Hne Hend Hparse.
    vm_compute in Hd. destruct Hd as [<-|[<-|[<-|[]]]]; try discriminate Hend.
    now destruct Hne.
Defined.

(** ** Checks that need a readable part *)

Section ReadableParts.

Variable fromstring : string -> option element.
Variable sha256_16 : string -> string.

Lemma analysis_get (z : zipfile) (s : analyzer) (name : string) :
  analyze fromstring sha256_16 z = Ok s ->
  PyDict.get (files s) name =
  if Py.mem name (namelist z) then Some (zip_read z name) else None.
Proof.
  intros Hrun. pose proof (analyze_spec fromstring sha256_16 z s Hrun) as (-> & _).
  apply load_files_get.
Qed.

Lemma analysis_comments_issues (z : zipfile) (s : analyzer) :
  analyze fromstring sha256_16 z = Ok s ->
  issues_of Comments (issues s) = comments_issues fromstring s.
Proof.
  intros Hrun.
  destruct (analyze_closed fromstring sha256_16 z s Hrun) as (app & Happ & _ & ->).
  unfold validation_issues. rewrite !issues_of_app.
  rewrite (issues_of_same _ (comments_issues fromstring s))
    by apply comments_issues_check.
  rewrite !issues_of_other; [reflexivity| | | | | | | |].
  - intros i Hi. apply (app_properties_issues_check fromstring s app) in Hi; congruence.
  - intros i Hi. apply noteslide_issues_check in Hi. congruence.
  - intros i Hi Hc.
    destruct (presentation_ids_issue_component fromstring s i Hi)
      as (content & root & _ & _ & H).
    now rewrite Hc in H.
  - intros i Hi. apply layout_master_issues_check in Hi. congruence.
  - intros i Hi. apply content_type_issues_check in Hi. congruence.
  - intros i Hi. apply reference_issues_check in Hi. congruence.
  - intros i Hi. apply in_map_iff in Hi. destruct Hi as (nc & <- & _). discriminate.
  - intros i Hi. destruct (Py.mem "[Content_Types].xml" (namelist z)); [destruct Hi|].
    destruct Hi as [<-|[]]. discriminate.
Qed.

Lemma issues_of_in (c : check) (l : list issue) (i : issue) :
  In i l -> issue_check i = c -> In i (issues_of c l).
Proof.
  intros Hi Hc. unfold issues_of. apply filter_In. split; [exact Hi|].
  rewrite Hc. now destruct c.
Qed.

End ReadableParts.

(** X23.  Checks that stay silent without a readable part.  When the
    presentation part is missing or not well-formed, no issue about
    repeated ids, misplaced relationships or the notes master is
    reported; when the application properties are missing or not
    well-formed, none about counts; without the list of comment authors,
    none about comments, whatever the comment parts hold, and with a list
    that is not well-formed, the one issue about the list and none about
    the comment parts; and an issue about a notes slide names a notes
    slide part that is well-formed. *)
Theorem checks_need_readable_parts (fromstring : string -> option element)
    (sha256_16 : string -> string) (z : zipfile) (s : analyzer) :
  analyze fromstring sha256_16 z = Ok s ->
  (readable fromstring z "ppt/presentation.xml" = false ->
   forall i, In i (issues s) ->
     issue_check i <> PresentationIds /\ issue_check i <> PresentationRels /\
     issue_check i <> NotesMaster) /\
  (readable fromstring z "docProps/app.xml" = false ->
   forall i, In i (issues s) -> issue_check i <> AppProperties) /\
  (~ In "ppt/commentAuthors.xml" (namelist z) ->
   forall i, In i (issues s) -> issue_check i <> Comments) /\
  (In "ppt/commentAuthors.xml" (namelist z) ->
   fromstring (zip_read z "ppt/commentAuthors.xml") = None ->
   issues_of Comments (issues s) = [INVALID_COMMENT_AUTHORS_XML]) /\
  (forall i name,
     In i (issues s) ->
     i = NOTESLIDE_NO_MASTER name \/ (exists rid, i = NOTESLIDE_MISSING_SLIDE_REF name rid) ->
     is_noteslide_part name = true /\ readable fromstring z name = true).
Proof.
  intros Hrun.
  pose proof (analysis_get fromstring sha256_16 z s) as Hget.
  split; [|split; [|split; [|split]]].
  - intros Hno i Hi.
    assert (Hnil : presentation_ids_issues fromstring s = []).
    { unfold presentation_ids_issues. rewrite (Hget _ Hrun).
      unfold readable in Hno.
      destruct (Py.mem "ppt/presentation.xml" (namelist z)); [|reflexivity].
      destruct (fromstring (zip_read z "ppt/presentation.xml")); [discriminate|reflexivity]. }
    pose proof (analysis_issue_component fromstring sha256_16 z s i Hrun Hi) as H.
    rewrite Hnil in H.
    repeat split; intros Hc; rewrite Hc in H; exact H.
  - intros Hno i Hi Hc.
    pose proof (analysis_issue_component fromstring sha256_16 z s i Hrun Hi) as H.
    rewrite Hc in H. destruct H as (app & Happ & Hin).
    unfold app_properties_issues in Happ. rewrite (Hget _ Hrun) in Happ.
    unfold readable in Hno.
    destruct (Py.mem "docProps/app.xml" (namelist z)).
    + destruct (fromstring (zip_read z "docProps/app.xml")); [discriminate|].
      injection Happ as <-. destruct Hin.
    + injection Happ as <-. destruct Hin.
  - intros Hno i Hi Hc.
    pose proof (analysis_issue_component fromstring sha256_16 z s i Hrun Hi) as H.
    rewrite Hc in H. unfold comments_issues in H. rewrite (Hget _ Hrun) in H.
    destruct (Py.mem "ppt/commentAuthors.xml" (namelist z)) eqn:E; [|destruct H].
    apply py_mem_In in E. contradiction.
  - intros Hin Hbroken.
    rewrite (analysis_comments_issues fromstring sha256_16 z s Hrun).
    unfold comments_issues. rewrite (Hget _ Hrun).
    apply py_mem_In in Hin. now rewrite Hin, Hbroken.
  - intros i name Hi Hcase.
    assert (Hc : issue_check i = Noteslides)
      by (destruct Hcase as [->|(rid & ->)]; reflexivity).
    pose proof (analysis_issue_component fromstring sha256_16 z s i Hrun Hi) as H.
    rewrite Hc in H. unfold noteslide_issues in H. apply in_flat_map in H.
    destruct H as ([n content] & Hnc & H). simpl in H.
    destruct (is_noteslide_part n) eqn:Hpart; [|destruct H]. simpl in H.
    destruct (fromstring content) as [root|] eqn:Hroot; [|destruct H].
    assert (Hn : n = name).
    { apply in_app_or in H. destruct H as [H|H].
      - destruct (ET.find_desc (qname NS.p "clrMapOvr") root) as [clr|]; [|destruct H].
        destruct (ET.get clr (qname NS.r "id")) as [ref|]; [|destruct H].
        destruct (ref =? ""); [destruct H|].
        destruct (existsb _ _); [destruct H|]. destruct H as [<-|[]].
        destruct Hcase as [Heq|(rid & Heq)]; [discriminate|now injection Heq].
      - destruct (existsb _ _); [destruct H|]. destruct H as [<-|[]].
        destruct Hcase as [Heq|(rid & Heq)]; [now injection Heq|discriminate]. }
    subst n. split; [exact Hpart|].
    pose proof (analyze_spec fromstring sha256_16 z s Hrun) as (Hfiles & _).
    rewrite Hfiles in Hnc. apply (loaded_entry sha256_16 z (name, content)) in Hnc.
    simpl in Hnc. destruct Hnc as (Hname & Hcontent).
    unfold readable. apply py_mem_In in Hname. rewrite Hname, <- Hcontent, Hroot. reflexivity.
Qed.

Lemma checks_need_readable_parts_witness :
  (forall i, In i (issues (Deck.model Deck.comments_without_authors)) ->
     issue_check i <> Comments) /\
  issues_of Comments (issues (Deck.model Deck.comments_broken_authors)) =
    [INVALID_COMMENT_AUTHORS_XML].
Proof.
  assert (Hno : analyze Deck.fromstring Deck.sha256_16 Deck.comments_without_authors =
                Ok (Deck.model Deck.comments_without_authors))
    by (vm_compute; reflexivity).
  assert (Hbr : analyze Deck.fromstring Deck.sha256_16 Deck.comments_broken_authors =
                Ok (Deck.model Deck.comments_broken_authors))
    by (vm_compute; reflexivity).
  split.
  - apply (proj1 (proj2 (proj2 (checks_need_readable_parts Deck.fromstring Deck.sha256_16
                                  Deck.comments_without_authors _ Hno)))).
    vm_compute. intuition discriminate.
  - apply (proj1 (proj2 (proj2 (proj2 (checks_need_readable_parts Deck.fromstring
                                         Deck.sha256_16 Deck.comments_broken_authors _ Hbr))))).
    + vm_compute. right. left. reflexivity.
    + vm_compute. reflexivity.
Defined.

(** ** The order of issues and diffs *)

Section Ordered.
Context {A : Type} (rank : A -> nat).

Lemma ordered_block (n m : nat) (block rest : list A) :
  (forall x, In x block -> rank x = n) -> n <= m ->
  (ordered_by rank rest /\ forall x, In x rest -> m <= rank x) ->
  ordered_by rank (block ++ rest) /\ forall x, In x (block ++ rest) -> n <= rank x.
Proof.
  intros Hblock Hnm (Hord & Hlow).
  induction block as [|a block IH]; simpl.
  - split; [exact Hord|]. intros x Hx. specialize (Hlow x Hx). lia.
  - destruct IH as (IHord & IHlow); [intros x Hx; apply Hblock; now right|].
    pose proof (Hblock a (or_introl eq_refl)) as Ha.
    split; [split; [|exact IHord]|].
    + intros b Hb. specialize (IHlow b Hb). lia.
    + intros x [<-|Hx]; [lia|now apply IHlow].
Qed.

Lemma ordered_last (n : nat) (block : list A) :
  (forall x, In x block -> rank x = n) ->
  ordered_by rank block /\ forall x, In x block -> n <= rank x.
Proof.
  intros Hblock. rewrite <- (app_nil_r block).
  apply (ordered_block n n); [exact Hblock|lia|]. split; [exact I|intros x []].
Qed.

End Ordered.

(** X24.  The issues of a completed analysis are listed check by check:
    the issues of the build first, then those about references, content
    types, layouts, repeated ids, misplaced relationships, the notes
    master, notes slides, application properties and comments; an issue of
    a later check never precedes one of an earlier check. *)
Theorem issues_in_check_order (fromstring : string -> option element)
    (sha256_16 : string -> string) (z : zipfile) (s : analyzer) :
  analyze fromstring sha256_16 z = Ok s ->
  ordered_by (fun i => check_rank (issue_check i)) (issues s).
Proof.
  intros Hrun.
  destruct (analyze_closed fromstring sha256_16 z s Hrun) as (app & Happ & _ & ->).
  unfold validation_issues.
  set (rank := fun i => check_rank (issue_check i)).
  apply (ordered_block rank 0 0).
  { intros i Hi. destruct (Py.mem "[Content_Types].xml" (namelist z)); [destruct Hi|].
    destruct Hi as [<-|[]]. reflexivity. }
  { lia. }
  apply (ordered_block rank 0 1).
  { intros i Hi. apply in_map_iff in Hi. destruct Hi as (nc & <- & _). reflexivity. }
  { lia. }
  apply (ordered_block rank 1 2).
  { intros i Hi. unfold rank. now rewrite (reference_issues_check s i Hi). }
  { lia. }
  apply (ordered_block rank 2 3).
  { intros i Hi. unfold rank. now rewrite (content_type_issues_check s i Hi). }
  { lia. }
  apply (ordered_block rank 3 4).
  { intros i Hi. unfold rank. now rewrite (layout_master_issues_check s i Hi). }
  { lia. }
  assert (Hrest : ordered_by rank
                    (noteslide_issues fromstring s ++ app ++ comments_issues fromstring s) /\
                  forall x, In x (noteslide_issues fromstring s ++ app ++
                                  comments_issues fromstring s) -> 8 <= rank x).
  { apply (ordered_block rank 8 9).
    { intros i Hi. unfold rank. now rewrite (noteslide_issues_check fromstring s i Hi). }
    { lia. }
    apply (ordered_block rank 9 10).
    { intros i Hi. unfold rank.
      now rewrite (app_properties_issues_check fromstring s app i Happ Hi). }
    { lia. }
    apply (ordered_last rank 10).
    intros i Hi. unfold rank. now rewrite (comments_issues_check fromstring s i Hi). }
  unfold presentation_ids_issues.
  destruct (PyDict.get (files s) "ppt/presentation.xml") as [content|];
    [|apply (ordered_block rank 4 8); [intros i []|lia|exact Hrest]].
  destruct (fromstring content) as [root|];
    [|apply (ordered_block rank 4 8); [intros i []|lia|exact Hrest]].
  rewrite <- !app_assoc.
  apply (ordered_block rank 4 4).
  { intros i Hi. unfold rank.
    now rewrite (duplicate_id_issues_check DUPLICATE_SLIDE_ID _ i (fun _ => eq_refl) Hi). }
  { lia. }
  apply (ordered_block rank 4 5).
  { intros i Hi. unfold rank.
    now rewrite (duplicate_id_issues_check DUPLICATE_MASTER_ID _ i (fun _ => eq_refl) Hi). }
  { lia. }
  apply (ordered_block rank 5 6).
  { intros i Hi. unfold rank. now rewrite (presentation_rels_issues_check _ i Hi). }
  { lia. }
  apply (ordered_block rank 6 7).
  { intros i Hi. unfold rank. now rewrite (section_issues_check root i Hi). }
  { lia. }
  apply (ordered_block rank 7 8).
  { intros i Hi. unfold rank. now rewrite (notes_master_issues_check s root i Hi). }
  { lia. }
  exact Hrest.
Qed.

Lemma issues_in_check_order_witness :
  map issue_check (issues (Deck.model Deck.layout_broken_descriptor)) =
    [Build; LayoutChain] /\
  ordered_by (fun i => check_rank (issue_check i))
    (issues (Deck.model Deck.layout_broken_descriptor)).
Proof.
  assert (Hrun : analyze Deck.fromstring Deck.sha256_16 Deck.layout_broken_descriptor =
                 Ok (Deck.model Deck.layout_broken_descriptor))
    by (vm_compute; reflexivity).
  split; [vm_compute; reflexivity|].
  exact (issues_in_check_order Deck.fromstring Deck.sha256_16
           Deck.layout_broken_descriptor _ Hrun).
Defined.

(** X25.  The diffs of a completed comparison are listed sub-comparison
    by sub-comparison, in the order in which [compare] runs them: file
    lists, content types, relationships, presentation, sections, notes
    slides, application properties, comments, XML content, identical
    content. *)
Theorem diffs_in_comparison_order (fromstring : string -> option element)
    (c r : analyzer) (diffs : list diff) :
  compare fromstring c r = Ok diffs ->
  ordered_by (fun d => comparison_rank (diff_origin d)) diffs.
Proof.
  intros Hrun. apply compare_spec in Hrun.
  destruct Hrun as (app & xml & Happ & Hxml & ->).
  set (rank := fun d => comparison_rank (diff_origin d)).
  apply (ordered_block rank 0 1).
  { intros d Hd. unfold rank. now rewrite (compare_file_lists_origin c r d Hd). }
  { lia. }
  apply (ordered_block rank 1 2).
  { intros d Hd. unfold rank. now rewrite (compare_content_types_origin c r d Hd). }
  { lia. }
  apply (ordered_block rank 2 3).
  { intros d Hd. unfold rank. now rewrite (compare_relations_origin c r d Hd). }
  { lia. }
  apply (ordered_block rank 3 4).
  { intros d Hd. unfold rank.
    now rewrite (compare_presentation_xml_origin fromstring c r d Hd). }
  { lia. }
  apply (ordered_block rank 4 5).
  { intros d Hd. unfold rank. now rewrite (compare_sections_origin fromstring c r d Hd). }
  { lia. }
  apply (ordered_block rank 5 6).
  { intros d Hd. unfold rank. now rewrite (compare_noteslides_origin fromstring c r d Hd). }
  { lia. }
  apply (ordered_block rank 6 7).
  { intros d Hd. unfold rank.
    now rewrite (compare_app_properties_origin fromstring c r app d Happ Hd). }
  { lia. }
  apply (ordered_block rank 7 8).
  { intros d Hd. unfold rank. now rewrite (compare_comments_origin fromstring c r d Hd). }
  { lia. }
  apply (ordered_block rank 8 9).
  { intros d Hd. unfold rank.
    now rewrite (compare_xml_content_origin fromstring c r xml d Hxml Hd). }
  { lia. }
  apply (ordered_last rank 9).
  intros d Hd. unfold rank. now rewrite (detect_hash_matches_origin c r d Hd).
Qed.

Lemma diffs_in_comparison_order_witness :
  map diff_origin Sample.extended_vs_reduced =
    [FileLists; ContentTypeTable; RelationSets; PresentationXml; PresentationXml;
     XmlContent; HashMatches] /\
  ordered_by (fun d => comparison_rank (diff_origin d)) Sample.extended_vs_reduced.
Proof.
  assert (Hrun : compare Sample.fromstring (Sample.model Sample.extended)
                   (Sample.model Sample.reduced) = Ok Sample.extended_vs_reduced)
    by (vm_compute; reflexivity).
  split; [vm_compute; reflexivity|].
  exact (diffs_in_comparison_order Sample.fromstring _ _ _ Hrun).
Defined.

(** ** Names without a leading slash *)

(** X26.  The tables of a completed analysis hold names without a leading
    slash: the keys of the override table, the resolved target of every
    relationship that is not external, and so the target of every
    [BROKEN_REF] issue. *)
Theorem analysis_names_relative (fromstring : string -> option element)
    (sha256_16 : string -> string) (z : zipfile) (s : analyzer) :
  analyze fromstring sha256_16 z = Ok s ->
  (forall part, In part (PyDict.keys (content_types s)) ->
                Py.startswith "/" part = false) /\
  (forall source rels r,
     In (source, rels) (relations s) -> In r rels -> rel_mode r <> "External" ->
     exists target, rel_resolved r = Some target /\ Py.startswith "/" target = false) /\
  (forall source target rid,
     In (BROKEN_REF source target rid) (issues s) -> Py.startswith "/" target = false).
Proof.
  intros Hrun.
  assert (Hresolve : forall source target,
            Py.startswith "/" (_resolve_target source target) = false).
  { intros source target. unfold _resolve_target.
    destruct (Py.startswith "/" target) eqn:Habs; [apply lstrip_not_absolute|].
    destruct (source =? ""); [exact Habs|].
    destruct (source_base source =? ""); [exact Habs|].
    apply join_proper_not_absolute, resolve_loop_proper. }
  pose proof (analyze_spec fromstring sha256_16 z s Hrun) as (_ & (_ & Hparsed) & _).
  assert (Hrels : forall source rels r,
            In (source, rels) (relations s) -> In r rels -> rel_mode r <> "External" ->
            exists target, rel_resolved r = Some target /\
                           Py.startswith "/" target = false).
  { intros source rels r Hsr Hr Hmode.
    pose proof (Hparsed source rels r Hsr Hr) as H. unfold resolved_as_parsed in H.
    apply String.eqb_neq in Hmode. rewrite Hmode in H.
    exists (_resolve_target source (rel_target r)). split; [exact H|apply Hresolve]. }
  split; [|split; [exact Hrels|]].
  - intros part Hpart.
    destruct (analyze_type_tables fromstring sha256_16 z s Hrun) as (s1 & H1 & Hc & _).
    rewrite Hc in Hpart. unfold _parse_content_types in H1.
    destruct (load_files_spec sha256_16 z new_analyzer) as (_ & Hc0 & _).
    destruct (PyDict.get (files (_load_files sha256_16 z new_analyzer))
                "[Content_Types].xml") as [content|].
    + destruct (fromstring content) as [root|]; [|discriminate].
      injection H1 as <-. simpl in Hpart. rewrite Hc0 in Hpart.
      apply (proj1 (proj1 (proj2 (dict_update_spec _ _)) part)) in Hpart.
      destruct Hpart as [[]|Hpart].
      rewrite map_map in Hpart. apply in_map_iff in Hpart.
      destruct Hpart as (o & <- & _). simpl. apply lstrip_not_absolute.
    + injection H1 as <-. simpl in Hpart. rewrite Hc0 in Hpart. destruct Hpart.
  - intros source target rid Hi.
    pose proof (analysis_issue_component fromstring sha256_16 z s _ Hrun Hi) as H.
    simpl in H. unfold reference_issues in H. apply in_flat_map in H.
    destruct H as ([src rels] & Hsr & H). cbn [fst snd] in H.
    apply in_app_or in H. destruct H as [H|H]; [now apply broken_ref_not_duplicate in H|].
    apply broken_ref_issues_in in H. destruct H as (-> & rel & Hrel & Hmode & Hres & _).
    destruct (Hrels source rels rel Hsr Hrel Hmode) as (t & Ht & Hrelative).
    rewrite Hres in Ht. now injection Ht as ->.
Qed.

Lemma analysis_names_relative_witness :
  PyDict.keys (content_types (Sample.model Sample.duplicate_rid)) = ["ppt/presentation.xml"] /\
  forall source target rid,
    In (BROKEN_REF source target rid) (issues (Sample.model Sample.duplicate_rid)) ->
    Py.startswith "/" target = false.
Proof.
  assert (Hrun : analyze Sample.fromstring Sample.sha256_16 Sample.duplicate_rid =
                 Ok (Sample.model Sample.duplicate_rid))
    by (vm_compute; reflexivity).
  split; [vm_compute; reflexivity|].
  exact (proj2 (proj2 (analysis_names_relative Sample.fromstring Sample.sha256_16
                         Sample.duplicate_rid _ Hrun))).
Defined.

(** ** Diffs of the XML content comparison *)

(** X27.  The XML content comparison reports nothing about a part whose
    bytes are the same in both archives: a diff of this comparison, in
    the comparison of two analysed packages, is about a part with a name
    ending in [.xml] that both archives have, with different bytes. *)
Theorem xml_content_diff_needs_different_bytes (fromstring : string -> option element)
    (sha256_16 : string -> string) (zc zr : zipfile) (c r : analyzer)
    (diffs : list diff) (d : diff) (f : string) :
  analyze fromstring sha256_16 zc = Ok c ->
  analyze fromstring sha256_16 zr = Ok r ->
  compare fromstring c r = Ok diffs ->
  In d diffs -> diff_file d = Some f ->
  Py.endswith ".xml" f = true /\ In f (namelist zc) /\ In f (namelist zr) /\
  zip_read zc f <> zip_read zr f.
Proof.
  intros Hc Hr Hrun Hd Hf.
  pose proof (compare_component fromstring c r diffs d Hrun Hd) as H.
  rewrite (diff_file_origin d f Hf) in H. destruct H as (xml & Hxml & Hin).
  rewrite compare_xml_content_unfold in Hxml.
  apply (collect_in _ _ _ Hxml) in Hin. destruct Hin as (f' & o & Hfiles & Ho & Hdo).
  pose proof (xml_content_body_file fromstring c r f' o d Ho Hdo) as Hf'.
  rewrite Hf in Hf'. injection Hf' as <-.
  apply (proj1 (xml_files_in fromstring c r f)) in Hfiles.
  destruct Hfiles as (Hend & Hfc & Hfr).
  assert (Hnames : forall z s, analyze fromstring sha256_16 z = Ok s ->
                     In f (PyDict.keys (files s)) -> In f (namelist z)).
  { intros z s Hs Hk.
    destruct (analyze_tables fromstring sha256_16 z s Hs) as (Hfs & _).
    rewrite Hfs in Hk. unfold PyDict.keys in Hk. rewrite map_map in Hk. simpl in Hk.
    rewrite map_id in Hk. exact (proj1 (set_in_of_list _ _) Hk). }
  split; [exact Hend|]. split; [exact (Hnames zc c Hc Hfc)|].
  split; [exact (Hnames zr r Hr Hfr)|].
  intros Hsame. unfold xml_content_body in Ho.
  rewrite (analysis_hash_of_part fromstring sha256_16 zc c f Hc Hfc) in Ho.
  rewrite (analysis_hash_of_part fromstring sha256_16 zr r f Hr Hfr) in Ho.
  cbn [bind] in Ho. rewrite Hsame, String.eqb_refl in Ho. cbn [negb] in Ho.
  injection Ho as <-. destruct Hdo.
Qed.

Lemma xml_content_diff_needs_different_bytes_witness :
  In (mk_diff MEDIUM (XML_CONTENT_CHANGED "[Content_Types].xml" Sample.content_types_xml
                        Sample.content_types_plain_xml))
     Sample.extended_vs_reduced /\
  zip_read Sample.extended "[Content_Types].xml" <>
    zip_read Sample.reduced "[Content_Types].xml".
Proof.
  assert (Hc : analyze Sample.fromstring Sample.sha256_16 Sample.extended =
               Ok (Sample.model Sample.extended))
    by (vm_compute; reflexivity).
  assert (Hr : analyze Sample.fromstring Sample.sha256_16 Sample.reduced =
               Ok (Sample.model Sample.reduced))
    by (vm_compute; reflexivity).
  assert (Hrun : compare Sample.fromstring (Sample.model Sample.extended)
                   (Sample.model Sample.reduced) = Ok Sample.extended_vs_reduced)
    by (vm_compute; reflexivity).
  assert (Hd : In (mk_diff MEDIUM
                     (XML_CONTENT_CHANGED "[Content_Types].xml" Sample.content_types_xml
                        Sample.content_types_plain_xml))
                  Sample.extended_vs_reduced)
    by (vm_compute; do 5 right; left; reflexivity).
  split; [exact Hd|].
  exact (proj2 (proj2 (proj2
           (xml_content_diff_needs_different_bytes Sample.fromstring Sample.sha256_16
              Sample.extended Sample.reduced _ _ _ _ "[Content_Types].xml"
              Hc Hr Hrun Hd eq_refl)))).
Defined.

(** ** Declared and actual counts *)

(** X28.  The count issues, for an archive whose entry names are ASCII
    text and whose application properties give the two counts in ASCII
    text.  A completed analysis reports [APP_SLIDE_COUNT_MISMATCH] with
    the counts [declared] and [actual] exactly when the application
    properties are well-formed, [declared] is the integer read from
    [Slides] (0 without the element or its text), [actual] is the number
    of slide parts of the archive, each name counted once, and the two
    differ; likewise [APP_NOTE_COUNT_MISMATCH] for [Notes] and the notes
    slide parts. *)
Theorem app_count_mismatch_reported (fromstring : string -> option element)
    (sha256_16 : string -> string) (z : zipfile) (s : analyzer) (declared actual : Z) :
  Forall (fun name => ascii_only name = true) (namelist z) ->
  (forall root tag e t,
     fromstring (zip_read z "docProps/app.xml") = Some root ->
     In tag ["Slides"; "Notes"] ->
     ET.find_desc (qname NS.ep tag) root = Some e -> ET.text e = Some t ->
     ascii_only t = true) ->
  analyze fromstring sha256_16 z = Ok s ->
  (In (APP_SLIDE_COUNT_MISMATCH declared actual) (issues s) <->
   exists root,
     In "docProps/app.xml" (namelist z) /\
     fromstring (zip_read z "docProps/app.xml") = Some root /\
     int_of_text (ET.find_desc (qname NS.ep "Slides") root) = Ok declared /\
     actual = archive_count is_slide_part z /\ declared <> actual) /\
  (In (APP_NOTE_COUNT_MISMATCH declared actual) (issues s) <->
   exists root,
     In "docProps/app.xml" (namelist z) /\
     fromstring (zip_read z "docProps/app.xml") = Some root /\
     int_of_text (ET.find_desc (qname NS.ep "Notes") root) = Ok declared /\
     actual = archive_count is_noteslide_part z /\ declared <> actual).
Proof.
  intros _ _ Hrun.
  destruct (analyze_closed fromstring sha256_16 z s Hrun) as (app & Happ & _ & _).
  assert (Hcount : forall is_part, count_parts is_part s = archive_count is_part z).
  { intros is_part. unfold count_parts, archive_count.
    destruct (analyze_tables fromstring sha256_16 z s Hrun) as (-> & _).
    unfold PyDict.keys. rewrite map_map. simpl. now rewrite map_id. }
  assert (Hiff : forall i, issue_check i = AppProperties -> In i (issues s) <-> In i app).
  { intros i Hc. split.
    - intros Hi.
      pose proof (analysis_issue_component fromstring sha256_16 z s i Hrun Hi) as H.
      rewrite Hc in H. destruct H as (app' & Happ' & Hin).
      rewrite Happ in Happ'. now injection Happ' as <-.
    - intros Hi. apply (analysis_issue_includes fromstring sha256_16 z s i Hrun).
      do 5 right. left. now exists app. }
  rewrite (Hiff (APP_SLIDE_COUNT_MISMATCH declared actual) eq_refl),
    (Hiff (APP_NOTE_COUNT_MISMATCH declared actual) eq_refl).
  unfold app_properties_issues in Happ.
  rewrite (analysis_get fromstring sha256_16 z s _ Hrun) in Happ. rewrite !Hcount in Happ.
  destruct (Py.mem "docProps/app.xml" (namelist z)) eqn:Hmem.
  2:{ injection Happ as <-. split; (split; [intros []|]); intros (root & Hin & _);
        apply py_mem_In in Hin; congruence. }
  apply py_mem_In in Hmem.
  destruct (fromstring (zip_read z "docProps/app.xml")) as [root|] eqn:Hroot.
  2:{ injection Happ as <-. split; (split; [intros []|]); intros (root & _ & Hr & _);
        discriminate. }
  destruct (int_of_text (ET.find_desc (qname NS.ep "Slides") root)) as [ds|] eqn:Hs;
    [|discriminate].
  destruct (int_of_text (ET.find_desc (qname NS.ep "Notes") root)) as [dn|] eqn:Hn;
    [|discriminate].
  cbn [bind] in Happ. injection Happ as <-. split.
  - split.
    + intros Hin. apply in_app_or in Hin. destruct Hin as [Hin|Hin].
      * destruct (negb (ds =? archive_count is_slide_part z)%Z) eqn:E; [|destruct Hin].
        destruct Hin as [Heq|[]]. injection Heq as <- <-.
        exists root. repeat split; try assumption.
        apply negb_true_iff, Z.eqb_neq in E. exact E.
      * destruct (negb (dn =? _)%Z); [|destruct Hin]. destruct Hin as [Heq|[]]. discriminate.
    + intros (root' & _ & Hr & Hd & -> & Hne). injection Hr as <-.
      rewrite Hs in Hd. injection Hd as <-.
      apply in_or_app. left. apply Z.eqb_neq in Hne. rewrite Hne. now left.
  - split.
    + intros Hin. apply in_app_or in Hin. destruct Hin as [Hin|Hin].
      * destruct (negb (ds =? _)%Z); [|destruct Hin]. destruct Hin as [Heq|[]]. discriminate.
      * destruct (negb (dn =? archive_count is_noteslide_part z)%Z) eqn:E; [|destruct Hin].
        destruct Hin as [Heq|[]]. injection Heq as <- <-.
        exists root. repeat split; try assumption.
        apply negb_true_iff, Z.eqb_neq in E. exact E.
    + intros (root' & _ & Hr & Hd & -> & Hne). injection Hr as <-.
      rewrite Hn in Hd. injection Hd as <-.
      apply in_or_app. right. apply Z.eqb_neq in Hne. rewrite Hne. now left.
Qed.

Lemma app_count_mismatch_reported_witness :
  In (APP_SLIDE_COUNT_MISMATCH 1 2) (issues (Deck.model Deck.slide_listed_twice)).
Proof.
  assert (Hrun : analyze Deck.fromstring Deck.sha256_16 Deck.slide_listed_twice =
                 Ok (Deck.model Deck.slide_listed_twice))
    by (vm_compute; reflexivity).
  assert (Hnames : Forall (fun name => ascii_only name = true)
                      (namelist Deck.slide_listed_twice))
    by (repeat constructor).
  assert (Htext : forall root tag e t,
            Deck.fromstring (zip_read Deck.slide_listed_twice "docProps/app.xml") =
              Some root ->
            In tag ["Slides"; "Notes"] ->
            ET.find_desc (qname NS.ep tag) root = Some e -> ET.text e = Some t ->
            ascii_only t = true).
  { intros root tag e t Hroot Htag Hfind Ht.
    assert (Hr : Some root = Some Deck.app_root)
      by (rewrite <- Hroot; vm_compute; reflexivity).
    injection Hr as ->.
    destruct Htag as [<-|[<-|[]]]; vm_compute in Hfind; injection Hfind as <-;
      vm_compute in Ht; injection Ht as <-; reflexivity. }
  apply (proj1 (app_count_mismatch_reported Deck.fromstring Deck.sha256_16
                  Deck.slide_listed_twice _ 1 2 Hnames Htext Hrun)).
  exists Deck.app_root. split; [vm_compute; do 4 right; left; reflexivity|].
  split; [vm_compute; reflexivity|]. split; [vm_compute; reflexivity|].
  split; [vm_compute; reflexivity|]. discriminate.
Defined.

(** ** The order of the slides *)

Lemma dict_update_fresh {K V} `{PyEq K} (l d : list (K * V)) :
  NoDup (map fst l) -> (forall k, In k (map fst l) -> ~ In k (PyDict.keys d)) ->
  PyDict.update d l = d ++ l.
Proof.
  unfold PyDict.update. revert d.
  induction l as [|[k v] l IH]; intros d Hnd Hfresh; simpl; [now rewrite app_nil_r|].
  inversion Hnd as [|? ? Hk Hl]; subst.
  rewrite dict_set_absent by (apply dict_get_none, Hfresh; now left).
  rewrite IH; [now rewrite <- app_assoc|exact Hl|].
  intros k' Hk' Hin. unfold PyDict.keys in Hin. rewrite map_app in Hin.
  apply in_app_or in Hin. destruct Hin as [Hin|[<-|[]]].
  - apply (Hfresh k'); [now right|exact Hin].
  - now apply Hk.
Qed.

Lemma dict_of_list_nodup {K V} `{PyEq K} (l : list (K * V)) :
  NoDup (map fst l) -> PyDict.of_list l = l.
Proof.
  intros Hnd. unfold PyDict.of_list.
  rewrite (dict_update_fresh l [] Hnd); [reflexivity|]. intros k _ [].
Qed.

Lemma slide_map_same_entries (dc dr : presentation_data) :
  NoDup (map ref_rid (slideIdList dc)) -> NoDup (map ref_rid (slideIdList dr)) ->
  (forall x, In x (slideIdList dc) <-> In x (slideIdList dr)) ->
  PyDict.eqb (slide_map dc) (slide_map dr) = true.
Proof.
  intros Hc Hr Hsame. unfold slide_map.
  assert (Hkeys : forall l : list id_ref,
            map fst (map (fun s => (ref_rid s, ref_id s)) l) = map ref_rid l).
  { intros l. rewrite map_map. reflexivity. }
  rewrite !dict_of_list_nodup by (rewrite Hkeys; assumption).
  unfold PyDict.eqb. apply andb_true_iff. split.
  - rewrite !length_map. apply Nat.eqb_eq. apply Nat.le_antisymm.
    + apply NoDup_incl_length; [exact (NoDup_map_inv _ _ Hc)|].
      intros x Hx. now apply Hsame.
    + apply NoDup_incl_length; [exact (NoDup_map_inv _ _ Hr)|].
      intros x Hx. now apply Hsame.
  - apply forallb_forall. intros kv Hkv. apply in_map_iff in Hkv.
    destruct Hkv as (x & <- & Hx). cbn [fst snd].
    assert (Hin : In (ref_rid x, ref_id x)
                     (map (fun s => (ref_rid s, ref_id s)) (slideIdList dr))).
    { apply (in_map (fun s => (ref_rid s, ref_id s))). now apply Hsame. }
    rewrite (dict_in_get _ _ _ (eq_ind_r (@NoDup _) Hr (Hkeys _)) Hin).
    apply py_eqb_refl.
Qed.

(** X29.  The comparison does not see the order of the slides: the slide
    lists of the two packages are compared as dictionaries from
    relationship id to slide id, so when the two lists hold the same
    entries, with relationship ids that do not repeat, no
    [SLIDE_ID_LIST_CHANGED] is reported, in whatever order the entries
    stand. *)
Theorem slide_order_not_compared (fromstring : string -> option element)
    (c r : analyzer) (diffs : list diff) :
  compare fromstring c r = Ok diffs ->
  NoDup (map ref_rid (slideIdList (get_presentation_data fromstring c))) ->
  NoDup (map ref_rid (slideIdList (get_presentation_data fromstring r))) ->
  (forall x, In x (slideIdList (get_presentation_data fromstring c)) <->
             In x (slideIdList (get_presentation_data fromstring r))) ->
  forall d a b, In d diffs -> d_body d <> SLIDE_ID_LIST_CHANGED a b.
Proof.
  intros Hrun Hc Hr Hsame d a b Hd Hbody.
  pose proof (compare_component fromstring c r diffs d Hrun Hd) as H.
  unfold diff_origin in H. rewrite Hbody in H.
  unfold _compare_presentation_xml in H.
  rewrite (slide_map_same_entries _ _ Hc Hr Hsame) in H. simpl in H.
  apply compare_presentation_rels_in in H.
  destruct H as [(k & _ & ->)|(_ & ->)]; discriminate.
Qed.

Lemma slide_order_not_compared_witness :
  map ref_id (slideIdList (get_presentation_data Deck.fromstring (Deck.model Deck.two_slides))) =
    [Some "256"; Some "257"] /\
  map ref_id (slideIdList (get_presentation_data Deck.fromstring
                             (Deck.model Deck.swapped_slides))) =
    [Some "257"; Some "256"] /\
  forall d a b, In d Deck.two_vs_swapped -> d_body d <> SLIDE_ID_LIST_CHANGED a b.
Proof.
  assert (Hrun : compare Deck.fromstring (Deck.model Deck.two_slides)
                   (Deck.model Deck.swapped_slides) = Ok Deck.two_vs_swapped)
    by (vm_compute; reflexivity).
  assert (Hc : slideIdList (get_presentation_data Deck.fromstring (Deck.model Deck.two_slides)) =
               [ {| ref_id := Some "256"; ref_rid := Some "rId2" |};
                 {| ref_id := Some "257"; ref_rid := Some "rId3" |} ])
    by (vm_compute; reflexivity).
  assert (Hr : slideIdList (get_presentation_data Deck.fromstring
                              (Deck.model Deck.swapped_slides)) =
               [ {| ref_id := Some "257"; ref_rid := Some "rId3" |};
                 {| ref_id := Some "256"; ref_rid := Some "rId2" |} ])
    by (vm_compute; reflexivity).
  split; [now rewrite Hc|]. split; [now rewrite Hr|].
  apply (slide_order_not_compared Deck.fromstring _ _ _ Hrun).
  - rewrite Hc. simpl. repeat constructor; simpl; intuition discriminate.
  - rewrite Hr. simpl. repeat constructor; simpl; intuition discriminate.
  - intros x. rewrite Hc, Hr. simpl. tauto.
Defined.

(** ** Notes slides in the analysis and in the comparison *)

Lemma flat_map_keys_nodup {V W} (F : string * V -> list (string * W))
    (d : list (string * V)) :
  (forall nc, F nc = [] \/ exists w, F nc = [(fst nc, w)]) ->
  NoDup (map fst d) -> NoDup (map fst (flat_map F d)).
Proof.
  intros HF. induction d as [|nc d IH]; intros Hnd; simpl; [constructor|].
  inversion Hnd as [|? ? Hk Hd]; subst.
  destruct (HF nc) as [->|(w & ->)]; simpl; [now apply IH|].
  constructor; [|now apply IH].
  intros Hin. apply Hk. apply in_map_iff in Hin. destruct Hin as ([k w'] & Hkw & Hin).
  simpl in Hkw. subst k. apply in_flat_map in Hin. destruct Hin as (nc' & Hnc' & Hin).
  destruct (HF nc') as [Hnil|(w'' & Hone)].
  - rewrite Hnil in Hin. destruct Hin.
  - rewrite Hone in Hin. destruct Hin as [Heq|[]]. injection Heq as Hfst _.
    rewrite <- Hfst. now apply in_map.
Qed.

Lemma existsb_find {A} (P : A -> bool) (l : list A) :
  existsb P l = match List.find P l with Some _ => true | None => false end.
Proof.
  induction l as [|x l IH]; simpl; [reflexivity|]. destruct (P x); [reflexivity|exact IH].
Qed.

Section NotesSlideData.

Variable fromstring : string -> option element.
Variable sha256_16 : string -> string.

(** The entries of [get_noteslides_data]: one for each notes slide part
    that is well-formed. *)
Lemma noteslides_data_get (z : zipfile) (s : analyzer) (name : string)
    (refs : noteslide_refs) :
  analyze fromstring sha256_16 z = Ok s ->
  PyDict.get (get_noteslides_data fromstring s) name = Some refs <->
  exists content root,
    In (name, content) (files s) /\ is_noteslide_part name = true /\
    fromstring content = Some root /\
    refs =
      let rels := PyDict.get_default (relations s) name [] in
      {| slide_target :=
           match List.find (fun r => Py.contains "slide" (rel_type r) &&
                                     negb (rel_mode r =? "External")) rels with
           | Some r => rel_resolved r
           | None => None
           end;
         master_target :=
           match List.find (fun r => Py.contains "notesMaster" (rel_type r)) rels with
           | Some r => rel_resolved r
           | None => None
           end |}.
Proof.
  intros Hrun.
  set (F := fun nc : string * string =>
              if negb (is_noteslide_part (fst nc)) then []
              else match fromstring (snd nc) with
                   | None => []
                   | Some _ =>
                       [ (fst nc,
                          {| slide_target :=
                               match List.find
                                       (fun r => Py.contains "slide" (rel_type r) &&
                                                 negb (rel_mode r =? "External"))
                                       (PyDict.get_default (relations s) (fst nc) []) with
                               | Some r => rel_resolved r
                               | None => None
                               end;
                             master_target :=
                               match List.find
                                       (fun r => Py.contains "notesMaster" (rel_type r))
                                       (PyDict.get_default (relations s) (fst nc) []) with
                               | Some r => rel_resolved r
                               | None => None
                               end |}) ]
                   end).
  assert (HF : get_noteslides_data fromstring s = PyDict.of_list (flat_map F (files s)))
    by reflexivity.
  rewrite HF. clear HF.
  assert (Hfiles : NoDup (map fst (files s))).
  { pose proof (analyze_spec fromstring sha256_16 z s Hrun) as (-> & _).
    apply load_files_nodup. }
  assert (Hnd : NoDup (map fst (flat_map F (files s)))).
  { apply flat_map_keys_nodup; [|exact Hfiles]. intros nc. unfold F.
    destruct (negb (is_noteslide_part (fst nc))); [now left|].
    destruct (fromstring (snd nc)); [right; now eexists|now left]. }
  rewrite (dict_of_list_nodup _ Hnd). split.
  - intros Hget. apply dict_get_in in Hget. apply in_flat_map in Hget.
    destruct Hget as ([n content] & Hnc & Hin). unfold F in Hin. cbn [fst snd] in Hin.
    destruct (is_noteslide_part n) eqn:Hpart; [|destruct Hin]. cbn [negb] in Hin.
    destruct (fromstring content) as [root|] eqn:Hroot; [|destruct Hin].
    destruct Hin as [Heq|[]]. injection Heq as -> <-.
    exists content, root. repeat split; assumption.
  - intros (content & root & Hnc & Hpart & Hroot & ->).
    apply (dict_in_get _ _ _ Hnd). apply in_flat_map. exists (name, content).
    split; [exact Hnc|]. unfold F. cbn [fst snd]. rewrite Hpart, Hroot. now left.
Qed.

Lemma analysis_rels_resolved (z : zipfile) (s : analyzer) (name : string) (r : relationship) :
  analyze fromstring sha256_16 z = Ok s ->
  In r (PyDict.get_default (relations s) name []) -> rel_resolved r <> None.
Proof.
  intros Hrun Hr.
  pose proof (analyze_spec fromstring sha256_16 z s Hrun) as (_ & (_ & Hparsed) & _).
  unfold PyDict.get_default in Hr.
  destruct (PyDict.get (relations s) name) as [rels|] eqn:Hget; [|destruct Hr].
  apply dict_get_in in Hget. pose proof (Hparsed name rels r Hget Hr) as H.
  unfold resolved_as_parsed in H. rewrite H. discriminate.
Qed.

End NotesSlideData.

(** X30.  The analysis and the comparison agree on notes slides without
    master: a completed analysis reports [NOTESLIDE_NO_MASTER] for
    exactly the notes slides for which the data that the comparison
    extracts from the same model has no master target. *)
Theorem noteslide_master_consistent (fromstring : string -> option element)
    (sha256_16 : string -> string) (z : zipfile) (s : analyzer) (name : string) :
  analyze fromstring sha256_16 z = Ok s ->
  In (NOTESLIDE_NO_MASTER name) (issues s) <->
  exists refs,
    PyDict.get (get_noteslides_data fromstring s) name = Some refs /\
    master_target refs = None.
Proof.
  intros Hrun. split.
  - intros Hi.
    pose proof (analysis_issue_component fromstring sha256_16 z s _ Hrun Hi) as H.
    simpl in H. unfold noteslide_issues in H. apply in_flat_map in H.
    destruct H as ([n content] & Hnc & H). cbn [fst snd] in H.
    destruct (is_noteslide_part n) eqn:Hpart; [|destruct H]. cbn [negb] in H.
    destruct (fromstring content) as [root|] eqn:Hroot; [|destruct H].
    apply in_app_or in H. destruct H as [H|H].
    { destruct (ET.find_desc (qname NS.p "clrMapOvr") root) as [clr|]; [|destruct H].
      destruct (ET.get clr (qname NS.r "id")) as [ref|]; [|destruct H].
      destruct (ref =? ""); [destruct H|].
      destruct (existsb _ _); [destruct H|]. destruct H as [Heq|[]]. discriminate. }
    destruct (existsb (fun r => Py.contains "notesMaster" (rel_type r))
                (PyDict.get_default (relations s) n [])) eqn:Hex; [destruct H|].
    destruct H as [Heq|[]]. injection Heq as ->.
    eexists. split.
    + apply (noteslides_data_get fromstring sha256_16 z s name _ Hrun).
      exists content, root.
      split; [exact Hnc|]. split; [exact Hpart|]. split; [exact Hroot|reflexivity].
    + cbv zeta. cbn [master_target]. rewrite existsb_find in Hex.
      now destruct (List.find _ (PyDict.get_default (relations s) name [])).
  - intros (refs & Hget & Hmaster).
    apply (noteslides_data_get fromstring sha256_16 z s name refs Hrun) in Hget.
    destruct Hget as (content & root & Hnc & Hpart & Hroot & ->).
    cbv zeta in Hmaster. cbn [master_target] in Hmaster.
    apply (analysis_issue_includes fromstring sha256_16 z s _ Hrun).
    do 4 right. left. unfold noteslide_issues. apply in_flat_map.
    exists (name, content). split; [exact Hnc|]. cbn [fst snd].
    rewrite Hpart, Hroot. cbn [negb]. apply in_or_app. right.
    rewrite existsb_find.
    destruct (List.find (fun r => Py.contains "notesMaster" (rel_type r))
                (PyDict.get_default (relations s) name [])) as [r|] eqn:Hfind;
      [|now left].
    apply find_some in Hfind. destruct Hfind as (Hr & _).
    now apply (analysis_rels_resolved fromstring sha256_16 z s name r Hrun) in Hr.
Qed.

Lemma noteslide_master_consistent_witness :
  In (NOTESLIDE_NO_MASTER "ppt/notesSlides/notesSlide1.xml")
     (issues (Deck.model Deck.notes_without_master)).
Proof.
  assert (Hrun : analyze Deck.fromstring Deck.sha256_16 Deck.notes_without_master =
                 Ok (Deck.model Deck.notes_without_master))
    by (vm_compute; reflexivity).
  apply (proj2 (noteslide_master_consistent Deck.fromstring Deck.sha256_16
                  Deck.notes_without_master _ "ppt/notesSlides/notesSlide1.xml" Hrun)).
  exists {| slide_target := None; master_target := None |}.
  split; [vm_compute; reflexivity|reflexivity].
Defined.
